(** * BitcoinLE ArmV8 solo miner: the SHA256d search engine

    A shallow embedding of [src/bitcoin-miner.cpp]: the NEON/crypto-extension
    hashers ([BleMinerTransform1], [BleMinerInitialTransform], [BleMiner],
    [BleMiner2Way], [BleMiner3Way], [BleMiner4Way], [BleMiner_1way]), the
    nonce-range worker [proofOfWorkFinder] and the coordinator
    [CreateAndProcessBlock], together with a reference SHA-256 (FIPS 180-4)
    against which the hashers are verified.

    Conventions.
    - A [uint32_t] is a [Z] in [[0, 2^32)]; C's wrap-around is written out
      with [mod 2^32] ([add32], [sub32], [mul32], [trunc32]).
    - A NEON [uint32x4_t] is the record [uint32x4_t] of its four lanes, lane 0
      first; a [uint8x16_t] is the list of its sixteen bytes in memory order.
    - Every C statement of a hasher is one [assign]; a register or struct member
      that is assigned again shadows the earlier binding, so the Rocq text
      can be read side by side with the C text.
    - The ARMv8 SHA-256 instructions are defined after the pseudocode of the
      Arm Architecture Reference Manual (SHA256H, SHA256H2, SHA256SU0,
      SHA256SU1). *)

From Stdlib Require Import String Ascii.
From Stdlib Require Import ZArith List Lia Bool.
From Stdlib.Strings Require Import Byte.
Import ListNotations.
Local Open Scope Z_scope.

(* ================================================================= *)
(** ** 32-bit words *)

Definition trunc32 (x : Z) : Z := x mod 2 ^ 32.
Definition add32 (x y : Z) : Z := (x + y) mod 2 ^ 32.
Definition sub32 (x y : Z) : Z := (x - y) mod 2 ^ 32.
Definition mul32 (x y : Z) : Z := (x * y) mod 2 ^ 32.

(** ROR(x, n) on a 32-bit word. *)
Definition ROR (x : Z) (n : Z) : Z :=
  Z.lor (Z.shiftr x n) ((Z.shiftl x (32 - n)) mod 2 ^ 32).
Definition LSR (x : Z) (n : Z) : Z := Z.shiftr x n.

(* ================================================================= *)
(** ** Bytes and byte order *)

Definition byte_to_Z (b : byte) : Z := Z.of_N (Byte.to_N b).
Definition byte_of_Z (z : Z) : byte :=
  match Byte.of_N (Z.to_N (z mod 256)) with
  | Some b => b
  | None => x00
  end.

(** The 32-bit value of four bytes in memory order, little endian (the
    byte order of the target) and big endian (the byte order of SHA-256). *)
Definition le32 (b0 b1 b2 b3 : byte) : Z :=
  byte_to_Z b0 + 256 * (byte_to_Z b1 + 256 * (byte_to_Z b2 + 256 * byte_to_Z b3)).
Definition be32 (b0 b1 b2 b3 : byte) : Z := le32 b3 b2 b1 b0.

(** The four bytes of a [uint32_t] as they lie in memory. *)
Definition le_bytes (w : Z) : list byte :=
  [byte_of_Z w; byte_of_Z (w / 2 ^ 8); byte_of_Z (w / 2 ^ 16); byte_of_Z (w / 2 ^ 24)].
Definition be_bytes (w : Z) : list byte := rev (le_bytes w).

(* ================================================================= *)
(** ** NEON vectors and the intrinsics used by the miner *)

Record uint32x4_t : Set := V4 { e0 : Z; e1 : Z; e2 : Z; e3 : Z }.
Definition uint8x16_t : Set := list byte.

Definition vaddq_u32 (a b : uint32x4_t) : uint32x4_t :=
  V4 (add32 (e0 a) (e0 b)) (add32 (e1 a) (e1 b))
     (add32 (e2 a) (e2 b)) (add32 (e3 a) (e3 b)).

(** [vld1q_u32(&p[i])]: four consecutive words of an array. *)
Definition vld1q_u32 (p : list Z) (i : nat) : uint32x4_t :=
  V4 (nth i p 0) (nth (i + 1) p 0) (nth (i + 2) p 0) (nth (i + 3) p 0).

(** Writing one element of a [uint32_t] array; out of range is undefined in
    C and leaves the list unchanged here. *)
Fixpoint store (p : list Z) (i : nat) (x : Z) : list Z :=
  match p, i with
  | [], _ => []
  | _ :: r, O => x :: r
  | y :: r, S i' => y :: store r i' x
  end.

(** [vst1q_u32(&p[i], v)]. *)
Definition vst1q_u32 (p : list Z) (i : nat) (v : uint32x4_t) : list Z :=
  store (store (store (store p i (e0 v)) (i + 1) (e1 v)) (i + 2) (e2 v)) (i + 3) (e3 v).

(** [*input32++] reads the sixteen bytes under a [uint8x16_t*]; the cursor
    is the remaining buffer and the increment drops what was read. *)
Definition vld1q_u8 (p : list byte) : uint8x16_t := firstn 16 p.
Definition next16 (p : list byte) : list byte := skipn 16 p.

Definition vreinterpretq_u32_u8 (v : uint8x16_t) : uint32x4_t :=
  let b := fun i => nth i v x00 in
  V4 (le32 (b 0%nat) (b 1%nat) (b 2%nat) (b 3%nat))
     (le32 (b 4%nat) (b 5%nat) (b 6%nat) (b 7%nat))
     (le32 (b 8%nat) (b 9%nat) (b 10%nat) (b 11%nat))
     (le32 (b 12%nat) (b 13%nat) (b 14%nat) (b 15%nat)).

Definition vreinterpretq_u8_u32 (v : uint32x4_t) : uint8x16_t :=
  le_bytes (e0 v) ++ le_bytes (e1 v) ++ le_bytes (e2 v) ++ le_bytes (e3 v).

(** [vrev32q_u8]: the bytes of every 32-bit element in reverse order. *)
Definition vrev32q_u8 (v : uint8x16_t) : uint8x16_t :=
  let b := fun i => nth i v x00 in
  [b 3%nat; b 2%nat; b 1%nat; b 0%nat; b 7%nat; b 6%nat; b 5%nat; b 4%nat;
   b 11%nat; b 10%nat; b 9%nat; b 8%nat; b 15%nat; b 14%nat; b 13%nat; b 12%nat].

(** [v[3]++] and [v[i] = x] on a vector held in a struct. *)
Definition set_lane1 (v : uint32x4_t) (x : Z) : uint32x4_t := V4 (e0 v) x (e2 v) (e3 v).
Definition set_lane3 (v : uint32x4_t) (x : Z) : uint32x4_t := V4 (e0 v) (e1 v) (e2 v) x.
Definition incr_lane3 (v : uint32x4_t) : uint32x4_t := set_lane3 v (add32 (e3 v) 1).

(** *** The SHA-256 instructions (Arm ARM, shared pseudocode) *)

Definition SHAchoose (x y z : Z) : Z := Z.lxor (Z.land (Z.lxor y z) x) z.
Definition SHAmajority (x y z : Z) : Z := Z.lor (Z.land x y) (Z.land (Z.lor x y) z).
Definition SHAhashSIGMA0 (x : Z) : Z := Z.lxor (Z.lxor (ROR x 2) (ROR x 13)) (ROR x 22).
Definition SHAhashSIGMA1 (x : Z) : Z := Z.lxor (Z.lxor (ROR x 6) (ROR x 11)) (ROR x 25).

(** One iteration of the loop of [SHA256hash]: [X] holds a,b,c,d and [Y]
    holds e,f,g,h in lanes 0..3; the pair is rotated left by 32 bits. *)
Definition SHA256hash_step (XY : uint32x4_t * uint32x4_t) (w : Z)
  : uint32x4_t * uint32x4_t :=
  let (X, Y) := XY in
  let chs := SHAchoose (e0 Y) (e1 Y) (e2 Y) in
  let maj := SHAmajority (e0 X) (e1 X) (e2 X) in
  let t := add32 (add32 (add32 (e3 Y) (SHAhashSIGMA1 (e0 Y))) chs) w in
  let X3 := add32 t (e3 X) in
  let Y3 := add32 (add32 t (SHAhashSIGMA0 (e0 X))) maj in
  (V4 Y3 (e0 X) (e1 X) (e2 X), V4 X3 (e0 Y) (e1 Y) (e2 Y)).

Definition SHA256hash (X Y W : uint32x4_t) : uint32x4_t * uint32x4_t :=
  fold_left SHA256hash_step [e0 W; e1 W; e2 W; e3 W] (X, Y).

(** [vsha256hq_u32(hash_abcd, hash_efgh, wk)] and
    [vsha256h2q_u32(hash_efgh, hash_abcd, wk)]. *)
Definition vsha256hq_u32 (hash_abcd hash_efgh wk : uint32x4_t) : uint32x4_t :=
  fst (SHA256hash hash_abcd hash_efgh wk).
Definition vsha256h2q_u32 (hash_efgh hash_abcd wk : uint32x4_t) : uint32x4_t :=
  snd (SHA256hash hash_abcd hash_efgh wk).

Definition su0_elt (elt : Z) : Z := Z.lxor (Z.lxor (ROR elt 7) (ROR elt 18)) (LSR elt 3).
Definition su1_elt (elt : Z) : Z := Z.lxor (Z.lxor (ROR elt 17) (ROR elt 19)) (LSR elt 10).

(** [vsha256su0q_u32(w0_3, w4_7)]. *)
Definition vsha256su0q_u32 (w0_3 w4_7 : uint32x4_t) : uint32x4_t :=
  V4 (add32 (su0_elt (e1 w0_3)) (e0 w0_3))
     (add32 (su0_elt (e2 w0_3)) (e1 w0_3))
     (add32 (su0_elt (e3 w0_3)) (e2 w0_3))
     (add32 (su0_elt (e0 w4_7)) (e3 w0_3)).

(** [vsha256su1q_u32(tw0_3, w8_11, w12_15)]. *)
Definition vsha256su1q_u32 (tw0_3 w8_11 w12_15 : uint32x4_t) : uint32x4_t :=
  let r0 := add32 (add32 (su1_elt (e2 w12_15)) (e0 tw0_3)) (e1 w8_11) in
  let r1 := add32 (add32 (su1_elt (e3 w12_15)) (e1 tw0_3)) (e2 w8_11) in
  let r2 := add32 (add32 (su1_elt r0) (e2 tw0_3)) (e3 w8_11) in
  let r3 := add32 (add32 (su1_elt r1) (e3 tw0_3)) (e0 w12_15) in
  V4 r0 r1 r2 r3.

(** The round constants, [static const uint32_t K[64]], one row for each
    [vld1q_u32(&K[i])]. *)
Definition K : list Z :=
  [0x428a2f98; 0x71374491; 0xb5c0fbcf; 0xe9b5dba5]
  ++ [0x3956c25b; 0x59f111f1; 0x923f82a4; 0xab1c5ed5]
  ++ [0xd807aa98; 0x12835b01; 0x243185be; 0x550c7dc3]
  ++ [0x72be5d74; 0x80deb1fe; 0x9bdc06a7; 0xc19bf174]
  ++ [0xe49b69c1; 0xefbe4786; 0x0fc19dc6; 0x240ca1cc]
  ++ [0x2de92c6f; 0x4a7484aa; 0x5cb0a9dc; 0x76f988da]
  ++ [0x983e5152; 0xa831c66d; 0xb00327c8; 0xbf597fc7]
  ++ [0xc6e00bf3; 0xd5a79147; 0x06ca6351; 0x14292967]
  ++ [0x27b70a85; 0x2e1b2138; 0x4d2c6dfc; 0x53380d13]
  ++ [0x650a7354; 0x766a0abb; 0x81c2c92e; 0x92722c85]
  ++ [0xa2bfe8a1; 0xa81a664b; 0xc24b8b70; 0xc76c51a3]
  ++ [0xd192e819; 0xd6990624; 0xf40e3585; 0x106aa070]
  ++ [0x19a4c116; 0x1e376c08; 0x2748774c; 0x34b0bcb5]
  ++ [0x391c0cb3; 0x4ed8aa4a; 0x5b9cca4f; 0x682e6ff3]
  ++ [0x748f82ee; 0x78a5636f; 0x84c87814; 0x8cc70208]
  ++ [0x90befffa; 0xa4506ceb; 0xbef9a3f7; 0xc67178f2].

(* ================================================================= *)
(** ** The structs of the miner *)

(** [uint32x4x2_t], [uint32x4x4_t]: what the by-value hashers return. *)
Definition uint32x4x2_t : Set := (uint32x4_t * uint32x4_t)%type.
Definition uint32x4x4_t : Set := (uint32x4_t * uint32x4_t * uint32x4_t * uint32x4_t)%type.

(** [uint32x4x6_t]: the Transform 1 results for [BleMiner] and
    [BleMiner2Way]. *)
Record uint32x4x6_t : Set := X6 {
  x6_val0 : uint32x4_t; x6_val1 : uint32x4_t; x6_val2 : uint32x4_t;
  x6_val3 : uint32x4_t; x6_val4 : uint32x4_t; x6_val5 : uint32x4_t }.

(** [uint32x4x14_t]: [val[0..5]] and [val[12..13]] are the Transform 1
    results, [val[6..11]] receive the three hashes of [BleMiner3Way]. *)
Record uint32x4x14_t : Set := X14 {
  val0 : uint32x4_t; val1 : uint32x4_t; val2 : uint32x4_t; val3 : uint32x4_t;
  val4 : uint32x4_t; val5 : uint32x4_t; val6 : uint32x4_t; val7 : uint32x4_t;
  val8 : uint32x4_t; val9 : uint32x4_t; val10 : uint32x4_t; val11 : uint32x4_t;
  val12 : uint32x4_t; val13 : uint32x4_t }.

(** [uint32x4x24_t]: the register file of [BleMiner4Way]. *)
Record uint32x4x24_t : Set := X24 {
  STATEA0 : uint32x4_t; STATEA1 : uint32x4_t; STATEB0 : uint32x4_t; STATEB1 : uint32x4_t;
  STATEC0 : uint32x4_t; STATEC1 : uint32x4_t; STATED0 : uint32x4_t; STATED1 : uint32x4_t;
  MSGA0 : uint32x4_t; MSGA1 : uint32x4_t; MSGA2 : uint32x4_t; MSGA3 : uint32x4_t;
  MSGB0 : uint32x4_t; MSGB1 : uint32x4_t; MSGB2 : uint32x4_t; MSGB3 : uint32x4_t;
  MSGC0 : uint32x4_t; MSGC1 : uint32x4_t; MSGC2 : uint32x4_t; MSGC3 : uint32x4_t;
  MSGD0 : uint32x4_t; MSGD1 : uint32x4_t; MSGD2 : uint32x4_t; MSGD3 : uint32x4_t }.

(** A member that the C code leaves uninitialised ([scratchpad.val[6..11]]
    in [BleMinerTransform1]); no hasher reads it before writing it, and
    what is proved of the cache is about the members that the code
    assigns. *)
Definition indeterminate : uint32x4_t := V4 0 0 0 0.

(* ================================================================= *)
(** ** Assignments

    [assign x := e in k] is the C statement [x = e;] followed by [k].  It
    is an ordinary function, so the hashers compute, and it keeps the
    statements apart when a hasher is unfolded in a proof. *)

Definition Assign {A B : Type} (e : A) (k : A -> B) : B := k e.

Notation "'assign' x := e 'in' k" := (Assign e (fun x => k))
  (at level 10, x name, e at level 200, k at level 200,
   format "'[v' 'assign'  x  :=  e  'in' '/' k ']'").

Definition BleMinerTransform1 (blockheaders : list byte) : uint32x4x14_t :=
  assign STATEA0 := (V4 0x6a09e667 0xbb67ae85 0x3c6ef372 0xa54ff53a) in
  assign STATEA1 := (V4 0x510e527f 0x9b05688c 0x1f83d9ab 0x5be0cd19) in
  assign input32 := blockheaders in
  assign MSGA0 := vreinterpretq_u32_u8 (vrev32q_u8 (vld1q_u8 input32)) in
  assign input32 := next16 input32 in
  assign MSGA1 := vreinterpretq_u32_u8 (vrev32q_u8 (vld1q_u8 input32)) in
  assign input32 := next16 input32 in
  assign MSGA2 := vreinterpretq_u32_u8 (vrev32q_u8 (vld1q_u8 input32)) in
  assign input32 := next16 input32 in
  assign MSGA3 := vreinterpretq_u32_u8 (vrev32q_u8 (vld1q_u8 input32)) in
  assign input32 := next16 input32 in
  assign KTMP := vld1q_u32 K 0 in
  assign TMP0 := vaddq_u32 MSGA0 KTMP in
  assign TMP2 := STATEA0 in
  assign MSGA0 := vsha256su0q_u32 MSGA0 MSGA1 in
  assign STATEA0 := vsha256hq_u32 STATEA0 STATEA1 TMP0 in
  assign STATEA1 := vsha256h2q_u32 STATEA1 TMP2 TMP0 in
  assign MSGA0 := vsha256su1q_u32 MSGA0 MSGA2 MSGA3 in
  assign KTMP := vld1q_u32 K 4 in
  assign TMP0 := vaddq_u32 MSGA1 KTMP in
  assign TMP2 := STATEA0 in
  assign MSGA1 := vsha256su0q_u32 MSGA1 MSGA2 in
  assign STATEA0 := vsha256hq_u32 STATEA0 STATEA1 TMP0 in
  assign STATEA1 := vsha256h2q_u32 STATEA1 TMP2 TMP0 in
  assign MSGA1 := vsha256su1q_u32 MSGA1 MSGA3 MSGA0 in
  assign KTMP := vld1q_u32 K 8 in
  assign TMP0 := vaddq_u32 MSGA2 KTMP in
  assign TMP2 := STATEA0 in
  assign MSGA2 := vsha256su0q_u32 MSGA2 MSGA3 in
  assign STATEA0 := vsha256hq_u32 STATEA0 STATEA1 TMP0 in
  assign STATEA1 := vsha256h2q_u32 STATEA1 TMP2 TMP0 in
  assign MSGA2 := vsha256su1q_u32 MSGA2 MSGA0 MSGA1 in
  assign KTMP := vld1q_u32 K 12 in
  assign TMP0 := vaddq_u32 MSGA3 KTMP in
  assign TMP2 := STATEA0 in
  assign MSGA3 := vsha256su0q_u32 MSGA3 MSGA0 in
  assign STATEA0 := vsha256hq_u32 STATEA0 STATEA1 TMP0 in
  assign STATEA1 := vsha256h2q_u32 STATEA1 TMP2 TMP0 in
  assign MSGA3 := vsha256su1q_u32 MSGA3 MSGA1 MSGA2 in
  assign KTMP := vld1q_u32 K 16 in
  assign TMP0 := vaddq_u32 MSGA0 KTMP in
  assign TMP2 := STATEA0 in
  assign MSGA0 := vsha256su0q_u32 MSGA0 MSGA1 in
  assign STATEA0 := vsha256hq_u32 STATEA0 STATEA1 TMP0 in
  assign STATEA1 := vsha256h2q_u32 STATEA1 TMP2 TMP0 in
  assign MSGA0 := vsha256su1q_u32 MSGA0 MSGA2 MSGA3 in
  assign KTMP := vld1q_u32 K 20 in
  assign TMP0 := vaddq_u32 MSGA1 KTMP in
  assign TMP2 := STATEA0 in
  assign MSGA1 := vsha256su0q_u32 MSGA1 MSGA2 in
  assign STATEA0 := vsha256hq_u32 STATEA0 STATEA1 TMP0 in
  assign STATEA1 := vsha256h2q_u32 STATEA1 TMP2 TMP0 in
  assign MSGA1 := vsha256su1q_u32 MSGA1 MSGA3 MSGA0 in
  assign KTMP := vld1q_u32 K 24 in
  assign TMP0 := vaddq_u32 MSGA2 KTMP in
  assign TMP2 := STATEA0 in
  assign MSGA2 := vsha256su0q_u32 MSGA2 MSGA3 in
  assign STATEA0 := vsha256hq_u32 STATEA0 STATEA1 TMP0 in
  assign STATEA1 := vsha256h2q_u32 STATEA1 TMP2 TMP0 in
  assign MSGA2 := vsha256su1q_u32 MSGA2 MSGA0 MSGA1 in
  assign KTMP := vld1q_u32 K 28 in
  assign TMP0 := vaddq_u32 MSGA3 KTMP in
  assign TMP2 := STATEA0 in
  assign MSGA3 := vsha256su0q_u32 MSGA3 MSGA0 in
  assign STATEA0 := vsha256hq_u32 STATEA0 STATEA1 TMP0 in
  assign STATEA1 := vsha256h2q_u32 STATEA1 TMP2 TMP0 in
  assign MSGA3 := vsha256su1q_u32 MSGA3 MSGA1 MSGA2 in
  assign KTMP := vld1q_u32 K 32 in
  assign TMP0 := vaddq_u32 MSGA0 KTMP in
  assign TMP2 := STATEA0 in
  assign MSGA0 := vsha256su0q_u32 MSGA0 MSGA1 in
  assign STATEA0 := vsha256hq_u32 STATEA0 STATEA1 TMP0 in
  assign STATEA1 := vsha256h2q_u32 STATEA1 TMP2 TMP0 in
  assign MSGA0 := vsha256su1q_u32 MSGA0 MSGA2 MSGA3 in
  assign KTMP := vld1q_u32 K 36 in
  assign TMP0 := vaddq_u32 MSGA1 KTMP in
  assign TMP2 := STATEA0 in
  assign MSGA1 := vsha256su0q_u32 MSGA1 MSGA2 in
  assign STATEA0 := vsha256hq_u32 STATEA0 STATEA1 TMP0 in
  assign STATEA1 := vsha256h2q_u32 STATEA1 TMP2 TMP0 in
  assign MSGA1 := vsha256su1q_u32 MSGA1 MSGA3 MSGA0 in
  assign KTMP := vld1q_u32 K 40 in
  assign TMP0 := vaddq_u32 MSGA2 KTMP in
  assign TMP2 := STATEA0 in
  assign MSGA2 := vsha256su0q_u32 MSGA2 MSGA3 in
  assign STATEA0 := vsha256hq_u32 STATEA0 STATEA1 TMP0 in
  assign STATEA1 := vsha256h2q_u32 STATEA1 TMP2 TMP0 in
  assign MSGA2 := vsha256su1q_u32 MSGA2 MSGA0 MSGA1 in
  assign KTMP := vld1q_u32 K 44 in
  assign TMP0 := vaddq_u32 MSGA3 KTMP in
  assign TMP2 := STATEA0 in
  assign MSGA3 := vsha256su0q_u32 MSGA3 MSGA0 in
  assign STATEA0 := vsha256hq_u32 STATEA0 STATEA1 TMP0 in
  assign STATEA1 := vsha256h2q_u32 STATEA1 TMP2 TMP0 in
  assign MSGA3 := vsha256su1q_u32 MSGA3 MSGA1 MSGA2 in
  assign KTMP := vld1q_u32 K 48 in
  assign TMP0 := vaddq_u32 MSGA0 KTMP in
  assign TMP2 := STATEA0 in
  assign STATEA0 := vsha256hq_u32 STATEA0 STATEA1 TMP0 in
  assign STATEA1 := vsha256h2q_u32 STATEA1 TMP2 TMP0 in
  assign KTMP := vld1q_u32 K 52 in
  assign TMP0 := vaddq_u32 MSGA1 KTMP in
  assign TMP2 := STATEA0 in
  assign STATEA0 := vsha256hq_u32 STATEA0 STATEA1 TMP0 in
  assign STATEA1 := vsha256h2q_u32 STATEA1 TMP2 TMP0 in
  assign KTMP := vld1q_u32 K 56 in
  assign TMP0 := vaddq_u32 MSGA2 KTMP in
  assign TMP2 := STATEA0 in
  assign STATEA0 := vsha256hq_u32 STATEA0 STATEA1 TMP0 in
  assign STATEA1 := vsha256h2q_u32 STATEA1 TMP2 TMP0 in
  assign KTMP := vld1q_u32 K 60 in
  assign TMP0 := vaddq_u32 MSGA3 KTMP in
  assign TMP2 := STATEA0 in
  assign STATEA0 := vsha256hq_u32 STATEA0 STATEA1 TMP0 in
  assign STATEA1 := vsha256h2q_u32 STATEA1 TMP2 TMP0 in
  assign STATEA0 := vaddq_u32 STATEA0 (V4 0x6a09e667 0xbb67ae85 0x3c6ef372 0xa54ff53a) in
  assign STATEA1 := vaddq_u32 STATEA1 (V4 0x510e527f 0x9b05688c 0x1f83d9ab 0x5be0cd19) in
  assign MSGA0 := vreinterpretq_u32_u8 (vrev32q_u8 (vld1q_u8 input32)) in
  assign input32 := next16 input32 in
  assign MSGA1 := vreinterpretq_u32_u8 (vrev32q_u8 (vld1q_u8 input32)) in
  assign input32 := next16 input32 in
  assign MSGA2 := vreinterpretq_u32_u8 (vld1q_u8 input32) in
  assign input32 := next16 input32 in
  assign MSGA3 := (V4 0x80000000 0x00000000 0x00000000 0x00000380) in
  assign scratchpad_val0 := STATEA0 in
  assign scratchpad_val1 := STATEA1 in
  assign scratchpad_val2 := vsha256su0q_u32 MSGA0 MSGA1 in
  assign scratchpad_val3 := MSGA1 in
  assign scratchpad_val4 := MSGA2 in
  assign scratchpad_val5 := MSGA3 in
  assign KTMP := vld1q_u32 K 0 in
  assign TMP0 := vaddq_u32 MSGA0 KTMP in
  assign TMP2 := STATEA0 in
  assign STATEA0 := vsha256hq_u32 STATEA0 STATEA1 TMP0 in
  assign STATEA1 := vsha256h2q_u32 STATEA1 TMP2 TMP0 in
  assign KTMP := vld1q_u32 K 4 in
  assign TMP0 := vaddq_u32 MSGA1 KTMP in
  assign TMP2 := STATEA0 in
  assign STATEA0 := vsha256hq_u32 STATEA0 STATEA1 TMP0 in
  assign STATEA1 := vsha256h2q_u32 STATEA1 TMP2 TMP0 in
  assign scratchpad_val12 := STATEA0 in
  assign scratchpad_val13 := STATEA1 in
  X14 scratchpad_val0 scratchpad_val1 scratchpad_val2 scratchpad_val3
      scratchpad_val4 scratchpad_val5 indeterminate indeterminate
      indeterminate indeterminate indeterminate indeterminate
      scratchpad_val12 scratchpad_val13.

Definition BleMinerInitialTransform (blockheaders : list byte) (scratchpad : list Z) : list Z :=
  assign STATEA0 := (V4 0x6a09e667 0xbb67ae85 0x3c6ef372 0xa54ff53a) in
  assign STATEA1 := (V4 0x510e527f 0x9b05688c 0x1f83d9ab 0x5be0cd19) in
  assign input32 := blockheaders in
  assign MSGA0 := vreinterpretq_u32_u8 (vrev32q_u8 (vld1q_u8 input32)) in
  assign input32 := next16 input32 in
  assign MSGA1 := vreinterpretq_u32_u8 (vrev32q_u8 (vld1q_u8 input32)) in
  assign input32 := next16 input32 in
  assign MSGA2 := vreinterpretq_u32_u8 (vrev32q_u8 (vld1q_u8 input32)) in
  assign input32 := next16 input32 in
  assign MSGA3 := vreinterpretq_u32_u8 (vrev32q_u8 (vld1q_u8 input32)) in
  assign input32 := next16 input32 in
  assign KTMP := vld1q_u32 K 0 in
  assign TMP0 := vaddq_u32 MSGA0 KTMP in
  assign TMP2 := STATEA0 in
  assign MSGA0 := vsha256su0q_u32 MSGA0 MSGA1 in
  assign STATEA0 := vsha256hq_u32 STATEA0 STATEA1 TMP0 in
  assign STATEA1 := vsha256h2q_u32 STATEA1 TMP2 TMP0 in
  assign MSGA0 := vsha256su1q_u32 MSGA0 MSGA2 MSGA3 in
  assign KTMP := vld1q_u32 K 4 in
  assign TMP0 := vaddq_u32 MSGA1 KTMP in
  assign TMP2 := STATEA0 in
  assign MSGA1 := vsha256su0q_u32 MSGA1 MSGA2 in
  assign STATEA0 := vsha256hq_u32 STATEA0 STATEA1 TMP0 in
  assign STATEA1 := vsha256h2q_u32 STATEA1 TMP2 TMP0 in
  assign MSGA1 := vsha256su1q_u32 MSGA1 MSGA3 MSGA0 in
  assign KTMP := vld1q_u32 K 8 in
  assign TMP0 := vaddq_u32 MSGA2 KTMP in
  assign TMP2 := STATEA0 in
  assign MSGA2 := vsha256su0q_u32 MSGA2 MSGA3 in
  assign STATEA0 := vsha256hq_u32 STATEA0 STATEA1 TMP0 in
  assign STATEA1 := vsha256h2q_u32 STATEA1 TMP2 TMP0 in
  assign MSGA2 := vsha256su1q_u32 MSGA2 MSGA0 MSGA1 in
  assign KTMP := vld1q_u32 K 12 in
  assign TMP0 := vaddq_u32 MSGA3 KTMP in
  assign TMP2 := STATEA0 in
  assign MSGA3 := vsha256su0q_u32 MSGA3 MSGA0 in
  assign STATEA0 := vsha256hq_u32 STATEA0 STATEA1 TMP0 in
  assign STATEA1 := vsha256h2q_u32 STATEA1 TMP2 TMP0 in
  assign MSGA3 := vsha256su1q_u32 MSGA3 MSGA1 MSGA2 in
  assign KTMP := vld1q_u32 K 16 in
  assign TMP0 := vaddq_u32 MSGA0 KTMP in
  assign TMP2 := STATEA0 in
  assign MSGA0 := vsha256su0q_u32 MSGA0 MSGA1 in
  assign STATEA0 := vsha256hq_u32 STATEA0 STATEA1 TMP0 in
  assign STATEA1 := vsha256h2q_u32 STATEA1 TMP2 TMP0 in
  assign MSGA0 := vsha256su1q_u32 MSGA0 MSGA2 MSGA3 in
  assign KTMP := vld1q_u32 K 20 in
  assign TMP0 := vaddq_u32 MSGA1 KTMP in
  assign TMP2 := STATEA0 in
  assign MSGA1 := vsha256su0q_u32 MSGA1 MSGA2 in
  assign STATEA0 := vsha256hq_u32 STATEA0 STATEA1 TMP0 in
  assign STATEA1 := vsha256h2q_u32 STATEA1 TMP2 TMP0 in
  assign MSGA1 := vsha256su1q_u32 MSGA1 MSGA3 MSGA0 in
  assign KTMP := vld1q_u32 K 24 in
  assign TMP0 := vaddq_u32 MSGA2 KTMP in
  assign TMP2 := STATEA0 in
  assign MSGA2 := vsha256su0q_u32 MSGA2 MSGA3 in
  assign STATEA0 := vsha256hq_u32 STATEA0 STATEA1 TMP0 in
  assign STATEA1 := vsha256h2q_u32 STATEA1 TMP2 TMP0 in
  assign MSGA2 := vsha256su1q_u32 MSGA2 MSGA0 MSGA1 in
  assign KTMP := vld1q_u32 K 28 in
  assign TMP0 := vaddq_u32 MSGA3 KTMP in
  assign TMP2 := STATEA0 in
  assign MSGA3 := vsha256su0q_u32 MSGA3 MSGA0 in
  assign STATEA0 := vsha256hq_u32 STATEA0 STATEA1 TMP0 in
  assign STATEA1 := vsha256h2q_u32 STATEA1 TMP2 TMP0 in
  assign MSGA3 := vsha256su1q_u32 MSGA3 MSGA1 MSGA2 in
  assign KTMP := vld1q_u32 K 32 in
  assign TMP0 := vaddq_u32 MSGA0 KTMP in
  assign TMP2 := STATEA0 in
  assign MSGA0 := vsha256su0q_u32 MSGA0 MSGA1 in
  assign STATEA0 := vsha256hq_u32 STATEA0 STATEA1 TMP0 in
  assign STATEA1 := vsha256h2q_u32 STATEA1 TMP2 TMP0 in
  assign MSGA0 := vsha256su1q_u32 MSGA0 MSGA2 MSGA3 in
  assign KTMP := vld1q_u32 K 36 in
  assign TMP0 := vaddq_u32 MSGA1 KTMP in
  assign TMP2 := STATEA0 in
  assign MSGA1 := vsha256su0q_u32 MSGA1 MSGA2 in
  assign STATEA0 := vsha256hq_u32 STATEA0 STATEA1 TMP0 in
  assign STATEA1 := vsha256h2q_u32 STATEA1 TMP2 TMP0 in
  assign MSGA1 := vsha256su1q_u32 MSGA1 MSGA3 MSGA0 in
  assign KTMP := vld1q_u32 K 40 in
  assign TMP0 := vaddq_u32 MSGA2 KTMP in
  assign TMP2 := STATEA0 in
  assign MSGA2 := vsha256su0q_u32 MSGA2 MSGA3 in
  assign STATEA0 := vsha256hq_u32 STATEA0 STATEA1 TMP0 in
  assign STATEA1 := vsha256h2q_u32 STATEA1 TMP2 TMP0 in
  assign MSGA2 := vsha256su1q_u32 MSGA2 MSGA0 MSGA1 in
  assign KTMP := vld1q_u32 K 44 in
  assign TMP0 := vaddq_u32 MSGA3 KTMP in
  assign TMP2 := STATEA0 in
  assign MSGA3 := vsha256su0q_u32 MSGA3 MSGA0 in
  assign STATEA0 := vsha256hq_u32 STATEA0 STATEA1 TMP0 in
  assign STATEA1 := vsha256h2q_u32 STATEA1 TMP2 TMP0 in
  assign MSGA3 := vsha256su1q_u32 MSGA3 MSGA1 MSGA2 in
  assign KTMP := vld1q_u32 K 48 in
  assign TMP0 := vaddq_u32 MSGA0 KTMP in
  assign TMP2 := STATEA0 in
  assign STATEA0 := vsha256hq_u32 STATEA0 STATEA1 TMP0 in
  assign STATEA1 := vsha256h2q_u32 STATEA1 TMP2 TMP0 in
  assign KTMP := vld1q_u32 K 52 in
  assign TMP0 := vaddq_u32 MSGA1 KTMP in
  assign TMP2 := STATEA0 in
  assign STATEA0 := vsha256hq_u32 STATEA0 STATEA1 TMP0 in
  assign STATEA1 := vsha256h2q_u32 STATEA1 TMP2 TMP0 in
  assign KTMP := vld1q_u32 K 56 in
  assign TMP0 := vaddq_u32 MSGA2 KTMP in
  assign TMP2 := STATEA0 in
  assign STATEA0 := vsha256hq_u32 STATEA0 STATEA1 TMP0 in
  assign STATEA1 := vsha256h2q_u32 STATEA1 TMP2 TMP0 in
  assign KTMP := vld1q_u32 K 60 in
  assign TMP0 := vaddq_u32 MSGA3 KTMP in
  assign TMP2 := STATEA0 in
  assign STATEA0 := vsha256hq_u32 STATEA0 STATEA1 TMP0 in
  assign STATEA1 := vsha256h2q_u32 STATEA1 TMP2 TMP0 in
  assign STATEA0 := vaddq_u32 STATEA0 (V4 0x6a09e667 0xbb67ae85 0x3c6ef372 0xa54ff53a) in
  assign STATEA1 := vaddq_u32 STATEA1 (V4 0x510e527f 0x9b05688c 0x1f83d9ab 0x5be0cd19) in
  assign MSGA0 := vreinterpretq_u32_u8 (vrev32q_u8 (vld1q_u8 input32)) in
  assign input32 := next16 input32 in
  assign MSGA1 := vreinterpretq_u32_u8 (vrev32q_u8 (vld1q_u8 input32)) in
  assign input32 := next16 input32 in
  assign MSGA2 := vreinterpretq_u32_u8 (vld1q_u8 input32) in
  assign input32 := next16 input32 in
  assign MSGA3 := (V4 0x80000000 0x00000000 0x00000000 0x00000380) in
  assign SHA256INIT0 := (V4 0x6a09e667 0xbb67ae85 0x3c6ef372 0xa54ff53a) in
  assign SHA256INIT1 := (V4 0x510e527f 0x9b05688c 0x1f83d9ab 0x5be0cd19) in
  assign PADDING2A := (V4 0x80000000 0x00000000 0x00000000 0x00000000) in
  assign PADDING2B := (V4 0x00000000 0x00000000 0x00000000 0x00000100) in
  assign scratchpad := vst1q_u32 scratchpad 0 STATEA0 in
  assign scratchpad := vst1q_u32 scratchpad 4 STATEA1 in
  assign scratchpad := vst1q_u32 scratchpad 8 MSGA0 in
  assign scratchpad := vst1q_u32 scratchpad 12 MSGA1 in
  assign scratchpad := vst1q_u32 scratchpad 16 MSGA2 in
  assign scratchpad := vst1q_u32 scratchpad 20 MSGA3 in
  assign scratchpad := vst1q_u32 scratchpad 24 SHA256INIT0 in
  assign scratchpad := vst1q_u32 scratchpad 28 SHA256INIT1 in
  assign scratchpad := vst1q_u32 scratchpad 32 PADDING2A in
  assign scratchpad := vst1q_u32 scratchpad 36 PADDING2B in
  scratchpad.

Definition BleMiner (stateandmessage : uint32x4x6_t) : uint32x4x2_t :=
  assign stateandmessage_val0 := x6_val0 stateandmessage in
  assign stateandmessage_val1 := x6_val1 stateandmessage in
  assign stateandmessage_val2 := x6_val2 stateandmessage in
  assign stateandmessage_val3 := x6_val3 stateandmessage in
  assign stateandmessage_val4 := x6_val4 stateandmessage in
  assign stateandmessage_val5 := x6_val5 stateandmessage in
  assign STATEA0 := stateandmessage_val0 in
  assign STATEA1 := stateandmessage_val1 in
  assign MSGA0 := stateandmessage_val2 in
  assign MSGA1 := stateandmessage_val3 in
  assign MSGA2 := vreinterpretq_u32_u8 (vrev32q_u8 (vreinterpretq_u8_u32 stateandmessage_val4)) in
  assign MSGA3 := stateandmessage_val5 in
  assign KTMP := vld1q_u32 K 0 in
  assign TMP0 := vaddq_u32 MSGA0 KTMP in
  assign TMP2 := STATEA0 in
  assign MSGA0 := vsha256su0q_u32 MSGA0 MSGA1 in
  assign STATEA0 := vsha256hq_u32 STATEA0 STATEA1 TMP0 in
  assign STATEA1 := vsha256h2q_u32 STATEA1 TMP2 TMP0 in
  assign MSGA0 := vsha256su1q_u32 MSGA0 MSGA2 MSGA3 in
  assign KTMP := vld1q_u32 K 4 in
  assign TMP0 := vaddq_u32 MSGA1 KTMP in
  assign TMP2 := STATEA0 in
  assign MSGA1 := vsha256su0q_u32 MSGA1 MSGA2 in
  assign STATEA0 := vsha256hq_u32 STATEA0 STATEA1 TMP0 in
  assign STATEA1 := vsha256h2q_u32 STATEA1 TMP2 TMP0 in
  assign MSGA1 := vsha256su1q_u32 MSGA1 MSGA3 MSGA0 in
  assign KTMP := vld1q_u32 K 8 in
  assign TMP0 := vaddq_u32 MSGA2 KTMP in
  assign TMP2 := STATEA0 in
  assign MSGA2 := vsha256su0q_u32 MSGA2 MSGA3 in
  assign STATEA0 := vsha256hq_u32 STATEA0 STATEA1 TMP0 in
  assign STATEA1 := vsha256h2q_u32 STATEA1 TMP2 TMP0 in
  assign MSGA2 := vsha256su1q_u32 MSGA2 MSGA0 MSGA1 in
  assign KTMP := vld1q_u32 K 12 in
  assign TMP0 := vaddq_u32 MSGA3 KTMP in
  assign TMP2 := STATEA0 in
  assign MSGA3 := vsha256su0q_u32 MSGA3 MSGA0 in
  assign STATEA0 := vsha256hq_u32 STATEA0 STATEA1 TMP0 in
  assign STATEA1 := vsha256h2q_u32 STATEA1 TMP2 TMP0 in
  assign MSGA3 := vsha256su1q_u32 MSGA3 MSGA1 MSGA2 in
  assign KTMP := vld1q_u32 K 16 in
  assign TMP0 := vaddq_u32 MSGA0 KTMP in
  assign TMP2 := STATEA0 in
  assign MSGA0 := vsha256su0q_u32 MSGA0 MSGA1 in
  assign STATEA0 := vsha256hq_u32 STATEA0 STATEA1 TMP0 in
  assign STATEA1 := vsha256h2q_u32 STATEA1 TMP2 TMP0 in
  assign MSGA0 := vsha256su1q_u32 MSGA0 MSGA2 MSGA3 in
  assign KTMP := vld1q_u32 K 20 in
  assign TMP0 := vaddq_u32 MSGA1 KTMP in
  assign TMP2 := STATEA0 in
  assign MSGA1 := vsha256su0q_u32 MSGA1 MSGA2 in
  assign STATEA0 := vsha256hq_u32 STATEA0 STATEA1 TMP0 in
  assign STATEA1 := vsha256h2q_u32 STATEA1 TMP2 TMP0 in
  assign MSGA1 := vsha256su1q_u32 MSGA1 MSGA3 MSGA0 in
  assign KTMP := vld1q_u32 K 24 in
  assign TMP0 := vaddq_u32 MSGA2 KTMP in
  assign TMP2 := STATEA0 in
  assign MSGA2 := vsha256su0q_u32 MSGA2 MSGA3 in
  assign STATEA0 := vsha256hq_u32 STATEA0 STATEA1 TMP0 in
  assign STATEA1 := vsha256h2q_u32 STATEA1 TMP2 TMP0 in
  assign MSGA2 := vsha256su1q_u32 MSGA2 MSGA0 MSGA1 in
  assign KTMP := vld1q_u32 K 28 in
  assign TMP0 := vaddq_u32 MSGA3 KTMP in
  assign TMP2 := STATEA0 in
  assign MSGA3 := vsha256su0q_u32 MSGA3 MSGA0 in
  assign STATEA0 := vsha256hq_u32 STATEA0 STATEA1 TMP0 in
  assign STATEA1 := vsha256h2q_u32 STATEA1 TMP2 TMP0 in
  assign MSGA3 := vsha256su1q_u32 MSGA3 MSGA1 MSGA2 in
  assign KTMP := vld1q_u32 K 32 in
  assign TMP0 := vaddq_u32 MSGA0 KTMP in
  assign TMP2 := STATEA0 in
  assign MSGA0 := vsha256su0q_u32 MSGA0 MSGA1 in
  assign STATEA0 := vsha256hq_u32 STATEA0 STATEA1 TMP0 in
  assign STATEA1 := vsha256h2q_u32 STATEA1 TMP2 TMP0 in
  assign MSGA0 := vsha256su1q_u32 MSGA0 MSGA2 MSGA3 in
  assign KTMP := vld1q_u32 K 36 in
  assign TMP0 := vaddq_u32 MSGA1 KTMP in
  assign TMP2 := STATEA0 in
  assign MSGA1 := vsha256su0q_u32 MSGA1 MSGA2 in
  assign STATEA0 := vsha256hq_u32 STATEA0 STATEA1 TMP0 in
  assign STATEA1 := vsha256h2q_u32 STATEA1 TMP2 TMP0 in
  assign MSGA1 := vsha256su1q_u32 MSGA1 MSGA3 MSGA0 in
  assign KTMP := vld1q_u32 K 40 in
  assign TMP0 := vaddq_u32 MSGA2 KTMP in
  assign TMP2 := STATEA0 in
  assign MSGA2 := vsha256su0q_u32 MSGA2 MSGA3 in
  assign STATEA0 := vsha256hq_u32 STATEA0 STATEA1 TMP0 in
  assign STATEA1 := vsha256h2q_u32 STATEA1 TMP2 TMP0 in
  assign MSGA2 := vsha256su1q_u32 MSGA2 MSGA0 MSGA1 in
  assign KTMP := vld1q_u32 K 44 in
  assign TMP0 := vaddq_u32 MSGA3 KTMP in
  assign TMP2 := STATEA0 in
  assign MSGA3 := vsha256su0q_u32 MSGA3 MSGA0 in
  assign STATEA0 := vsha256hq_u32 STATEA0 STATEA1 TMP0 in
  assign STATEA1 := vsha256h2q_u32 STATEA1 TMP2 TMP0 in
  assign MSGA3 := vsha256su1q_u32 MSGA3 MSGA1 MSGA2 in
  assign KTMP := vld1q_u32 K 48 in
  assign TMP0 := vaddq_u32 MSGA0 KTMP in
  assign TMP2 := STATEA0 in
  assign STATEA0 := vsha256hq_u32 STATEA0 STATEA1 TMP0 in
  assign STATEA1 := vsha256h2q_u32 STATEA1 TMP2 TMP0 in
  assign KTMP := vld1q_u32 K 52 in
  assign TMP0 := vaddq_u32 MSGA1 KTMP in
  assign TMP2 := STATEA0 in
  assign STATEA0 := vsha256hq_u32 STATEA0 STATEA1 TMP0 in
  assign STATEA1 := vsha256h2q_u32 STATEA1 TMP2 TMP0 in
  assign KTMP := vld1q_u32 K 56 in
  assign TMP0 := vaddq_u32 MSGA2 KTMP in
  assign TMP2 := STATEA0 in
  assign STATEA0 := vsha256hq_u32 STATEA0 STATEA1 TMP0 in
  assign STATEA1 := vsha256h2q_u32 STATEA1 TMP2 TMP0 in
  assign KTMP := vld1q_u32 K 60 in
  assign TMP0 := vaddq_u32 MSGA3 KTMP in
  assign TMP2 := STATEA0 in
  assign STATEA0 := vsha256hq_u32 STATEA0 STATEA1 TMP0 in
  assign STATEA1 := vsha256h2q_u32 STATEA1 TMP2 TMP0 in
  assign MSGA0 := vaddq_u32 STATEA0 stateandmessage_val0 in
  assign MSGA1 := vaddq_u32 STATEA1 stateandmessage_val1 in
  assign MSGA2 := (V4 0x80000000 0x00000000 0x00000000 0x00000000) in
  assign MSGA3 := (V4 0x00000000 0x00000000 0x00000000 0x00000100) in
  assign STATEA0 := (V4 0x6a09e667 0xbb67ae85 0x3c6ef372 0xa54ff53a) in
  assign STATEA1 := (V4 0x510e527f 0x9b05688c 0x1f83d9ab 0x5be0cd19) in
  assign KTMP := vld1q_u32 K 0 in
  assign TMP0 := vaddq_u32 MSGA0 KTMP in
  assign TMP2 := STATEA0 in
  assign MSGA0 := vsha256su0q_u32 MSGA0 MSGA1 in
  assign STATEA0 := vsha256hq_u32 STATEA0 STATEA1 TMP0 in
  assign STATEA1 := vsha256h2q_u32 STATEA1 TMP2 TMP0 in
  assign MSGA0 := vsha256su1q_u32 MSGA0 MSGA2 MSGA3 in
  assign KTMP := vld1q_u32 K 4 in
  assign TMP0 := vaddq_u32 MSGA1 KTMP in
  assign TMP2 := STATEA0 in
  assign MSGA1 := vsha256su0q_u32 MSGA1 MSGA2 in
  assign STATEA0 := vsha256hq_u32 STATEA0 STATEA1 TMP0 in
  assign STATEA1 := vsha256h2q_u32 STATEA1 TMP2 TMP0 in
  assign MSGA1 := vsha256su1q_u32 MSGA1 MSGA3 MSGA0 in
  assign KTMP := vld1q_u32 K 8 in
  assign TMP0 := vaddq_u32 MSGA2 KTMP in
  assign TMP2 := STATEA0 in
  assign MSGA2 := vsha256su0q_u32 MSGA2 MSGA3 in
  assign STATEA0 := vsha256hq_u32 STATEA0 STATEA1 TMP0 in
  assign STATEA1 := vsha256h2q_u32 STATEA1 TMP2 TMP0 in
  assign MSGA2 := vsha256su1q_u32 MSGA2 MSGA0 MSGA1 in
  assign KTMP := vld1q_u32 K 12 in
  assign TMP0 := vaddq_u32 MSGA3 KTMP in
  assign TMP2 := STATEA0 in
  assign MSGA3 := vsha256su0q_u32 MSGA3 MSGA0 in
  assign STATEA0 := vsha256hq_u32 STATEA0 STATEA1 TMP0 in
  assign STATEA1 := vsha256h2q_u32 STATEA1 TMP2 TMP0 in
  assign MSGA3 := vsha256su1q_u32 MSGA3 MSGA1 MSGA2 in
  assign KTMP := vld1q_u32 K 16 in
  assign TMP0 := vaddq_u32 MSGA0 KTMP in
  assign TMP2 := STATEA0 in
  assign MSGA0 := vsha256su0q_u32 MSGA0 MSGA1 in
  assign STATEA0 := vsha256hq_u32 STATEA0 STATEA1 TMP0 in
  assign STATEA1 := vsha256h2q_u32 STATEA1 TMP2 TMP0 in
  assign MSGA0 := vsha256su1q_u32 MSGA0 MSGA2 MSGA3 in
  assign KTMP := vld1q_u32 K 20 in
  assign TMP0 := vaddq_u32 MSGA1 KTMP in
  assign TMP2 := STATEA0 in
  assign MSGA1 := vsha256su0q_u32 MSGA1 MSGA2 in
  assign STATEA0 := vsha256hq_u32 STATEA0 STATEA1 TMP0 in
  assign STATEA1 := vsha256h2q_u32 STATEA1 TMP2 TMP0 in
  assign MSGA1 := vsha256su1q_u32 MSGA1 MSGA3 MSGA0 in
  assign KTMP := vld1q_u32 K 24 in
  assign TMP0 := vaddq_u32 MSGA2 KTMP in
  assign TMP2 := STATEA0 in
  assign MSGA2 := vsha256su0q_u32 MSGA2 MSGA3 in
  assign STATEA0 := vsha256hq_u32 STATEA0 STATEA1 TMP0 in
  assign STATEA1 := vsha256h2q_u32 STATEA1 TMP2 TMP0 in
  assign MSGA2 := vsha256su1q_u32 MSGA2 MSGA0 MSGA1 in
  assign KTMP := vld1q_u32 K 28 in
  assign TMP0 := vaddq_u32 MSGA3 KTMP in
  assign TMP2 := STATEA0 in
  assign MSGA3 := vsha256su0q_u32 MSGA3 MSGA0 in
  assign STATEA0 := vsha256hq_u32 STATEA0 STATEA1 TMP0 in
  assign STATEA1 := vsha256h2q_u32 STATEA1 TMP2 TMP0 in
  assign MSGA3 := vsha256su1q_u32 MSGA3 MSGA1 MSGA2 in
  assign KTMP := vld1q_u32 K 32 in
  assign TMP0 := vaddq_u32 MSGA0 KTMP in
  assign TMP2 := STATEA0 in
  assign MSGA0 := vsha256su0q_u32 MSGA0 MSGA1 in
  assign STATEA0 := vsha256hq_u32 STATEA0 STATEA1 TMP0 in
  assign STATEA1 := vsha256h2q_u32 STATEA1 TMP2 TMP0 in
  assign MSGA0 := vsha256su1q_u32 MSGA0 MSGA2 MSGA3 in
  assign KTMP := vld1q_u32 K 36 in
  assign TMP0 := vaddq_u32 MSGA1 KTMP in
  assign TMP2 := STATEA0 in
  assign MSGA1 := vsha256su0q_u32 MSGA1 MSGA2 in
  assign STATEA0 := vsha256hq_u32 STATEA0 STATEA1 TMP0 in
  assign STATEA1 := vsha256h2q_u32 STATEA1 TMP2 TMP0 in
  assign MSGA1 := vsha256su1q_u32 MSGA1 MSGA3 MSGA0 in
  assign KTMP := vld1q_u32 K 40 in
  assign TMP0 := vaddq_u32 MSGA2 KTMP in
  assign TMP2 := STATEA0 in
  assign MSGA2 := vsha256su0q_u32 MSGA2 MSGA3 in
  assign STATEA0 := vsha256hq_u32 STATEA0 STATEA1 TMP0 in
  assign STATEA1 := vsha256h2q_u32 STATEA1 TMP2 TMP0 in
  assign MSGA2 := vsha256su1q_u32 MSGA2 MSGA0 MSGA1 in
  assign KTMP := vld1q_u32 K 44 in
  assign TMP0 := vaddq_u32 MSGA3 KTMP in
  assign TMP2 := STATEA0 in
  assign MSGA3 := vsha256su0q_u32 MSGA3 MSGA0 in
  assign STATEA0 := vsha256hq_u32 STATEA0 STATEA1 TMP0 in
  assign STATEA1 := vsha256h2q_u32 STATEA1 TMP2 TMP0 in
  assign MSGA3 := vsha256su1q_u32 MSGA3 MSGA1 MSGA2 in
  assign KTMP := vld1q_u32 K 48 in
  assign TMP0 := vaddq_u32 MSGA0 KTMP in
  assign TMP2 := STATEA0 in
  assign STATEA0 := vsha256hq_u32 STATEA0 STATEA1 TMP0 in
  assign STATEA1 := vsha256h2q_u32 STATEA1 TMP2 TMP0 in
  assign KTMP := vld1q_u32 K 52 in
  assign TMP0 := vaddq_u32 MSGA1 KTMP in
  assign TMP2 := STATEA0 in
  assign STATEA0 := vsha256hq_u32 STATEA0 STATEA1 TMP0 in
  assign STATEA1 := vsha256h2q_u32 STATEA1 TMP2 TMP0 in
  assign KTMP := vld1q_u32 K 56 in
  assign TMP0 := vaddq_u32 MSGA2 KTMP in
  assign TMP2 := STATEA0 in
  assign STATEA0 := vsha256hq_u32 STATEA0 STATEA1 TMP0 in
  assign STATEA1 := vsha256h2q_u32 STATEA1 TMP2 TMP0 in
  assign KTMP := vld1q_u32 K 60 in
  assign TMP0 := vaddq_u32 MSGA3 KTMP in
  assign TMP2 := STATEA0 in
  assign STATEA0 := vsha256hq_u32 STATEA0 STATEA1 TMP0 in
  assign STATEA1 := vsha256h2q_u32 STATEA1 TMP2 TMP0 in
  assign STATEA0 := vaddq_u32 STATEA0 (V4 0x6a09e667 0xbb67ae85 0x3c6ef372 0xa54ff53a) in
  assign STATEA1 := vaddq_u32 STATEA1 (V4 0x510e527f 0x9b05688c 0x1f83d9ab 0x5be0cd19) in
  (STATEA0, STATEA1).

Definition BleMiner2Way (stateandmessage : uint32x4x6_t) : uint32x4x4_t :=
  assign stateandmessage_val0 := x6_val0 stateandmessage in
  assign stateandmessage_val1 := x6_val1 stateandmessage in
  assign stateandmessage_val2 := x6_val2 stateandmessage in
  assign stateandmessage_val3 := x6_val3 stateandmessage in
  assign stateandmessage_val4 := x6_val4 stateandmessage in
  assign stateandmessage_val5 := x6_val5 stateandmessage in
  assign SHA256INIT0 := (V4 0x6a09e667 0xbb67ae85 0x3c6ef372 0xa54ff53a) in
  assign SHA256INIT1 := (V4 0x510e527f 0x9b05688c 0x1f83d9ab 0x5be0cd19) in
  assign PADDING2A := (V4 0x80000000 0x00000000 0x00000000 0x00000000) in
  assign PADDING2B := (V4 0x00000000 0x00000000 0x00000000 0x00000100) in
  assign STATEA0 := stateandmessage_val0 in
  assign STATEA1 := stateandmessage_val1 in
  assign STATEB0 := stateandmessage_val0 in
  assign STATEB1 := stateandmessage_val1 in
  assign MSGA0 := stateandmessage_val2 in
  assign MSGA1 := stateandmessage_val3 in
  assign MSGA2 := vreinterpretq_u32_u8 (vrev32q_u8 (vreinterpretq_u8_u32 stateandmessage_val4)) in
  assign MSGA3 := stateandmessage_val5 in
  assign stateandmessage_val4 := incr_lane3 stateandmessage_val4 in
  assign MSGB0 := stateandmessage_val2 in
  assign MSGB1 := stateandmessage_val3 in
  assign MSGB2 := vreinterpretq_u32_u8 (vrev32q_u8 (vreinterpretq_u8_u32 stateandmessage_val4)) in
  assign MSGB3 := stateandmessage_val5 in
  assign KTMP := vld1q_u32 K 0 in
  assign TMP0 := vaddq_u32 MSGA0 KTMP in
  assign TMP2 := STATEA0 in
  assign MSGA0 := vsha256su0q_u32 MSGA0 MSGA1 in
  assign STATEA0 := vsha256hq_u32 STATEA0 STATEA1 TMP0 in
  assign STATEA1 := vsha256h2q_u32 STATEA1 TMP2 TMP0 in
  assign MSGA0 := vsha256su1q_u32 MSGA0 MSGA2 MSGA3 in
  assign TMP0 := vaddq_u32 MSGB0 KTMP in
  assign TMP2 := STATEB0 in
  assign MSGB0 := vsha256su0q_u32 MSGB0 MSGB1 in
  assign STATEB0 := vsha256hq_u32 STATEB0 STATEB1 TMP0 in
  assign STATEB1 := vsha256h2q_u32 STATEB1 TMP2 TMP0 in
  assign MSGB0 := vsha256su1q_u32 MSGB0 MSGB2 MSGB3 in
  assign KTMP := vld1q_u32 K 4 in
  assign TMP0 := vaddq_u32 MSGA1 KTMP in
  assign TMP2 := STATEA0 in
  assign MSGA1 := vsha256su0q_u32 MSGA1 MSGA2 in
  assign STATEA0 := vsha256hq_u32 STATEA0 STATEA1 TMP0 in
  assign STATEA1 := vsha256h2q_u32 STATEA1 TMP2 TMP0 in
  assign MSGA1 := vsha256su1q_u32 MSGA1 MSGA3 MSGA0 in
  assign TMP0 := vaddq_u32 MSGB1 KTMP in
  assign TMP2 := STATEB0 in
  assign MSGB1 := vsha256su0q_u32 MSGB1 MSGB2 in
  assign STATEB0 := vsha256hq_u32 STATEB0 STATEB1 TMP0 in
  assign STATEB1 := vsha256h2q_u32 STATEB1 TMP2 TMP0 in
  assign MSGB1 := vsha256su1q_u32 MSGB1 MSGB3 MSGB0 in
  assign KTMP := vld1q_u32 K 8 in
  assign TMP0 := vaddq_u32 MSGA2 KTMP in
  assign TMP2 := STATEA0 in
  assign MSGA2 := vsha256su0q_u32 MSGA2 MSGA3 in
  assign STATEA0 := vsha256hq_u32 STATEA0 STATEA1 TMP0 in
  assign STATEA1 := vsha256h2q_u32 STATEA1 TMP2 TMP0 in
  assign MSGA2 := vsha256su1q_u32 MSGA2 MSGA0 MSGA1 in
  assign TMP0 := vaddq_u32 MSGB2 KTMP in
  assign TMP2 := STATEB0 in
  assign MSGB2 := vsha256su0q_u32 MSGB2 MSGB3 in
  assign STATEB0 := vsha256hq_u32 STATEB0 STATEB1 TMP0 in
  assign STATEB1 := vsha256h2q_u32 STATEB1 TMP2 TMP0 in
  assign MSGB2 := vsha256su1q_u32 MSGB2 MSGB0 MSGB1 in
  assign KTMP := vld1q_u32 K 12 in
  assign TMP0 := vaddq_u32 MSGA3 KTMP in
  assign TMP2 := STATEA0 in
  assign MSGA3 := vsha256su0q_u32 MSGA3 MSGA0 in
  assign STATEA0 := vsha256hq_u32 STATEA0 STATEA1 TMP0 in
  assign STATEA1 := vsha256h2q_u32 STATEA1 TMP2 TMP0 in
  assign MSGA3 := vsha256su1q_u32 MSGA3 MSGA1 MSGA2 in
  assign TMP0 := vaddq_u32 MSGB3 KTMP in
  assign TMP2 := STATEB0 in
  assign MSGB3 := vsha256su0q_u32 MSGB3 MSGB0 in
  assign STATEB0 := vsha256hq_u32 STATEB0 STATEB1 TMP0 in
  assign STATEB1 := vsha256h2q_u32 STATEB1 TMP2 TMP0 in
  assign MSGB3 := vsha256su1q_u32 MSGB3 MSGB1 MSGB2 in
  assign KTMP := vld1q_u32 K 16 in
  assign TMP0 := vaddq_u32 MSGA0 KTMP in
  assign TMP2 := STATEA0 in
  assign MSGA0 := vsha256su0q_u32 MSGA0 MSGA1 in
  assign STATEA0 := vsha256hq_u32 STATEA0 STATEA1 TMP0 in
  assign STATEA1 := vsha256h2q_u32 STATEA1 TMP2 TMP0 in
  assign MSGA0 := vsha256su1q_u32 MSGA0 MSGA2 MSGA3 in
  assign TMP0 := vaddq_u32 MSGB0 KTMP in
  assign TMP2 := STATEB0 in
  assign MSGB0 := vsha256su0q_u32 MSGB0 MSGB1 in
  assign STATEB0 := vsha256hq_u32 STATEB0 STATEB1 TMP0 in
  assign STATEB1 := vsha256h2q_u32 STATEB1 TMP2 TMP0 in
  assign MSGB0 := vsha256su1q_u32 MSGB0 MSGB2 MSGB3 in
  assign KTMP := vld1q_u32 K 20 in
  assign TMP0 := vaddq_u32 MSGA1 KTMP in
  assign TMP2 := STATEA0 in
  assign MSGA1 := vsha256su0q_u32 MSGA1 MSGA2 in
  assign STATEA0 := vsha256hq_u32 STATEA0 STATEA1 TMP0 in
  assign STATEA1 := vsha256h2q_u32 STATEA1 TMP2 TMP0 in
  assign MSGA1 := vsha256su1q_u32 MSGA1 MSGA3 MSGA0 in
  assign TMP0 := vaddq_u32 MSGB1 KTMP in
  assign TMP2 := STATEB0 in
  assign MSGB1 := vsha256su0q_u32 MSGB1 MSGB2 in
  assign STATEB0 := vsha256hq_u32 STATEB0 STATEB1 TMP0 in
  assign STATEB1 := vsha256h2q_u32 STATEB1 TMP2 TMP0 in
  assign MSGB1 := vsha256su1q_u32 MSGB1 MSGB3 MSGB0 in
  assign KTMP := vld1q_u32 K 24 in
  assign TMP0 := vaddq_u32 MSGA2 KTMP in
  assign TMP2 := STATEA0 in
  assign MSGA2 := vsha256su0q_u32 MSGA2 MSGA3 in
  assign STATEA0 := vsha256hq_u32 STATEA0 STATEA1 TMP0 in
  assign STATEA1 := vsha256h2q_u32 STATEA1 TMP2 TMP0 in
  assign MSGA2 := vsha256su1q_u32 MSGA2 MSGA0 MSGA1 in
  assign TMP0 := vaddq_u32 MSGB2 KTMP in
  assign TMP2 := STATEB0 in
  assign MSGB2 := vsha256su0q_u32 MSGB2 MSGB3 in
  assign STATEB0 := vsha256hq_u32 STATEB0 STATEB1 TMP0 in
  assign STATEB1 := vsha256h2q_u32 STATEB1 TMP2 TMP0 in
  assign MSGB2 := vsha256su1q_u32 MSGB2 MSGB0 MSGB1 in
  assign KTMP := vld1q_u32 K 28 in
  assign TMP0 := vaddq_u32 MSGA3 KTMP in
  assign TMP2 := STATEA0 in
  assign MSGA3 := vsha256su0q_u32 MSGA3 MSGA0 in
  assign STATEA0 := vsha256hq_u32 STATEA0 STATEA1 TMP0 in
  assign STATEA1 := vsha256h2q_u32 STATEA1 TMP2 TMP0 in
  assign MSGA3 := vsha256su1q_u32 MSGA3 MSGA1 MSGA2 in
  assign TMP0 := vaddq_u32 MSGB3 KTMP in
  assign TMP2 := STATEB0 in
  assign MSGB3 := vsha256su0q_u32 MSGB3 MSGB0 in
  assign STATEB0 := vsha256hq_u32 STATEB0 STATEB1 TMP0 in
  assign STATEB1 := vsha256h2q_u32 STATEB1 TMP2 TMP0 in
  assign MSGB3 := vsha256su1q_u32 MSGB3 MSGB1 MSGB2 in
  assign KTMP := vld1q_u32 K 32 in
  assign TMP0 := vaddq_u32 MSGA0 KTMP in
  assign TMP2 := STATEA0 in
  assign MSGA0 := vsha256su0q_u32 MSGA0 MSGA1 in
  assign STATEA0 := vsha256hq_u32 STATEA0 STATEA1 TMP0 in
  assign STATEA1 := vsha256h2q_u32 STATEA1 TMP2 TMP0 in
  assign MSGA0 := vsha256su1q_u32 MSGA0 MSGA2 MSGA3 in
  assign TMP0 := vaddq_u32 MSGB0 KTMP in
  assign TMP2 := STATEB0 in
  assign MSGB0 := vsha256su0q_u32 MSGB0 MSGB1 in
  assign STATEB0 := vsha256hq_u32 STATEB0 STATEB1 TMP0 in
  assign STATEB1 := vsha256h2q_u32 STATEB1 TMP2 TMP0 in
  assign MSGB0 := vsha256su1q_u32 MSGB0 MSGB2 MSGB3 in
  assign KTMP := vld1q_u32 K 36 in
  assign TMP0 := vaddq_u32 MSGA1 KTMP in
  assign TMP2 := STATEA0 in
  assign MSGA1 := vsha256su0q_u32 MSGA1 MSGA2 in
  assign STATEA0 := vsha256hq_u32 STATEA0 STATEA1 TMP0 in
  assign STATEA1 := vsha256h2q_u32 STATEA1 TMP2 TMP0 in
  assign MSGA1 := vsha256su1q_u32 MSGA1 MSGA3 MSGA0 in
  assign TMP0 := vaddq_u32 MSGB1 KTMP in
  assign TMP2 := STATEB0 in
  assign MSGB1 := vsha256su0q_u32 MSGB1 MSGB2 in
  assign STATEB0 := vsha256hq_u32 STATEB0 STATEB1 TMP0 in
  assign STATEB1 := vsha256h2q_u32 STATEB1 TMP2 TMP0 in
  assign MSGB1 := vsha256su1q_u32 MSGB1 MSGB3 MSGB0 in
  assign KTMP := vld1q_u32 K 40 in
  assign TMP0 := vaddq_u32 MSGA2 KTMP in
  assign TMP2 := STATEA0 in
  assign MSGA2 := vsha256su0q_u32 MSGA2 MSGA3 in
  assign STATEA0 := vsha256hq_u32 STATEA0 STATEA1 TMP0 in
  assign STATEA1 := vsha256h2q_u32 STATEA1 TMP2 TMP0 in
  assign MSGA2 := vsha256su1q_u32 MSGA2 MSGA0 MSGA1 in
  assign TMP0 := vaddq_u32 MSGB2 KTMP in
  assign TMP2 := STATEB0 in
  assign MSGB2 := vsha256su0q_u32 MSGB2 MSGB3 in
  assign STATEB0 := vsha256hq_u32 STATEB0 STATEB1 TMP0 in
  assign STATEB1 := vsha256h2q_u32 STATEB1 TMP2 TMP0 in
  assign MSGB2 := vsha256su1q_u32 MSGB2 MSGB0 MSGB1 in
  assign KTMP := vld1q_u32 K 44 in
  assign TMP0 := vaddq_u32 MSGA3 KTMP in
  assign TMP2 := STATEA0 in
  assign MSGA3 := vsha256su0q_u32 MSGA3 MSGA0 in
  assign STATEA0 := vsha256hq_u32 STATEA0 STATEA1 TMP0 in
  assign STATEA1 := vsha256h2q_u32 STATEA1 TMP2 TMP0 in
  assign MSGA3 := vsha256su1q_u32 MSGA3 MSGA1 MSGA2 in
  assign TMP0 := vaddq_u32 MSGB3 KTMP in
  assign TMP2 := STATEB0 in
  assign MSGB3 := vsha256su0q_u32 MSGB3 MSGB0 in
  assign STATEB0 := vsha256hq_u32 STATEB0 STATEB1 TMP0 in
  assign STATEB1 := vsha256h2q_u32 STATEB1 TMP2 TMP0 in
  assign MSGB3 := vsha256su1q_u32 MSGB3 MSGB1 MSGB2 in
  assign KTMP := vld1q_u32 K 48 in
  assign TMP0 := vaddq_u32 MSGA0 KTMP in
  assign TMP2 := STATEA0 in
  assign STATEA0 := vsha256hq_u32 STATEA0 STATEA1 TMP0 in
  assign STATEA1 := vsha256h2q_u32 STATEA1 TMP2 TMP0 in
  assign TMP0 := vaddq_u32 MSGB0 KTMP in
  assign TMP2 := STATEB0 in
  assign STATEB0 := vsha256hq_u32 STATEB0 STATEB1 TMP0 in
  assign STATEB1 := vsha256h2q_u32 STATEB1 TMP2 TMP0 in
  assign KTMP := vld1q_u32 K 52 in
  assign TMP0 := vaddq_u32 MSGA1 KTMP in
  assign TMP2 := STATEA0 in
  assign STATEA0 := vsha256hq_u32 STATEA0 STATEA1 TMP0 in
  assign STATEA1 := vsha256h2q_u32 STATEA1 TMP2 TMP0 in
  assign TMP0 := vaddq_u32 MSGB1 KTMP in
  assign TMP2 := STATEB0 in
  assign STATEB0 := vsha256hq_u32 STATEB0 STATEB1 TMP0 in
  assign STATEB1 := vsha256h2q_u32 STATEB1 TMP2 TMP0 in
  assign KTMP := vld1q_u32 K 56 in
  assign TMP0 := vaddq_u32 MSGA2 KTMP in
  assign TMP2 := STATEA0 in
  assign STATEA0 := vsha256hq_u32 STATEA0 STATEA1 TMP0 in
  assign STATEA1 := vsha256h2q_u32 STATEA1 TMP2 TMP0 in
  assign TMP0 := vaddq_u32 MSGB2 KTMP in
  assign TMP2 := STATEB0 in
  assign STATEB0 := vsha256hq_u32 STATEB0 STATEB1 TMP0 in
  assign STATEB1 := vsha256h2q_u32 STATEB1 TMP2 TMP0 in
  assign KTMP := vld1q_u32 K 60 in
  assign TMP0 := vaddq_u32 MSGA3 KTMP in
  assign TMP2 := STATEA0 in
  assign STATEA0 := vsha256hq_u32 STATEA0 STATEA1 TMP0 in
  assign STATEA1 := vsha256h2q_u32 STATEA1 TMP2 TMP0 in
  assign TMP0 := vaddq_u32 MSGB3 KTMP in
  assign TMP2 := STATEB0 in
  assign STATEB0 := vsha256hq_u32 STATEB0 STATEB1 TMP0 in
  assign STATEB1 := vsha256h2q_u32 STATEB1 TMP2 TMP0 in
  assign MSGA0 := vaddq_u32 STATEA0 stateandmessage_val0 in
  assign MSGA1 := vaddq_u32 STATEA1 stateandmessage_val1 in
  assign MSGA2 := PADDING2A in
  assign MSGA3 := PADDING2B in
  assign MSGB0 := vaddq_u32 STATEB0 stateandmessage_val0 in
  assign MSGB1 := vaddq_u32 STATEB1 stateandmessage_val1 in
  assign MSGB2 := PADDING2A in
  assign MSGB3 := PADDING2B in
  assign STATEA0 := SHA256INIT0 in
  assign STATEA1 := SHA256INIT1 in
  assign STATEB0 := SHA256INIT0 in
  assign STATEB1 := SHA256INIT1 in
  assign KTMP := vld1q_u32 K 0 in
  assign TMP0 := vaddq_u32 MSGA0 KTMP in
  assign TMP2 := STATEA0 in
  assign MSGA0 := vsha256su0q_u32 MSGA0 MSGA1 in
  assign STATEA0 := vsha256hq_u32 STATEA0 STATEA1 TMP0 in
  assign STATEA1 := vsha256h2q_u32 STATEA1 TMP2 TMP0 in
  assign MSGA0 := vsha256su1q_u32 MSGA0 MSGA2 MSGA3 in
  assign TMP0 := vaddq_u32 MSGB0 KTMP in
  assign TMP2 := STATEB0 in
  assign MSGB0 := vsha256su0q_u32 MSGB0 MSGB1 in
  assign STATEB0 := vsha256hq_u32 STATEB0 STATEB1 TMP0 in
  assign STATEB1 := vsha256h2q_u32 STATEB1 TMP2 TMP0 in
  assign MSGB0 := vsha256su1q_u32 MSGB0 MSGB2 MSGB3 in
  assign KTMP := vld1q_u32 K 4 in
  assign TMP0 := vaddq_u32 MSGA1 KTMP in
  assign TMP2 := STATEA0 in
  assign MSGA1 := vsha256su0q_u32 MSGA1 MSGA2 in
  assign STATEA0 := vsha256hq_u32 STATEA0 STATEA1 TMP0 in
  assign STATEA1 := vsha256h2q_u32 STATEA1 TMP2 TMP0 in
  assign MSGA1 := vsha256su1q_u32 MSGA1 MSGA3 MSGA0 in
  assign TMP0 := vaddq_u32 MSGB1 KTMP in
  assign TMP2 := STATEB0 in
  assign MSGB1 := vsha256su0q_u32 MSGB1 MSGB2 in
  assign STATEB0 := vsha256hq_u32 STATEB0 STATEB1 TMP0 in
  assign STATEB1 := vsha256h2q_u32 STATEB1 TMP2 TMP0 in
  assign MSGB1 := vsha256su1q_u32 MSGB1 MSGB3 MSGB0 in
  assign KTMP := vld1q_u32 K 8 in
  assign TMP0 := vaddq_u32 MSGA2 KTMP in
  assign TMP2 := STATEA0 in
  assign MSGA2 := vsha256su0q_u32 MSGA2 MSGA3 in
  assign STATEA0 := vsha256hq_u32 STATEA0 STATEA1 TMP0 in
  assign STATEA1 := vsha256h2q_u32 STATEA1 TMP2 TMP0 in
  assign MSGA2 := vsha256su1q_u32 MSGA2 MSGA0 MSGA1 in
  assign TMP0 := vaddq_u32 MSGB2 KTMP in
  assign TMP2 := STATEB0 in
  assign MSGB2 := vsha256su0q_u32 MSGB2 MSGB3 in
  assign STATEB0 := vsha256hq_u32 STATEB0 STATEB1 TMP0 in
  assign STATEB1 := vsha256h2q_u32 STATEB1 TMP2 TMP0 in
  assign MSGB2 := vsha256su1q_u32 MSGB2 MSGB0 MSGB1 in
  assign KTMP := vld1q_u32 K 12 in
  assign TMP0 := vaddq_u32 MSGA3 KTMP in
  assign TMP2 := STATEA0 in
  assign MSGA3 := vsha256su0q_u32 MSGA3 MSGA0 in
  assign STATEA0 := vsha256hq_u32 STATEA0 STATEA1 TMP0 in
  assign STATEA1 := vsha256h2q_u32 STATEA1 TMP2 TMP0 in
  assign MSGA3 := vsha256su1q_u32 MSGA3 MSGA1 MSGA2 in
  assign TMP0 := vaddq_u32 MSGB3 KTMP in
  assign TMP2 := STATEB0 in
  assign MSGB3 := vsha256su0q_u32 MSGB3 MSGB0 in
  assign STATEB0 := vsha256hq_u32 STATEB0 STATEB1 TMP0 in
  assign STATEB1 := vsha256h2q_u32 STATEB1 TMP2 TMP0 in
  assign MSGB3 := vsha256su1q_u32 MSGB3 MSGB1 MSGB2 in
  assign KTMP := vld1q_u32 K 16 in
  assign TMP0 := vaddq_u32 MSGA0 KTMP in
  assign TMP2 := STATEA0 in
  assign MSGA0 := vsha256su0q_u32 MSGA0 MSGA1 in
  assign STATEA0 := vsha256hq_u32 STATEA0 STATEA1 TMP0 in
  assign STATEA1 := vsha256h2q_u32 STATEA1 TMP2 TMP0 in
  assign MSGA0 := vsha256su1q_u32 MSGA0 MSGA2 MSGA3 in
  assign TMP0 := vaddq_u32 MSGB0 KTMP in
  assign TMP2 := STATEB0 in
  assign MSGB0 := vsha256su0q_u32 MSGB0 MSGB1 in
  assign STATEB0 := vsha256hq_u32 STATEB0 STATEB1 TMP0 in
  assign STATEB1 := vsha256h2q_u32 STATEB1 TMP2 TMP0 in
  assign MSGB0 := vsha256su1q_u32 MSGB0 MSGB2 MSGB3 in
  assign KTMP := vld1q_u32 K 20 in
  assign TMP0 := vaddq_u32 MSGA1 KTMP in
  assign TMP2 := STATEA0 in
  assign MSGA1 := vsha256su0q_u32 MSGA1 MSGA2 in
  assign STATEA0 := vsha256hq_u32 STATEA0 STATEA1 TMP0 in
  assign STATEA1 := vsha256h2q_u32 STATEA1 TMP2 TMP0 in
  assign MSGA1 := vsha256su1q_u32 MSGA1 MSGA3 MSGA0 in
  assign TMP0 := vaddq_u32 MSGB1 KTMP in
  assign TMP2 := STATEB0 in
  assign MSGB1 := vsha256su0q_u32 MSGB1 MSGB2 in
  assign STATEB0 := vsha256hq_u32 STATEB0 STATEB1 TMP0 in
  assign STATEB1 := vsha256h2q_u32 STATEB1 TMP2 TMP0 in
  assign MSGB1 := vsha256su1q_u32 MSGB1 MSGB3 MSGB0 in
  assign KTMP := vld1q_u32 K 24 in
  assign TMP0 := vaddq_u32 MSGA2 KTMP in
  assign TMP2 := STATEA0 in
  assign MSGA2 := vsha256su0q_u32 MSGA2 MSGA3 in
  assign STATEA0 := vsha256hq_u32 STATEA0 STATEA1 TMP0 in
  assign STATEA1 := vsha256h2q_u32 STATEA1 TMP2 TMP0 in
  assign MSGA2 := vsha256su1q_u32 MSGA2 MSGA0 MSGA1 in
  assign TMP0 := vaddq_u32 MSGB2 KTMP in
  assign TMP2 := STATEB0 in
  assign MSGB2 := vsha256su0q_u32 MSGB2 MSGB3 in
  assign STATEB0 := vsha256hq_u32 STATEB0 STATEB1 TMP0 in
  assign STATEB1 := vsha256h2q_u32 STATEB1 TMP2 TMP0 in
  assign MSGB2 := vsha256su1q_u32 MSGB2 MSGB0 MSGB1 in
  assign KTMP := vld1q_u32 K 28 in
  assign TMP0 := vaddq_u32 MSGA3 KTMP in
  assign TMP2 := STATEA0 in
  assign MSGA3 := vsha256su0q_u32 MSGA3 MSGA0 in
  assign STATEA0 := vsha256hq_u32 STATEA0 STATEA1 TMP0 in
  assign STATEA1 := vsha256h2q_u32 STATEA1 TMP2 TMP0 in
  assign MSGA3 := vsha256su1q_u32 MSGA3 MSGA1 MSGA2 in
  assign TMP0 := vaddq_u32 MSGB3 KTMP in
  assign TMP2 := STATEB0 in
  assign MSGB3 := vsha256su0q_u32 MSGB3 MSGB0 in
  assign STATEB0 := vsha256hq_u32 STATEB0 STATEB1 TMP0 in
  assign STATEB1 := vsha256h2q_u32 STATEB1 TMP2 TMP0 in
  assign MSGB3 := vsha256su1q_u32 MSGB3 MSGB1 MSGB2 in
  assign KTMP := vld1q_u32 K 32 in
  assign TMP0 := vaddq_u32 MSGA0 KTMP in
  assign TMP2 := STATEA0 in
  assign MSGA0 := vsha256su0q_u32 MSGA0 MSGA1 in
  assign STATEA0 := vsha256hq_u32 STATEA0 STATEA1 TMP0 in
  assign STATEA1 := vsha256h2q_u32 STATEA1 TMP2 TMP0 in
  assign MSGA0 := vsha256su1q_u32 MSGA0 MSGA2 MSGA3 in
  assign TMP0 := vaddq_u32 MSGB0 KTMP in
  assign TMP2 := STATEB0 in
  assign MSGB0 := vsha256su0q_u32 MSGB0 MSGB1 in
  assign STATEB0 := vsha256hq_u32 STATEB0 STATEB1 TMP0 in
  assign STATEB1 := vsha256h2q_u32 STATEB1 TMP2 TMP0 in
  assign MSGB0 := vsha256su1q_u32 MSGB0 MSGB2 MSGB3 in
  assign KTMP := vld1q_u32 K 36 in
  assign TMP0 := vaddq_u32 MSGA1 KTMP in
  assign TMP2 := STATEA0 in
  assign MSGA1 := vsha256su0q_u32 MSGA1 MSGA2 in
  assign STATEA0 := vsha256hq_u32 STATEA0 STATEA1 TMP0 in
  assign STATEA1 := vsha256h2q_u32 STATEA1 TMP2 TMP0 in
  assign MSGA1 := vsha256su1q_u32 MSGA1 MSGA3 MSGA0 in
  assign TMP0 := vaddq_u32 MSGB1 KTMP in
  assign TMP2 := STATEB0 in
  assign MSGB1 := vsha256su0q_u32 MSGB1 MSGB2 in
  assign STATEB0 := vsha256hq_u32 STATEB0 STATEB1 TMP0 in
  assign STATEB1 := vsha256h2q_u32 STATEB1 TMP2 TMP0 in
  assign MSGB1 := vsha256su1q_u32 MSGB1 MSGB3 MSGB0 in
  assign KTMP := vld1q_u32 K 40 in
  assign TMP0 := vaddq_u32 MSGA2 KTMP in
  assign TMP2 := STATEA0 in
  assign MSGA2 := vsha256su0q_u32 MSGA2 MSGA3 in
  assign STATEA0 := vsha256hq_u32 STATEA0 STATEA1 TMP0 in
  assign STATEA1 := vsha256h2q_u32 STATEA1 TMP2 TMP0 in
  assign MSGA2 := vsha256su1q_u32 MSGA2 MSGA0 MSGA1 in
  assign TMP0 := vaddq_u32 MSGB2 KTMP in
  assign TMP2 := STATEB0 in
  assign MSGB2 := vsha256su0q_u32 MSGB2 MSGB3 in
  assign STATEB0 := vsha256hq_u32 STATEB0 STATEB1 TMP0 in
  assign STATEB1 := vsha256h2q_u32 STATEB1 TMP2 TMP0 in
  assign MSGB2 := vsha256su1q_u32 MSGB2 MSGB0 MSGB1 in
  assign KTMP := vld1q_u32 K 44 in
  assign TMP0 := vaddq_u32 MSGA3 KTMP in
  assign TMP2 := STATEA0 in
  assign MSGA3 := vsha256su0q_u32 MSGA3 MSGA0 in
  assign STATEA0 := vsha256hq_u32 STATEA0 STATEA1 TMP0 in
  assign STATEA1 := vsha256h2q_u32 STATEA1 TMP2 TMP0 in
  assign MSGA3 := vsha256su1q_u32 MSGA3 MSGA1 MSGA2 in
  assign TMP0 := vaddq_u32 MSGB3 KTMP in
  assign TMP2 := STATEB0 in
  assign MSGB3 := vsha256su0q_u32 MSGB3 MSGB0 in
  assign STATEB0 := vsha256hq_u32 STATEB0 STATEB1 TMP0 in
  assign STATEB1 := vsha256h2q_u32 STATEB1 TMP2 TMP0 in
  assign MSGB3 := vsha256su1q_u32 MSGB3 MSGB1 MSGB2 in
  assign KTMP := vld1q_u32 K 48 in
  assign TMP0 := vaddq_u32 MSGA0 KTMP in
  assign TMP2 := STATEA0 in
  assign STATEA0 := vsha256hq_u32 STATEA0 STATEA1 TMP0 in
  assign STATEA1 := vsha256h2q_u32 STATEA1 TMP2 TMP0 in
  assign TMP0 := vaddq_u32 MSGB0 KTMP in
  assign TMP2 := STATEB0 in
  assign STATEB0 := vsha256hq_u32 STATEB0 STATEB1 TMP0 in
  assign STATEB1 := vsha256h2q_u32 STATEB1 TMP2 TMP0 in
  assign KTMP := vld1q_u32 K 52 in
  assign TMP0 := vaddq_u32 MSGA1 KTMP in
  assign TMP2 := STATEA0 in
  assign STATEA0 := vsha256hq_u32 STATEA0 STATEA1 TMP0 in
  assign STATEA1 := vsha256h2q_u32 STATEA1 TMP2 TMP0 in
  assign TMP0 := vaddq_u32 MSGB1 KTMP in
  assign TMP2 := STATEB0 in
  assign STATEB0 := vsha256hq_u32 STATEB0 STATEB1 TMP0 in
  assign STATEB1 := vsha256h2q_u32 STATEB1 TMP2 TMP0 in
  assign KTMP := vld1q_u32 K 56 in
  assign TMP0 := vaddq_u32 MSGA2 KTMP in
  assign TMP2 := STATEA0 in
  assign STATEA0 := vsha256hq_u32 STATEA0 STATEA1 TMP0 in
  assign STATEA1 := vsha256h2q_u32 STATEA1 TMP2 TMP0 in
  assign TMP0 := vaddq_u32 MSGB2 KTMP in
  assign TMP2 := STATEB0 in
  assign STATEB0 := vsha256hq_u32 STATEB0 STATEB1 TMP0 in
  assign STATEB1 := vsha256h2q_u32 STATEB1 TMP2 TMP0 in
  assign KTMP := vld1q_u32 K 60 in
  assign TMP0 := vaddq_u32 MSGA3 KTMP in
  assign TMP2 := STATEA0 in
  assign STATEA0 := vsha256hq_u32 STATEA0 STATEA1 TMP0 in
  assign STATEA1 := vsha256h2q_u32 STATEA1 TMP2 TMP0 in
  assign TMP0 := vaddq_u32 MSGB3 KTMP in
  assign TMP2 := STATEB0 in
  assign STATEB0 := vsha256hq_u32 STATEB0 STATEB1 TMP0 in
  assign STATEB1 := vsha256h2q_u32 STATEB1 TMP2 TMP0 in
  assign STATEA0 := vaddq_u32 STATEA0 SHA256INIT0 in
  assign STATEA1 := vaddq_u32 STATEA1 SHA256INIT1 in
  assign STATEB0 := vaddq_u32 STATEB0 SHA256INIT0 in
  assign STATEB1 := vaddq_u32 STATEB1 SHA256INIT1 in
  (STATEA0, STATEA1, STATEB0, STATEB1).

Definition BleMiner3Way (stateandmessage : uint32x4x14_t) : uint32x4x14_t :=
  assign stateandmessage_val0 := val0 stateandmessage in
  assign stateandmessage_val1 := val1 stateandmessage in
  assign stateandmessage_val2 := val2 stateandmessage in
  assign stateandmessage_val3 := val3 stateandmessage in
  assign stateandmessage_val4 := val4 stateandmessage in
  assign stateandmessage_val5 := val5 stateandmessage in
  assign stateandmessage_val6 := val6 stateandmessage in
  assign stateandmessage_val7 := val7 stateandmessage in
  assign stateandmessage_val8 := val8 stateandmessage in
  assign stateandmessage_val9 := val9 stateandmessage in
  assign stateandmessage_val10 := val10 stateandmessage in
  assign stateandmessage_val11 := val11 stateandmessage in
  assign stateandmessage_val12 := val12 stateandmessage in
  assign stateandmessage_val13 := val13 stateandmessage in
  assign SHA256INIT0 := (V4 0x6a09e667 0xbb67ae85 0x3c6ef372 0xa54ff53a) in
  assign SHA256INIT1 := (V4 0x510e527f 0x9b05688c 0x1f83d9ab 0x5be0cd19) in
  assign PADDING2A := (V4 0x80000000 0x00000000 0x00000000 0x00000000) in
  assign PADDING2B := (V4 0x00000000 0x00000000 0x00000000 0x00000100) in
  assign MSGA0 := stateandmessage_val2 in
  assign MSGA1 := stateandmessage_val3 in
  assign MSGA2 := vreinterpretq_u32_u8 (vrev32q_u8 (vreinterpretq_u8_u32 stateandmessage_val4)) in
  assign MSGA3 := stateandmessage_val5 in
  assign stateandmessage_val4 := incr_lane3 stateandmessage_val4 in
  assign MSGB0 := stateandmessage_val2 in
  assign MSGB1 := stateandmessage_val3 in
  assign MSGB2 := vreinterpretq_u32_u8 (vrev32q_u8 (vreinterpretq_u8_u32 stateandmessage_val4)) in
  assign MSGB3 := stateandmessage_val5 in
  assign stateandmessage_val4 := incr_lane3 stateandmessage_val4 in
  assign MSGC0 := stateandmessage_val2 in
  assign MSGC1 := stateandmessage_val3 in
  assign MSGC2 := vreinterpretq_u32_u8 (vrev32q_u8 (vreinterpretq_u8_u32 stateandmessage_val4)) in
  assign MSGC3 := stateandmessage_val5 in
  assign stateandmessage_val4 := incr_lane3 stateandmessage_val4 in
  assign MSGA0 := vsha256su1q_u32 MSGA0 MSGA2 MSGA3 in
  assign MSGB0 := vsha256su1q_u32 MSGB0 MSGB2 MSGB3 in
  assign MSGC0 := vsha256su1q_u32 MSGC0 MSGC2 MSGC3 in
  assign MSGA1 := vsha256su0q_u32 MSGA1 MSGA2 in
  assign MSGA1 := vsha256su1q_u32 MSGA1 MSGA3 MSGA0 in
  assign MSGB1 := vsha256su0q_u32 MSGB1 MSGB2 in
  assign MSGB1 := vsha256su1q_u32 MSGB1 MSGB3 MSGB0 in
  assign MSGC1 := vsha256su0q_u32 MSGC1 MSGC2 in
  assign MSGC1 := vsha256su1q_u32 MSGC1 MSGC3 MSGC0 in
  assign KTMP := vld1q_u32 K 8 in
  assign TMP0 := vaddq_u32 MSGA2 KTMP in
  assign MSGA2 := vsha256su0q_u32 MSGA2 MSGA3 in
  assign stateandmessage_val6 := vsha256hq_u32 stateandmessage_val12 stateandmessage_val13 TMP0 in
  assign stateandmessage_val7 := vsha256h2q_u32 stateandmessage_val13 stateandmessage_val12 TMP0 in
  assign MSGA2 := vsha256su1q_u32 MSGA2 MSGA0 MSGA1 in
  assign TMP0 := vaddq_u32 MSGB2 KTMP in
  assign MSGB2 := vsha256su0q_u32 MSGB2 MSGB3 in
  assign stateandmessage_val8 := vsha256hq_u32 stateandmessage_val12 stateandmessage_val13 TMP0 in
  assign stateandmessage_val9 := vsha256h2q_u32 stateandmessage_val13 stateandmessage_val12 TMP0 in
  assign MSGB2 := vsha256su1q_u32 MSGB2 MSGB0 MSGB1 in
  assign TMP0 := vaddq_u32 MSGC2 KTMP in
  assign MSGC2 := vsha256su0q_u32 MSGC2 MSGC3 in
  assign stateandmessage_val10 := vsha256hq_u32 stateandmessage_val12 stateandmessage_val13 TMP0 in
  assign stateandmessage_val11 := vsha256h2q_u32 stateandmessage_val13 stateandmessage_val12 TMP0 in
  assign MSGC2 := vsha256su1q_u32 MSGC2 MSGC0 MSGC1 in
  assign KTMP := vld1q_u32 K 12 in
  assign TMP0 := vaddq_u32 MSGA3 KTMP in
  assign TMP2 := stateandmessage_val6 in
  assign MSGA3 := vsha256su0q_u32 MSGA3 MSGA0 in
  assign stateandmessage_val6 := vsha256hq_u32 stateandmessage_val6 stateandmessage_val7 TMP0 in
  assign stateandmessage_val7 := vsha256h2q_u32 stateandmessage_val7 TMP2 TMP0 in
  assign MSGA3 := vsha256su1q_u32 MSGA3 MSGA1 MSGA2 in
  assign TMP2 := stateandmessage_val8 in
  assign MSGB3 := vsha256su0q_u32 MSGB3 MSGB0 in
  assign stateandmessage_val8 := vsha256hq_u32 stateandmessage_val8 stateandmessage_val9 TMP0 in
  assign stateandmessage_val9 := vsha256h2q_u32 stateandmessage_val9 TMP2 TMP0 in
  assign MSGB3 := vsha256su1q_u32 MSGB3 MSGB1 MSGB2 in
  assign TMP2 := stateandmessage_val10 in
  assign MSGC3 := vsha256su0q_u32 MSGC3 MSGC0 in
  assign stateandmessage_val10 := vsha256hq_u32 stateandmessage_val10 stateandmessage_val11 TMP0 in
  assign stateandmessage_val11 := vsha256h2q_u32 stateandmessage_val11 TMP2 TMP0 in
  assign MSGC3 := vsha256su1q_u32 MSGC3 MSGC1 MSGC2 in
  assign KTMP := vld1q_u32 K 16 in
  assign TMP0 := vaddq_u32 MSGA0 KTMP in
  assign TMP2 := stateandmessage_val6 in
  assign MSGA0 := vsha256su0q_u32 MSGA0 MSGA1 in
  assign stateandmessage_val6 := vsha256hq_u32 stateandmessage_val6 stateandmessage_val7 TMP0 in
  assign stateandmessage_val7 := vsha256h2q_u32 stateandmessage_val7 TMP2 TMP0 in
  assign MSGA0 := vsha256su1q_u32 MSGA0 MSGA2 MSGA3 in
  assign TMP0 := vaddq_u32 MSGB0 KTMP in
  assign TMP2 := stateandmessage_val8 in
  assign MSGB0 := vsha256su0q_u32 MSGB0 MSGB1 in
  assign stateandmessage_val8 := vsha256hq_u32 stateandmessage_val8 stateandmessage_val9 TMP0 in
  assign stateandmessage_val9 := vsha256h2q_u32 stateandmessage_val9 TMP2 TMP0 in
  assign MSGB0 := vsha256su1q_u32 MSGB0 MSGB2 MSGB3 in
  assign TMP0 := vaddq_u32 MSGC0 KTMP in
  assign TMP2 := stateandmessage_val10 in
  assign MSGC0 := vsha256su0q_u32 MSGC0 MSGC1 in
  assign stateandmessage_val10 := vsha256hq_u32 stateandmessage_val10 stateandmessage_val11 TMP0 in
  assign stateandmessage_val11 := vsha256h2q_u32 stateandmessage_val11 TMP2 TMP0 in
  assign MSGC0 := vsha256su1q_u32 MSGC0 MSGC2 MSGC3 in
  assign KTMP := vld1q_u32 K 20 in
  assign TMP0 := vaddq_u32 MSGA1 KTMP in
  assign TMP2 := stateandmessage_val6 in
  assign MSGA1 := vsha256su0q_u32 MSGA1 MSGA2 in
  assign stateandmessage_val6 := vsha256hq_u32 stateandmessage_val6 stateandmessage_val7 TMP0 in
  assign stateandmessage_val7 := vsha256h2q_u32 stateandmessage_val7 TMP2 TMP0 in
  assign MSGA1 := vsha256su1q_u32 MSGA1 MSGA3 MSGA0 in
  assign TMP0 := vaddq_u32 MSGB1 KTMP in
  assign TMP2 := stateandmessage_val8 in
  assign MSGB1 := vsha256su0q_u32 MSGB1 MSGB2 in
  assign stateandmessage_val8 := vsha256hq_u32 stateandmessage_val8 stateandmessage_val9 TMP0 in
  assign stateandmessage_val9 := vsha256h2q_u32 stateandmessage_val9 TMP2 TMP0 in
  assign MSGB1 := vsha256su1q_u32 MSGB1 MSGB3 MSGB0 in
  assign TMP0 := vaddq_u32 MSGC1 KTMP in
  assign TMP2 := stateandmessage_val10 in
  assign MSGC1 := vsha256su0q_u32 MSGC1 MSGC2 in
  assign stateandmessage_val10 := vsha256hq_u32 stateandmessage_val10 stateandmessage_val11 TMP0 in
  assign stateandmessage_val11 := vsha256h2q_u32 stateandmessage_val11 TMP2 TMP0 in
  assign MSGC1 := vsha256su1q_u32 MSGC1 MSGC3 MSGC0 in
  assign KTMP := vld1q_u32 K 24 in
  assign TMP0 := vaddq_u32 MSGA2 KTMP in
  assign TMP2 := stateandmessage_val6 in
  assign MSGA2 := vsha256su0q_u32 MSGA2 MSGA3 in
  assign stateandmessage_val6 := vsha256hq_u32 stateandmessage_val6 stateandmessage_val7 TMP0 in
  assign stateandmessage_val7 := vsha256h2q_u32 stateandmessage_val7 TMP2 TMP0 in
  assign MSGA2 := vsha256su1q_u32 MSGA2 MSGA0 MSGA1 in
  assign TMP0 := vaddq_u32 MSGB2 KTMP in
  assign TMP2 := stateandmessage_val8 in
  assign MSGB2 := vsha256su0q_u32 MSGB2 MSGB3 in
  assign stateandmessage_val8 := vsha256hq_u32 stateandmessage_val8 stateandmessage_val9 TMP0 in
  assign stateandmessage_val9 := vsha256h2q_u32 stateandmessage_val9 TMP2 TMP0 in
  assign MSGB2 := vsha256su1q_u32 MSGB2 MSGB0 MSGB1 in
  assign TMP0 := vaddq_u32 MSGC2 KTMP in
  assign TMP2 := stateandmessage_val10 in
  assign MSGC2 := vsha256su0q_u32 MSGC2 MSGC3 in
  assign stateandmessage_val10 := vsha256hq_u32 stateandmessage_val10 stateandmessage_val11 TMP0 in
  assign stateandmessage_val11 := vsha256h2q_u32 stateandmessage_val11 TMP2 TMP0 in
  assign MSGC2 := vsha256su1q_u32 MSGC2 MSGC0 MSGC1 in
  assign KTMP := vld1q_u32 K 28 in
  assign TMP0 := vaddq_u32 MSGA3 KTMP in
  assign TMP2 := stateandmessage_val6 in
  assign MSGA3 := vsha256su0q_u32 MSGA3 MSGA0 in
  assign stateandmessage_val6 := vsha256hq_u32 stateandmessage_val6 stateandmessage_val7 TMP0 in
  assign stateandmessage_val7 := vsha256h2q_u32 stateandmessage_val7 TMP2 TMP0 in
  assign MSGA3 := vsha256su1q_u32 MSGA3 MSGA1 MSGA2 in
  assign TMP0 := vaddq_u32 MSGB3 KTMP in
  assign TMP2 := stateandmessage_val8 in
  assign MSGB3 := vsha256su0q_u32 MSGB3 MSGB0 in
  assign stateandmessage_val8 := vsha256hq_u32 stateandmessage_val8 stateandmessage_val9 TMP0 in
  assign stateandmessage_val9 := vsha256h2q_u32 stateandmessage_val9 TMP2 TMP0 in
  assign MSGB3 := vsha256su1q_u32 MSGB3 MSGB1 MSGB2 in
  assign TMP0 := vaddq_u32 MSGC3 KTMP in
  assign TMP2 := stateandmessage_val10 in
  assign MSGC3 := vsha256su0q_u32 MSGC3 MSGC0 in
  assign stateandmessage_val10 := vsha256hq_u32 stateandmessage_val10 stateandmessage_val11 TMP0 in
  assign stateandmessage_val11 := vsha256h2q_u32 stateandmessage_val11 TMP2 TMP0 in
  assign MSGC3 := vsha256su1q_u32 MSGC3 MSGC1 MSGC2 in
  assign KTMP := vld1q_u32 K 32 in
  assign TMP0 := vaddq_u32 MSGA0 KTMP in
  assign TMP2 := stateandmessage_val6 in
  assign MSGA0 := vsha256su0q_u32 MSGA0 MSGA1 in
  assign stateandmessage_val6 := vsha256hq_u32 stateandmessage_val6 stateandmessage_val7 TMP0 in
  assign stateandmessage_val7 := vsha256h2q_u32 stateandmessage_val7 TMP2 TMP0 in
  assign MSGA0 := vsha256su1q_u32 MSGA0 MSGA2 MSGA3 in
  assign TMP0 := vaddq_u32 MSGB0 KTMP in
  assign TMP2 := stateandmessage_val8 in
  assign MSGB0 := vsha256su0q_u32 MSGB0 MSGB1 in
  assign stateandmessage_val8 := vsha256hq_u32 stateandmessage_val8 stateandmessage_val9 TMP0 in
  assign stateandmessage_val9 := vsha256h2q_u32 stateandmessage_val9 TMP2 TMP0 in
  assign MSGB0 := vsha256su1q_u32 MSGB0 MSGB2 MSGB3 in
  assign TMP0 := vaddq_u32 MSGC0 KTMP in
  assign TMP2 := stateandmessage_val10 in
  assign MSGC0 := vsha256su0q_u32 MSGC0 MSGC1 in
  assign stateandmessage_val10 := vsha256hq_u32 stateandmessage_val10 stateandmessage_val11 TMP0 in
  assign stateandmessage_val11 := vsha256h2q_u32 stateandmessage_val11 TMP2 TMP0 in
  assign MSGC0 := vsha256su1q_u32 MSGC0 MSGC2 MSGC3 in
  assign KTMP := vld1q_u32 K 36 in
  assign TMP0 := vaddq_u32 MSGA1 KTMP in
  assign TMP2 := stateandmessage_val6 in
  assign MSGA1 := vsha256su0q_u32 MSGA1 MSGA2 in
  assign stateandmessage_val6 := vsha256hq_u32 stateandmessage_val6 stateandmessage_val7 TMP0 in
  assign stateandmessage_val7 := vsha256h2q_u32 stateandmessage_val7 TMP2 TMP0 in
  assign MSGA1 := vsha256su1q_u32 MSGA1 MSGA3 MSGA0 in
  assign TMP0 := vaddq_u32 MSGB1 KTMP in
  assign TMP2 := stateandmessage_val8 in
  assign MSGB1 := vsha256su0q_u32 MSGB1 MSGB2 in
  assign stateandmessage_val8 := vsha256hq_u32 stateandmessage_val8 stateandmessage_val9 TMP0 in
  assign stateandmessage_val9 := vsha256h2q_u32 stateandmessage_val9 TMP2 TMP0 in
  assign MSGB1 := vsha256su1q_u32 MSGB1 MSGB3 MSGB0 in
  assign TMP0 := vaddq_u32 MSGC1 KTMP in
  assign TMP2 := stateandmessage_val10 in
  assign MSGC1 := vsha256su0q_u32 MSGC1 MSGC2 in
  assign stateandmessage_val10 := vsha256hq_u32 stateandmessage_val10 stateandmessage_val11 TMP0 in
  assign stateandmessage_val11 := vsha256h2q_u32 stateandmessage_val11 TMP2 TMP0 in
  assign MSGC1 := vsha256su1q_u32 MSGC1 MSGC3 MSGC0 in
  assign KTMP := vld1q_u32 K 40 in
  assign TMP0 := vaddq_u32 MSGA2 KTMP in
  assign TMP2 := stateandmessage_val6 in
  assign MSGA2 := vsha256su0q_u32 MSGA2 MSGA3 in
  assign stateandmessage_val6 := vsha256hq_u32 stateandmessage_val6 stateandmessage_val7 TMP0 in
  assign stateandmessage_val7 := vsha256h2q_u32 stateandmessage_val7 TMP2 TMP0 in
  assign MSGA2 := vsha256su1q_u32 MSGA2 MSGA0 MSGA1 in
  assign TMP0 := vaddq_u32 MSGB2 KTMP in
  assign TMP2 := stateandmessage_val8 in
  assign MSGB2 := vsha256su0q_u32 MSGB2 MSGB3 in
  assign stateandmessage_val8 := vsha256hq_u32 stateandmessage_val8 stateandmessage_val9 TMP0 in
  assign stateandmessage_val9 := vsha256h2q_u32 stateandmessage_val9 TMP2 TMP0 in
  assign MSGB2 := vsha256su1q_u32 MSGB2 MSGB0 MSGB1 in
  assign TMP0 := vaddq_u32 MSGC2 KTMP in
  assign TMP2 := stateandmessage_val10 in
  assign MSGC2 := vsha256su0q_u32 MSGC2 MSGC3 in
  assign stateandmessage_val10 := vsha256hq_u32 stateandmessage_val10 stateandmessage_val11 TMP0 in
  assign stateandmessage_val11 := vsha256h2q_u32 stateandmessage_val11 TMP2 TMP0 in
  assign MSGC2 := vsha256su1q_u32 MSGC2 MSGC0 MSGC1 in
  assign KTMP := vld1q_u32 K 44 in
  assign TMP0 := vaddq_u32 MSGA3 KTMP in
  assign TMP2 := stateandmessage_val6 in
  assign MSGA3 := vsha256su0q_u32 MSGA3 MSGA0 in
  assign stateandmessage_val6 := vsha256hq_u32 stateandmessage_val6 stateandmessage_val7 TMP0 in
  assign stateandmessage_val7 := vsha256h2q_u32 stateandmessage_val7 TMP2 TMP0 in
  assign MSGA3 := vsha256su1q_u32 MSGA3 MSGA1 MSGA2 in
  assign TMP0 := vaddq_u32 MSGB3 KTMP in
  assign TMP2 := stateandmessage_val8 in
  assign MSGB3 := vsha256su0q_u32 MSGB3 MSGB0 in
  assign stateandmessage_val8 := vsha256hq_u32 stateandmessage_val8 stateandmessage_val9 TMP0 in
  assign stateandmessage_val9 := vsha256h2q_u32 stateandmessage_val9 TMP2 TMP0 in
  assign MSGB3 := vsha256su1q_u32 MSGB3 MSGB1 MSGB2 in
  assign TMP0 := vaddq_u32 MSGC3 KTMP in
  assign TMP2 := stateandmessage_val10 in
  assign MSGC3 := vsha256su0q_u32 MSGC3 MSGC0 in
  assign stateandmessage_val10 := vsha256hq_u32 stateandmessage_val10 stateandmessage_val11 TMP0 in
  assign stateandmessage_val11 := vsha256h2q_u32 stateandmessage_val11 TMP2 TMP0 in
  assign MSGC3 := vsha256su1q_u32 MSGC3 MSGC1 MSGC2 in
  assign KTMP := vld1q_u32 K 48 in
  assign TMP0 := vaddq_u32 MSGA0 KTMP in
  assign TMP2 := stateandmessage_val6 in
  assign stateandmessage_val6 := vsha256hq_u32 stateandmessage_val6 stateandmessage_val7 TMP0 in
  assign stateandmessage_val7 := vsha256h2q_u32 stateandmessage_val7 TMP2 TMP0 in
  assign TMP0 := vaddq_u32 MSGB0 KTMP in
  assign TMP2 := stateandmessage_val8 in
  assign stateandmessage_val8 := vsha256hq_u32 stateandmessage_val8 stateandmessage_val9 TMP0 in
  assign stateandmessage_val9 := vsha256h2q_u32 stateandmessage_val9 TMP2 TMP0 in
  assign TMP0 := vaddq_u32 MSGC0 KTMP in
  assign TMP2 := stateandmessage_val10 in
  assign stateandmessage_val10 := vsha256hq_u32 stateandmessage_val10 stateandmessage_val11 TMP0 in
  assign stateandmessage_val11 := vsha256h2q_u32 stateandmessage_val11 TMP2 TMP0 in
  assign KTMP := vld1q_u32 K 52 in
  assign TMP0 := vaddq_u32 MSGA1 KTMP in
  assign TMP2 := stateandmessage_val6 in
  assign stateandmessage_val6 := vsha256hq_u32 stateandmessage_val6 stateandmessage_val7 TMP0 in
  assign stateandmessage_val7 := vsha256h2q_u32 stateandmessage_val7 TMP2 TMP0 in
  assign TMP0 := vaddq_u32 MSGB1 KTMP in
  assign TMP2 := stateandmessage_val8 in
  assign stateandmessage_val8 := vsha256hq_u32 stateandmessage_val8 stateandmessage_val9 TMP0 in
  assign stateandmessage_val9 := vsha256h2q_u32 stateandmessage_val9 TMP2 TMP0 in
  assign TMP0 := vaddq_u32 MSGC1 KTMP in
  assign TMP2 := stateandmessage_val10 in
  assign stateandmessage_val10 := vsha256hq_u32 stateandmessage_val10 stateandmessage_val11 TMP0 in
  assign stateandmessage_val11 := vsha256h2q_u32 stateandmessage_val11 TMP2 TMP0 in
  assign KTMP := vld1q_u32 K 56 in
  assign TMP0 := vaddq_u32 MSGA2 KTMP in
  assign TMP2 := stateandmessage_val6 in
  assign stateandmessage_val6 := vsha256hq_u32 stateandmessage_val6 stateandmessage_val7 TMP0 in
  assign stateandmessage_val7 := vsha256h2q_u32 stateandmessage_val7 TMP2 TMP0 in
  assign TMP0 := vaddq_u32 MSGB2 KTMP in
  assign TMP2 := stateandmessage_val8 in
  assign stateandmessage_val8 := vsha256hq_u32 stateandmessage_val8 stateandmessage_val9 TMP0 in
  assign stateandmessage_val9 := vsha256h2q_u32 stateandmessage_val9 TMP2 TMP0 in
  assign TMP0 := vaddq_u32 MSGC2 KTMP in
  assign TMP2 := stateandmessage_val10 in
  assign stateandmessage_val10 := vsha256hq_u32 stateandmessage_val10 stateandmessage_val11 TMP0 in
  assign stateandmessage_val11 := vsha256h2q_u32 stateandmessage_val11 TMP2 TMP0 in
  assign KTMP := vld1q_u32 K 60 in
  assign TMP0 := vaddq_u32 MSGA3 KTMP in
  assign TMP2 := stateandmessage_val6 in
  assign stateandmessage_val6 := vsha256hq_u32 stateandmessage_val6 stateandmessage_val7 TMP0 in
  assign stateandmessage_val7 := vsha256h2q_u32 stateandmessage_val7 TMP2 TMP0 in
  assign TMP0 := vaddq_u32 MSGB3 KTMP in
  assign TMP2 := stateandmessage_val8 in
  assign stateandmessage_val8 := vsha256hq_u32 stateandmessage_val8 stateandmessage_val9 TMP0 in
  assign stateandmessage_val9 := vsha256h2q_u32 stateandmessage_val9 TMP2 TMP0 in
  assign TMP0 := vaddq_u32 MSGC3 KTMP in
  assign TMP2 := stateandmessage_val10 in
  assign stateandmessage_val10 := vsha256hq_u32 stateandmessage_val10 stateandmessage_val11 TMP0 in
  assign stateandmessage_val11 := vsha256h2q_u32 stateandmessage_val11 TMP2 TMP0 in
  assign MSGA0 := vaddq_u32 stateandmessage_val6 stateandmessage_val0 in
  assign MSGA1 := vaddq_u32 stateandmessage_val7 stateandmessage_val1 in
  assign MSGA2 := PADDING2A in
  assign MSGA3 := PADDING2B in
  assign MSGB0 := vaddq_u32 stateandmessage_val8 stateandmessage_val0 in
  assign MSGB1 := vaddq_u32 stateandmessage_val9 stateandmessage_val1 in
  assign MSGB2 := PADDING2A in
  assign MSGB3 := PADDING2B in
  assign MSGC0 := vaddq_u32 stateandmessage_val10 stateandmessage_val0 in
  assign MSGC1 := vaddq_u32 stateandmessage_val11 stateandmessage_val1 in
  assign MSGC2 := PADDING2A in
  assign MSGC3 := PADDING2B in
  assign stateandmessage_val6 := SHA256INIT0 in
  assign stateandmessage_val7 := SHA256INIT1 in
  assign stateandmessage_val8 := SHA256INIT0 in
  assign stateandmessage_val9 := SHA256INIT1 in
  assign stateandmessage_val10 := SHA256INIT0 in
  assign stateandmessage_val11 := SHA256INIT1 in
  assign KTMP := vld1q_u32 K 0 in
  assign TMP0 := vaddq_u32 MSGA0 KTMP in
  assign TMP2 := stateandmessage_val6 in
  assign MSGA0 := vsha256su0q_u32 MSGA0 MSGA1 in
  assign stateandmessage_val6 := vsha256hq_u32 stateandmessage_val6 stateandmessage_val7 TMP0 in
  assign stateandmessage_val7 := vsha256h2q_u32 stateandmessage_val7 TMP2 TMP0 in
  assign MSGA0 := vsha256su1q_u32 MSGA0 MSGA2 MSGA3 in
  assign TMP0 := vaddq_u32 MSGB0 KTMP in
  assign TMP2 := stateandmessage_val8 in
  assign MSGB0 := vsha256su0q_u32 MSGB0 MSGB1 in
  assign stateandmessage_val8 := vsha256hq_u32 stateandmessage_val8 stateandmessage_val9 TMP0 in
  assign stateandmessage_val9 := vsha256h2q_u32 stateandmessage_val9 TMP2 TMP0 in
  assign MSGB0 := vsha256su1q_u32 MSGB0 MSGB2 MSGB3 in
  assign TMP0 := vaddq_u32 MSGC0 KTMP in
  assign TMP2 := stateandmessage_val10 in
  assign MSGC0 := vsha256su0q_u32 MSGC0 MSGC1 in
  assign stateandmessage_val10 := vsha256hq_u32 stateandmessage_val10 stateandmessage_val11 TMP0 in
  assign stateandmessage_val11 := vsha256h2q_u32 stateandmessage_val11 TMP2 TMP0 in
  assign MSGC0 := vsha256su1q_u32 MSGC0 MSGC2 MSGC3 in
  assign KTMP := vld1q_u32 K 4 in
  assign TMP0 := vaddq_u32 MSGA1 KTMP in
  assign TMP2 := stateandmessage_val6 in
  assign MSGA1 := vsha256su0q_u32 MSGA1 MSGA2 in
  assign stateandmessage_val6 := vsha256hq_u32 stateandmessage_val6 stateandmessage_val7 TMP0 in
  assign stateandmessage_val7 := vsha256h2q_u32 stateandmessage_val7 TMP2 TMP0 in
  assign MSGA1 := vsha256su1q_u32 MSGA1 MSGA3 MSGA0 in
  assign TMP0 := vaddq_u32 MSGB1 KTMP in
  assign TMP2 := stateandmessage_val8 in
  assign MSGB1 := vsha256su0q_u32 MSGB1 MSGB2 in
  assign stateandmessage_val8 := vsha256hq_u32 stateandmessage_val8 stateandmessage_val9 TMP0 in
  assign stateandmessage_val9 := vsha256h2q_u32 stateandmessage_val9 TMP2 TMP0 in
  assign MSGB1 := vsha256su1q_u32 MSGB1 MSGB3 MSGB0 in
  assign TMP0 := vaddq_u32 MSGC1 KTMP in
  assign TMP2 := stateandmessage_val10 in
  assign MSGC1 := vsha256su0q_u32 MSGC1 MSGC2 in
  assign stateandmessage_val10 := vsha256hq_u32 stateandmessage_val10 stateandmessage_val11 TMP0 in
  assign stateandmessage_val11 := vsha256h2q_u32 stateandmessage_val11 TMP2 TMP0 in
  assign MSGC1 := vsha256su1q_u32 MSGC1 MSGC3 MSGC0 in
  assign KTMP := vld1q_u32 K 8 in
  assign TMP0 := vaddq_u32 MSGA2 KTMP in
  assign TMP2 := stateandmessage_val6 in
  assign MSGA2 := vsha256su0q_u32 MSGA2 MSGA3 in
  assign stateandmessage_val6 := vsha256hq_u32 stateandmessage_val6 stateandmessage_val7 TMP0 in
  assign stateandmessage_val7 := vsha256h2q_u32 stateandmessage_val7 TMP2 TMP0 in
  assign MSGA2 := vsha256su1q_u32 MSGA2 MSGA0 MSGA1 in
  assign TMP0 := vaddq_u32 MSGB2 KTMP in
  assign TMP2 := stateandmessage_val8 in
  assign MSGB2 := vsha256su0q_u32 MSGB2 MSGB3 in
  assign stateandmessage_val8 := vsha256hq_u32 stateandmessage_val8 stateandmessage_val9 TMP0 in
  assign stateandmessage_val9 := vsha256h2q_u32 stateandmessage_val9 TMP2 TMP0 in
  assign MSGB2 := vsha256su1q_u32 MSGB2 MSGB0 MSGB1 in
  assign TMP0 := vaddq_u32 MSGC2 KTMP in
  assign TMP2 := stateandmessage_val10 in
  assign MSGC2 := vsha256su0q_u32 MSGC2 MSGC3 in
  assign stateandmessage_val10 := vsha256hq_u32 stateandmessage_val10 stateandmessage_val11 TMP0 in
  assign stateandmessage_val11 := vsha256h2q_u32 stateandmessage_val11 TMP2 TMP0 in
  assign MSGC2 := vsha256su1q_u32 MSGC2 MSGC0 MSGC1 in
  assign KTMP := vld1q_u32 K 12 in
  assign TMP0 := vaddq_u32 MSGA3 KTMP in
  assign TMP2 := stateandmessage_val6 in
  assign MSGA3 := vsha256su0q_u32 MSGA3 MSGA0 in
  assign stateandmessage_val6 := vsha256hq_u32 stateandmessage_val6 stateandmessage_val7 TMP0 in
  assign stateandmessage_val7 := vsha256h2q_u32 stateandmessage_val7 TMP2 TMP0 in
  assign MSGA3 := vsha256su1q_u32 MSGA3 MSGA1 MSGA2 in
  assign TMP2 := stateandmessage_val8 in
  assign MSGB3 := vsha256su0q_u32 MSGB3 MSGB0 in
  assign stateandmessage_val8 := vsha256hq_u32 stateandmessage_val8 stateandmessage_val9 TMP0 in
  assign stateandmessage_val9 := vsha256h2q_u32 stateandmessage_val9 TMP2 TMP0 in
  assign MSGB3 := vsha256su1q_u32 MSGB3 MSGB1 MSGB2 in
  assign TMP2 := stateandmessage_val10 in
  assign MSGC3 := vsha256su0q_u32 MSGC3 MSGC0 in
  assign stateandmessage_val10 := vsha256hq_u32 stateandmessage_val10 stateandmessage_val11 TMP0 in
  assign stateandmessage_val11 := vsha256h2q_u32 stateandmessage_val11 TMP2 TMP0 in
  assign MSGC3 := vsha256su1q_u32 MSGC3 MSGC1 MSGC2 in
  assign KTMP := vld1q_u32 K 16 in
  assign TMP0 := vaddq_u32 MSGA0 KTMP in
  assign TMP2 := stateandmessage_val6 in
  assign MSGA0 := vsha256su0q_u32 MSGA0 MSGA1 in
  assign stateandmessage_val6 := vsha256hq_u32 stateandmessage_val6 stateandmessage_val7 TMP0 in
  assign stateandmessage_val7 := vsha256h2q_u32 stateandmessage_val7 TMP2 TMP0 in
  assign MSGA0 := vsha256su1q_u32 MSGA0 MSGA2 MSGA3 in
  assign TMP0 := vaddq_u32 MSGB0 KTMP in
  assign TMP2 := stateandmessage_val8 in
  assign MSGB0 := vsha256su0q_u32 MSGB0 MSGB1 in
  assign stateandmessage_val8 := vsha256hq_u32 stateandmessage_val8 stateandmessage_val9 TMP0 in
  assign stateandmessage_val9 := vsha256h2q_u32 stateandmessage_val9 TMP2 TMP0 in
  assign MSGB0 := vsha256su1q_u32 MSGB0 MSGB2 MSGB3 in
  assign TMP0 := vaddq_u32 MSGC0 KTMP in
  assign TMP2 := stateandmessage_val10 in
  assign MSGC0 := vsha256su0q_u32 MSGC0 MSGC1 in
  assign stateandmessage_val10 := vsha256hq_u32 stateandmessage_val10 stateandmessage_val11 TMP0 in
  assign stateandmessage_val11 := vsha256h2q_u32 stateandmessage_val11 TMP2 TMP0 in
  assign MSGC0 := vsha256su1q_u32 MSGC0 MSGC2 MSGC3 in
  assign KTMP := vld1q_u32 K 20 in
  assign TMP0 := vaddq_u32 MSGA1 KTMP in
  assign TMP2 := stateandmessage_val6 in
  assign MSGA1 := vsha256su0q_u32 MSGA1 MSGA2 in
  assign stateandmessage_val6 := vsha256hq_u32 stateandmessage_val6 stateandmessage_val7 TMP0 in
  assign stateandmessage_val7 := vsha256h2q_u32 stateandmessage_val7 TMP2 TMP0 in
  assign MSGA1 := vsha256su1q_u32 MSGA1 MSGA3 MSGA0 in
  assign TMP0 := vaddq_u32 MSGB1 KTMP in
  assign TMP2 := stateandmessage_val8 in
  assign MSGB1 := vsha256su0q_u32 MSGB1 MSGB2 in
  assign stateandmessage_val8 := vsha256hq_u32 stateandmessage_val8 stateandmessage_val9 TMP0 in
  assign stateandmessage_val9 := vsha256h2q_u32 stateandmessage_val9 TMP2 TMP0 in
  assign MSGB1 := vsha256su1q_u32 MSGB1 MSGB3 MSGB0 in
  assign TMP0 := vaddq_u32 MSGC1 KTMP in
  assign TMP2 := stateandmessage_val10 in
  assign MSGC1 := vsha256su0q_u32 MSGC1 MSGC2 in
  assign stateandmessage_val10 := vsha256hq_u32 stateandmessage_val10 stateandmessage_val11 TMP0 in
  assign stateandmessage_val11 := vsha256h2q_u32 stateandmessage_val11 TMP2 TMP0 in
  assign MSGC1 := vsha256su1q_u32 MSGC1 MSGC3 MSGC0 in
  assign KTMP := vld1q_u32 K 24 in
  assign TMP0 := vaddq_u32 MSGA2 KTMP in
  assign TMP2 := stateandmessage_val6 in
  assign MSGA2 := vsha256su0q_u32 MSGA2 MSGA3 in
  assign stateandmessage_val6 := vsha256hq_u32 stateandmessage_val6 stateandmessage_val7 TMP0 in
  assign stateandmessage_val7 := vsha256h2q_u32 stateandmessage_val7 TMP2 TMP0 in
  assign MSGA2 := vsha256su1q_u32 MSGA2 MSGA0 MSGA1 in
  assign TMP0 := vaddq_u32 MSGB2 KTMP in
  assign TMP2 := stateandmessage_val8 in
  assign MSGB2 := vsha256su0q_u32 MSGB2 MSGB3 in
  assign stateandmessage_val8 := vsha256hq_u32 stateandmessage_val8 stateandmessage_val9 TMP0 in
  assign stateandmessage_val9 := vsha256h2q_u32 stateandmessage_val9 TMP2 TMP0 in
  assign MSGB2 := vsha256su1q_u32 MSGB2 MSGB0 MSGB1 in
  assign TMP0 := vaddq_u32 MSGC2 KTMP in
  assign TMP2 := stateandmessage_val10 in
  assign MSGC2 := vsha256su0q_u32 MSGC2 MSGC3 in
  assign stateandmessage_val10 := vsha256hq_u32 stateandmessage_val10 stateandmessage_val11 TMP0 in
  assign stateandmessage_val11 := vsha256h2q_u32 stateandmessage_val11 TMP2 TMP0 in
  assign MSGC2 := vsha256su1q_u32 MSGC2 MSGC0 MSGC1 in
  assign KTMP := vld1q_u32 K 28 in
  assign TMP0 := vaddq_u32 MSGA3 KTMP in
  assign TMP2 := stateandmessage_val6 in
  assign MSGA3 := vsha256su0q_u32 MSGA3 MSGA0 in
  assign stateandmessage_val6 := vsha256hq_u32 stateandmessage_val6 stateandmessage_val7 TMP0 in
  assign stateandmessage_val7 := vsha256h2q_u32 stateandmessage_val7 TMP2 TMP0 in
  assign MSGA3 := vsha256su1q_u32 MSGA3 MSGA1 MSGA2 in
  assign TMP0 := vaddq_u32 MSGB3 KTMP in
  assign TMP2 := stateandmessage_val8 in
  assign MSGB3 := vsha256su0q_u32 MSGB3 MSGB0 in
  assign stateandmessage_val8 := vsha256hq_u32 stateandmessage_val8 stateandmessage_val9 TMP0 in
  assign stateandmessage_val9 := vsha256h2q_u32 stateandmessage_val9 TMP2 TMP0 in
  assign MSGB3 := vsha256su1q_u32 MSGB3 MSGB1 MSGB2 in
  assign TMP0 := vaddq_u32 MSGC3 KTMP in
  assign TMP2 := stateandmessage_val10 in
  assign MSGC3 := vsha256su0q_u32 MSGC3 MSGC0 in
  assign stateandmessage_val10 := vsha256hq_u32 stateandmessage_val10 stateandmessage_val11 TMP0 in
  assign stateandmessage_val11 := vsha256h2q_u32 stateandmessage_val11 TMP2 TMP0 in
  assign MSGC3 := vsha256su1q_u32 MSGC3 MSGC1 MSGC2 in
  assign KTMP := vld1q_u32 K 32 in
  assign TMP0 := vaddq_u32 MSGA0 KTMP in
  assign TMP2 := stateandmessage_val6 in
  assign MSGA0 := vsha256su0q_u32 MSGA0 MSGA1 in
  assign stateandmessage_val6 := vsha256hq_u32 stateandmessage_val6 stateandmessage_val7 TMP0 in
  assign stateandmessage_val7 := vsha256h2q_u32 stateandmessage_val7 TMP2 TMP0 in
  assign MSGA0 := vsha256su1q_u32 MSGA0 MSGA2 MSGA3 in
  assign TMP0 := vaddq_u32 MSGB0 KTMP in
  assign TMP2 := stateandmessage_val8 in
  assign MSGB0 := vsha256su0q_u32 MSGB0 MSGB1 in
  assign stateandmessage_val8 := vsha256hq_u32 stateandmessage_val8 stateandmessage_val9 TMP0 in
  assign stateandmessage_val9 := vsha256h2q_u32 stateandmessage_val9 TMP2 TMP0 in
  assign MSGB0 := vsha256su1q_u32 MSGB0 MSGB2 MSGB3 in
  assign TMP0 := vaddq_u32 MSGC0 KTMP in
  assign TMP2 := stateandmessage_val10 in
  assign MSGC0 := vsha256su0q_u32 MSGC0 MSGC1 in
  assign stateandmessage_val10 := vsha256hq_u32 stateandmessage_val10 stateandmessage_val11 TMP0 in
  assign stateandmessage_val11 := vsha256h2q_u32 stateandmessage_val11 TMP2 TMP0 in
  assign MSGC0 := vsha256su1q_u32 MSGC0 MSGC2 MSGC3 in
  assign KTMP := vld1q_u32 K 36 in
  assign TMP0 := vaddq_u32 MSGA1 KTMP in
  assign TMP2 := stateandmessage_val6 in
  assign MSGA1 := vsha256su0q_u32 MSGA1 MSGA2 in
  assign stateandmessage_val6 := vsha256hq_u32 stateandmessage_val6 stateandmessage_val7 TMP0 in
  assign stateandmessage_val7 := vsha256h2q_u32 stateandmessage_val7 TMP2 TMP0 in
  assign MSGA1 := vsha256su1q_u32 MSGA1 MSGA3 MSGA0 in
  assign TMP0 := vaddq_u32 MSGB1 KTMP in
  assign TMP2 := stateandmessage_val8 in
  assign MSGB1 := vsha256su0q_u32 MSGB1 MSGB2 in
  assign stateandmessage_val8 := vsha256hq_u32 stateandmessage_val8 stateandmessage_val9 TMP0 in
  assign stateandmessage_val9 := vsha256h2q_u32 stateandmessage_val9 TMP2 TMP0 in
  assign MSGB1 := vsha256su1q_u32 MSGB1 MSGB3 MSGB0 in
  assign TMP0 := vaddq_u32 MSGC1 KTMP in
  assign TMP2 := stateandmessage_val10 in
  assign MSGC1 := vsha256su0q_u32 MSGC1 MSGC2 in
  assign stateandmessage_val10 := vsha256hq_u32 stateandmessage_val10 stateandmessage_val11 TMP0 in
  assign stateandmessage_val11 := vsha256h2q_u32 stateandmessage_val11 TMP2 TMP0 in
  assign MSGC1 := vsha256su1q_u32 MSGC1 MSGC3 MSGC0 in
  assign KTMP := vld1q_u32 K 40 in
  assign TMP0 := vaddq_u32 MSGA2 KTMP in
  assign TMP2 := stateandmessage_val6 in
  assign MSGA2 := vsha256su0q_u32 MSGA2 MSGA3 in
  assign stateandmessage_val6 := vsha256hq_u32 stateandmessage_val6 stateandmessage_val7 TMP0 in
  assign stateandmessage_val7 := vsha256h2q_u32 stateandmessage_val7 TMP2 TMP0 in
  assign MSGA2 := vsha256su1q_u32 MSGA2 MSGA0 MSGA1 in
  assign TMP0 := vaddq_u32 MSGB2 KTMP in
  assign TMP2 := stateandmessage_val8 in
  assign MSGB2 := vsha256su0q_u32 MSGB2 MSGB3 in
  assign stateandmessage_val8 := vsha256hq_u32 stateandmessage_val8 stateandmessage_val9 TMP0 in
  assign stateandmessage_val9 := vsha256h2q_u32 stateandmessage_val9 TMP2 TMP0 in
  assign MSGB2 := vsha256su1q_u32 MSGB2 MSGB0 MSGB1 in
  assign TMP0 := vaddq_u32 MSGC2 KTMP in
  assign TMP2 := stateandmessage_val10 in
  assign MSGC2 := vsha256su0q_u32 MSGC2 MSGC3 in
  assign stateandmessage_val10 := vsha256hq_u32 stateandmessage_val10 stateandmessage_val11 TMP0 in
  assign stateandmessage_val11 := vsha256h2q_u32 stateandmessage_val11 TMP2 TMP0 in
  assign MSGC2 := vsha256su1q_u32 MSGC2 MSGC0 MSGC1 in
  assign KTMP := vld1q_u32 K 44 in
  assign TMP0 := vaddq_u32 MSGA3 KTMP in
  assign TMP2 := stateandmessage_val6 in
  assign MSGA3 := vsha256su0q_u32 MSGA3 MSGA0 in
  assign stateandmessage_val6 := vsha256hq_u32 stateandmessage_val6 stateandmessage_val7 TMP0 in
  assign stateandmessage_val7 := vsha256h2q_u32 stateandmessage_val7 TMP2 TMP0 in
  assign MSGA3 := vsha256su1q_u32 MSGA3 MSGA1 MSGA2 in
  assign TMP0 := vaddq_u32 MSGB3 KTMP in
  assign TMP2 := stateandmessage_val8 in
  assign MSGB3 := vsha256su0q_u32 MSGB3 MSGB0 in
  assign stateandmessage_val8 := vsha256hq_u32 stateandmessage_val8 stateandmessage_val9 TMP0 in
  assign stateandmessage_val9 := vsha256h2q_u32 stateandmessage_val9 TMP2 TMP0 in
  assign MSGB3 := vsha256su1q_u32 MSGB3 MSGB1 MSGB2 in
  assign TMP0 := vaddq_u32 MSGC3 KTMP in
  assign TMP2 := stateandmessage_val10 in
  assign MSGC3 := vsha256su0q_u32 MSGC3 MSGC0 in
  assign stateandmessage_val10 := vsha256hq_u32 stateandmessage_val10 stateandmessage_val11 TMP0 in
  assign stateandmessage_val11 := vsha256h2q_u32 stateandmessage_val11 TMP2 TMP0 in
  assign MSGC3 := vsha256su1q_u32 MSGC3 MSGC1 MSGC2 in
  assign KTMP := vld1q_u32 K 48 in
  assign TMP0 := vaddq_u32 MSGA0 KTMP in
  assign TMP2 := stateandmessage_val6 in
  assign stateandmessage_val6 := vsha256hq_u32 stateandmessage_val6 stateandmessage_val7 TMP0 in
  assign stateandmessage_val7 := vsha256h2q_u32 stateandmessage_val7 TMP2 TMP0 in
  assign TMP0 := vaddq_u32 MSGB0 KTMP in
  assign TMP2 := stateandmessage_val8 in
  assign stateandmessage_val8 := vsha256hq_u32 stateandmessage_val8 stateandmessage_val9 TMP0 in
  assign stateandmessage_val9 := vsha256h2q_u32 stateandmessage_val9 TMP2 TMP0 in
  assign TMP0 := vaddq_u32 MSGC0 KTMP in
  assign TMP2 := stateandmessage_val10 in
  assign stateandmessage_val10 := vsha256hq_u32 stateandmessage_val10 stateandmessage_val11 TMP0 in
  assign stateandmessage_val11 := vsha256h2q_u32 stateandmessage_val11 TMP2 TMP0 in
  assign KTMP := vld1q_u32 K 52 in
  assign TMP0 := vaddq_u32 MSGA1 KTMP in
  assign TMP2 := stateandmessage_val6 in
  assign stateandmessage_val6 := vsha256hq_u32 stateandmessage_val6 stateandmessage_val7 TMP0 in
  assign stateandmessage_val7 := vsha256h2q_u32 stateandmessage_val7 TMP2 TMP0 in
  assign TMP0 := vaddq_u32 MSGB1 KTMP in
  assign TMP2 := stateandmessage_val8 in
  assign stateandmessage_val8 := vsha256hq_u32 stateandmessage_val8 stateandmessage_val9 TMP0 in
  assign stateandmessage_val9 := vsha256h2q_u32 stateandmessage_val9 TMP2 TMP0 in
  assign TMP0 := vaddq_u32 MSGC1 KTMP in
  assign TMP2 := stateandmessage_val10 in
  assign stateandmessage_val10 := vsha256hq_u32 stateandmessage_val10 stateandmessage_val11 TMP0 in
  assign stateandmessage_val11 := vsha256h2q_u32 stateandmessage_val11 TMP2 TMP0 in
  assign KTMP := vld1q_u32 K 56 in
  assign TMP0 := vaddq_u32 MSGA2 KTMP in
  assign TMP2 := stateandmessage_val6 in
  assign stateandmessage_val6 := vsha256hq_u32 stateandmessage_val6 stateandmessage_val7 TMP0 in
  assign stateandmessage_val7 := vsha256h2q_u32 stateandmessage_val7 TMP2 TMP0 in
  assign TMP0 := vaddq_u32 MSGB2 KTMP in
  assign TMP2 := stateandmessage_val8 in
  assign stateandmessage_val8 := vsha256hq_u32 stateandmessage_val8 stateandmessage_val9 TMP0 in
  assign stateandmessage_val9 := vsha256h2q_u32 stateandmessage_val9 TMP2 TMP0 in
  assign TMP0 := vaddq_u32 MSGC2 KTMP in
  assign TMP2 := stateandmessage_val10 in
  assign stateandmessage_val10 := vsha256hq_u32 stateandmessage_val10 stateandmessage_val11 TMP0 in
  assign stateandmessage_val11 := vsha256h2q_u32 stateandmessage_val11 TMP2 TMP0 in
  assign KTMP := vld1q_u32 K 60 in
  assign TMP0 := vaddq_u32 MSGA3 KTMP in
  assign TMP2 := stateandmessage_val6 in
  assign stateandmessage_val6 := vsha256hq_u32 stateandmessage_val6 stateandmessage_val7 TMP0 in
  assign stateandmessage_val7 := vsha256h2q_u32 stateandmessage_val7 TMP2 TMP0 in
  assign TMP0 := vaddq_u32 MSGB3 KTMP in
  assign TMP2 := stateandmessage_val8 in
  assign stateandmessage_val8 := vsha256hq_u32 stateandmessage_val8 stateandmessage_val9 TMP0 in
  assign stateandmessage_val9 := vsha256h2q_u32 stateandmessage_val9 TMP2 TMP0 in
  assign TMP0 := vaddq_u32 MSGC3 KTMP in
  assign TMP2 := stateandmessage_val10 in
  assign stateandmessage_val10 := vsha256hq_u32 stateandmessage_val10 stateandmessage_val11 TMP0 in
  assign stateandmessage_val11 := vsha256h2q_u32 stateandmessage_val11 TMP2 TMP0 in
  assign stateandmessage_val6 := vaddq_u32 stateandmessage_val6 SHA256INIT0 in
  assign stateandmessage_val7 := vaddq_u32 stateandmessage_val7 SHA256INIT1 in
  assign stateandmessage_val8 := vaddq_u32 stateandmessage_val8 SHA256INIT0 in
  assign stateandmessage_val9 := vaddq_u32 stateandmessage_val9 SHA256INIT1 in
  assign stateandmessage_val10 := vaddq_u32 stateandmessage_val10 SHA256INIT0 in
  assign stateandmessage_val11 := vaddq_u32 stateandmessage_val11 SHA256INIT1 in
  X14 stateandmessage_val0 stateandmessage_val1 stateandmessage_val2 stateandmessage_val3
      stateandmessage_val4 stateandmessage_val5 stateandmessage_val6 stateandmessage_val7
      stateandmessage_val8 stateandmessage_val9 stateandmessage_val10 stateandmessage_val11
      stateandmessage_val12 stateandmessage_val13.

Definition BleMiner4Way_loop (i : nat) (stateandmessage : list Z) (workpad : uint32x4x24_t)
  : uint32x4x24_t :=
  assign workpad_STATEA0 := STATEA0 workpad in
  assign workpad_STATEA1 := STATEA1 workpad in
  assign workpad_STATEB0 := STATEB0 workpad in
  assign workpad_STATEB1 := STATEB1 workpad in
  assign workpad_STATEC0 := STATEC0 workpad in
  assign workpad_STATEC1 := STATEC1 workpad in
  assign workpad_STATED0 := STATED0 workpad in
  assign workpad_STATED1 := STATED1 workpad in
  assign workpad_MSGA0 := MSGA0 workpad in
  assign workpad_MSGA1 := MSGA1 workpad in
  assign workpad_MSGA2 := MSGA2 workpad in
  assign workpad_MSGA3 := MSGA3 workpad in
  assign workpad_MSGB0 := MSGB0 workpad in
  assign workpad_MSGB1 := MSGB1 workpad in
  assign workpad_MSGB2 := MSGB2 workpad in
  assign workpad_MSGB3 := MSGB3 workpad in
  assign workpad_MSGC0 := MSGC0 workpad in
  assign workpad_MSGC1 := MSGC1 workpad in
  assign workpad_MSGC2 := MSGC2 workpad in
  assign workpad_MSGC3 := MSGC3 workpad in
  assign workpad_MSGD0 := MSGD0 workpad in
  assign workpad_MSGD1 := MSGD1 workpad in
  assign workpad_MSGD2 := MSGD2 workpad in
  assign workpad_MSGD3 := MSGD3 workpad in
  assign KTMP := vld1q_u32 K 0 in
  assign TMP0 := vaddq_u32 workpad_MSGA0 KTMP in
  assign TMP2 := workpad_STATEA0 in
  assign workpad_MSGA0 := vsha256su0q_u32 workpad_MSGA0 workpad_MSGA1 in
  assign workpad_STATEA0 := vsha256hq_u32 workpad_STATEA0 workpad_STATEA1 TMP0 in
  assign workpad_STATEA1 := vsha256h2q_u32 workpad_STATEA1 TMP2 TMP0 in
  assign workpad_MSGA0 := vsha256su1q_u32 workpad_MSGA0 workpad_MSGA2 workpad_MSGA3 in
  assign TMP0 := vaddq_u32 workpad_MSGB0 KTMP in
  assign TMP2 := workpad_STATEB0 in
  assign workpad_MSGB0 := vsha256su0q_u32 workpad_MSGB0 workpad_MSGB1 in
  assign workpad_STATEB0 := vsha256hq_u32 workpad_STATEB0 workpad_STATEB1 TMP0 in
  assign workpad_STATEB1 := vsha256h2q_u32 workpad_STATEB1 TMP2 TMP0 in
  assign workpad_MSGB0 := vsha256su1q_u32 workpad_MSGB0 workpad_MSGB2 workpad_MSGB3 in
  assign TMP0 := vaddq_u32 workpad_MSGC0 KTMP in
  assign TMP2 := workpad_STATEC0 in
  assign workpad_MSGC0 := vsha256su0q_u32 workpad_MSGC0 workpad_MSGC1 in
  assign workpad_STATEC0 := vsha256hq_u32 workpad_STATEC0 workpad_STATEC1 TMP0 in
  assign workpad_STATEC1 := vsha256h2q_u32 workpad_STATEC1 TMP2 TMP0 in
  assign workpad_MSGC0 := vsha256su1q_u32 workpad_MSGC0 workpad_MSGC2 workpad_MSGC3 in
  assign TMP0 := vaddq_u32 workpad_MSGD0 KTMP in
  assign TMP2 := workpad_STATED0 in
  assign workpad_MSGD0 := vsha256su0q_u32 workpad_MSGD0 workpad_MSGD1 in
  assign workpad_STATED0 := vsha256hq_u32 workpad_STATED0 workpad_STATED1 TMP0 in
  assign workpad_STATED1 := vsha256h2q_u32 workpad_STATED1 TMP2 TMP0 in
  assign workpad_MSGD0 := vsha256su1q_u32 workpad_MSGD0 workpad_MSGD2 workpad_MSGD3 in
  assign KTMP := vld1q_u32 K 4 in
  assign TMP0 := vaddq_u32 workpad_MSGA1 KTMP in
  assign TMP2 := workpad_STATEA0 in
  assign workpad_MSGA1 := vsha256su0q_u32 workpad_MSGA1 workpad_MSGA2 in
  assign workpad_STATEA0 := vsha256hq_u32 workpad_STATEA0 workpad_STATEA1 TMP0 in
  assign workpad_STATEA1 := vsha256h2q_u32 workpad_STATEA1 TMP2 TMP0 in
  assign workpad_MSGA1 := vsha256su1q_u32 workpad_MSGA1 workpad_MSGA3 workpad_MSGA0 in
  assign TMP0 := vaddq_u32 workpad_MSGB1 KTMP in
  assign TMP2 := workpad_STATEB0 in
  assign workpad_MSGB1 := vsha256su0q_u32 workpad_MSGB1 workpad_MSGB2 in
  assign workpad_STATEB0 := vsha256hq_u32 workpad_STATEB0 workpad_STATEB1 TMP0 in
  assign workpad_STATEB1 := vsha256h2q_u32 workpad_STATEB1 TMP2 TMP0 in
  assign workpad_MSGB1 := vsha256su1q_u32 workpad_MSGB1 workpad_MSGB3 workpad_MSGB0 in
  assign TMP0 := vaddq_u32 workpad_MSGC1 KTMP in
  assign TMP2 := workpad_STATEC0 in
  assign workpad_MSGC1 := vsha256su0q_u32 workpad_MSGC1 workpad_MSGC2 in
  assign workpad_STATEC0 := vsha256hq_u32 workpad_STATEC0 workpad_STATEC1 TMP0 in
  assign workpad_STATEC1 := vsha256h2q_u32 workpad_STATEC1 TMP2 TMP0 in
  assign workpad_MSGC1 := vsha256su1q_u32 workpad_MSGC1 workpad_MSGC3 workpad_MSGC0 in
  assign TMP0 := vaddq_u32 workpad_MSGD1 KTMP in
  assign TMP2 := workpad_STATED0 in
  assign workpad_MSGD1 := vsha256su0q_u32 workpad_MSGD1 workpad_MSGD2 in
  assign workpad_STATED0 := vsha256hq_u32 workpad_STATED0 workpad_STATED1 TMP0 in
  assign workpad_STATED1 := vsha256h2q_u32 workpad_STATED1 TMP2 TMP0 in
  assign workpad_MSGD1 := vsha256su1q_u32 workpad_MSGD1 workpad_MSGD3 workpad_MSGD0 in
  assign KTMP := vld1q_u32 K 8 in
  assign TMP0 := vaddq_u32 workpad_MSGA2 KTMP in
  assign TMP2 := workpad_STATEA0 in
  assign workpad_MSGA2 := vsha256su0q_u32 workpad_MSGA2 workpad_MSGA3 in
  assign workpad_STATEA0 := vsha256hq_u32 workpad_STATEA0 workpad_STATEA1 TMP0 in
  assign workpad_STATEA1 := vsha256h2q_u32 workpad_STATEA1 TMP2 TMP0 in
  assign workpad_MSGA2 := vsha256su1q_u32 workpad_MSGA2 workpad_MSGA0 workpad_MSGA1 in
  assign TMP0 := vaddq_u32 workpad_MSGB2 KTMP in
  assign TMP2 := workpad_STATEB0 in
  assign workpad_MSGB2 := vsha256su0q_u32 workpad_MSGB2 workpad_MSGB3 in
  assign workpad_STATEB0 := vsha256hq_u32 workpad_STATEB0 workpad_STATEB1 TMP0 in
  assign workpad_STATEB1 := vsha256h2q_u32 workpad_STATEB1 TMP2 TMP0 in
  assign workpad_MSGB2 := vsha256su1q_u32 workpad_MSGB2 workpad_MSGB0 workpad_MSGB1 in
  assign TMP0 := vaddq_u32 workpad_MSGC2 KTMP in
  assign TMP2 := workpad_STATEC0 in
  assign workpad_MSGC2 := vsha256su0q_u32 workpad_MSGC2 workpad_MSGC3 in
  assign workpad_STATEC0 := vsha256hq_u32 workpad_STATEC0 workpad_STATEC1 TMP0 in
  assign workpad_STATEC1 := vsha256h2q_u32 workpad_STATEC1 TMP2 TMP0 in
  assign workpad_MSGC2 := vsha256su1q_u32 workpad_MSGC2 workpad_MSGC0 workpad_MSGC1 in
  assign TMP0 := vaddq_u32 workpad_MSGD2 KTMP in
  assign TMP2 := workpad_STATED0 in
  assign workpad_MSGD2 := vsha256su0q_u32 workpad_MSGD2 workpad_MSGD3 in
  assign workpad_STATED0 := vsha256hq_u32 workpad_STATED0 workpad_STATED1 TMP0 in
  assign workpad_STATED1 := vsha256h2q_u32 workpad_STATED1 TMP2 TMP0 in
  assign workpad_MSGD2 := vsha256su1q_u32 workpad_MSGD2 workpad_MSGD0 workpad_MSGD1 in
  assign KTMP := vld1q_u32 K 12 in
  assign TMP0 := vaddq_u32 workpad_MSGA3 KTMP in
  assign TMP2 := workpad_STATEA0 in
  assign workpad_MSGA3 := vsha256su0q_u32 workpad_MSGA3 workpad_MSGA0 in
  assign workpad_STATEA0 := vsha256hq_u32 workpad_STATEA0 workpad_STATEA1 TMP0 in
  assign workpad_STATEA1 := vsha256h2q_u32 workpad_STATEA1 TMP2 TMP0 in
  assign workpad_MSGA3 := vsha256su1q_u32 workpad_MSGA3 workpad_MSGA1 workpad_MSGA2 in
  assign TMP0 := vaddq_u32 workpad_MSGB3 KTMP in
  assign TMP2 := workpad_STATEB0 in
  assign workpad_MSGB3 := vsha256su0q_u32 workpad_MSGB3 workpad_MSGB0 in
  assign workpad_STATEB0 := vsha256hq_u32 workpad_STATEB0 workpad_STATEB1 TMP0 in
  assign workpad_STATEB1 := vsha256h2q_u32 workpad_STATEB1 TMP2 TMP0 in
  assign workpad_MSGB3 := vsha256su1q_u32 workpad_MSGB3 workpad_MSGB1 workpad_MSGB2 in
  assign TMP0 := vaddq_u32 workpad_MSGC3 KTMP in
  assign TMP2 := workpad_STATEC0 in
  assign workpad_MSGC3 := vsha256su0q_u32 workpad_MSGC3 workpad_MSGC0 in
  assign workpad_STATEC0 := vsha256hq_u32 workpad_STATEC0 workpad_STATEC1 TMP0 in
  assign workpad_STATEC1 := vsha256h2q_u32 workpad_STATEC1 TMP2 TMP0 in
  assign workpad_MSGC3 := vsha256su1q_u32 workpad_MSGC3 workpad_MSGC1 workpad_MSGC2 in
  assign TMP0 := vaddq_u32 workpad_MSGD3 KTMP in
  assign TMP2 := workpad_STATED0 in
  assign workpad_MSGD3 := vsha256su0q_u32 workpad_MSGD3 workpad_MSGD0 in
  assign workpad_STATED0 := vsha256hq_u32 workpad_STATED0 workpad_STATED1 TMP0 in
  assign workpad_STATED1 := vsha256h2q_u32 workpad_STATED1 TMP2 TMP0 in
  assign workpad_MSGD3 := vsha256su1q_u32 workpad_MSGD3 workpad_MSGD1 workpad_MSGD2 in
  assign KTMP := vld1q_u32 K 16 in
  assign TMP0 := vaddq_u32 workpad_MSGA0 KTMP in
  assign TMP2 := workpad_STATEA0 in
  assign workpad_MSGA0 := vsha256su0q_u32 workpad_MSGA0 workpad_MSGA1 in
  assign workpad_STATEA0 := vsha256hq_u32 workpad_STATEA0 workpad_STATEA1 TMP0 in
  assign workpad_STATEA1 := vsha256h2q_u32 workpad_STATEA1 TMP2 TMP0 in
  assign workpad_MSGA0 := vsha256su1q_u32 workpad_MSGA0 workpad_MSGA2 workpad_MSGA3 in
  assign TMP0 := vaddq_u32 workpad_MSGB0 KTMP in
  assign TMP2 := workpad_STATEB0 in
  assign workpad_MSGB0 := vsha256su0q_u32 workpad_MSGB0 workpad_MSGB1 in
  assign workpad_STATEB0 := vsha256hq_u32 workpad_STATEB0 workpad_STATEB1 TMP0 in
  assign workpad_STATEB1 := vsha256h2q_u32 workpad_STATEB1 TMP2 TMP0 in
  assign workpad_MSGB0 := vsha256su1q_u32 workpad_MSGB0 workpad_MSGB2 workpad_MSGB3 in
  assign TMP0 := vaddq_u32 workpad_MSGC0 KTMP in
  assign TMP2 := workpad_STATEC0 in
  assign workpad_MSGC0 := vsha256su0q_u32 workpad_MSGC0 workpad_MSGC1 in
  assign workpad_STATEC0 := vsha256hq_u32 workpad_STATEC0 workpad_STATEC1 TMP0 in
  assign workpad_STATEC1 := vsha256h2q_u32 workpad_STATEC1 TMP2 TMP0 in
  assign workpad_MSGC0 := vsha256su1q_u32 workpad_MSGC0 workpad_MSGC2 workpad_MSGC3 in
  assign TMP0 := vaddq_u32 workpad_MSGD0 KTMP in
  assign TMP2 := workpad_STATED0 in
  assign workpad_MSGD0 := vsha256su0q_u32 workpad_MSGD0 workpad_MSGD1 in
  assign workpad_STATED0 := vsha256hq_u32 workpad_STATED0 workpad_STATED1 TMP0 in
  assign workpad_STATED1 := vsha256h2q_u32 workpad_STATED1 TMP2 TMP0 in
  assign workpad_MSGD0 := vsha256su1q_u32 workpad_MSGD0 workpad_MSGD2 workpad_MSGD3 in
  assign KTMP := vld1q_u32 K 20 in
  assign TMP0 := vaddq_u32 workpad_MSGA1 KTMP in
  assign TMP2 := workpad_STATEA0 in
  assign workpad_MSGA1 := vsha256su0q_u32 workpad_MSGA1 workpad_MSGA2 in
  assign workpad_STATEA0 := vsha256hq_u32 workpad_STATEA0 workpad_STATEA1 TMP0 in
  assign workpad_STATEA1 := vsha256h2q_u32 workpad_STATEA1 TMP2 TMP0 in
  assign workpad_MSGA1 := vsha256su1q_u32 workpad_MSGA1 workpad_MSGA3 workpad_MSGA0 in
  assign TMP0 := vaddq_u32 workpad_MSGB1 KTMP in
  assign TMP2 := workpad_STATEB0 in
  assign workpad_MSGB1 := vsha256su0q_u32 workpad_MSGB1 workpad_MSGB2 in
  assign workpad_STATEB0 := vsha256hq_u32 workpad_STATEB0 workpad_STATEB1 TMP0 in
  assign workpad_STATEB1 := vsha256h2q_u32 workpad_STATEB1 TMP2 TMP0 in
  assign workpad_MSGB1 := vsha256su1q_u32 workpad_MSGB1 workpad_MSGB3 workpad_MSGB0 in
  assign TMP0 := vaddq_u32 workpad_MSGC1 KTMP in
  assign TMP2 := workpad_STATEC0 in
  assign workpad_MSGC1 := vsha256su0q_u32 workpad_MSGC1 workpad_MSGC2 in
  assign workpad_STATEC0 := vsha256hq_u32 workpad_STATEC0 workpad_STATEC1 TMP0 in
  assign workpad_STATEC1 := vsha256h2q_u32 workpad_STATEC1 TMP2 TMP0 in
  assign workpad_MSGC1 := vsha256su1q_u32 workpad_MSGC1 workpad_MSGC3 workpad_MSGC0 in
  assign TMP0 := vaddq_u32 workpad_MSGD1 KTMP in
  assign TMP2 := workpad_STATED0 in
  assign workpad_MSGD1 := vsha256su0q_u32 workpad_MSGD1 workpad_MSGD2 in
  assign workpad_STATED0 := vsha256hq_u32 workpad_STATED0 workpad_STATED1 TMP0 in
  assign workpad_STATED1 := vsha256h2q_u32 workpad_STATED1 TMP2 TMP0 in
  assign workpad_MSGD1 := vsha256su1q_u32 workpad_MSGD1 workpad_MSGD3 workpad_MSGD0 in
  assign KTMP := vld1q_u32 K 24 in
  assign TMP0 := vaddq_u32 workpad_MSGA2 KTMP in
  assign TMP2 := workpad_STATEA0 in
  assign workpad_MSGA2 := vsha256su0q_u32 workpad_MSGA2 workpad_MSGA3 in
  assign workpad_STATEA0 := vsha256hq_u32 workpad_STATEA0 workpad_STATEA1 TMP0 in
  assign workpad_STATEA1 := vsha256h2q_u32 workpad_STATEA1 TMP2 TMP0 in
  assign workpad_MSGA2 := vsha256su1q_u32 workpad_MSGA2 workpad_MSGA0 workpad_MSGA1 in
  assign TMP0 := vaddq_u32 workpad_MSGB2 KTMP in
  assign TMP2 := workpad_STATEB0 in
  assign workpad_MSGB2 := vsha256su0q_u32 workpad_MSGB2 workpad_MSGB3 in
  assign workpad_STATEB0 := vsha256hq_u32 workpad_STATEB0 workpad_STATEB1 TMP0 in
  assign workpad_STATEB1 := vsha256h2q_u32 workpad_STATEB1 TMP2 TMP0 in
  assign workpad_MSGB2 := vsha256su1q_u32 workpad_MSGB2 workpad_MSGB0 workpad_MSGB1 in
  assign TMP0 := vaddq_u32 workpad_MSGC2 KTMP in
  assign TMP2 := workpad_STATEC0 in
  assign workpad_MSGC2 := vsha256su0q_u32 workpad_MSGC2 workpad_MSGC3 in
  assign workpad_STATEC0 := vsha256hq_u32 workpad_STATEC0 workpad_STATEC1 TMP0 in
  assign workpad_STATEC1 := vsha256h2q_u32 workpad_STATEC1 TMP2 TMP0 in
  assign workpad_MSGC2 := vsha256su1q_u32 workpad_MSGC2 workpad_MSGC0 workpad_MSGC1 in
  assign TMP0 := vaddq_u32 workpad_MSGD2 KTMP in
  assign TMP2 := workpad_STATED0 in
  assign workpad_MSGD2 := vsha256su0q_u32 workpad_MSGD2 workpad_MSGD3 in
  assign workpad_STATED0 := vsha256hq_u32 workpad_STATED0 workpad_STATED1 TMP0 in
  assign workpad_STATED1 := vsha256h2q_u32 workpad_STATED1 TMP2 TMP0 in
  assign workpad_MSGD2 := vsha256su1q_u32 workpad_MSGD2 workpad_MSGD0 workpad_MSGD1 in
  assign KTMP := vld1q_u32 K 28 in
  assign TMP0 := vaddq_u32 workpad_MSGA3 KTMP in
  assign TMP2 := workpad_STATEA0 in
  assign workpad_MSGA3 := vsha256su0q_u32 workpad_MSGA3 workpad_MSGA0 in
  assign workpad_STATEA0 := vsha256hq_u32 workpad_STATEA0 workpad_STATEA1 TMP0 in
  assign workpad_STATEA1 := vsha256h2q_u32 workpad_STATEA1 TMP2 TMP0 in
  assign workpad_MSGA3 := vsha256su1q_u32 workpad_MSGA3 workpad_MSGA1 workpad_MSGA2 in
  assign TMP0 := vaddq_u32 workpad_MSGB3 KTMP in
  assign TMP2 := workpad_STATEB0 in
  assign workpad_MSGB3 := vsha256su0q_u32 workpad_MSGB3 workpad_MSGB0 in
  assign workpad_STATEB0 := vsha256hq_u32 workpad_STATEB0 workpad_STATEB1 TMP0 in
  assign workpad_STATEB1 := vsha256h2q_u32 workpad_STATEB1 TMP2 TMP0 in
  assign workpad_MSGB3 := vsha256su1q_u32 workpad_MSGB3 workpad_MSGB1 workpad_MSGB2 in
  assign TMP0 := vaddq_u32 workpad_MSGC3 KTMP in
  assign TMP2 := workpad_STATEC0 in
  assign workpad_MSGC3 := vsha256su0q_u32 workpad_MSGC3 workpad_MSGC0 in
  assign workpad_STATEC0 := vsha256hq_u32 workpad_STATEC0 workpad_STATEC1 TMP0 in
  assign workpad_STATEC1 := vsha256h2q_u32 workpad_STATEC1 TMP2 TMP0 in
  assign workpad_MSGC3 := vsha256su1q_u32 workpad_MSGC3 workpad_MSGC1 workpad_MSGC2 in
  assign TMP0 := vaddq_u32 workpad_MSGD3 KTMP in
  assign TMP2 := workpad_STATED0 in
  assign workpad_MSGD3 := vsha256su0q_u32 workpad_MSGD3 workpad_MSGD0 in
  assign workpad_STATED0 := vsha256hq_u32 workpad_STATED0 workpad_STATED1 TMP0 in
  assign workpad_STATED1 := vsha256h2q_u32 workpad_STATED1 TMP2 TMP0 in
  assign workpad_MSGD3 := vsha256su1q_u32 workpad_MSGD3 workpad_MSGD1 workpad_MSGD2 in
  assign KTMP := vld1q_u32 K 32 in
  assign TMP0 := vaddq_u32 workpad_MSGA0 KTMP in
  assign TMP2 := workpad_STATEA0 in
  assign workpad_MSGA0 := vsha256su0q_u32 workpad_MSGA0 workpad_MSGA1 in
  assign workpad_STATEA0 := vsha256hq_u32 workpad_STATEA0 workpad_STATEA1 TMP0 in
  assign workpad_STATEA1 := vsha256h2q_u32 workpad_STATEA1 TMP2 TMP0 in
  assign workpad_MSGA0 := vsha256su1q_u32 workpad_MSGA0 workpad_MSGA2 workpad_MSGA3 in
  assign TMP0 := vaddq_u32 workpad_MSGB0 KTMP in
  assign TMP2 := workpad_STATEB0 in
  assign workpad_MSGB0 := vsha256su0q_u32 workpad_MSGB0 workpad_MSGB1 in
  assign workpad_STATEB0 := vsha256hq_u32 workpad_STATEB0 workpad_STATEB1 TMP0 in
  assign workpad_STATEB1 := vsha256h2q_u32 workpad_STATEB1 TMP2 TMP0 in
  assign workpad_MSGB0 := vsha256su1q_u32 workpad_MSGB0 workpad_MSGB2 workpad_MSGB3 in
  assign TMP0 := vaddq_u32 workpad_MSGC0 KTMP in
  assign TMP2 := workpad_STATEC0 in
  assign workpad_MSGC0 := vsha256su0q_u32 workpad_MSGC0 workpad_MSGC1 in
  assign workpad_STATEC0 := vsha256hq_u32 workpad_STATEC0 workpad_STATEC1 TMP0 in
  assign workpad_STATEC1 := vsha256h2q_u32 workpad_STATEC1 TMP2 TMP0 in
  assign workpad_MSGC0 := vsha256su1q_u32 workpad_MSGC0 workpad_MSGC2 workpad_MSGC3 in
  assign TMP0 := vaddq_u32 workpad_MSGD0 KTMP in
  assign TMP2 := workpad_STATED0 in
  assign workpad_MSGD0 := vsha256su0q_u32 workpad_MSGD0 workpad_MSGD1 in
  assign workpad_STATED0 := vsha256hq_u32 workpad_STATED0 workpad_STATED1 TMP0 in
  assign workpad_STATED1 := vsha256h2q_u32 workpad_STATED1 TMP2 TMP0 in
  assign workpad_MSGD0 := vsha256su1q_u32 workpad_MSGD0 workpad_MSGD2 workpad_MSGD3 in
  assign KTMP := vld1q_u32 K 36 in
  assign TMP0 := vaddq_u32 workpad_MSGA1 KTMP in
  assign TMP2 := workpad_STATEA0 in
  assign workpad_MSGA1 := vsha256su0q_u32 workpad_MSGA1 workpad_MSGA2 in
  assign workpad_STATEA0 := vsha256hq_u32 workpad_STATEA0 workpad_STATEA1 TMP0 in
  assign workpad_STATEA1 := vsha256h2q_u32 workpad_STATEA1 TMP2 TMP0 in
  assign workpad_MSGA1 := vsha256su1q_u32 workpad_MSGA1 workpad_MSGA3 workpad_MSGA0 in
  assign TMP0 := vaddq_u32 workpad_MSGB1 KTMP in
  assign TMP2 := workpad_STATEB0 in
  assign workpad_MSGB1 := vsha256su0q_u32 workpad_MSGB1 workpad_MSGB2 in
  assign workpad_STATEB0 := vsha256hq_u32 workpad_STATEB0 workpad_STATEB1 TMP0 in
  assign workpad_STATEB1 := vsha256h2q_u32 workpad_STATEB1 TMP2 TMP0 in
  assign workpad_MSGB1 := vsha256su1q_u32 workpad_MSGB1 workpad_MSGB3 workpad_MSGB0 in
  assign TMP0 := vaddq_u32 workpad_MSGC1 KTMP in
  assign TMP2 := workpad_STATEC0 in
  assign workpad_MSGC1 := vsha256su0q_u32 workpad_MSGC1 workpad_MSGC2 in
  assign workpad_STATEC0 := vsha256hq_u32 workpad_STATEC0 workpad_STATEC1 TMP0 in
  assign workpad_STATEC1 := vsha256h2q_u32 workpad_STATEC1 TMP2 TMP0 in
  assign workpad_MSGC1 := vsha256su1q_u32 workpad_MSGC1 workpad_MSGC3 workpad_MSGC0 in
  assign TMP0 := vaddq_u32 workpad_MSGD1 KTMP in
  assign TMP2 := workpad_STATED0 in
  assign workpad_MSGD1 := vsha256su0q_u32 workpad_MSGD1 workpad_MSGD2 in
  assign workpad_STATED0 := vsha256hq_u32 workpad_STATED0 workpad_STATED1 TMP0 in
  assign workpad_STATED1 := vsha256h2q_u32 workpad_STATED1 TMP2 TMP0 in
  assign workpad_MSGD1 := vsha256su1q_u32 workpad_MSGD1 workpad_MSGD3 workpad_MSGD0 in
  assign KTMP := vld1q_u32 K 40 in
  assign TMP0 := vaddq_u32 workpad_MSGA2 KTMP in
  assign TMP2 := workpad_STATEA0 in
  assign workpad_MSGA2 := vsha256su0q_u32 workpad_MSGA2 workpad_MSGA3 in
  assign workpad_STATEA0 := vsha256hq_u32 workpad_STATEA0 workpad_STATEA1 TMP0 in
  assign workpad_STATEA1 := vsha256h2q_u32 workpad_STATEA1 TMP2 TMP0 in
  assign workpad_MSGA2 := vsha256su1q_u32 workpad_MSGA2 workpad_MSGA0 workpad_MSGA1 in
  assign TMP0 := vaddq_u32 workpad_MSGB2 KTMP in
  assign TMP2 := workpad_STATEB0 in
  assign workpad_MSGB2 := vsha256su0q_u32 workpad_MSGB2 workpad_MSGB3 in
  assign workpad_STATEB0 := vsha256hq_u32 workpad_STATEB0 workpad_STATEB1 TMP0 in
  assign workpad_STATEB1 := vsha256h2q_u32 workpad_STATEB1 TMP2 TMP0 in
  assign workpad_MSGB2 := vsha256su1q_u32 workpad_MSGB2 workpad_MSGB0 workpad_MSGB1 in
  assign TMP0 := vaddq_u32 workpad_MSGC2 KTMP in
  assign TMP2 := workpad_STATEC0 in
  assign workpad_MSGC2 := vsha256su0q_u32 workpad_MSGC2 workpad_MSGC3 in
  assign workpad_STATEC0 := vsha256hq_u32 workpad_STATEC0 workpad_STATEC1 TMP0 in
  assign workpad_STATEC1 := vsha256h2q_u32 workpad_STATEC1 TMP2 TMP0 in
  assign workpad_MSGC2 := vsha256su1q_u32 workpad_MSGC2 workpad_MSGC0 workpad_MSGC1 in
  assign TMP0 := vaddq_u32 workpad_MSGD2 KTMP in
  assign TMP2 := workpad_STATED0 in
  assign workpad_MSGD2 := vsha256su0q_u32 workpad_MSGD2 workpad_MSGD3 in
  assign workpad_STATED0 := vsha256hq_u32 workpad_STATED0 workpad_STATED1 TMP0 in
  assign workpad_STATED1 := vsha256h2q_u32 workpad_STATED1 TMP2 TMP0 in
  assign workpad_MSGD2 := vsha256su1q_u32 workpad_MSGD2 workpad_MSGD0 workpad_MSGD1 in
  assign KTMP := vld1q_u32 K 44 in
  assign TMP0 := vaddq_u32 workpad_MSGA3 KTMP in
  assign TMP2 := workpad_STATEA0 in
  assign workpad_MSGA3 := vsha256su0q_u32 workpad_MSGA3 workpad_MSGA0 in
  assign workpad_STATEA0 := vsha256hq_u32 workpad_STATEA0 workpad_STATEA1 TMP0 in
  assign workpad_STATEA1 := vsha256h2q_u32 workpad_STATEA1 TMP2 TMP0 in
  assign workpad_MSGA3 := vsha256su1q_u32 workpad_MSGA3 workpad_MSGA1 workpad_MSGA2 in
  assign TMP0 := vaddq_u32 workpad_MSGB3 KTMP in
  assign TMP2 := workpad_STATEB0 in
  assign workpad_MSGB3 := vsha256su0q_u32 workpad_MSGB3 workpad_MSGB0 in
  assign workpad_STATEB0 := vsha256hq_u32 workpad_STATEB0 workpad_STATEB1 TMP0 in
  assign workpad_STATEB1 := vsha256h2q_u32 workpad_STATEB1 TMP2 TMP0 in
  assign workpad_MSGB3 := vsha256su1q_u32 workpad_MSGB3 workpad_MSGB1 workpad_MSGB2 in
  assign TMP0 := vaddq_u32 workpad_MSGC3 KTMP in
  assign TMP2 := workpad_STATEC0 in
  assign workpad_MSGC3 := vsha256su0q_u32 workpad_MSGC3 workpad_MSGC0 in
  assign workpad_STATEC0 := vsha256hq_u32 workpad_STATEC0 workpad_STATEC1 TMP0 in
  assign workpad_STATEC1 := vsha256h2q_u32 workpad_STATEC1 TMP2 TMP0 in
  assign workpad_MSGC3 := vsha256su1q_u32 workpad_MSGC3 workpad_MSGC1 workpad_MSGC2 in
  assign TMP0 := vaddq_u32 workpad_MSGD3 KTMP in
  assign TMP2 := workpad_STATED0 in
  assign workpad_MSGD3 := vsha256su0q_u32 workpad_MSGD3 workpad_MSGD0 in
  assign workpad_STATED0 := vsha256hq_u32 workpad_STATED0 workpad_STATED1 TMP0 in
  assign workpad_STATED1 := vsha256h2q_u32 workpad_STATED1 TMP2 TMP0 in
  assign workpad_MSGD3 := vsha256su1q_u32 workpad_MSGD3 workpad_MSGD1 workpad_MSGD2 in
  assign KTMP := vld1q_u32 K 48 in
  assign TMP0 := vaddq_u32 workpad_MSGA0 KTMP in
  assign TMP2 := workpad_STATEA0 in
  assign workpad_STATEA0 := vsha256hq_u32 workpad_STATEA0 workpad_STATEA1 TMP0 in
  assign workpad_STATEA1 := vsha256h2q_u32 workpad_STATEA1 TMP2 TMP0 in
  assign TMP0 := vaddq_u32 workpad_MSGB0 KTMP in
  assign TMP2 := workpad_STATEB0 in
  assign workpad_STATEB0 := vsha256hq_u32 workpad_STATEB0 workpad_STATEB1 TMP0 in
  assign workpad_STATEB1 := vsha256h2q_u32 workpad_STATEB1 TMP2 TMP0 in
  assign TMP0 := vaddq_u32 workpad_MSGC0 KTMP in
  assign TMP2 := workpad_STATEC0 in
  assign workpad_STATEC0 := vsha256hq_u32 workpad_STATEC0 workpad_STATEC1 TMP0 in
  assign workpad_STATEC1 := vsha256h2q_u32 workpad_STATEC1 TMP2 TMP0 in
  assign TMP0 := vaddq_u32 workpad_MSGD0 KTMP in
  assign TMP2 := workpad_STATED0 in
  assign workpad_STATED0 := vsha256hq_u32 workpad_STATED0 workpad_STATED1 TMP0 in
  assign workpad_STATED1 := vsha256h2q_u32 workpad_STATED1 TMP2 TMP0 in
  assign KTMP := vld1q_u32 K 52 in
  assign TMP0 := vaddq_u32 workpad_MSGA1 KTMP in
  assign TMP2 := workpad_STATEA0 in
  assign workpad_STATEA0 := vsha256hq_u32 workpad_STATEA0 workpad_STATEA1 TMP0 in
  assign workpad_STATEA1 := vsha256h2q_u32 workpad_STATEA1 TMP2 TMP0 in
  assign TMP0 := vaddq_u32 workpad_MSGB1 KTMP in
  assign TMP2 := workpad_STATEB0 in
  assign workpad_STATEB0 := vsha256hq_u32 workpad_STATEB0 workpad_STATEB1 TMP0 in
  assign workpad_STATEB1 := vsha256h2q_u32 workpad_STATEB1 TMP2 TMP0 in
  assign TMP0 := vaddq_u32 workpad_MSGC1 KTMP in
  assign TMP2 := workpad_STATEC0 in
  assign workpad_STATEC0 := vsha256hq_u32 workpad_STATEC0 workpad_STATEC1 TMP0 in
  assign workpad_STATEC1 := vsha256h2q_u32 workpad_STATEC1 TMP2 TMP0 in
  assign TMP0 := vaddq_u32 workpad_MSGD1 KTMP in
  assign TMP2 := workpad_STATED0 in
  assign workpad_STATED0 := vsha256hq_u32 workpad_STATED0 workpad_STATED1 TMP0 in
  assign workpad_STATED1 := vsha256h2q_u32 workpad_STATED1 TMP2 TMP0 in
  assign KTMP := vld1q_u32 K 56 in
  assign TMP0 := vaddq_u32 workpad_MSGA2 KTMP in
  assign TMP2 := workpad_STATEA0 in
  assign workpad_STATEA0 := vsha256hq_u32 workpad_STATEA0 workpad_STATEA1 TMP0 in
  assign workpad_STATEA1 := vsha256h2q_u32 workpad_STATEA1 TMP2 TMP0 in
  assign TMP0 := vaddq_u32 workpad_MSGB2 KTMP in
  assign TMP2 := workpad_STATEB0 in
  assign workpad_STATEB0 := vsha256hq_u32 workpad_STATEB0 workpad_STATEB1 TMP0 in
  assign workpad_STATEB1 := vsha256h2q_u32 workpad_STATEB1 TMP2 TMP0 in
  assign TMP0 := vaddq_u32 workpad_MSGC2 KTMP in
  assign TMP2 := workpad_STATEC0 in
  assign workpad_STATEC0 := vsha256hq_u32 workpad_STATEC0 workpad_STATEC1 TMP0 in
  assign workpad_STATEC1 := vsha256h2q_u32 workpad_STATEC1 TMP2 TMP0 in
  assign TMP0 := vaddq_u32 workpad_MSGD2 KTMP in
  assign TMP2 := workpad_STATED0 in
  assign workpad_STATED0 := vsha256hq_u32 workpad_STATED0 workpad_STATED1 TMP0 in
  assign workpad_STATED1 := vsha256h2q_u32 workpad_STATED1 TMP2 TMP0 in
  assign KTMP := vld1q_u32 K 60 in
  assign TMP0 := vaddq_u32 workpad_MSGA3 KTMP in
  assign TMP2 := workpad_STATEA0 in
  assign workpad_STATEA0 := vsha256hq_u32 workpad_STATEA0 workpad_STATEA1 TMP0 in
  assign workpad_STATEA1 := vsha256h2q_u32 workpad_STATEA1 TMP2 TMP0 in
  assign TMP0 := vaddq_u32 workpad_MSGB3 KTMP in
  assign TMP2 := workpad_STATEB0 in
  assign workpad_STATEB0 := vsha256hq_u32 workpad_STATEB0 workpad_STATEB1 TMP0 in
  assign workpad_STATEB1 := vsha256h2q_u32 workpad_STATEB1 TMP2 TMP0 in
  assign TMP0 := vaddq_u32 workpad_MSGC3 KTMP in
  assign TMP2 := workpad_STATEC0 in
  assign workpad_STATEC0 := vsha256hq_u32 workpad_STATEC0 workpad_STATEC1 TMP0 in
  assign workpad_STATEC1 := vsha256h2q_u32 workpad_STATEC1 TMP2 TMP0 in
  assign TMP0 := vaddq_u32 workpad_MSGD3 KTMP in
  assign TMP2 := workpad_STATED0 in
  assign workpad_STATED0 := vsha256hq_u32 workpad_STATED0 workpad_STATED1 TMP0 in
  assign workpad_STATED1 := vsha256h2q_u32 workpad_STATED1 TMP2 TMP0 in
  if (i =? 0)%nat then
    assign TMP0 := vld1q_u32 stateandmessage 0 in
    assign TMP2 := vld1q_u32 stateandmessage 4 in
    assign workpad_MSGA0 := vaddq_u32 workpad_STATEA0 TMP0 in
    assign workpad_MSGA1 := vaddq_u32 workpad_STATEA1 TMP2 in
    assign workpad_MSGA2 := vld1q_u32 stateandmessage 32 in
    assign workpad_MSGA3 := vld1q_u32 stateandmessage 36 in
    assign workpad_MSGB0 := vaddq_u32 workpad_STATEB0 TMP0 in
    assign workpad_MSGB1 := vaddq_u32 workpad_STATEB1 TMP2 in
    assign workpad_MSGB2 := workpad_MSGA2 in
    assign workpad_MSGB3 := workpad_MSGA3 in
    assign workpad_MSGC0 := vaddq_u32 workpad_STATEC0 TMP0 in
    assign workpad_MSGC1 := vaddq_u32 workpad_STATEC1 TMP2 in
    assign workpad_MSGC2 := workpad_MSGA2 in
    assign workpad_MSGC3 := workpad_MSGA3 in
    assign workpad_MSGD0 := vaddq_u32 workpad_STATED0 TMP0 in
    assign workpad_MSGD1 := vaddq_u32 workpad_STATED1 TMP2 in
    assign workpad_MSGD2 := workpad_MSGA2 in
    assign workpad_MSGD3 := workpad_MSGA3 in
    assign TMP0 := vld1q_u32 stateandmessage 24 in
    assign TMP2 := vld1q_u32 stateandmessage 28 in
    assign workpad_STATEA0 := TMP0 in
    assign workpad_STATEA1 := TMP2 in
    assign workpad_STATEB0 := TMP0 in
    assign workpad_STATEB1 := TMP2 in
    assign workpad_STATEC0 := TMP0 in
    assign workpad_STATEC1 := TMP2 in
    assign workpad_STATED0 := TMP0 in
    assign workpad_STATED1 := TMP2 in
    X24 workpad_STATEA0 workpad_STATEA1 workpad_STATEB0 workpad_STATEB1
        workpad_STATEC0 workpad_STATEC1 workpad_STATED0 workpad_STATED1
        workpad_MSGA0 workpad_MSGA1 workpad_MSGA2 workpad_MSGA3
        workpad_MSGB0 workpad_MSGB1 workpad_MSGB2 workpad_MSGB3
        workpad_MSGC0 workpad_MSGC1 workpad_MSGC2 workpad_MSGC3
        workpad_MSGD0 workpad_MSGD1 workpad_MSGD2 workpad_MSGD3
  else
    X24 workpad_STATEA0 workpad_STATEA1 workpad_STATEB0 workpad_STATEB1
        workpad_STATEC0 workpad_STATEC1 workpad_STATED0 workpad_STATED1
        workpad_MSGA0 workpad_MSGA1 workpad_MSGA2 workpad_MSGA3
        workpad_MSGB0 workpad_MSGB1 workpad_MSGB2 workpad_MSGB3
        workpad_MSGC0 workpad_MSGC1 workpad_MSGC2 workpad_MSGC3
        workpad_MSGD0 workpad_MSGD1 workpad_MSGD2 workpad_MSGD3.

Definition BleMiner4Way (stateandmessage : list Z) (workpad : uint32x4x24_t)
  : list Z * uint32x4x24_t :=
  assign workpad_STATEA0 := vld1q_u32 stateandmessage 0 in
  assign workpad_STATEA1 := vld1q_u32 stateandmessage 4 in
  assign workpad_STATEB0 := workpad_STATEA0 in
  assign workpad_STATEB1 := workpad_STATEA1 in
  assign workpad_STATEC0 := workpad_STATEA0 in
  assign workpad_STATEC1 := workpad_STATEA1 in
  assign workpad_STATED0 := workpad_STATEA0 in
  assign workpad_STATED1 := workpad_STATEA1 in
  assign workpad_MSGA0 := vld1q_u32 stateandmessage 8 in
  assign workpad_MSGA1 := vld1q_u32 stateandmessage 12 in
  assign workpad_MSGA2 := vreinterpretq_u32_u8 (vrev32q_u8 (vreinterpretq_u8_u32 (vld1q_u32 stateandmessage 16))) in
  assign workpad_MSGA3 := vld1q_u32 stateandmessage 20 in
  assign stateandmessage := store stateandmessage 19 (add32 (nth 19 stateandmessage 0) 1) in
  assign workpad_MSGB0 := workpad_MSGA0 in
  assign workpad_MSGB1 := workpad_MSGA1 in
  assign workpad_MSGB2 := vreinterpretq_u32_u8 (vrev32q_u8 (vreinterpretq_u8_u32 (vld1q_u32 stateandmessage 16))) in
  assign workpad_MSGB3 := workpad_MSGA3 in
  assign stateandmessage := store stateandmessage 19 (add32 (nth 19 stateandmessage 0) 1) in
  assign workpad_MSGC0 := workpad_MSGA0 in
  assign workpad_MSGC1 := workpad_MSGA1 in
  assign workpad_MSGC2 := vreinterpretq_u32_u8 (vrev32q_u8 (vreinterpretq_u8_u32 (vld1q_u32 stateandmessage 16))) in
  assign workpad_MSGC3 := workpad_MSGA3 in
  assign stateandmessage := store stateandmessage 19 (add32 (nth 19 stateandmessage 0) 1) in
  assign workpad_MSGD0 := workpad_MSGA0 in
  assign workpad_MSGD1 := workpad_MSGA1 in
  assign workpad_MSGD2 := vreinterpretq_u32_u8 (vrev32q_u8 (vreinterpretq_u8_u32 (vld1q_u32 stateandmessage 16))) in
  assign workpad_MSGD3 := workpad_MSGA3 in
  assign stateandmessage := store stateandmessage 19 (add32 (nth 19 stateandmessage 0) 1) in
  assign workpad := X24 workpad_STATEA0 workpad_STATEA1 workpad_STATEB0 workpad_STATEB1
      workpad_STATEC0 workpad_STATEC1 workpad_STATED0 workpad_STATED1
      workpad_MSGA0 workpad_MSGA1 workpad_MSGA2 workpad_MSGA3
      workpad_MSGB0 workpad_MSGB1 workpad_MSGB2 workpad_MSGB3
      workpad_MSGC0 workpad_MSGC1 workpad_MSGC2 workpad_MSGC3
      workpad_MSGD0 workpad_MSGD1 workpad_MSGD2 workpad_MSGD3 in
  assign workpad := fold_left (fun wp i => BleMiner4Way_loop i stateandmessage wp) [0; 1]%nat workpad in
  assign workpad_STATEA0 := STATEA0 workpad in
  assign workpad_STATEA1 := STATEA1 workpad in
  assign workpad_STATEB0 := STATEB0 workpad in
  assign workpad_STATEB1 := STATEB1 workpad in
  assign workpad_STATEC0 := STATEC0 workpad in
  assign workpad_STATEC1 := STATEC1 workpad in
  assign workpad_STATED0 := STATED0 workpad in
  assign workpad_STATED1 := STATED1 workpad in
  assign workpad_MSGA0 := MSGA0 workpad in
  assign workpad_MSGA1 := MSGA1 workpad in
  assign workpad_MSGA2 := MSGA2 workpad in
  assign workpad_MSGA3 := MSGA3 workpad in
  assign workpad_MSGB0 := MSGB0 workpad in
  assign workpad_MSGB1 := MSGB1 workpad in
  assign workpad_MSGB2 := MSGB2 workpad in
  assign workpad_MSGB3 := MSGB3 workpad in
  assign workpad_MSGC0 := MSGC0 workpad in
  assign workpad_MSGC1 := MSGC1 workpad in
  assign workpad_MSGC2 := MSGC2 workpad in
  assign workpad_MSGC3 := MSGC3 workpad in
  assign workpad_MSGD0 := MSGD0 workpad in
  assign workpad_MSGD1 := MSGD1 workpad in
  assign workpad_MSGD2 := MSGD2 workpad in
  assign workpad_MSGD3 := MSGD3 workpad in
  assign TMP0 := vld1q_u32 stateandmessage 24 in
  assign TMP2 := vld1q_u32 stateandmessage 28 in
  assign workpad_STATEA0 := vaddq_u32 workpad_STATEA0 TMP0 in
  assign workpad_STATEA1 := vaddq_u32 workpad_STATEA1 TMP2 in
  assign workpad_STATEB0 := vaddq_u32 workpad_STATEB0 TMP0 in
  assign workpad_STATEB1 := vaddq_u32 workpad_STATEB1 TMP2 in
  assign workpad_STATEC0 := vaddq_u32 workpad_STATEC0 TMP0 in
  assign workpad_STATEC1 := vaddq_u32 workpad_STATEC1 TMP2 in
  assign workpad_STATED0 := vaddq_u32 workpad_STATED0 TMP0 in
  assign workpad_STATED1 := vaddq_u32 workpad_STATED1 TMP2 in
  (stateandmessage, X24 workpad_STATEA0 workpad_STATEA1 workpad_STATEB0 workpad_STATEB1
      workpad_STATEC0 workpad_STATEC1 workpad_STATED0 workpad_STATED1
      workpad_MSGA0 workpad_MSGA1 workpad_MSGA2 workpad_MSGA3
      workpad_MSGB0 workpad_MSGB1 workpad_MSGB2 workpad_MSGB3
      workpad_MSGC0 workpad_MSGC1 workpad_MSGC2 workpad_MSGC3
      workpad_MSGD0 workpad_MSGD1 workpad_MSGD2 workpad_MSGD3).

Definition BleMiner_1way (blockheaders : list byte) : uint32x4x2_t :=
  assign STATEA0 := (V4 0x6a09e667 0xbb67ae85 0x3c6ef372 0xa54ff53a) in
  assign STATEA1 := (V4 0x510e527f 0x9b05688c 0x1f83d9ab 0x5be0cd19) in
  assign input32 := blockheaders in
  assign MSGA0 := vreinterpretq_u32_u8 (vrev32q_u8 (vld1q_u8 input32)) in
  assign input32 := next16 input32 in
  assign MSGA1 := vreinterpretq_u32_u8 (vrev32q_u8 (vld1q_u8 input32)) in
  assign input32 := next16 input32 in
  assign MSGA2 := vreinterpretq_u32_u8 (vrev32q_u8 (vld1q_u8 input32)) in
  assign input32 := next16 input32 in
  assign MSGA3 := vreinterpretq_u32_u8 (vrev32q_u8 (vld1q_u8 input32)) in
  assign input32 := next16 input32 in
  assign KTMP := vld1q_u32 K 0 in
  assign TMP0 := vaddq_u32 MSGA0 KTMP in
  assign TMP2 := STATEA0 in
  assign MSGA0 := vsha256su0q_u32 MSGA0 MSGA1 in
  assign STATEA0 := vsha256hq_u32 STATEA0 STATEA1 TMP0 in
  assign STATEA1 := vsha256h2q_u32 STATEA1 TMP2 TMP0 in
  assign MSGA0 := vsha256su1q_u32 MSGA0 MSGA2 MSGA3 in
  assign KTMP := vld1q_u32 K 4 in
  assign TMP0 := vaddq_u32 MSGA1 KTMP in
  assign TMP2 := STATEA0 in
  assign MSGA1 := vsha256su0q_u32 MSGA1 MSGA2 in
  assign STATEA0 := vsha256hq_u32 STATEA0 STATEA1 TMP0 in
  assign STATEA1 := vsha256h2q_u32 STATEA1 TMP2 TMP0 in
  assign MSGA1 := vsha256su1q_u32 MSGA1 MSGA3 MSGA0 in
  assign KTMP := vld1q_u32 K 8 in
  assign TMP0 := vaddq_u32 MSGA2 KTMP in
  assign TMP2 := STATEA0 in
  assign MSGA2 := vsha256su0q_u32 MSGA2 MSGA3 in
  assign STATEA0 := vsha256hq_u32 STATEA0 STATEA1 TMP0 in
  assign STATEA1 := vsha256h2q_u32 STATEA1 TMP2 TMP0 in
  assign MSGA2 := vsha256su1q_u32 MSGA2 MSGA0 MSGA1 in
  assign KTMP := vld1q_u32 K 12 in
  assign TMP0 := vaddq_u32 MSGA3 KTMP in
  assign TMP2 := STATEA0 in
  assign MSGA3 := vsha256su0q_u32 MSGA3 MSGA0 in
  assign STATEA0 := vsha256hq_u32 STATEA0 STATEA1 TMP0 in
  assign STATEA1 := vsha256h2q_u32 STATEA1 TMP2 TMP0 in
  assign MSGA3 := vsha256su1q_u32 MSGA3 MSGA1 MSGA2 in
  assign KTMP := vld1q_u32 K 16 in
  assign TMP0 := vaddq_u32 MSGA0 KTMP in
  assign TMP2 := STATEA0 in
  assign MSGA0 := vsha256su0q_u32 MSGA0 MSGA1 in
  assign STATEA0 := vsha256hq_u32 STATEA0 STATEA1 TMP0 in
  assign STATEA1 := vsha256h2q_u32 STATEA1 TMP2 TMP0 in
  assign MSGA0 := vsha256su1q_u32 MSGA0 MSGA2 MSGA3 in
  assign KTMP := vld1q_u32 K 20 in
  assign TMP0 := vaddq_u32 MSGA1 KTMP in
  assign TMP2 := STATEA0 in
  assign MSGA1 := vsha256su0q_u32 MSGA1 MSGA2 in
  assign STATEA0 := vsha256hq_u32 STATEA0 STATEA1 TMP0 in
  assign STATEA1 := vsha256h2q_u32 STATEA1 TMP2 TMP0 in
  assign MSGA1 := vsha256su1q_u32 MSGA1 MSGA3 MSGA0 in
  assign KTMP := vld1q_u32 K 24 in
  assign TMP0 := vaddq_u32 MSGA2 KTMP in
  assign TMP2 := STATEA0 in
  assign MSGA2 := vsha256su0q_u32 MSGA2 MSGA3 in
  assign STATEA0 := vsha256hq_u32 STATEA0 STATEA1 TMP0 in
  assign STATEA1 := vsha256h2q_u32 STATEA1 TMP2 TMP0 in
  assign MSGA2 := vsha256su1q_u32 MSGA2 MSGA0 MSGA1 in
  assign KTMP := vld1q_u32 K 28 in
  assign TMP0 := vaddq_u32 MSGA3 KTMP in
  assign TMP2 := STATEA0 in
  assign MSGA3 := vsha256su0q_u32 MSGA3 MSGA0 in
  assign STATEA0 := vsha256hq_u32 STATEA0 STATEA1 TMP0 in
  assign STATEA1 := vsha256h2q_u32 STATEA1 TMP2 TMP0 in
  assign MSGA3 := vsha256su1q_u32 MSGA3 MSGA1 MSGA2 in
  assign KTMP := vld1q_u32 K 32 in
  assign TMP0 := vaddq_u32 MSGA0 KTMP in
  assign TMP2 := STATEA0 in
  assign MSGA0 := vsha256su0q_u32 MSGA0 MSGA1 in
  assign STATEA0 := vsha256hq_u32 STATEA0 STATEA1 TMP0 in
  assign STATEA1 := vsha256h2q_u32 STATEA1 TMP2 TMP0 in
  assign MSGA0 := vsha256su1q_u32 MSGA0 MSGA2 MSGA3 in
  assign KTMP := vld1q_u32 K 36 in
  assign TMP0 := vaddq_u32 MSGA1 KTMP in
  assign TMP2 := STATEA0 in
  assign MSGA1 := vsha256su0q_u32 MSGA1 MSGA2 in
  assign STATEA0 := vsha256hq_u32 STATEA0 STATEA1 TMP0 in
  assign STATEA1 := vsha256h2q_u32 STATEA1 TMP2 TMP0 in
  assign MSGA1 := vsha256su1q_u32 MSGA1 MSGA3 MSGA0 in
  assign KTMP := vld1q_u32 K 40 in
  assign TMP0 := vaddq_u32 MSGA2 KTMP in
  assign TMP2 := STATEA0 in
  assign MSGA2 := vsha256su0q_u32 MSGA2 MSGA3 in
  assign STATEA0 := vsha256hq_u32 STATEA0 STATEA1 TMP0 in
  assign STATEA1 := vsha256h2q_u32 STATEA1 TMP2 TMP0 in
  assign MSGA2 := vsha256su1q_u32 MSGA2 MSGA0 MSGA1 in
  assign KTMP := vld1q_u32 K 44 in
  assign TMP0 := vaddq_u32 MSGA3 KTMP in
  assign TMP2 := STATEA0 in
  assign MSGA3 := vsha256su0q_u32 MSGA3 MSGA0 in
  assign STATEA0 := vsha256hq_u32 STATEA0 STATEA1 TMP0 in
  assign STATEA1 := vsha256h2q_u32 STATEA1 TMP2 TMP0 in
  assign MSGA3 := vsha256su1q_u32 MSGA3 MSGA1 MSGA2 in
  assign KTMP := vld1q_u32 K 48 in
  assign TMP0 := vaddq_u32 MSGA0 KTMP in
  assign TMP2 := STATEA0 in
  assign STATEA0 := vsha256hq_u32 STATEA0 STATEA1 TMP0 in
  assign STATEA1 := vsha256h2q_u32 STATEA1 TMP2 TMP0 in
  assign KTMP := vld1q_u32 K 52 in
  assign TMP0 := vaddq_u32 MSGA1 KTMP in
  assign TMP2 := STATEA0 in
  assign STATEA0 := vsha256hq_u32 STATEA0 STATEA1 TMP0 in
  assign STATEA1 := vsha256h2q_u32 STATEA1 TMP2 TMP0 in
  assign KTMP := vld1q_u32 K 56 in
  assign TMP0 := vaddq_u32 MSGA2 KTMP in
  assign TMP2 := STATEA0 in
  assign STATEA0 := vsha256hq_u32 STATEA0 STATEA1 TMP0 in
  assign STATEA1 := vsha256h2q_u32 STATEA1 TMP2 TMP0 in
  assign KTMP := vld1q_u32 K 60 in
  assign TMP0 := vaddq_u32 MSGA3 KTMP in
  assign TMP2 := STATEA0 in
  assign STATEA0 := vsha256hq_u32 STATEA0 STATEA1 TMP0 in
  assign STATEA1 := vsha256h2q_u32 STATEA1 TMP2 TMP0 in
  assign STATEA0 := vaddq_u32 STATEA0 (V4 0x6a09e667 0xbb67ae85 0x3c6ef372 0xa54ff53a) in
  assign STATEA1 := vaddq_u32 STATEA1 (V4 0x510e527f 0x9b05688c 0x1f83d9ab 0x5be0cd19) in
  assign STATEA0_BACKUP := STATEA0 in
  assign STATEA1_BACKUP := STATEA1 in
  assign MSGA0 := vreinterpretq_u32_u8 (vrev32q_u8 (vld1q_u8 input32)) in
  assign input32 := next16 input32 in
  assign MSGA1 := vreinterpretq_u32_u8 (vrev32q_u8 (vld1q_u8 input32)) in
  assign input32 := next16 input32 in
  assign MSGA2 := vreinterpretq_u32_u8 (vrev32q_u8 (vld1q_u8 input32)) in
  assign input32 := next16 input32 in
  assign MSGA3 := (V4 0x80000000 0x00000000 0x00000000 0x00000380) in
  assign KTMP := vld1q_u32 K 0 in
  assign TMP0 := vaddq_u32 MSGA0 KTMP in
  assign TMP2 := STATEA0 in
  assign MSGA0 := vsha256su0q_u32 MSGA0 MSGA1 in
  assign STATEA0 := vsha256hq_u32 STATEA0 STATEA1 TMP0 in
  assign STATEA1 := vsha256h2q_u32 STATEA1 TMP2 TMP0 in
  assign MSGA0 := vsha256su1q_u32 MSGA0 MSGA2 MSGA3 in
  assign KTMP := vld1q_u32 K 4 in
  assign TMP0 := vaddq_u32 MSGA1 KTMP in
  assign TMP2 := STATEA0 in
  assign MSGA1 := vsha256su0q_u32 MSGA1 MSGA2 in
  assign STATEA0 := vsha256hq_u32 STATEA0 STATEA1 TMP0 in
  assign STATEA1 := vsha256h2q_u32 STATEA1 TMP2 TMP0 in
  assign MSGA1 := vsha256su1q_u32 MSGA1 MSGA3 MSGA0 in
  assign KTMP := vld1q_u32 K 8 in
  assign TMP0 := vaddq_u32 MSGA2 KTMP in
  assign TMP2 := STATEA0 in
  assign MSGA2 := vsha256su0q_u32 MSGA2 MSGA3 in
  assign STATEA0 := vsha256hq_u32 STATEA0 STATEA1 TMP0 in
  assign STATEA1 := vsha256h2q_u32 STATEA1 TMP2 TMP0 in
  assign MSGA2 := vsha256su1q_u32 MSGA2 MSGA0 MSGA1 in
  assign KTMP := vld1q_u32 K 12 in
  assign TMP0 := vaddq_u32 MSGA3 KTMP in
  assign TMP2 := STATEA0 in
  assign MSGA3 := vsha256su0q_u32 MSGA3 MSGA0 in
  assign STATEA0 := vsha256hq_u32 STATEA0 STATEA1 TMP0 in
  assign STATEA1 := vsha256h2q_u32 STATEA1 TMP2 TMP0 in
  assign MSGA3 := vsha256su1q_u32 MSGA3 MSGA1 MSGA2 in
  assign KTMP := vld1q_u32 K 16 in
  assign TMP0 := vaddq_u32 MSGA0 KTMP in
  assign TMP2 := STATEA0 in
  assign MSGA0 := vsha256su0q_u32 MSGA0 MSGA1 in
  assign STATEA0 := vsha256hq_u32 STATEA0 STATEA1 TMP0 in
  assign STATEA1 := vsha256h2q_u32 STATEA1 TMP2 TMP0 in
  assign MSGA0 := vsha256su1q_u32 MSGA0 MSGA2 MSGA3 in
  assign KTMP := vld1q_u32 K 20 in
  assign TMP0 := vaddq_u32 MSGA1 KTMP in
  assign TMP2 := STATEA0 in
  assign MSGA1 := vsha256su0q_u32 MSGA1 MSGA2 in
  assign STATEA0 := vsha256hq_u32 STATEA0 STATEA1 TMP0 in
  assign STATEA1 := vsha256h2q_u32 STATEA1 TMP2 TMP0 in
  assign MSGA1 := vsha256su1q_u32 MSGA1 MSGA3 MSGA0 in
  assign KTMP := vld1q_u32 K 24 in
  assign TMP0 := vaddq_u32 MSGA2 KTMP in
  assign TMP2 := STATEA0 in
  assign MSGA2 := vsha256su0q_u32 MSGA2 MSGA3 in
  assign STATEA0 := vsha256hq_u32 STATEA0 STATEA1 TMP0 in
  assign STATEA1 := vsha256h2q_u32 STATEA1 TMP2 TMP0 in
  assign MSGA2 := vsha256su1q_u32 MSGA2 MSGA0 MSGA1 in
  assign KTMP := vld1q_u32 K 28 in
  assign TMP0 := vaddq_u32 MSGA3 KTMP in
  assign TMP2 := STATEA0 in
  assign MSGA3 := vsha256su0q_u32 MSGA3 MSGA0 in
  assign STATEA0 := vsha256hq_u32 STATEA0 STATEA1 TMP0 in
  assign STATEA1 := vsha256h2q_u32 STATEA1 TMP2 TMP0 in
  assign MSGA3 := vsha256su1q_u32 MSGA3 MSGA1 MSGA2 in
  assign KTMP := vld1q_u32 K 32 in
  assign TMP0 := vaddq_u32 MSGA0 KTMP in
  assign TMP2 := STATEA0 in
  assign MSGA0 := vsha256su0q_u32 MSGA0 MSGA1 in
  assign STATEA0 := vsha256hq_u32 STATEA0 STATEA1 TMP0 in
  assign STATEA1 := vsha256h2q_u32 STATEA1 TMP2 TMP0 in
  assign MSGA0 := vsha256su1q_u32 MSGA0 MSGA2 MSGA3 in
  assign KTMP := vld1q_u32 K 36 in
  assign TMP0 := vaddq_u32 MSGA1 KTMP in
  assign TMP2 := STATEA0 in
  assign MSGA1 := vsha256su0q_u32 MSGA1 MSGA2 in
  assign STATEA0 := vsha256hq_u32 STATEA0 STATEA1 TMP0 in
  assign STATEA1 := vsha256h2q_u32 STATEA1 TMP2 TMP0 in
  assign MSGA1 := vsha256su1q_u32 MSGA1 MSGA3 MSGA0 in
  assign KTMP := vld1q_u32 K 40 in
  assign TMP0 := vaddq_u32 MSGA2 KTMP in
  assign TMP2 := STATEA0 in
  assign MSGA2 := vsha256su0q_u32 MSGA2 MSGA3 in
  assign STATEA0 := vsha256hq_u32 STATEA0 STATEA1 TMP0 in
  assign STATEA1 := vsha256h2q_u32 STATEA1 TMP2 TMP0 in
  assign MSGA2 := vsha256su1q_u32 MSGA2 MSGA0 MSGA1 in
  assign KTMP := vld1q_u32 K 44 in
  assign TMP0 := vaddq_u32 MSGA3 KTMP in
  assign TMP2 := STATEA0 in
  assign MSGA3 := vsha256su0q_u32 MSGA3 MSGA0 in
  assign STATEA0 := vsha256hq_u32 STATEA0 STATEA1 TMP0 in
  assign STATEA1 := vsha256h2q_u32 STATEA1 TMP2 TMP0 in
  assign MSGA3 := vsha256su1q_u32 MSGA3 MSGA1 MSGA2 in
  assign KTMP := vld1q_u32 K 48 in
  assign TMP0 := vaddq_u32 MSGA0 KTMP in
  assign TMP2 := STATEA0 in
  assign STATEA0 := vsha256hq_u32 STATEA0 STATEA1 TMP0 in
  assign STATEA1 := vsha256h2q_u32 STATEA1 TMP2 TMP0 in
  assign KTMP := vld1q_u32 K 52 in
  assign TMP0 := vaddq_u32 MSGA1 KTMP in
  assign TMP2 := STATEA0 in
  assign STATEA0 := vsha256hq_u32 STATEA0 STATEA1 TMP0 in
  assign STATEA1 := vsha256h2q_u32 STATEA1 TMP2 TMP0 in
  assign KTMP := vld1q_u32 K 56 in
  assign TMP0 := vaddq_u32 MSGA2 KTMP in
  assign TMP2 := STATEA0 in
  assign STATEA0 := vsha256hq_u32 STATEA0 STATEA1 TMP0 in
  assign STATEA1 := vsha256h2q_u32 STATEA1 TMP2 TMP0 in
  assign KTMP := vld1q_u32 K 60 in
  assign TMP0 := vaddq_u32 MSGA3 KTMP in
  assign TMP2 := STATEA0 in
  assign STATEA0 := vsha256hq_u32 STATEA0 STATEA1 TMP0 in
  assign STATEA1 := vsha256h2q_u32 STATEA1 TMP2 TMP0 in
  assign MSGA0 := vaddq_u32 STATEA0 STATEA0_BACKUP in
  assign MSGA1 := vaddq_u32 STATEA1 STATEA1_BACKUP in
  assign MSGA2 := (V4 0x80000000 0x00000000 0x00000000 0x00000000) in
  assign MSGA3 := (V4 0x00000000 0x00000000 0x00000000 0x00000100) in
  assign STATEA0 := (V4 0x6a09e667 0xbb67ae85 0x3c6ef372 0xa54ff53a) in
  assign STATEA1 := (V4 0x510e527f 0x9b05688c 0x1f83d9ab 0x5be0cd19) in
  assign KTMP := vld1q_u32 K 0 in
  assign TMP0 := vaddq_u32 MSGA0 KTMP in
  assign TMP2 := STATEA0 in
  assign MSGA0 := vsha256su0q_u32 MSGA0 MSGA1 in
  assign STATEA0 := vsha256hq_u32 STATEA0 STATEA1 TMP0 in
  assign STATEA1 := vsha256h2q_u32 STATEA1 TMP2 TMP0 in
  assign MSGA0 := vsha256su1q_u32 MSGA0 MSGA2 MSGA3 in
  assign KTMP := vld1q_u32 K 4 in
  assign TMP0 := vaddq_u32 MSGA1 KTMP in
  assign TMP2 := STATEA0 in
  assign MSGA1 := vsha256su0q_u32 MSGA1 MSGA2 in
  assign STATEA0 := vsha256hq_u32 STATEA0 STATEA1 TMP0 in
  assign STATEA1 := vsha256h2q_u32 STATEA1 TMP2 TMP0 in
  assign MSGA1 := vsha256su1q_u32 MSGA1 MSGA3 MSGA0 in
  assign KTMP := vld1q_u32 K 8 in
  assign TMP0 := vaddq_u32 MSGA2 KTMP in
  assign TMP2 := STATEA0 in
  assign MSGA2 := vsha256su0q_u32 MSGA2 MSGA3 in
  assign STATEA0 := vsha256hq_u32 STATEA0 STATEA1 TMP0 in
  assign STATEA1 := vsha256h2q_u32 STATEA1 TMP2 TMP0 in
  assign MSGA2 := vsha256su1q_u32 MSGA2 MSGA0 MSGA1 in
  assign KTMP := vld1q_u32 K 12 in
  assign TMP0 := vaddq_u32 MSGA3 KTMP in
  assign TMP2 := STATEA0 in
  assign MSGA3 := vsha256su0q_u32 MSGA3 MSGA0 in
  assign STATEA0 := vsha256hq_u32 STATEA0 STATEA1 TMP0 in
  assign STATEA1 := vsha256h2q_u32 STATEA1 TMP2 TMP0 in
  assign MSGA3 := vsha256su1q_u32 MSGA3 MSGA1 MSGA2 in
  assign KTMP := vld1q_u32 K 16 in
  assign TMP0 := vaddq_u32 MSGA0 KTMP in
  assign TMP2 := STATEA0 in
  assign MSGA0 := vsha256su0q_u32 MSGA0 MSGA1 in
  assign STATEA0 := vsha256hq_u32 STATEA0 STATEA1 TMP0 in
  assign STATEA1 := vsha256h2q_u32 STATEA1 TMP2 TMP0 in
  assign MSGA0 := vsha256su1q_u32 MSGA0 MSGA2 MSGA3 in
  assign KTMP := vld1q_u32 K 20 in
  assign TMP0 := vaddq_u32 MSGA1 KTMP in
  assign TMP2 := STATEA0 in
  assign MSGA1 := vsha256su0q_u32 MSGA1 MSGA2 in
  assign STATEA0 := vsha256hq_u32 STATEA0 STATEA1 TMP0 in
  assign STATEA1 := vsha256h2q_u32 STATEA1 TMP2 TMP0 in
  assign MSGA1 := vsha256su1q_u32 MSGA1 MSGA3 MSGA0 in
  assign KTMP := vld1q_u32 K 24 in
  assign TMP0 := vaddq_u32 MSGA2 KTMP in
  assign TMP2 := STATEA0 in
  assign MSGA2 := vsha256su0q_u32 MSGA2 MSGA3 in
  assign STATEA0 := vsha256hq_u32 STATEA0 STATEA1 TMP0 in
  assign STATEA1 := vsha256h2q_u32 STATEA1 TMP2 TMP0 in
  assign MSGA2 := vsha256su1q_u32 MSGA2 MSGA0 MSGA1 in
  assign KTMP := vld1q_u32 K 28 in
  assign TMP0 := vaddq_u32 MSGA3 KTMP in
  assign TMP2 := STATEA0 in
  assign MSGA3 := vsha256su0q_u32 MSGA3 MSGA0 in
  assign STATEA0 := vsha256hq_u32 STATEA0 STATEA1 TMP0 in
  assign STATEA1 := vsha256h2q_u32 STATEA1 TMP2 TMP0 in
  assign MSGA3 := vsha256su1q_u32 MSGA3 MSGA1 MSGA2 in
  assign KTMP := vld1q_u32 K 32 in
  assign TMP0 := vaddq_u32 MSGA0 KTMP in
  assign TMP2 := STATEA0 in
  assign MSGA0 := vsha256su0q_u32 MSGA0 MSGA1 in
  assign STATEA0 := vsha256hq_u32 STATEA0 STATEA1 TMP0 in
  assign STATEA1 := vsha256h2q_u32 STATEA1 TMP2 TMP0 in
  assign MSGA0 := vsha256su1q_u32 MSGA0 MSGA2 MSGA3 in
  assign KTMP := vld1q_u32 K 36 in
  assign TMP0 := vaddq_u32 MSGA1 KTMP in
  assign TMP2 := STATEA0 in
  assign MSGA1 := vsha256su0q_u32 MSGA1 MSGA2 in
  assign STATEA0 := vsha256hq_u32 STATEA0 STATEA1 TMP0 in
  assign STATEA1 := vsha256h2q_u32 STATEA1 TMP2 TMP0 in
  assign MSGA1 := vsha256su1q_u32 MSGA1 MSGA3 MSGA0 in
  assign KTMP := vld1q_u32 K 40 in
  assign TMP0 := vaddq_u32 MSGA2 KTMP in
  assign TMP2 := STATEA0 in
  assign MSGA2 := vsha256su0q_u32 MSGA2 MSGA3 in
  assign STATEA0 := vsha256hq_u32 STATEA0 STATEA1 TMP0 in
  assign STATEA1 := vsha256h2q_u32 STATEA1 TMP2 TMP0 in
  assign MSGA2 := vsha256su1q_u32 MSGA2 MSGA0 MSGA1 in
  assign KTMP := vld1q_u32 K 44 in
  assign TMP0 := vaddq_u32 MSGA3 KTMP in
  assign TMP2 := STATEA0 in
  assign MSGA3 := vsha256su0q_u32 MSGA3 MSGA0 in
  assign STATEA0 := vsha256hq_u32 STATEA0 STATEA1 TMP0 in
  assign STATEA1 := vsha256h2q_u32 STATEA1 TMP2 TMP0 in
  assign MSGA3 := vsha256su1q_u32 MSGA3 MSGA1 MSGA2 in
  assign KTMP := vld1q_u32 K 48 in
  assign TMP0 := vaddq_u32 MSGA0 KTMP in
  assign TMP2 := STATEA0 in
  assign STATEA0 := vsha256hq_u32 STATEA0 STATEA1 TMP0 in
  assign STATEA1 := vsha256h2q_u32 STATEA1 TMP2 TMP0 in
  assign KTMP := vld1q_u32 K 52 in
  assign TMP0 := vaddq_u32 MSGA1 KTMP in
  assign TMP2 := STATEA0 in
  assign STATEA0 := vsha256hq_u32 STATEA0 STATEA1 TMP0 in
  assign STATEA1 := vsha256h2q_u32 STATEA1 TMP2 TMP0 in
  assign KTMP := vld1q_u32 K 56 in
  assign TMP0 := vaddq_u32 MSGA2 KTMP in
  assign TMP2 := STATEA0 in
  assign STATEA0 := vsha256hq_u32 STATEA0 STATEA1 TMP0 in
  assign STATEA1 := vsha256h2q_u32 STATEA1 TMP2 TMP0 in
  assign KTMP := vld1q_u32 K 60 in
  assign TMP0 := vaddq_u32 MSGA3 KTMP in
  assign TMP2 := STATEA0 in
  assign STATEA0 := vsha256hq_u32 STATEA0 STATEA1 TMP0 in
  assign STATEA1 := vsha256h2q_u32 STATEA1 TMP2 TMP0 in
  assign STATEA0 := vaddq_u32 STATEA0 (V4 0x6a09e667 0xbb67ae85 0x3c6ef372 0xa54ff53a) in
  assign STATEA1 := vaddq_u32 STATEA1 (V4 0x510e527f 0x9b05688c 0x1f83d9ab 0x5be0cd19) in
  (STATEA0, STATEA1).

(** ** Reference SHA-256 (FIPS 180-4), unoptimised *)

Module Ref.

(** Section 4.1.2: the six logical functions. *)
Definition Ch (x y z : Z) : Z := Z.lxor (Z.land x y) (Z.land (Z.lnot x) z).
Definition Maj (x y z : Z) : Z := Z.lxor (Z.lxor (Z.land x y) (Z.land x z)) (Z.land y z).
Definition Sigma0 (x : Z) : Z := Z.lxor (Z.lxor (ROR x 2) (ROR x 13)) (ROR x 22).
Definition Sigma1 (x : Z) : Z := Z.lxor (Z.lxor (ROR x 6) (ROR x 11)) (ROR x 25).
Definition sigma0 (x : Z) : Z := Z.lxor (Z.lxor (ROR x 7) (ROR x 18)) (LSR x 3).
Definition sigma1 (x : Z) : Z := Z.lxor (Z.lxor (ROR x 17) (ROR x 19)) (LSR x 10).

(** Section 5.3.3: the initial hash value. *)
Definition IV : list Z :=
  [0x6a09e667; 0xbb67ae85; 0x3c6ef372; 0xa54ff53a;
   0x510e527f; 0x9b05688c; 0x1f83d9ab; 0x5be0cd19].

(** Section 5.1.1: padding to a multiple of 64 bytes. *)
Definition pad (msg : list byte) : list byte :=
  let l := Z.of_nat (length msg) in
  msg ++ [x80] ++ repeat x00 (Z.to_nat ((55 - l) mod 64))
      ++ be_bytes ((8 * l) / 2 ^ 32) ++ be_bytes (8 * l).

(** Section 5.2.1: parsing into big-endian 32-bit words. *)
Fixpoint words (l : list byte) : list Z :=
  match l with
  | b0 :: b1 :: b2 :: b3 :: r => be32 b0 b1 b2 b3 :: words r
  | _ => []
  end.

(** Section 6.2.2 step 1: the message schedule.  [rw] is the schedule so
    far, newest word first, so W(t-2), W(t-7), W(t-15), W(t-16) are at
    positions 1, 6, 14 and 15. *)
Definition W_next (rw : list Z) : Z :=
  add32 (add32 (add32 (sigma1 (nth 1 rw 0)) (nth 6 rw 0)) (sigma0 (nth 14 rw 0)))
        (nth 15 rw 0).

Fixpoint expand (n : nat) (rw : list Z) : list Z :=
  match n with
  | O => rw
  | S n' => expand n' (W_next rw :: rw)
  end.

Definition schedule (M : list Z) : list Z := rev (expand 48 (rev M)).

(** Section 6.2.2 step 3: one round on the working variables a..h. *)
Definition round (s : list Z) (kw : Z * Z) : list Z :=
  match s with
  | [a; b; c; d; e; f; g; h] =>
      let T1 := add32 (add32 (add32 (add32 h (Sigma1 e)) (Ch e f g)) (fst kw)) (snd kw) in
      let T2 := add32 (Sigma0 a) (Maj a b c) in
      [add32 T1 T2; a; b; c; add32 d T1; e; f; g]
  | _ => s
  end.

(** Section 6.2.2 steps 2 to 4: one 512-bit block. *)
Definition compress (H M : list Z) : list Z :=
  map (fun p => add32 (fst p) (snd p))
      (combine (fold_left round (combine K (schedule M)) H) H).

Fixpoint hash_blocks (n : nat) (H ws : list Z) : list Z :=
  match n with
  | O => H
  | S n' => hash_blocks n' (compress H (firstn 16 ws)) (skipn 16 ws)
  end.

Definition SHA256 (msg : list byte) : list byte :=
  let ws := words (pad msg) in
  flat_map be_bytes (hash_blocks (length ws / 16) IV ws).

Definition SHA256d (msg : list byte) : list byte := SHA256 (SHA256 msg).

End Ref.

(* ================================================================= *)
(** ** The hashers in terms of four-round groups

    The hashers advance the compression function four rounds at a time and
    keep the message schedule in four vectors.  [rounds4], [wq] and
    [qrounds] name these steps; they are what the unrolled code is compared
    with before it is related to [Ref.compress]. *)

Definition hstate : Set := (uint32x4_t * uint32x4_t)%type.

(** Four rounds on the pair (abcd, efgh) with the four sums W+K. *)
Definition rounds4 (st : hstate) (wk : uint32x4_t) : hstate :=
  SHA256hash (fst st) (snd st) wk.

(** The [j]-th group of four schedule words of the block a,b,c,d. *)
Fixpoint wq (j : nat) (a b c d : uint32x4_t) : uint32x4_t :=
  match j with
  | O => a
  | S j' => wq j' b c d (vsha256su1q_u32 (vsha256su0q_u32 a b) c d)
  end.

(** The working state after [n] groups of four rounds over the block
    a,b,c,d, and after all sixteen. *)
Fixpoint qr (n : nat) (st : hstate) (a b c d : uint32x4_t) : hstate :=
  match n with
  | O => st
  | S n' => rounds4 (qr n' st a b c d)
              (vaddq_u32 (wq n' a b c d) (vld1q_u32 K (4 * n')))
  end.

Definition qrounds (st : hstate) (a b c d : uint32x4_t) : hstate := qr 16 st a b c d.

(** One block: the rounds and the final addition of the chaining value. *)
Definition qcompress (st : hstate) (a b c d : uint32x4_t) : hstate :=
  let s := qrounds st a b c d in
  (vaddq_u32 (fst s) (fst st), vaddq_u32 (snd s) (snd st)).

Definition flat (v : uint32x4_t) : list Z := [e0 v; e1 v; e2 v; e3 v].
Definition st_list (st : hstate) : list Z := flat (fst st) ++ flat (snd st).

Definition SHA256INIT : hstate :=
  (V4 0x6a09e667 0xbb67ae85 0x3c6ef372 0xa54ff53a,
   V4 0x510e527f 0x9b05688c 0x1f83d9ab 0x5be0cd19).
Definition PADDING1 : uint32x4_t := V4 0x80000000 0x00000000 0x00000000 0x00000380.
Definition PADDING2A : uint32x4_t := V4 0x80000000 0x00000000 0x00000000 0x00000000.
Definition PADDING2B : uint32x4_t := V4 0x00000000 0x00000000 0x00000000 0x00000100.

(** Byte swap of every lane, as the hashers write it. *)
Definition bswap32q (v : uint32x4_t) : uint32x4_t :=
  vreinterpretq_u32_u8 (vrev32q_u8 (vreinterpretq_u8_u32 v)).

(** The vector of big-endian words under a byte cursor. *)
Definition ldbe (p : list byte) : uint32x4_t :=
  vreinterpretq_u32_u8 (vrev32q_u8 (vld1q_u8 p)).

(** The cursor after [n] reads of sixteen bytes. *)
Fixpoint next16n (n : nat) (p : list byte) : list byte :=
  match n with
  | O => p
  | S n' => next16 (next16n n' p)
  end.

(** The double hash of one lane: the second block of the header from the
    Transform 1 state, then the digest as a one-block message. *)
Definition lane_hash (st : hstate) (a b c d : uint32x4_t) : hstate :=
  let i := qcompress st a b c d in
  qcompress SHA256INIT (fst i) (snd i) PADDING2A PADDING2B.

(** The schedule so far, newest word first. *)
Definition rflat (v : uint32x4_t) : list Z := [e3 v; e2 v; e1 v; e0 v].

Fixpoint rquads (n : nat) (a b c d : uint32x4_t) : list Z :=
  match n with
  | O => []
  | S n' => rflat (wq n' a b c d) ++ rquads n' a b c d
  end.

(* ================================================================= *)
(** ** Headers and digests in memory *)

(** [memcpy(&currenthash, &msgctx.val[6], 32)]: the thirty-two bytes of
    two adjacent vectors. *)
Definition memcpy32 (v0 v1 : uint32x4_t) : list byte :=
  vreinterpretq_u8_u32 v0 ++ vreinterpretq_u8_u32 v1.

(** The digest of a lane as the worker hands it to [CheckProofOfWork]: both
    vectors byte swapped, then copied into the [uint256]. *)
Definition lane_digest (d : uint32x4x2_t) : list byte :=
  memcpy32 (bswap32q (fst d)) (bswap32q (snd d)).

(** The 112 bytes of a header with another [nTime] (bytes 100 to 103) or
    another [nNonce] (bytes 108 to 111). *)
Definition with_time (H : list byte) (T : Z) : list byte :=
  firstn 100 H ++ le_bytes T ++ skipn 104 H.
Definition with_nonce (H : list byte) (N : Z) : list byte :=
  firstn 108 H ++ le_bytes N.
Definition serialize (H : list byte) (N T : Z) : list byte :=
  with_nonce (with_time H T) N.

(** [msgctx.val[4][1] = t] and [msgctx.val[4][3] = n]. *)
Definition set_val4 (m : uint32x4x14_t) (v : uint32x4_t) : uint32x4x14_t :=
  X14 (val0 m) (val1 m) (val2 m) (val3 m) v (val5 m) (val6 m) (val7 m)
      (val8 m) (val9 m) (val10 m) (val11 m) (val12 m) (val13 m).
Definition set_time (m : uint32x4x14_t) (t : Z) : uint32x4x14_t :=
  set_val4 m (set_lane1 (val4 m) t).
Definition set_nonce (m : uint32x4x14_t) (n : Z) : uint32x4x14_t :=
  set_val4 m (set_lane3 (val4 m) n).

(** The three digests that [BleMiner3Way] leaves in the register file. *)
Definition lane (m : uint32x4x14_t) (j : nat) : uint32x4x2_t :=
  match j with
  | 0%nat => (val6 m, val7 m)
  | 1%nat => (val8 m, val9 m)
  | _ => (val10 m, val11 m)
  end.

(** The six vectors at the head of the scratchpad are the cache of the
    one-lane and the two-lane hasher. *)
Definition cache6 (p : list Z) : uint32x4x6_t :=
  X6 (vld1q_u32 p 0) (vld1q_u32 p 4) (vld1q_u32 p 8) (vld1q_u32 p 12)
     (vld1q_u32 p 16) (vld1q_u32 p 20).

(** The W digests of a batch, in lane order, from the cache of the header
    [H] and the base nonce [B].  The hasher with W lanes is [BleMiner],
    [BleMiner2Way], [BleMiner3Way] or [BleMiner4Way]. *)
Definition batchHash (H : list byte) (scratchpad : list Z) (workpad : uint32x4x24_t)
    (B : Z) (W : nat) : list uint32x4x2_t :=
  match W with
  | 1%nat => [BleMiner (cache6 (store (BleMinerInitialTransform H scratchpad) 19 B))]
  | 2%nat =>
      let '(a0, a1, b0, b1) :=
        BleMiner2Way (cache6 (store (BleMinerInitialTransform H scratchpad) 19 B)) in
      [(a0, a1); (b0, b1)]
  | 3%nat =>
      let m := BleMiner3Way (set_nonce (BleMinerTransform1 H) B) in
      [lane m 0; lane m 1; lane m 2]
  | 4%nat =>
      let wp := snd (BleMiner4Way (store (BleMinerInitialTransform H scratchpad) 19 B)
                       workpad) in
      [(STATEA0 wp, STATEA1 wp); (STATEB0 wp, STATEB1 wp);
       (STATEC0 wp, STATEC1 wp); (STATED0 wp, STATED1 wp)]
  | _ => []
  end.

(** The parts of a header that the hashers work from: the state after its
    first 64 bytes, the words of bytes 64 to 95, the little-endian words of
    its last sixteen bytes, and the double hash for a given last vector. *)
Definition first_block (H : list byte) : hstate :=
  qcompress SHA256INIT (ldbe H) (ldbe (next16n 1 H)) (ldbe (next16n 2 H))
    (ldbe (next16n 3 H)).
Definition tail_words (H : list byte) : uint32x4_t :=
  vreinterpretq_u32_u8 (vld1q_u8 (next16n 6 H)).
Definition header_lane (H : list byte) (v4 : uint32x4_t) : hstate :=
  lane_hash (first_block H) (ldbe (next16n 4 H)) (ldbe (next16n 5 H)) (bswap32q v4)
    PADDING1.

(** The forty words that [BleMinerInitialTransform] leaves in the
    scratchpad, with [v4] for the last sixteen bytes of the header. *)
Definition header_array (H : list byte) (v4 : uint32x4_t) : list Z :=
  flat (fst (first_block H)) ++ flat (snd (first_block H))
    ++ flat (ldbe (next16n 4 H)) ++ flat (ldbe (next16n 5 H))
    ++ flat v4 ++ flat PADDING1
    ++ flat (fst SHA256INIT) ++ flat (snd SHA256INIT)
    ++ flat PADDING2A ++ flat PADDING2B.

(* ================================================================= *)
(** ** The mining session, the worker and the coordinator *)

(** A block as far as the miner reads and writes it: the first hundred
    bytes of its header in memory, and the three fields that follow. *)
Record CBlock : Set := Block {
  head : list byte;
  nTime : Z;
  nBits : Z;
  nNonce : Z
}.

Definition set_nNonce (b : CBlock) (n : Z) : CBlock := Block (head b) (nTime b) (nBits b) n.
Definition set_nTime (b : CBlock) (t : Z) : CBlock := Block (head b) t (nBits b) (nNonce b).

(** [blockheader = block.GetBlockHeader(); memcpy(bleheaders, &blockheader, 112)]. *)
Definition bleheaders_of (b : CBlock) : list byte :=
  firstn 100 (head b) ++ le_bytes (nTime b) ++ le_bytes (nBits b) ++ le_bytes (nNonce b).

Record MinerHandler : Type := Handler {
  found : bool;
  interrupt : bool;
  stop : bool;
  block : CBlock;
  mineStartTime : Z;
  currentOffset : list Z
}.

Definition set_found (h : MinerHandler) (v : bool) : MinerHandler :=
  Handler v (interrupt h) (stop h) (block h) (mineStartTime h) (currentOffset h).
Definition set_stop (h : MinerHandler) (v : bool) : MinerHandler :=
  Handler (found h) (interrupt h) v (block h) (mineStartTime h) (currentOffset h).
Definition set_block (h : MinerHandler) (b : CBlock) : MinerHandler :=
  Handler (found h) (interrupt h) (stop h) b (mineStartTime h) (currentOffset h).
Definition set_currentOffset (h : MinerHandler) (idx : nat) (v : Z) : MinerHandler :=
  Handler (found h) (interrupt h) (stop h) (block h) (mineStartTime h)
          (store (currentOffset h) idx v).

(** What the miner calls and is not part of these files.  The answers of
    the clock, the chain tip and the peer probe are indexed by the number
    of such reads made so far. *)
Record Collaborators : Type := {
  CheckProofOfWork : list byte -> Z -> bool;
  SetNull : CBlock -> CBlock;
  IsNull : CBlock -> bool;
  CBlock_new : CBlock;
  hashPrevBlock_GetHex : CBlock -> string;
  GetAdjustedTime : nat -> Z;
  GetTimeMillis : nat -> Z;
  Tip_GetBlockHash_GetHex : nat -> string;
  hasPeers : nat -> bool
}.

(** [MinerHandler::clear]. *)
Definition clear (c : Collaborators) (h : MinerHandler) : MinerHandler :=
  Handler false false false (CBlock_new c) 0 (currentOffset h).

(** The state of one worker thread: its locals, the session it shares, and
    its trace: reads of the outside world, sleeps in milliseconds (latest
    first) and blocks handed to [ProcessNewBlock]. *)
Record Thread : Type := Th {
  t_block : CBlock;
  msgctx : uint32x4x14_t;
  currenthash : list byte;
  hashPrevBlock : string;
  chaintipblockhash : string;
  handler : MinerHandler;
  reads : nat;
  sleeps : list Z;
  submitted : list CBlock
}.

Definition with_block (t : Thread) (b : CBlock) : Thread :=
  Th b (msgctx t) (currenthash t) (hashPrevBlock t) (chaintipblockhash t) (handler t)
     (reads t) (sleeps t) (submitted t).
Definition with_msgctx (t : Thread) (m : uint32x4x14_t) : Thread :=
  Th (t_block t) m (currenthash t) (hashPrevBlock t) (chaintipblockhash t) (handler t)
     (reads t) (sleeps t) (submitted t).
Definition with_currenthash (t : Thread) (h : list byte) : Thread :=
  Th (t_block t) (msgctx t) h (hashPrevBlock t) (chaintipblockhash t) (handler t)
     (reads t) (sleeps t) (submitted t).
Definition with_hashPrevBlock (t : Thread) (s : string) : Thread :=
  Th (t_block t) (msgctx t) (currenthash t) s (chaintipblockhash t) (handler t)
     (reads t) (sleeps t) (submitted t).
Definition with_chaintipblockhash (t : Thread) (s : string) : Thread :=
  Th (t_block t) (msgctx t) (currenthash t) (hashPrevBlock t) s (handler t)
     (reads t) (sleeps t) (submitted t).
Definition with_handler (t : Thread) (h : MinerHandler) : Thread :=
  Th (t_block t) (msgctx t) (currenthash t) (hashPrevBlock t) (chaintipblockhash t) h
     (reads t) (sleeps t) (submitted t).
Definition tick (t : Thread) : Thread :=
  Th (t_block t) (msgctx t) (currenthash t) (hashPrevBlock t) (chaintipblockhash t)
     (handler t) (S (reads t)) (sleeps t) (submitted t).
Definition MilliSleep (ms : Z) (t : Thread) : Thread :=
  Th (t_block t) (msgctx t) (currenthash t) (hashPrevBlock t) (chaintipblockhash t)
     (handler t) (reads t) (ms :: sleeps t) (submitted t).
Definition ProcessNewBlock (t : Thread) : Thread :=
  Th (t_block t) (msgctx t) (currenthash t) (hashPrevBlock t) (chaintipblockhash t)
     (handler t) (reads t) (sleeps t) (t_block t :: submitted t).

(** Byte swap of the two vectors of a lane, in place. *)
Definition swap_lane (m : uint32x4x14_t) (j : nat) : uint32x4x14_t :=
  match j with
  | 0%nat =>
      X14 (val0 m) (val1 m) (val2 m) (val3 m) (val4 m) (val5 m)
          (bswap32q (val6 m)) (bswap32q (val7 m))
          (val8 m) (val9 m) (val10 m) (val11 m) (val12 m) (val13 m)
  | 1%nat =>
      X14 (val0 m) (val1 m) (val2 m) (val3 m) (val4 m) (val5 m) (val6 m) (val7 m)
          (bswap32q (val8 m)) (bswap32q (val9 m))
          (val10 m) (val11 m) (val12 m) (val13 m)
  | _ =>
      X14 (val0 m) (val1 m) (val2 m) (val3 m) (val4 m) (val5 m) (val6 m) (val7 m)
          (val8 m) (val9 m)
          (bswap32q (val10 m)) (bswap32q (val11 m)) (val12 m) (val13 m)
  end.

(** What a step of the work loop asks for next. *)
Inductive Flow : Set := Next | Break.

(** The test of lane [j] (0, 1 or 2): the quick check [val[7][3] == 0] on
    the last word of the digest ([val[9][3]], [val[11][3]]), then the byte swap, the copy into [currenthash] and the
    full check; on success the nonce of the lane goes into the block and
    the session is told to stop. *)
Definition quick_filter (m : uint32x4x14_t) (j : nat) : bool :=
  e3 (snd (lane m j)) =? 0.

Definition check_lane (c : Collaborators) (j : nat) (t : Thread) : Thread * Flow :=
  if quick_filter (msgctx t) j then
    let t := with_msgctx t (swap_lane (msgctx t) j) in
    let t := with_currenthash t (memcpy32 (fst (lane (msgctx t) j))
                                          (snd (lane (msgctx t) j))) in
    if CheckProofOfWork c (currenthash t) (nBits (t_block t)) then
      let t := with_block t (set_nNonce (t_block t)
                               (sub32 (e3 (val4 (msgctx t))) (3 - Z.of_nat j))) in
      let t := with_handler t (set_stop (handler t) true) in
      (t, Break)
    else (t, Next)
  else (t, Next).

(** Lane [j] passes the quick check and the full check. *)
Definition lane_passes (c : Collaborators) (t : Thread) (j : nat) : bool :=
  quick_filter (msgctx t) j
  && CheckProofOfWork c (lane_digest (lane (msgctx t) j)) (nBits (t_block t)).

(** The thread after a test that does not leave the loop: only the
    registers of that lane and [currenthash] may differ. *)
Definition same_search (t t' : Thread) : Prop :=
  handler t' = handler t /\ t_block t' = t_block t
  /\ reads t' = reads t /\ sleeps t' = sleeps t /\ submitted t' = submitted t
  /\ hashPrevBlock t' = hashPrevBlock t /\ chaintipblockhash t' = chaintipblockhash t
  /\ val0 (msgctx t') = val0 (msgctx t) /\ val1 (msgctx t') = val1 (msgctx t)
  /\ val2 (msgctx t') = val2 (msgctx t) /\ val3 (msgctx t') = val3 (msgctx t)
  /\ val4 (msgctx t') = val4 (msgctx t) /\ val5 (msgctx t') = val5 (msgctx t)
  /\ val12 (msgctx t') = val12 (msgctx t) /\ val13 (msgctx t') = val13 (msgctx t).

(** [s1; s2] where [s1] may leave the loop. *)
Definition and_then (r : Thread * Flow) (k : Thread -> Thread * Flow) : Thread * Flow :=
  match snd r with
  | Break => r
  | Next => k (fst r)
  end.

Definition check_lanes (c : Collaborators) (t : Thread) : Thread * Flow :=
  and_then (and_then (check_lane c 0 t) (check_lane c 1)) (check_lane c 2).

(** The wait for the chain tip to read the same twice.  The loop of the
    source has no bound; [fuel] bounds the model and [None] is a loop that
    has not ended within it. *)
Fixpoint poll_tip (c : Collaborators) (fuel : nat) (t : Thread) : option Thread :=
  match fuel with
  | O => None
  | S fuel' =>
      let tip := Tip_GetBlockHash_GetHex c (reads t) in
      let t := tick t in
      if (negb (String.eqb (chaintipblockhash t) tip)
          || (String.length (chaintipblockhash t) <? 64)%nat)
         && negb (stop (handler t)) && negb (interrupt (handler t))
      then
        let t := MilliSleep 5 t in
        let t := with_chaintipblockhash (tick t) (Tip_GetBlockHash_GetHex c (reads t)) in
        poll_tip c fuel' t
      else Some t
  end.

(** The checks of thread 0 inside the periodic block. *)
Definition exit_checks (c : Collaborators) (fuel : nat) (from to : Z) (t : Thread)
  : option Thread :=
  let t := if interrupt (handler t) then with_handler t (set_stop (handler t) true)
           else t in
  let t := MilliSleep 5 t in
  match poll_tip c fuel t with
  | None => None
  | Some t =>
      let t := if negb (String.eqb (chaintipblockhash t) (hashPrevBlock t))
               then with_handler t (set_stop (handler t) true) else t in
      let t := if (to <=? nNonce (t_block t)) || (nNonce (t_block t) <? from)
               then with_block (MilliSleep 10 (with_handler t (set_stop (handler t) true)))
                               (SetNull c (t_block t))
               else t in
      Some t
  end.

(** [msgctx.val[4][3] % 3000000 == 0]. *)
Definition housekeeping_due (m : uint32x4x14_t) : bool :=
  e3 (val4 m) mod 3000000 =? 0.

Definition housekeeping (c : Collaborators) (fuel : nat) (idx : nat) (from to : Z)
    (t : Thread) : option Thread :=
  if housekeeping_due (msgctx t) then
    let t := with_block (tick t) (set_nTime (t_block t)
                                    (trunc32 (GetAdjustedTime c (reads t)))) in
    let t := with_msgctx t (set_time (msgctx t) (nTime (t_block t))) in
    if (idx =? 0)%nat then exit_checks c fuel from to t else Some t
  else Some t.

(** One turn of [while(true)]. *)
Definition iteration (c : Collaborators) (fuel : nat) (idx : nat) (from to : Z)
    (t : Thread) : option (Thread * Flow) :=
  if stop (handler t) then
    let t := with_handler t (set_currentOffset (handler t) idx
                               (sub32 (e3 (val4 (msgctx t))) from)) in
    let t := MilliSleep 50 t in
    Some (with_block t (SetNull c (t_block t)), Break)
  else
    let t := with_msgctx t (BleMiner3Way (msgctx t)) in
    match check_lanes c t with
    | (t, Break) => Some (t, Break)
    | (t, Next) =>
        match housekeeping c fuel idx from to t with
        | None => None
        | Some t => Some (t, Next)
        end
    end.

Fixpoint work_loop (c : Collaborators) (fuel : nat) (idx : nat) (from to : Z)
    (t : Thread) : option Thread :=
  match fuel with
  | O => None
  | S fuel' =>
      match iteration c fuel idx from to t with
      | None => None
      | Some (t, Break) => Some t
      | Some (t, Next) => work_loop c fuel' idx from to t
      end
  end.

(** The wait of thread 0 for the hash of the previous block. *)
Fixpoint read_hashPrevBlock (c : Collaborators) (fuel : nat) (t : Thread) : option Thread :=
  match fuel with
  | O => None
  | S fuel' =>
      if (String.length (hashPrevBlock t) <? 64)%nat
         && negb (interrupt (handler t)) && negb (stop (handler t))
      then
        let t := with_hashPrevBlock t (hashPrevBlock_GetHex c (t_block t)) in
        read_hashPrevBlock c fuel' (MilliSleep 5 t)
      else Some t
  end.

(** [while(!hasPeers() && waitforpeers) { MilliSleep(100); waitforpeers--; }]:
    the counter bounds the loop. *)
Fixpoint wait_for_peers (c : Collaborators) (waitforpeers : nat) (t : Thread) : Thread :=
  let peers := hasPeers c (reads t) in
  let t := tick t in
  match waitforpeers with
  | O => t
  | S w => if negb peers then wait_for_peers c w (MilliSleep 100 t) else t
  end.

(** The end of the worker, from [if (block.IsNull())] on, after the summary of
    thread 0: nothing for a null block;
    else the wait for peers and the submission. *)
Definition finish (c : Collaborators) (t : Thread) : Thread :=
  if IsNull c (t_block t) then t
  else
    let peers := hasPeers c (reads t) in
    let t := tick t in
    let go (t : Thread) :=
      let t := with_handler t (set_found (handler t) true) in
      let t := with_handler t (set_block (handler t) (t_block t)) in
      ProcessNewBlock t in
    if negb peers then
      let t := wait_for_peers c 50 t in
      let peers := hasPeers c (reads t) in
      let t := tick t in
      if negb peers then t else go t
    else go t.

(** The performance summary of thread 0 for a null block, between the work
    loop and the end of the worker: the offsets of the session are summed
    and the clock is read, once for the test and once more for the line
    that is printed when a second or more has passed since the start of the
    session.  What is printed is not part of the state. *)
Definition summary (c : Collaborators) (idx : nat) (t : Thread) : Thread :=
  if (idx =? 0)%nat && IsNull c (t_block t) then
    let now := GetTimeMillis c (reads t) in
    let t := tick t in
    if 1000 <=? now - mineStartTime (handler t) then tick t else t
  else t.

(** The start of the worker, up to the work loop, on the session [h], when
    the outside world has been read [k] times and [s] holds the blocks
    handed to [ProcessNewBlock] so far. *)
Definition enter (c : Collaborators) (fuel : nat) (idx : nat) (b : CBlock) (from : Z)
    (h : MinerHandler) (k : nat) (s : list CBlock) : option Thread :=
  let b := set_nNonce b from in
  let h := set_currentOffset h idx 0 in
  let t := Th b (BleMinerTransform1 (bleheaders_of b)) (repeat x00 32) EmptyString
              EmptyString h k [] s in
  if (idx =? 0)%nat then read_hashPrevBlock c fuel t else Some t.

(** [proofOfWorkFinder(idx, block, from, to, handler, PAGE_SIZE_MINER)] on
    the session [h], from an empty trace, when no other thread runs. *)
Definition proofOfWorkFinder (c : Collaborators) (fuel : nat) (idx : nat) (b : CBlock)
    (from to : Z) (h : MinerHandler) : option Thread :=
  match enter c fuel idx b from h O [] with
  | None => None
  | Some t =>
      match work_loop c fuel idx from to t with
      | None => None
      | Some t => Some (finish c (summary c idx t))
      end
  end.

(** *** The coordinator *)

(** [uint32_t PAGE_SIZE_MINER = 0x100000000 / MAX_N_THREADS]: a division of
    64-bit integers, then the low 32 bits.  For [MAX_N_THREADS = 0] the
    division of the C code has no defined result; the coordinator below
    has none then. *)
Definition PAGE_SIZE_MINER (MAX_N_THREADS : Z) : Z := trunc32 (0x100000000 / MAX_N_THREADS).

(** The bounds handed to thread [i]: [i * PAGE_SIZE_MINER] and
    [(i + 1) * PAGE_SIZE_MINER], in [uint32_t]. *)
Definition from_of (MAX_N_THREADS i : Z) : Z := mul32 i (PAGE_SIZE_MINER MAX_N_THREADS).
Definition to_of (MAX_N_THREADS i : Z) : Z :=
  mul32 (add32 i 1) (PAGE_SIZE_MINER MAX_N_THREADS).



(** *** The threads of a session *)











(** The registers of [msgctx] that one batch leaves as they are, for the
    header [H]: the results of Transform 1. *)
Definition cache_for (H : list byte) (m : uint32x4x14_t) : Prop :=
  let t := rounds4 (rounds4 (first_block H)
                      (vaddq_u32 (ldbe (next16n 4 H)) (vld1q_u32 K 0)))
             (vaddq_u32 (ldbe (next16n 5 H)) (vld1q_u32 K 4)) in
  val0 m = fst (first_block H) /\ val1 m = snd (first_block H)
  /\ val2 m = vsha256su0q_u32 (ldbe (next16n 4 H)) (ldbe (next16n 5 H))
  /\ val3 m = ldbe (next16n 5 H) /\ val5 m = PADDING1
  /\ val12 m = fst t /\ val13 m = snd t.

(* ================================================================= *)
(** ** The full check, from the spec *)

Module Spec.

(** Modelled from the spec: the difficulty target is "a big-integer
    threshold decoded from a compact bits representation".  The spec
    names the encoding and not its layout; this is the compact format of
    Bitcoin: the high byte is the size in bytes, the low 23 bits the
    mantissa and bit 23 the sign, with the overflow cases of a 256-bit
    target. *)
Definition SetCompact (nCompact : Z) : Z * bool * bool :=
  let nSize := Z.shiftr nCompact 24 in
  let nWord := Z.land nCompact 0x007fffff in
  let target :=
    if nSize <=? 3 then Z.shiftr nWord (8 * (3 - nSize))
    else Z.shiftl nWord (8 * (nSize - 3)) mod 2 ^ 256 in
  let fNegative := negb (nWord =? 0) && negb (Z.land nCompact 0x00800000 =? 0) in
  let fOverflow :=
    negb (nWord =? 0)
    && ((34 <? nSize) || ((0xff <? nWord) && (33 <? nSize))
        || ((0xffff <? nWord) && (32 <? nSize))) in
  (target, fNegative, fOverflow).

Definition target_of (nBits : Z) : Z := fst (fst (SetCompact nBits)).

(** Modelled from the spec: the 256-bit integer of a digest in wire byte
    order, as the [uint256] that the worker fills: the byte at the
    highest address is the most significant, so that the digest printed
    as a big-endian number starts with its last byte. *)
Definition uint256_value (hash : list byte) : Z :=
  fold_right (fun b acc => byte_to_Z b + 256 * acc) 0 hash.

(** Modelled from the spec: [checkProofOfWork(digest, bits)] is the
    "authoritative target comparison (decodes compact bits, handles
    sign/overflow edge cases)"; "a candidate digest is valid only if its
    numeric interpretation is <= target". *)
Definition CheckProofOfWork (hash : list byte) (nBits : Z) : bool :=
  let '(target, fNegative, fOverflow) := SetCompact nBits in
  if fNegative || (target =? 0) || fOverflow then false
  else uint256_value hash <=? target.

End Spec.

(* ================================================================= *)
(** ** A session to run the model on *)

(** A block of difficulty 0x1d00ffff with nonce 7, collaborators that
    never see a peer and whose chain tip stays the previous block, and a
    worker thread at the start of its work loop. *)
Definition example_block : CBlock := Block (repeat x00 100) 1500000000 0x1d00ffff 7.

Definition example_tip : string :=
  "00000000000000000000000000000000000000000000000000000000000000aa".

Definition example_collaborators : Collaborators :=
  {| CheckProofOfWork := Spec.CheckProofOfWork;
     SetNull := fun _ => Block [] 0 0 0;
     IsNull := fun b => nBits b =? 0;
     CBlock_new := Block [] 0 0 0;
     hashPrevBlock_GetHex := fun _ => example_tip;
     GetAdjustedTime := fun _ => 1500000600;
     GetTimeMillis := fun _ => 0;
     Tip_GetBlockHash_GetHex := fun _ => example_tip;
     hasPeers := fun _ => false |}.

Definition example_handler : MinerHandler :=
  Handler false false false (Block [] 0 0 0) 0 [0; 0; 0; 0].

Definition example_thread : Thread :=
  Th example_block (BleMinerTransform1 (bleheaders_of example_block)) (repeat x00 32)
     example_tip example_tip example_handler 0 [] [].

(* ================================================================= *)
(** ** The state of a search under way *)

(** The cache and the block of a worker on the block [b] whose session has
    not been stopped: the cache is that of the header of [b], the time in
    the cache is the time of the worker's copy of the block, and the rest
    of that copy is as in [b]. *)
Definition in_step (b : CBlock) (t : Thread) : Prop :=
  cache_for (bleheaders_of b) (msgctx t)
  /\ (exists T N, val4 (msgctx t)
                  = set_lane3 (set_lane1 (tail_words (bleheaders_of b)) T) N
                  /\ le_bytes T = le_bytes (nTime (t_block t)))
  /\ head (t_block t) = head b /\ nBits (t_block t) = nBits b.

(** The session of the example after an interrupt, and after a stop. *)
Definition interrupted_handler : MinerHandler :=
  Handler false true false (Block [] 0 0 0) 0 [0; 0; 0; 0].

Definition stopped_handler : MinerHandler :=
  Handler false false true (Block [] 0 0 0) 0 [0; 0; 0; 0].

(** A worker on the block of the example whose next batch holds a nonce
    that passes both checks (3308584785, in lane 1), and collaborators
    that see a peer at every probe. *)
Definition winning_thread : Thread :=
  Th (set_nNonce example_block 3308584784)
     (BleMinerTransform1 (bleheaders_of (set_nNonce example_block 3308584784)))
     (repeat x00 32) example_tip example_tip example_handler 0 [] [].

Definition connected_collaborators : Collaborators :=
  {| CheckProofOfWork := Spec.CheckProofOfWork;
     SetNull := fun _ => Block [] 0 0 0;
     IsNull := fun b => nBits b =? 0;
     CBlock_new := Block [] 0 0 0;
     hashPrevBlock_GetHex := fun _ => example_tip;
     GetAdjustedTime := fun _ => 1500000600;
     GetTimeMillis := fun _ => 0;
     Tip_GetBlockHash_GetHex := fun _ => example_tip;
     hasPeers := fun _ => true |}.

(* ================================================================= *)
(** ** What the threads of a session keep *)






(* ================================================================= *)
(** ** The worker on four lanes *)

Module ArmV8.

(** The state of one thread of [proofOfWorkFinderArmV8]: its locals, with
    the scratchpad [msgctx[40]] and the workpad of [BleMiner4Way], the
    session it shares, and its trace, as for [proofOfWorkFinder]. *)
Record Thread : Type := Th {
  t_block : CBlock;
  msgctx : list Z;
  workpad : uint32x4x24_t;
  currenthash : list byte;
  hashPrevBlock : string;
  chaintipblockhash : string;
  handler : MinerHandler;
  reads : nat;
  sleeps : list Z;
  submitted : list CBlock
}.

Definition with_block (t : Thread) (b : CBlock) : Thread :=
  Th b (msgctx t) (workpad t) (currenthash t) (hashPrevBlock t) (chaintipblockhash t)
     (handler t) (reads t) (sleeps t) (submitted t).
Definition with_msgctx (t : Thread) (m : list Z) : Thread :=
  Th (t_block t) m (workpad t) (currenthash t) (hashPrevBlock t) (chaintipblockhash t)
     (handler t) (reads t) (sleeps t) (submitted t).
Definition with_workpad (t : Thread) (w : uint32x4x24_t) : Thread :=
  Th (t_block t) (msgctx t) w (currenthash t) (hashPrevBlock t) (chaintipblockhash t)
     (handler t) (reads t) (sleeps t) (submitted t).
Definition with_currenthash (t : Thread) (h : list byte) : Thread :=
  Th (t_block t) (msgctx t) (workpad t) h (hashPrevBlock t) (chaintipblockhash t)
     (handler t) (reads t) (sleeps t) (submitted t).
Definition with_hashPrevBlock (t : Thread) (s : string) : Thread :=
  Th (t_block t) (msgctx t) (workpad t) (currenthash t) s (chaintipblockhash t)
     (handler t) (reads t) (sleeps t) (submitted t).
Definition with_chaintipblockhash (t : Thread) (s : string) : Thread :=
  Th (t_block t) (msgctx t) (workpad t) (currenthash t) (hashPrevBlock t) s
     (handler t) (reads t) (sleeps t) (submitted t).
Definition with_handler (t : Thread) (h : MinerHandler) : Thread :=
  Th (t_block t) (msgctx t) (workpad t) (currenthash t) (hashPrevBlock t)
     (chaintipblockhash t) h (reads t) (sleeps t) (submitted t).
Definition tick (t : Thread) : Thread :=
  Th (t_block t) (msgctx t) (workpad t) (currenthash t) (hashPrevBlock t)
     (chaintipblockhash t) (handler t) (S (reads t)) (sleeps t) (submitted t).
Definition MilliSleep (ms : Z) (t : Thread) : Thread :=
  Th (t_block t) (msgctx t) (workpad t) (currenthash t) (hashPrevBlock t)
     (chaintipblockhash t) (handler t) (reads t) (ms :: sleeps t) (submitted t).
Definition ProcessNewBlock (t : Thread) : Thread :=
  Th (t_block t) (msgctx t) (workpad t) (currenthash t) (hashPrevBlock t)
     (chaintipblockhash t) (handler t) (reads t) (sleeps t) (t_block t :: submitted t).

(** The two state vectors of way [j] (0 to 3) in the workpad: [STATEA0] and
    [STATEA1], up to [STATED0] and [STATED1]. *)
Definition way (w : uint32x4x24_t) (j : nat) : uint32x4x2_t :=
  match j with
  | 0%nat => (STATEA0 w, STATEA1 w)
  | 1%nat => (STATEB0 w, STATEB1 w)
  | 2%nat => (STATEC0 w, STATEC1 w)
  | _ => (STATED0 w, STATED1 w)
  end.

(** Byte swap of the two state vectors of a way, in place. *)
Definition swap_way (w : uint32x4x24_t) (j : nat) : uint32x4x24_t :=
  match j with
  | 0%nat =>
      X24 (bswap32q (STATEA0 w)) (bswap32q (STATEA1 w)) (STATEB0 w) (STATEB1 w)
          (STATEC0 w) (STATEC1 w) (STATED0 w) (STATED1 w)
          (MSGA0 w) (MSGA1 w) (MSGA2 w) (MSGA3 w) (MSGB0 w) (MSGB1 w) (MSGB2 w) (MSGB3 w)
          (MSGC0 w) (MSGC1 w) (MSGC2 w) (MSGC3 w) (MSGD0 w) (MSGD1 w) (MSGD2 w) (MSGD3 w)
  | 1%nat =>
      X24 (STATEA0 w) (STATEA1 w) (bswap32q (STATEB0 w)) (bswap32q (STATEB1 w))
          (STATEC0 w) (STATEC1 w) (STATED0 w) (STATED1 w)
          (MSGA0 w) (MSGA1 w) (MSGA2 w) (MSGA3 w) (MSGB0 w) (MSGB1 w) (MSGB2 w) (MSGB3 w)
          (MSGC0 w) (MSGC1 w) (MSGC2 w) (MSGC3 w) (MSGD0 w) (MSGD1 w) (MSGD2 w) (MSGD3 w)
  | 2%nat =>
      X24 (STATEA0 w) (STATEA1 w) (STATEB0 w) (STATEB1 w)
          (bswap32q (STATEC0 w)) (bswap32q (STATEC1 w)) (STATED0 w) (STATED1 w)
          (MSGA0 w) (MSGA1 w) (MSGA2 w) (MSGA3 w) (MSGB0 w) (MSGB1 w) (MSGB2 w) (MSGB3 w)
          (MSGC0 w) (MSGC1 w) (MSGC2 w) (MSGC3 w) (MSGD0 w) (MSGD1 w) (MSGD2 w) (MSGD3 w)
  | _ =>
      X24 (STATEA0 w) (STATEA1 w) (STATEB0 w) (STATEB1 w)
          (STATEC0 w) (STATEC1 w) (bswap32q (STATED0 w)) (bswap32q (STATED1 w))
          (MSGA0 w) (MSGA1 w) (MSGA2 w) (MSGA3 w) (MSGB0 w) (MSGB1 w) (MSGB2 w) (MSGB3 w)
          (MSGC0 w) (MSGC1 w) (MSGC2 w) (MSGC3 w) (MSGD0 w) (MSGD1 w) (MSGD2 w) (MSGD3 w)
  end.

(** The test of way [j]: the quick check [workpad.STATEA1[3] == msgctx[36]],
    then the byte swap in the workpad, the copy into [currenthash] and the
    call of [CheckProofOfWork], whose two outcomes are the same: the body
    of that [if] is empty. *)
Definition quick_filter (t : Thread) (j : nat) : bool :=
  e3 (snd (way (workpad t) j)) =? nth 36 (msgctx t) 0.

Definition check_way (c : Collaborators) (j : nat) (t : Thread) : Thread :=
  if quick_filter t j then
    let t := with_workpad t (swap_way (workpad t) j) in
    let t := with_currenthash t (memcpy32 (fst (way (workpad t) j))
                                          (snd (way (workpad t) j))) in
    if CheckProofOfWork c (currenthash t) (nBits (t_block t)) then t else t
  else t.

(** [block.nNonce++]. *)
Definition next_nonce (t : Thread) : Thread :=
  with_block t (set_nNonce (t_block t) (add32 (nNonce (t_block t)) 1)).

Definition check_ways (c : Collaborators) (t : Thread) : Thread :=
  let t := next_nonce (check_way c 0 t) in
  let t := next_nonce (check_way c 1 t) in
  let t := next_nonce (check_way c 2 t) in
  next_nonce (check_way c 3 t).

(** The wait for the chain tip to read the same twice; [fuel] bounds the
    model of a loop that has no bound. *)
Fixpoint poll_tip (c : Collaborators) (fuel : nat) (t : Thread) : option Thread :=
  match fuel with
  | O => None
  | S fuel' =>
      let tip := Tip_GetBlockHash_GetHex c (reads t) in
      let t := tick t in
      if (negb (String.eqb (chaintipblockhash t) tip)
          || (String.length (chaintipblockhash t) <? 64)%nat)
         && negb (stop (handler t)) && negb (interrupt (handler t))
      then
        let t := MilliSleep 5 t in
        let t := with_chaintipblockhash (tick t) (Tip_GetBlockHash_GetHex c (reads t)) in
        poll_tip c fuel' t
      else Some t
  end.

(** The checks of thread 0 inside the periodic block. *)
Definition exit_checks (c : Collaborators) (fuel : nat) (from to : Z) (t : Thread)
  : option Thread :=
  let t := if interrupt (handler t) then with_handler t (set_stop (handler t) true)
           else t in
  let t := MilliSleep 5 t in
  match poll_tip c fuel t with
  | None => None
  | Some t =>
      let t := if negb (String.eqb (chaintipblockhash t) (hashPrevBlock t))
               then with_handler t (set_stop (handler t) true) else t in
      let t := if (to <=? nNonce (t_block t)) || (nNonce (t_block t) <? from)
               then with_handler (with_block (MilliSleep 10 t) (SetNull c (t_block t)))
                                 (set_stop (handler t) true)
               else t in
      Some t
  end.

(** [block.nNonce % 6000000 == 0]. *)
Definition housekeeping_due (b : CBlock) : bool := nNonce b mod 6000000 =? 0.

(** The periodic block: the time of the block from the clock, the same
    into [msgctx[17]], and on thread 0 the checks. *)
Definition housekeeping (c : Collaborators) (fuel : nat) (idx : nat) (from to : Z)
    (t : Thread) : option Thread :=
  if housekeeping_due (t_block t) then
    let t := with_block (tick t) (set_nTime (t_block t)
                                    (trunc32 (GetAdjustedTime c (reads t)))) in
    let t := with_msgctx t (store (msgctx t) 17 (nTime (t_block t))) in
    if (idx =? 0)%nat then exit_checks c fuel from to t else Some t
  else Some t.

(** One turn of [while(true)]. *)
Definition iteration (c : Collaborators) (fuel : nat) (idx : nat) (from to : Z)
    (t : Thread) : option (Thread * Flow) :=
  if stop (handler t) then
    let t := MilliSleep 50 t in
    let t := with_handler t (set_currentOffset (handler t) idx
                               (sub32 (nNonce (t_block t)) from)) in
    Some (with_block t (SetNull c (t_block t)), Break)
  else
    let r := BleMiner4Way (msgctx t) (workpad t) in
    let t := with_workpad (with_msgctx t (fst r)) (snd r) in
    let t := check_ways c t in
    match housekeeping c fuel idx from to t with
    | None => None
    | Some t => Some (t, Next)
    end.

Fixpoint work_loop (c : Collaborators) (fuel : nat) (idx : nat) (from to : Z)
    (t : Thread) : option Thread :=
  match fuel with
  | O => None
  | S fuel' =>
      match iteration c fuel idx from to t with
      | None => None
      | Some (t, Break) => Some t
      | Some (t, Next) => work_loop c fuel' idx from to t
      end
  end.

(** The wait of thread 0 for the hash of the previous block. *)
Fixpoint read_hashPrevBlock (c : Collaborators) (fuel : nat) (t : Thread)
  : option Thread :=
  match fuel with
  | O => None
  | S fuel' =>
      if (String.length (hashPrevBlock t) <? 64)%nat
         && negb (interrupt (handler t)) && negb (stop (handler t))
      then
        let t := with_hashPrevBlock t (hashPrevBlock_GetHex c (t_block t)) in
        read_hashPrevBlock c fuel' (MilliSleep 5 t)
      else Some t
  end.

(** [while(!hasPeers() && waitforpeers) { MilliSleep(100); waitforpeers--; }]. *)
Fixpoint wait_for_peers (c : Collaborators) (waitforpeers : nat) (t : Thread) : Thread :=
  let peers := hasPeers c (reads t) in
  let t := tick t in
  match waitforpeers with
  | O => t
  | S w => if negb peers then wait_for_peers c w (MilliSleep 100 t) else t
  end.

(** The performance summary of thread 0 for a null block: the clock is
    read once for the test and once more for the line that is printed. *)
Definition summary (c : Collaborators) (idx : nat) (t : Thread) : Thread :=
  if (idx =? 0)%nat && IsNull c (t_block t) then
    let now := GetTimeMillis c (reads t) in
    let t := tick t in
    if 1000 <=? now - mineStartTime (handler t) then tick t else t
  else t.

(** The end of the worker, from [if (block.IsNull())] on. *)
Definition finish (c : Collaborators) (t : Thread) : Thread :=
  if IsNull c (t_block t) then t
  else
    let peers := hasPeers c (reads t) in
    let t := tick t in
    let go (t : Thread) :=
      let t := with_handler t (set_found (handler t) true) in
      let t := with_handler t (set_block (handler t) (t_block t)) in
      ProcessNewBlock t in
    if negb peers then
      let t := wait_for_peers c 50 t in
      let peers := hasPeers c (reads t) in
      let t := tick t in
      if negb peers then t else go t
    else go t.

(** [proofOfWorkFinderArmV8(idx, block, from, to, handler)] on the session
    [h], from an empty trace; [msgctx0] and [workpad0] are what the two
    locals hold before they are written. *)
Definition proofOfWorkFinderArmV8 (c : Collaborators) (fuel : nat) (idx : nat)
    (b : CBlock) (from to : Z) (h : MinerHandler)
    (msgctx0 : list Z) (workpad0 : uint32x4x24_t) : option Thread :=
  let b := set_nNonce b from in
  let h := set_currentOffset h idx 0 in
  let t := Th b (BleMinerInitialTransform (bleheaders_of b) msgctx0) workpad0
              (repeat x00 32) EmptyString EmptyString h O [] [] in
  match (if (idx =? 0)%nat then read_hashPrevBlock c fuel t else Some t) with
  | None => None
  | Some t =>
      match work_loop c fuel idx from to t with
      | None => None
      | Some t => Some (finish c (summary c idx t))
      end
  end.

(** The session and the submissions of [t'] are those of [t], but for the
    stop flag and the offsets. *)
Definition same_session (t t' : Thread) : Prop :=
  found (handler t') = found (handler t) /\ block (handler t') = block (handler t)
  /\ submitted t' = submitted t.

End ArmV8.

(** A worker on four lanes at the start of its work loop, on the block of
    the example with the nonce 3308584784: its first batch holds a nonce
    whose digest passes the quick check. *)
Definition example_workpad : uint32x4x24_t :=
  X24 indeterminate indeterminate indeterminate indeterminate indeterminate indeterminate
      indeterminate indeterminate indeterminate indeterminate indeterminate indeterminate
      indeterminate indeterminate indeterminate indeterminate indeterminate indeterminate
      indeterminate indeterminate indeterminate indeterminate indeterminate indeterminate.

Definition example_thread_armv8 : ArmV8.Thread :=
  ArmV8.Th (set_nNonce example_block 3308584784)
           (BleMinerInitialTransform (bleheaders_of (set_nNonce example_block 3308584784))
                                     (repeat 0 40))
           example_workpad (repeat x00 32) example_tip example_tip example_handler 0 [] [].

(* ================================================================= *)
(** * Verification *)

(* ================================================================= *)
(** ** Words: modular arithmetic and bitwise identities *)

Lemma add32_range x y : 0 <= add32 x y < 2 ^ 32.
Proof. unfold add32. apply Z.mod_pos_bound. reflexivity. Qed.

Lemma add32_comm x y : add32 x y = add32 y x.
Proof. unfold add32. now rewrite Z.add_comm. Qed.

Lemma add32_assoc x y z : add32 (add32 x y) z = add32 x (add32 y z).
Proof.
  unfold add32. rewrite Zplus_mod_idemp_l, Zplus_mod_idemp_r.
  now rewrite Z.add_assoc.
Qed.

(** Sums of words are compared after dropping the inner reductions:
    [strip_mod m e] is [e] without its [mod m], and [prove_strip] shows
    that [e] and it agree modulo [m]. *)
Lemma add_mod_cong a a' b b' m :
  a mod m = a' mod m -> b mod m = b' mod m -> (a + b) mod m = (a' + b') mod m.
Proof. intros Ha Hb. rewrite (Zplus_mod a b), (Zplus_mod a' b'), Ha, Hb. reflexivity. Qed.

Lemma mod_mod_cong a a' m : a mod m = a' mod m -> (a mod m) mod m = a' mod m.
Proof. intros <-. apply Zmod_mod. Qed.

Ltac strip_mod m e :=
  lazymatch e with
  | ?a mod m => strip_mod m a
  | ?a + ?b =>
      let a' := strip_mod m a in
      let b' := strip_mod m b in
      constr:(a' + b')
  | _ => e
  end.

Ltac prove_strip :=
  lazymatch goal with
  | |- (?a mod ?m) mod ?m = _ => apply mod_mod_cong; prove_strip
  | |- (?a + ?b) mod ?m = (?a' + ?b') mod ?m => apply add_mod_cong; prove_strip
  | |- _ => reflexivity
  end.

Ltac add32_eq :=
  unfold add32;
  lazymatch goal with
  | |- ?a mod ?m = ?b mod ?m =>
      let a' := strip_mod m a in
      let b' := strip_mod m b in
      transitivity (a' mod m); [ prove_strip | ];
      transitivity (b' mod m); [ | symmetry; prove_strip ];
      f_equal; ring
  end.

Lemma SHAchoose_Ch x y z : SHAchoose x y z = Ref.Ch x y z.
Proof.
  unfold SHAchoose, Ref.Ch. apply Z.bits_inj'. intros n Hn.
  rewrite !Z.lxor_spec, !Z.land_spec, Z.lxor_spec, Z.lnot_spec by assumption.
  destruct (Z.testbit x n), (Z.testbit y n), (Z.testbit z n); reflexivity.
Qed.

Lemma SHAmajority_Maj x y z : SHAmajority x y z = Ref.Maj x y z.
Proof.
  unfold SHAmajority, Ref.Maj. apply Z.bits_inj'. intros n Hn.
  rewrite !Z.lxor_spec, !Z.lor_spec, !Z.land_spec, Z.lor_spec.
  destruct (Z.testbit x n), (Z.testbit y n), (Z.testbit z n); reflexivity.
Qed.

(* ================================================================= *)
(** ** Four rounds of the instruction pair are four rounds of FIPS 180-4 *)

Lemma hash_step_round (st : hstate) (k w : Z) :
  st_list (SHA256hash_step st (add32 w k)) = Ref.round (st_list st) (k, w).
Proof.
  destruct st as [[a b c d] [e f g h]].
  unfold SHA256hash_step, Ref.round, st_list, flat. cbn [fst snd e0 e1 e2 e3 app].
  rewrite SHAchoose_Ch, SHAmajority_Maj.
  change (SHAhashSIGMA1 e) with (Ref.Sigma1 e).
  change (SHAhashSIGMA0 a) with (Ref.Sigma0 a).
  f_equal; [ add32_eq | ].
  do 3 f_equal. f_equal; add32_eq.
Qed.

Lemma rounds4_ref (st : hstate) (w : uint32x4_t) (k0 k1 k2 k3 : Z) (rest : list (Z * Z)) :
  fold_left Ref.round
    ((k0, e0 w) :: (k1, e1 w) :: (k2, e2 w) :: (k3, e3 w) :: rest) (st_list st)
  = fold_left Ref.round rest (st_list (rounds4 st (vaddq_u32 w (V4 k0 k1 k2 k3)))).
Proof.
  unfold rounds4, SHA256hash, vaddq_u32. cbn [fold_left e0 e1 e2 e3].
  rewrite <- !hash_step_round. now destruct st.
Qed.

(* ================================================================= *)
(** ** The schedule in groups of four words *)

Lemma wq_step (j : nat) : forall a b c d,
  wq (4 + j) a b c d
  = vsha256su1q_u32 (vsha256su0q_u32 (wq j a b c d) (wq (1 + j) a b c d))
      (wq (2 + j) a b c d) (wq (3 + j) a b c d).
Proof.
  induction j as [|j IH]; intros a b c d.
  - reflexivity.
  - change (wq (4 + S j) a b c d)
      with (wq (4 + j) b c d (vsha256su1q_u32 (vsha256su0q_u32 a b) c d)).
    rewrite IH. reflexivity.
Qed.

Lemma rquads_shift (n : nat) : forall a b c d,
  rquads (S n) a b c d
  = rquads n b c d (vsha256su1q_u32 (vsha256su0q_u32 a b) c d) ++ rflat a.
Proof.
  induction n as [|n IH]; intros a b c d.
  - reflexivity.
  - change (rquads (S (S n)) a b c d)
      with (rflat (wq (S n) a b c d) ++ rquads (S n) a b c d).
    rewrite IH. cbn [rquads wq]. now rewrite <- app_assoc.
Qed.

Lemma su0_elt_sigma0 : su0_elt = Ref.sigma0.
Proof. reflexivity. Qed.

Lemma su1_elt_sigma1 : su1_elt = Ref.sigma1.
Proof. reflexivity. Qed.

Lemma schedule_word (s y x w7 : Z) :
  add32 (add32 s (add32 y x)) w7 = add32 (add32 (add32 s w7) y) x.
Proof. add32_eq. Qed.

(** Four steps of the reference schedule are one SHA256SU0/SHA256SU1 pair. *)
Lemma expand4 (n : nat) (a b c d : uint32x4_t) (tail : list Z) :
  Ref.expand (4 + n) (rflat d ++ rflat c ++ rflat b ++ rflat a ++ tail)
  = Ref.expand n
      (rflat (vsha256su1q_u32 (vsha256su0q_u32 a b) c d)
         ++ rflat d ++ rflat c ++ rflat b ++ rflat a ++ tail).
Proof.
  destruct a as [a0 a1 a2 a3], b as [b0 b1 b2 b3], c as [c0 c1 c2 c3], d as [d0 d1 d2 d3].
  cbn [Nat.add Ref.expand rflat app e0 e1 e2 e3].
  f_equal.
  unfold Ref.W_next, vsha256su1q_u32, vsha256su0q_u32.
  cbn [nth e0 e1 e2 e3].
  rewrite su0_elt_sigma0, su1_elt_sigma1, !schedule_word. reflexivity.
Qed.

Lemma expand_quads (n : nat) : forall a b c d tail,
  Ref.expand (4 * n) (rquads 4 a b c d ++ tail) = rquads (n + 4) a b c d ++ tail.
Proof.
  induction n as [|n IH]; intros a b c d tail.
  - reflexivity.
  - replace (4 * S n)%nat with (4 + 4 * n)%nat by lia.
    change (rquads 4 a b c d ++ tail)
      with (rflat d ++ rflat c ++ rflat b ++ rflat a ++ tail).
    rewrite expand4.
    change (rflat (vsha256su1q_u32 (vsha256su0q_u32 a b) c d)
              ++ rflat d ++ rflat c ++ rflat b ++ rflat a ++ tail)
      with (rquads 4 b c d (vsha256su1q_u32 (vsha256su0q_u32 a b) c d)
              ++ (rflat a ++ tail)).
    rewrite IH.
    change (S n + 4)%nat with (S (n + 4)).
    rewrite (rquads_shift (n + 4)). now rewrite <- app_assoc.
Qed.

Lemma rev_rflat v : rev (rflat v) = flat v.
Proof. reflexivity. Qed.

Lemma rev_flat v : rev (flat v) = rflat v.
Proof. reflexivity. Qed.

(** The schedule of a block, as its sixteen groups. *)
Lemma schedule_quads (a b c d : uint32x4_t) :
  Ref.schedule (flat a ++ flat b ++ flat c ++ flat d)
  = flat a ++ flat b ++ flat c ++ flat d
      ++ flat (wq 4 a b c d) ++ flat (wq 5 a b c d) ++ flat (wq 6 a b c d)
      ++ flat (wq 7 a b c d) ++ flat (wq 8 a b c d) ++ flat (wq 9 a b c d)
      ++ flat (wq 10 a b c d) ++ flat (wq 11 a b c d) ++ flat (wq 12 a b c d)
      ++ flat (wq 13 a b c d) ++ flat (wq 14 a b c d) ++ flat (wq 15 a b c d).
Proof.
  unfold Ref.schedule.
  replace (rev (flat a ++ flat b ++ flat c ++ flat d))
    with (rquads 4 a b c d ++ []) by reflexivity.
  change 48%nat with (4 * 12)%nat.
  rewrite expand_quads, app_nil_r.
  change (12 + 4)%nat with 16%nat.
  cbn [rquads].
  rewrite !rev_app_distr, !rev_rflat. cbn [rev app].
  change (wq 0 a b c d) with a. change (wq 1 a b c d) with b.
  change (wq 2 a b c d) with c. change (wq 3 a b c d) with d.
  rewrite <- !app_assoc. reflexivity.
Qed.

Lemma qr_S (n : nat) (st : hstate) (a b c d : uint32x4_t) :
  qr (S n) st a b c d
  = rounds4 (qr n st a b c d) (vaddq_u32 (wq n a b c d) (vld1q_u32 K (4 * n))).
Proof. reflexivity. Qed.

Lemma qrounds_unfold (st : hstate) (a b c d : uint32x4_t) :
  qrounds st a b c d =
  rounds4 (rounds4 (rounds4 (rounds4 (rounds4 (rounds4 (rounds4 (rounds4
  (rounds4 (rounds4 (rounds4 (rounds4 (rounds4 (rounds4 (rounds4 (rounds4 st
    (vaddq_u32 a (vld1q_u32 K 0)))
    (vaddq_u32 b (vld1q_u32 K 4)))
    (vaddq_u32 c (vld1q_u32 K 8)))
    (vaddq_u32 d (vld1q_u32 K 12)))
    (vaddq_u32 (wq 4 a b c d) (vld1q_u32 K 16)))
    (vaddq_u32 (wq 5 a b c d) (vld1q_u32 K 20)))
    (vaddq_u32 (wq 6 a b c d) (vld1q_u32 K 24)))
    (vaddq_u32 (wq 7 a b c d) (vld1q_u32 K 28)))
    (vaddq_u32 (wq 8 a b c d) (vld1q_u32 K 32)))
    (vaddq_u32 (wq 9 a b c d) (vld1q_u32 K 36)))
    (vaddq_u32 (wq 10 a b c d) (vld1q_u32 K 40)))
    (vaddq_u32 (wq 11 a b c d) (vld1q_u32 K 44)))
    (vaddq_u32 (wq 12 a b c d) (vld1q_u32 K 48)))
    (vaddq_u32 (wq 13 a b c d) (vld1q_u32 K 52)))
    (vaddq_u32 (wq 14 a b c d) (vld1q_u32 K 56)))
    (vaddq_u32 (wq 15 a b c d) (vld1q_u32 K 60)).
Proof.
  unfold qrounds. rewrite !qr_S.
  change (qr 0 st a b c d) with st.
  change (wq 0 a b c d) with a. change (wq 1 a b c d) with b.
  change (wq 2 a b c d) with c. change (wq 3 a b c d) with d.
  reflexivity.
Qed.

(** Sixty-four rounds of the hashers are the sixty-four rounds of the
    reference. *)
Lemma qrounds_ref (st : hstate) (a b c d : uint32x4_t) :
  fold_left Ref.round
    (combine K (Ref.schedule (flat a ++ flat b ++ flat c ++ flat d))) (st_list st)
  = st_list (qrounds st a b c d).
Proof.
  rewrite schedule_quads, qrounds_unfold.
  generalize (wq 4 a b c d) (wq 5 a b c d) (wq 6 a b c d) (wq 7 a b c d)
             (wq 8 a b c d) (wq 9 a b c d) (wq 10 a b c d) (wq 11 a b c d)
             (wq 12 a b c d) (wq 13 a b c d) (wq 14 a b c d) (wq 15 a b c d).
  intros q4 q5 q6 q7 q8 q9 q10 q11 q12 q13 q14 q15.
  cbv [K combine flat app vld1q_u32 nth Nat.add].
  rewrite !rounds4_ref. reflexivity.
Qed.

Lemma qcompress_ref (st : hstate) (a b c d : uint32x4_t) :
  Ref.compress (st_list st) (flat a ++ flat b ++ flat c ++ flat d)
  = st_list (qcompress st a b c d).
Proof.
  unfold Ref.compress. rewrite qrounds_ref. unfold qcompress.
  destruct (qrounds st a b c d) as [[a0 a1 a2 a3] [a4 a5 a6 a7]].
  destruct st as [[h0 h1 h2 h3] [h4 h5 h6 h7]].
  reflexivity.
Qed.

(* ================================================================= *)
(** ** Reading a hasher statement by statement *)

Lemma Assign_value {A B : Type} (e e' : A) (k : A -> B) (rhs : B) :
  e = e' -> k e' = rhs -> Assign e k = rhs.
Proof. intros ->. exact (fun H => H). Qed.

Lemma hq_pair (X : hstate) (wk : uint32x4_t) :
  vsha256hq_u32 (fst X) (snd X) wk = fst (rounds4 X wk).
Proof. reflexivity. Qed.

Lemma h2_pair (X : hstate) (wk : uint32x4_t) :
  vsha256h2q_u32 (snd X) (fst X) wk = snd (rounds4 X wk).
Proof. reflexivity. Qed.

Lemma hq_init (abcd efgh wk : uint32x4_t) :
  vsha256hq_u32 abcd efgh wk = fst (rounds4 (abcd, efgh) wk).
Proof. reflexivity. Qed.

Lemma h2_init (abcd efgh wk : uint32x4_t) :
  vsha256h2q_u32 efgh abcd wk = snd (rounds4 (abcd, efgh) wk).
Proof. reflexivity. Qed.

Lemma wq_4 (a b c d : uint32x4_t) :
  vsha256su1q_u32 (vsha256su0q_u32 a b) c d = wq 4 a b c d.
Proof. exact (eq_sym (wq_step 0 a b c d)). Qed.

Lemma wq_5 (a b c d : uint32x4_t) :
  vsha256su1q_u32 (vsha256su0q_u32 b c) d (wq 4 a b c d) = wq 5 a b c d.
Proof. exact (eq_sym (wq_step 1 a b c d)). Qed.

Lemma wq_6 (a b c d : uint32x4_t) :
  vsha256su1q_u32 (vsha256su0q_u32 c d) (wq 4 a b c d) (wq 5 a b c d) = wq 6 a b c d.
Proof. exact (eq_sym (wq_step 2 a b c d)). Qed.

Lemma wq_7 (a b c d : uint32x4_t) :
  vsha256su1q_u32 (vsha256su0q_u32 d (wq 4 a b c d)) (wq 5 a b c d) (wq 6 a b c d) = wq 7 a b c d.
Proof. exact (eq_sym (wq_step 3 a b c d)). Qed.

Lemma wq_8 (a b c d : uint32x4_t) :
  vsha256su1q_u32 (vsha256su0q_u32 (wq 4 a b c d) (wq 5 a b c d)) (wq 6 a b c d) (wq 7 a b c d) = wq 8 a b c d.
Proof. exact (eq_sym (wq_step 4 a b c d)). Qed.

Lemma wq_9 (a b c d : uint32x4_t) :
  vsha256su1q_u32 (vsha256su0q_u32 (wq 5 a b c d) (wq 6 a b c d)) (wq 7 a b c d) (wq 8 a b c d) = wq 9 a b c d.
Proof. exact (eq_sym (wq_step 5 a b c d)). Qed.

Lemma wq_10 (a b c d : uint32x4_t) :
  vsha256su1q_u32 (vsha256su0q_u32 (wq 6 a b c d) (wq 7 a b c d)) (wq 8 a b c d) (wq 9 a b c d) = wq 10 a b c d.
Proof. exact (eq_sym (wq_step 6 a b c d)). Qed.

Lemma wq_11 (a b c d : uint32x4_t) :
  vsha256su1q_u32 (vsha256su0q_u32 (wq 7 a b c d) (wq 8 a b c d)) (wq 9 a b c d) (wq 10 a b c d) = wq 11 a b c d.
Proof. exact (eq_sym (wq_step 7 a b c d)). Qed.

Lemma wq_12 (a b c d : uint32x4_t) :
  vsha256su1q_u32 (vsha256su0q_u32 (wq 8 a b c d) (wq 9 a b c d)) (wq 10 a b c d) (wq 11 a b c d) = wq 12 a b c d.
Proof. exact (eq_sym (wq_step 8 a b c d)). Qed.

Lemma wq_13 (a b c d : uint32x4_t) :
  vsha256su1q_u32 (vsha256su0q_u32 (wq 9 a b c d) (wq 10 a b c d)) (wq 11 a b c d) (wq 12 a b c d) = wq 13 a b c d.
Proof. exact (eq_sym (wq_step 9 a b c d)). Qed.

Lemma wq_14 (a b c d : uint32x4_t) :
  vsha256su1q_u32 (vsha256su0q_u32 (wq 10 a b c d) (wq 11 a b c d)) (wq 12 a b c d) (wq 13 a b c d) = wq 14 a b c d.
Proof. exact (eq_sym (wq_step 10 a b c d)). Qed.

Lemma wq_15 (a b c d : uint32x4_t) :
  vsha256su1q_u32 (vsha256su0q_u32 (wq 11 a b c d) (wq 12 a b c d)) (wq 13 a b c d) (wq 14 a b c d) = wq 15 a b c d.
Proof. exact (eq_sym (wq_step 11 a b c d)). Qed.

Lemma hq_qr (n : nat) (st : hstate) (a b c d : uint32x4_t) :
  vsha256hq_u32 (fst (qr n st a b c d)) (snd (qr n st a b c d))
    (vaddq_u32 (wq n a b c d) (vld1q_u32 K (4 * n)))
  = fst (qr (S n) st a b c d).
Proof. reflexivity. Qed.

Lemma h2_qr (n : nat) (st : hstate) (a b c d : uint32x4_t) :
  vsha256h2q_u32 (snd (qr n st a b c d)) (fst (qr n st a b c d))
    (vaddq_u32 (wq n a b c d) (vld1q_u32 K (4 * n)))
  = snd (qr (S n) st a b c d).
Proof. reflexivity. Qed.

(** The fourth group is the first that has seen the whole block. *)
Lemma hq_qr4 (st : hstate) (a b c d : uint32x4_t) :
  let X := rounds4 (rounds4 (rounds4 st (vaddq_u32 a (vld1q_u32 K 0)))
                      (vaddq_u32 b (vld1q_u32 K 4))) (vaddq_u32 c (vld1q_u32 K 8)) in
  vsha256hq_u32 (fst X) (snd X) (vaddq_u32 d (vld1q_u32 K 12)) = fst (qr 4 st a b c d).
Proof. reflexivity. Qed.

Lemma h2_qr4 (st : hstate) (a b c d : uint32x4_t) :
  let X := rounds4 (rounds4 (rounds4 st (vaddq_u32 a (vld1q_u32 K 0)))
                      (vaddq_u32 b (vld1q_u32 K 4))) (vaddq_u32 c (vld1q_u32 K 8)) in
  vsha256h2q_u32 (snd X) (fst X) (vaddq_u32 d (vld1q_u32 K 12)) = snd (qr 4 st a b c d).
Proof. reflexivity. Qed.

(** The value of one statement, in the form of [qr] and [wq].  [E] is
    [x = e]; the operation at the head of [e] selects the rule. *)
Ltac then_by E L :=
  let E' := fresh in
  pose proof (eq_trans E L) as E'; clear E; rename E' into E.

Ltac hasher_rule E :=
  lazymatch type of E with
  | _ = vsha256hq_u32 (fst (qr ?n ?st ?a ?b ?c ?d)) _ _ => then_by E (hq_qr n st a b c d)
  | _ = vsha256h2q_u32 (snd (qr ?n ?st ?a ?b ?c ?d)) _ _ => then_by E (h2_qr n st a b c d)
  | _ = vsha256hq_u32
          (fst (rounds4 (rounds4 (rounds4 ?st (vaddq_u32 ?a _)) (vaddq_u32 ?b _))
                  (vaddq_u32 ?c _))) _ (vaddq_u32 ?d _) =>
      then_by E (hq_qr4 st a b c d)
  | _ = vsha256h2q_u32
          (snd (rounds4 (rounds4 (rounds4 ?st (vaddq_u32 ?a _)) (vaddq_u32 ?b _))
                  (vaddq_u32 ?c _))) _ (vaddq_u32 ?d _) =>
      then_by E (h2_qr4 st a b c d)
  | _ = vsha256hq_u32 (fst ?X) (snd ?X) ?wk => then_by E (hq_pair X wk)
  | _ = vsha256hq_u32 ?abcd ?efgh ?wk => then_by E (hq_init abcd efgh wk)
  | _ = vsha256h2q_u32 (snd ?X) (fst ?X) ?wk => then_by E (h2_pair X wk)
  | _ = vsha256h2q_u32 ?efgh ?abcd ?wk => then_by E (h2_init abcd efgh wk)
  | _ = vsha256su1q_u32 (vsha256su0q_u32 ?w ?x) ?y ?z =>
      lazymatch z with
      | wq 4 ?a ?b ?c ?d => then_by E (wq_5 a b c d)
      | wq 5 ?a ?b ?c ?d => then_by E (wq_6 a b c d)
      | wq 6 ?a ?b ?c ?d => then_by E (wq_7 a b c d)
      | wq 7 ?a ?b ?c ?d => then_by E (wq_8 a b c d)
      | wq 8 ?a ?b ?c ?d => then_by E (wq_9 a b c d)
      | wq 9 ?a ?b ?c ?d => then_by E (wq_10 a b c d)
      | wq 10 ?a ?b ?c ?d => then_by E (wq_11 a b c d)
      | wq 11 ?a ?b ?c ?d => then_by E (wq_12 a b c d)
      | wq 12 ?a ?b ?c ?d => then_by E (wq_13 a b c d)
      | wq 13 ?a ?b ?c ?d => then_by E (wq_14 a b c d)
      | wq 14 ?a ?b ?c ?d => then_by E (wq_15 a b c d)
      | _ => then_by E (wq_4 w x y z)
      end
  | _ = vld1q_u32 (_ :: _) _ => cbv [vld1q_u32 nth Nat.add] in E
  | _ = vreinterpretq_u32_u8 (vrev32q_u8 (vreinterpretq_u8_u32 (vld1q_u32 (_ :: _) _))) =>
      cbv [vld1q_u32 nth Nat.add] in E
  | _ = store (_ :: _) _ _ => cbv [store nth] in E
  | _ = ?p (X14 _ _ _ _ _ _ _ _ _ _ _ _ _ _) =>
      cbn [val0 val1 val2 val3 val4 val5 val6 val7 val8 val9 val10 val11 val12 val13] in E
  | _ = ?p (X6 _ _ _ _ _ _) =>
      cbn [x6_val0 x6_val1 x6_val2 x6_val3 x6_val4 x6_val5] in E
  | _ = ?p (X24 _ _ _ _ _ _ _ _ _ _ _ _ _ _ _ _ _ _ _ _ _ _ _ _) =>
      cbn [STATEA0 STATEA1 STATEB0 STATEB1 STATEC0 STATEC1 STATED0 STATED1
           MSGA0 MSGA1 MSGA2 MSGA3 MSGB0 MSGB1 MSGB2 MSGB3
           MSGC0 MSGC1 MSGC2 MSGC3 MSGD0 MSGD1 MSGD2 MSGD3] in E
  | _ => idtac
  end.

(** One statement: put its value in that form and carry on with the rest,
    where the variable now stands for this value. *)
Ltac statement_by rule :=
  lazymatch goal with
  | |- Assign ?e ?k = ?rhs =>
      let E := fresh "E" in
      pose proof (eq_refl e) as E;
      rule E;
      lazymatch type of E with
      | _ = ?e' =>
          let g := eval cbv beta in (k e') in
          refine (Assign_value e e' k rhs E (_ : g = rhs)); clear E
      end
  end.

Ltac statement := statement_by hasher_rule.

Ltac same :=
  lazymatch goal with
  | |- ?x = ?x => exact eq_refl
  | |- ?x = ?y => fail "the two sides differ:" x y
  end.

(** A whole hasher: the expected result is kept out of the way while the
    statements are read. *)
Ltac hasher :=
  lazymatch goal with
  | |- _ = ?rhs =>
      let R := fresh "R" in
      let ER := fresh "ER" in
      remember rhs as R eqn:ER;
      repeat statement;
      subst R; same
  end.

Lemma BleMinerTransform1_spec (H : list byte) :
  BleMinerTransform1 H =
  let s := qcompress SHA256INIT (ldbe H) (ldbe (next16n 1 H)) (ldbe (next16n 2 H))
             (ldbe (next16n 3 H)) in
  let B0 := ldbe (next16n 4 H) in
  let B1 := ldbe (next16n 5 H) in
  let t := rounds4 (rounds4 s (vaddq_u32 B0 (vld1q_u32 K 0))) (vaddq_u32 B1 (vld1q_u32 K 4)) in
  X14 (fst s) (snd s) (vsha256su0q_u32 B0 B1) B1
      (vreinterpretq_u32_u8 (vld1q_u8 (next16n 6 H))) PADDING1
      indeterminate indeterminate indeterminate indeterminate indeterminate indeterminate
      (fst t) (snd t).
Proof.
  cbv zeta. unfold qcompress, qrounds.
  unfold SHA256INIT, PADDING1, ldbe. cbn [fst snd next16n].
  unfold BleMinerTransform1.
  hasher.
Qed.

Lemma BleMiner3Way_spec (v0 v1 a b v4 v5 g6 g7 g8 g9 g10 g11 : uint32x4_t) :
  let t := rounds4 (rounds4 (v0, v1) (vaddq_u32 a (vld1q_u32 K 0)))
             (vaddq_u32 b (vld1q_u32 K 4)) in
  let hA := lane_hash (v0, v1) a b (bswap32q v4) v5 in
  let hB := lane_hash (v0, v1) a b (bswap32q (incr_lane3 v4)) v5 in
  let hC := lane_hash (v0, v1) a b (bswap32q (incr_lane3 (incr_lane3 v4))) v5 in
  BleMiner3Way (X14 v0 v1 (vsha256su0q_u32 a b) b v4 v5 g6 g7 g8 g9 g10 g11 (fst t) (snd t))
  = X14 v0 v1 (vsha256su0q_u32 a b) b (incr_lane3 (incr_lane3 (incr_lane3 v4))) v5
        (fst hA) (snd hA) (fst hB) (snd hB) (fst hC) (snd hC) (fst t) (snd t).
Proof.
  cbv zeta. unfold lane_hash, qcompress, qrounds.
  unfold SHA256INIT, PADDING2A, PADDING2B, bswap32q. cbn [fst snd].
  unfold BleMiner3Way.
  hasher.
Qed.

Lemma BleMinerInitialTransform_spec (H : list byte) (scratchpad : list Z) :
  let s := qcompress SHA256INIT (ldbe H) (ldbe (next16n 1 H)) (ldbe (next16n 2 H))
             (ldbe (next16n 3 H)) in
  BleMinerInitialTransform H scratchpad =
  vst1q_u32 (vst1q_u32 (vst1q_u32 (vst1q_u32 (vst1q_u32 (vst1q_u32 (vst1q_u32
  (vst1q_u32 (vst1q_u32 (vst1q_u32 scratchpad
    0 (fst s)) 4 (snd s)) 8 (ldbe (next16n 4 H))) 12 (ldbe (next16n 5 H)))
    16 (vreinterpretq_u32_u8 (vld1q_u8 (next16n 6 H)))) 20 PADDING1)
    24 (fst SHA256INIT)) 28 (snd SHA256INIT)) 32 PADDING2A) 36 PADDING2B.
Proof.
  cbv zeta. unfold qcompress, qrounds.
  unfold SHA256INIT, PADDING1, PADDING2A, PADDING2B, ldbe. cbn [fst snd next16n].
  unfold BleMinerInitialTransform.
  hasher.
Qed.

Lemma BleMiner_spec (v0 v1 a b v4 v5 : uint32x4_t) :
  BleMiner (X6 v0 v1 a b v4 v5) = lane_hash (v0, v1) a b (bswap32q v4) v5.
Proof.
  unfold lane_hash, qcompress, qrounds.
  unfold SHA256INIT, PADDING2A, PADDING2B, bswap32q. cbn [fst snd].
  unfold BleMiner.
  hasher.
Qed.

Lemma BleMiner2Way_spec (v0 v1 a b v4 v5 : uint32x4_t) :
  let hA := lane_hash (v0, v1) a b (bswap32q v4) v5 in
  let hB := lane_hash (v0, v1) a b (bswap32q (incr_lane3 v4)) v5 in
  BleMiner2Way (X6 v0 v1 a b v4 v5) = (fst hA, snd hA, fst hB, snd hB).
Proof.
  cbv zeta. unfold lane_hash, qcompress, qrounds.
  unfold SHA256INIT, PADDING2A, PADDING2B, bswap32q. cbn [fst snd].
  unfold BleMiner2Way.
  hasher.
Qed.

Lemma BleMiner_1way_spec (H : list byte) :
  let s := qcompress SHA256INIT (ldbe H) (ldbe (next16n 1 H)) (ldbe (next16n 2 H))
             (ldbe (next16n 3 H)) in
  BleMiner_1way H
  = lane_hash s (ldbe (next16n 4 H)) (ldbe (next16n 5 H)) (ldbe (next16n 6 H)) PADDING1.
Proof.
  cbv zeta. unfold lane_hash, qcompress, qrounds.
  unfold SHA256INIT, PADDING1, PADDING2A, PADDING2B, ldbe. cbn [fst snd next16n].
  unfold BleMiner_1way.
  hasher.
Qed.

(** *** The four-way hasher

    [BleMiner4Way] keeps its registers in the caller's [workpad] and the
    results of Transform 1 in an array of forty words; its loop runs the
    sixty-four rounds of all four lanes twice. *)

Lemma BleMiner4Way_loop_spec (i : nat) (stateandmessage : list Z)
  (sA0 sA1 sB0 sB1 sC0 sC1 sD0 sD1 : uint32x4_t)
  (aA bA cA dA aB bB cB dB aC bC cC dC aD bD cD dD : uint32x4_t) :
  BleMiner4Way_loop i stateandmessage
    (X24 sA0 sA1 sB0 sB1 sC0 sC1 sD0 sD1
         aA bA cA dA aB bB cB dB aC bC cC dC aD bD cD dD)
  = if (i =? 0)%nat then
      X24 (vld1q_u32 stateandmessage 24) (vld1q_u32 stateandmessage 28)
          (vld1q_u32 stateandmessage 24) (vld1q_u32 stateandmessage 28)
          (vld1q_u32 stateandmessage 24) (vld1q_u32 stateandmessage 28)
          (vld1q_u32 stateandmessage 24) (vld1q_u32 stateandmessage 28)
          (vaddq_u32 (fst (qr 16 (sA0, sA1) aA bA cA dA)) (vld1q_u32 stateandmessage 0))
          (vaddq_u32 (snd (qr 16 (sA0, sA1) aA bA cA dA)) (vld1q_u32 stateandmessage 4))
          (vld1q_u32 stateandmessage 32) (vld1q_u32 stateandmessage 36)
          (vaddq_u32 (fst (qr 16 (sB0, sB1) aB bB cB dB)) (vld1q_u32 stateandmessage 0))
          (vaddq_u32 (snd (qr 16 (sB0, sB1) aB bB cB dB)) (vld1q_u32 stateandmessage 4))
          (vld1q_u32 stateandmessage 32) (vld1q_u32 stateandmessage 36)
          (vaddq_u32 (fst (qr 16 (sC0, sC1) aC bC cC dC)) (vld1q_u32 stateandmessage 0))
          (vaddq_u32 (snd (qr 16 (sC0, sC1) aC bC cC dC)) (vld1q_u32 stateandmessage 4))
          (vld1q_u32 stateandmessage 32) (vld1q_u32 stateandmessage 36)
          (vaddq_u32 (fst (qr 16 (sD0, sD1) aD bD cD dD)) (vld1q_u32 stateandmessage 0))
          (vaddq_u32 (snd (qr 16 (sD0, sD1) aD bD cD dD)) (vld1q_u32 stateandmessage 4))
          (vld1q_u32 stateandmessage 32) (vld1q_u32 stateandmessage 36)
    else
      X24 (fst (qr 16 (sA0, sA1) aA bA cA dA)) (snd (qr 16 (sA0, sA1) aA bA cA dA))
          (fst (qr 16 (sB0, sB1) aB bB cB dB)) (snd (qr 16 (sB0, sB1) aB bB cB dB))
          (fst (qr 16 (sC0, sC1) aC bC cC dC)) (snd (qr 16 (sC0, sC1) aC bC cC dC))
          (fst (qr 16 (sD0, sD1) aD bD cD dD)) (snd (qr 16 (sD0, sD1) aD bD cD dD))
          (wq 12 aA bA cA dA) (wq 13 aA bA cA dA) (wq 14 aA bA cA dA) (wq 15 aA bA cA dA)
          (wq 12 aB bB cB dB) (wq 13 aB bB cB dB) (wq 14 aB bB cB dB) (wq 15 aB bB cB dB)
          (wq 12 aC bC cC dC) (wq 13 aC bC cC dC) (wq 14 aC bC cC dC) (wq 15 aC bC cC dC)
          (wq 12 aD bD cD dD) (wq 13 aD bD cD dD) (wq 14 aD bD cD dD) (wq 15 aD bD cD dD).
Proof.
  unfold BleMiner4Way_loop.
  lazymatch goal with
  | |- _ = ?rhs => remember rhs as R eqn:ER
  end.
  repeat statement.
  subst R. destruct (i =? 0)%nat.
  - lazymatch goal with
    | |- _ = ?rhs => remember rhs as R eqn:ER
    end.
    repeat statement. subst R. same.
  - same.
Qed.

(** The two passes of the loop: the first leaves the second hash ready to
    run, the second runs it. *)
Lemma BleMiner4Way_loops_spec (stateandmessage : list Z)
  (sA0 sA1 sB0 sB1 sC0 sC1 sD0 sD1 : uint32x4_t)
  (aA bA cA dA aB bB cB dB aC bC cC dC aD bD cD dD : uint32x4_t) :
  let s2 := (vld1q_u32 stateandmessage 24, vld1q_u32 stateandmessage 28) in
  let i0 := vld1q_u32 stateandmessage 0 in
  let i1 := vld1q_u32 stateandmessage 4 in
  let p0 := vld1q_u32 stateandmessage 32 in
  let p1 := vld1q_u32 stateandmessage 36 in
  let mid (r : hstate) := (vaddq_u32 (fst r) i0, vaddq_u32 (snd r) i1) in
  let rA := mid (qr 16 (sA0, sA1) aA bA cA dA) in
  let rB := mid (qr 16 (sB0, sB1) aB bB cB dB) in
  let rC := mid (qr 16 (sC0, sC1) aC bC cC dC) in
  let rD := mid (qr 16 (sD0, sD1) aD bD cD dD) in
  fold_left (fun wp i => BleMiner4Way_loop i stateandmessage wp) [0; 1]%nat
    (X24 sA0 sA1 sB0 sB1 sC0 sC1 sD0 sD1
         aA bA cA dA aB bB cB dB aC bC cC dC aD bD cD dD)
  = X24 (fst (qr 16 s2 (fst rA) (snd rA) p0 p1)) (snd (qr 16 s2 (fst rA) (snd rA) p0 p1))
        (fst (qr 16 s2 (fst rB) (snd rB) p0 p1)) (snd (qr 16 s2 (fst rB) (snd rB) p0 p1))
        (fst (qr 16 s2 (fst rC) (snd rC) p0 p1)) (snd (qr 16 s2 (fst rC) (snd rC) p0 p1))
        (fst (qr 16 s2 (fst rD) (snd rD) p0 p1)) (snd (qr 16 s2 (fst rD) (snd rD) p0 p1))
        (wq 12 (fst rA) (snd rA) p0 p1) (wq 13 (fst rA) (snd rA) p0 p1)
        (wq 14 (fst rA) (snd rA) p0 p1) (wq 15 (fst rA) (snd rA) p0 p1)
        (wq 12 (fst rB) (snd rB) p0 p1) (wq 13 (fst rB) (snd rB) p0 p1)
        (wq 14 (fst rB) (snd rB) p0 p1) (wq 15 (fst rB) (snd rB) p0 p1)
        (wq 12 (fst rC) (snd rC) p0 p1) (wq 13 (fst rC) (snd rC) p0 p1)
        (wq 14 (fst rC) (snd rC) p0 p1) (wq 15 (fst rC) (snd rC) p0 p1)
        (wq 12 (fst rD) (snd rD) p0 p1) (wq 13 (fst rD) (snd rD) p0 p1)
        (wq 14 (fst rD) (snd rD) p0 p1) (wq 15 (fst rD) (snd rD) p0 p1).
Proof.
  cbv zeta. cbn [fold_left fst snd].
  pose proof (BleMiner4Way_loop_spec 0 stateandmessage sA0 sA1 sB0 sB1 sC0 sC1 sD0 sD1
                aA bA cA dA aB bB cB dB aC bC cC dC aD bD cD dD) as E0.
  cbn [Nat.eqb] in E0.
  refine (eq_trans (f_equal (BleMiner4Way_loop 1 stateandmessage) E0) _).
  refine (eq_trans (BleMiner4Way_loop_spec 1 stateandmessage _ _ _ _ _ _ _ _
                      _ _ _ _ _ _ _ _ _ _ _ _ _ _ _ _) _).
  cbn [Nat.eqb]. same.
Qed.

(** The loops, by the lemma above; then the loads from the array. *)
Ltac way4_rule E :=
  lazymatch type of E with
  | _ = fold_left (fun wp i => BleMiner4Way_loop i ?arr wp) _
          (X24 ?sA0 ?sA1 ?sB0 ?sB1 ?sC0 ?sC1 ?sD0 ?sD1
               ?aA ?bA ?cA ?dA ?aB ?bB ?cB ?dB ?aC ?bC ?cC ?dC ?aD ?bD ?cD ?dD) =>
      then_by E (BleMiner4Way_loops_spec arr sA0 sA1 sB0 sB1 sC0 sC1 sD0 sD1
                   aA bA cA dA aB bB cB dB aC bC cC dC aD bD cD dD);
      cbv zeta in E; cbn [fst snd] in E; cbv [vld1q_u32 nth Nat.add] in E
  | _ => hasher_rule E
  end.

Lemma BleMiner4Way_spec
  (x0 x1 x2 x3 x4 x5 x6 x7 x8 x9 x10 x11 x12 x13 x14 x15 x16 x17 x18 x19 x20 x21
   x22 x23 x24 x25 x26 x27 x28 x29 x30 x31 x32 x33 x34 x35 x36 x37 x38 x39 : Z)
  (workpad : uint32x4x24_t) :
  let st := (V4 x0 x1 x2 x3, V4 x4 x5 x6 x7) in
  let a := V4 x8 x9 x10 x11 in
  let b := V4 x12 x13 x14 x15 in
  let d := V4 x20 x21 x22 x23 in
  let v4 := V4 x16 x17 x18 x19 in
  let h (c : uint32x4_t) :=
    let i := qcompress st a b c d in
    qcompress (V4 x24 x25 x26 x27, V4 x28 x29 x30 x31) (fst i) (snd i)
      (V4 x32 x33 x34 x35) (V4 x36 x37 x38 x39) in
  let hA := h (bswap32q v4) in
  let hB := h (bswap32q (incr_lane3 v4)) in
  let hC := h (bswap32q (incr_lane3 (incr_lane3 v4))) in
  let hD := h (bswap32q (incr_lane3 (incr_lane3 (incr_lane3 v4)))) in
  let m (j : nat) (c : uint32x4_t) :=
    let i := qcompress st a b c d in
    wq j (fst i) (snd i) (V4 x32 x33 x34 x35) (V4 x36 x37 x38 x39) in
  let cA := bswap32q v4 in
  let cB := bswap32q (incr_lane3 v4) in
  let cC := bswap32q (incr_lane3 (incr_lane3 v4)) in
  let cD := bswap32q (incr_lane3 (incr_lane3 (incr_lane3 v4))) in
  BleMiner4Way
    [x0; x1; x2; x3; x4; x5; x6; x7; x8; x9; x10; x11; x12; x13; x14; x15; x16; x17;
     x18; x19; x20; x21; x22; x23; x24; x25; x26; x27; x28; x29; x30; x31; x32; x33; x34;
     x35; x36; x37; x38; x39]
    workpad
  = ([x0; x1; x2; x3; x4; x5; x6; x7; x8; x9; x10; x11; x12; x13; x14; x15; x16; x17;
     x18; add32 (add32 (add32 (add32 x19 1) 1) 1) 1; x20; x21; x22; x23; x24; x25; x26;
     x27; x28; x29; x30; x31; x32; x33; x34; x35; x36; x37; x38; x39],
     X24 (fst hA) (snd hA) (fst hB) (snd hB) (fst hC) (snd hC) (fst hD) (snd hD)
         (m 12%nat cA) (m 13%nat cA) (m 14%nat cA) (m 15%nat cA) (m 12%nat cB) (m 13%nat cB) (m 14%nat cB) (m 15%nat cB)
         (m 12%nat cC) (m 13%nat cC) (m 14%nat cC) (m 15%nat cC) (m 12%nat cD) (m 13%nat cD) (m 14%nat cD) (m 15%nat cD)).
Proof.
  cbv zeta. unfold qcompress, qrounds, bswap32q, incr_lane3, set_lane3. cbn [fst snd e0 e1 e2 e3].
  unfold BleMiner4Way.
  repeat statement_by way4_rule.
  same.
Qed.

From Stdlib.Strings Require Import Byte.

(** ** Bytes and words *)

Lemma byte_to_Z_range (b : byte) : 0 <= byte_to_Z b < 256.
Proof.
  unfold byte_to_Z. pose proof (Byte.to_N_bounded b) as Hb. lia.
Qed.

Lemma byte_of_to_Z (b : byte) : byte_of_Z (byte_to_Z b) = b.
Proof.
  unfold byte_of_Z, byte_to_Z.
  rewrite Z.mod_small by (pose proof (Byte.to_N_bounded b); lia).
  rewrite N2Z.id, Byte.of_to_N. reflexivity.
Qed.

Lemma byte_to_of_Z (z : Z) : byte_to_Z (byte_of_Z z) = z mod 256.
Proof.
  unfold byte_of_Z, byte_to_Z.
  pose proof (Z.mod_pos_bound z 256 eq_refl) as Hz.
  destruct (Byte.of_N (Z.to_N (z mod 256))) as [b|] eqn:E.
  - apply Byte.to_of_N in E. rewrite E. lia.
  - apply Byte.of_N_None_iff in E. lia.
Qed.

Lemma byte_of_Z_mod (z : Z) : byte_of_Z (z mod 256) = byte_of_Z z.
Proof. unfold byte_of_Z. rewrite Z.mod_mod by lia. reflexivity. Qed.

Lemma byte_of_Z_low (b : byte) (x : Z) : byte_of_Z (byte_to_Z b + 256 * x) = b.
Proof.
  rewrite <- byte_of_Z_mod.
  replace ((byte_to_Z b + 256 * x) mod 256) with (byte_to_Z b).
  - apply byte_of_to_Z.
  - pose proof (byte_to_Z_range b).
    rewrite (Z.mul_comm 256), Z.mod_add by lia.
    symmetry. apply Z.mod_small. lia.
Qed.

Lemma shift_low (b : byte) (x : Z) : (byte_to_Z b + 256 * x) / 256 = x.
Proof.
  pose proof (byte_to_Z_range b).
  rewrite (Z.mul_comm 256), Z.div_add by lia.
  rewrite Z.div_small by lia. lia.
Qed.

Lemma le_bytes_le32 (b0 b1 b2 b3 : byte) : le_bytes (le32 b0 b1 b2 b3) = [b0; b1; b2; b3].
Proof.
  unfold le_bytes, le32.
  change (2 ^ 8) with 256. change (2 ^ 16) with (256 * 256).
  change (2 ^ 24) with (256 * (256 * 256)).
  rewrite <- !Z.div_div by lia.
  rewrite !shift_low, !byte_of_Z_low.
  rewrite byte_of_to_Z. reflexivity.
Qed.

Lemma le32_le_bytes (w : Z) :
  le32 (byte_of_Z w) (byte_of_Z (w / 2 ^ 8)) (byte_of_Z (w / 2 ^ 16)) (byte_of_Z (w / 2 ^ 24))
  = w mod 2 ^ 32.
Proof.
  unfold le32. rewrite !byte_to_of_Z.
  change (2 ^ 8) with 256. change (2 ^ 16) with 65536.
  change (2 ^ 24) with 16777216. change (2 ^ 32) with 4294967296.
  Z.div_mod_to_equations. lia.
Qed.

Lemma le32_range (b0 b1 b2 b3 : byte) : 0 <= le32 b0 b1 b2 b3 < 2 ^ 32.
Proof.
  unfold le32.
  pose proof (byte_to_Z_range b0). pose proof (byte_to_Z_range b1).
  pose proof (byte_to_Z_range b2). pose proof (byte_to_Z_range b3). lia.
Qed.

Lemma V4_eta (v : uint32x4_t) : V4 (e0 v) (e1 v) (e2 v) (e3 v) = v.
Proof. destruct v; reflexivity. Qed.

(** ** The hashers and the reference SHA-256 *)

Lemma be32_be_bytes (w : Z) :
  Ref.words (be_bytes w) = [w mod 2 ^ 32].
Proof.
  unfold be_bytes, le_bytes. cbn [rev app Ref.words]. unfold be32.
  rewrite le32_le_bytes. reflexivity.
Qed.

Lemma words_be_bytes (w : Z) (r : list byte) :
  Ref.words (be_bytes w ++ r) = w mod 2 ^ 32 :: Ref.words r.
Proof.
  unfold be_bytes, le_bytes. cbn [rev app Ref.words]. unfold be32.
  rewrite le32_le_bytes. reflexivity.
Qed.

Lemma add32_mod (x y : Z) : add32 x y mod 2 ^ 32 = add32 x y.
Proof. unfold add32. apply Z.mod_mod. discriminate. Qed.

Lemma bswap_bytes (v : uint32x4_t) :
  vreinterpretq_u8_u32 (bswap32q v)
  = be_bytes (e0 v) ++ be_bytes (e1 v) ++ be_bytes (e2 v) ++ be_bytes (e3 v).
Proof.
  unfold bswap32q, vreinterpretq_u32_u8, vrev32q_u8.
  unfold vreinterpretq_u8_u32 at 1. cbn [e0 e1 e2 e3].
  rewrite !le_bytes_le32.
  unfold vreinterpretq_u8_u32, be_bytes, le_bytes. reflexivity.
Qed.

Lemma lane_digest_be (d : uint32x4x2_t) :
  lane_digest d = flat_map be_bytes (st_list d).
Proof.
  unfold lane_digest, memcpy32. rewrite !bswap_bytes.
  unfold st_list, flat. cbn [flat_map app]. rewrite <- !app_assoc, app_nil_r. reflexivity.
Qed.

Lemma pad_112 (msg : list byte) :
  length msg = 112%nat ->
  Ref.pad msg = msg ++ [x80; x00; x00; x00; x00; x00; x00; x00;
                        x00; x00; x00; x00; x00; x00; x03; x80].
Proof. intros Hlen. unfold Ref.pad. rewrite Hlen. reflexivity. Qed.

Lemma pad_32 (msg : list byte) :
  length msg = 32%nat ->
  Ref.pad msg = msg ++ [x80; x00; x00; x00; x00; x00; x00; x00;
                        x00; x00; x00; x00; x00; x00; x00; x00;
                        x00; x00; x00; x00; x00; x00; x00; x00;
                        x00; x00; x00; x00; x00; x00; x01; x00].
Proof. intros Hlen. unfold Ref.pad. rewrite Hlen. reflexivity. Qed.

(** A list of known length, element by element. *)
Ltac explicit l Hlen :=
  repeat (destruct l as [|? l]; [discriminate Hlen|]; cbn [length] in Hlen;
          apply Nat.succ_inj in Hlen);
  destruct l; [clear Hlen|discriminate Hlen].

Lemma words_112 (msg : list byte) :
  length msg = 112%nat ->
  Ref.words (Ref.pad msg)
  = (flat (ldbe msg) ++ flat (ldbe (next16n 1 msg)) ++ flat (ldbe (next16n 2 msg))
       ++ flat (ldbe (next16n 3 msg)))
    ++ (flat (ldbe (next16n 4 msg)) ++ flat (ldbe (next16n 5 msg))
       ++ flat (ldbe (next16n 6 msg)) ++ flat PADDING1).
Proof.
  intros Hlen. rewrite pad_112 by exact Hlen.
  explicit msg Hlen. reflexivity.
Qed.

Lemma hash_two_blocks (st : hstate) (a b c d a' b' c' d' : uint32x4_t) :
  let ws := (flat a ++ flat b ++ flat c ++ flat d)
            ++ (flat a' ++ flat b' ++ flat c' ++ flat d') in
  Ref.hash_blocks (length ws / 16) (st_list st) ws
  = st_list (qcompress (qcompress st a b c d) a' b' c' d').
Proof.
  cbv zeta.
  change (?n / 16)%nat with 2%nat.
  cbn [Ref.hash_blocks].
  change (firstn 16 ?ws) with (flat a ++ flat b ++ flat c ++ flat d) at 1.
  rewrite qcompress_ref.
  change (firstn 16 ?ws) with (flat a' ++ flat b' ++ flat c' ++ flat d').
  apply qcompress_ref.
Qed.

Lemma SHA256_112 (msg : list byte) :
  length msg = 112%nat ->
  Ref.SHA256 msg
  = flat_map be_bytes
      (st_list (qcompress
                  (qcompress SHA256INIT (ldbe msg) (ldbe (next16n 1 msg))
                     (ldbe (next16n 2 msg)) (ldbe (next16n 3 msg)))
                  (ldbe (next16n 4 msg)) (ldbe (next16n 5 msg)) (ldbe (next16n 6 msg))
                  PADDING1)).
Proof.
  intros Hlen. unfold Ref.SHA256. rewrite (words_112 msg Hlen).
  change Ref.IV with (st_list SHA256INIT).
  rewrite hash_two_blocks. reflexivity.
Qed.

Lemma words_digest (x0 y0 x1 y1 : uint32x4_t) :
  let d := (vaddq_u32 x0 y0, vaddq_u32 x1 y1) in
  Ref.words (Ref.pad (flat_map be_bytes (st_list d)))
  = flat (fst d) ++ flat (snd d) ++ flat PADDING2A ++ flat PADDING2B.
Proof.
  cbv zeta. rewrite pad_32 by reflexivity.
  unfold st_list, flat, vaddq_u32. cbn [fst snd e0 e1 e2 e3 flat_map app].
  rewrite <- !app_assoc. rewrite !words_be_bytes, !add32_mod. reflexivity.
Qed.

Lemma hash_one_block (st : hstate) (a b c d : uint32x4_t) :
  let ws := flat a ++ flat b ++ flat c ++ flat d in
  Ref.hash_blocks (length ws / 16) (st_list st) ws = st_list (qcompress st a b c d).
Proof.
  cbv zeta.
  change (?n / 16)%nat with 1%nat.
  cbn [Ref.hash_blocks].
  change (firstn 16 ?ws) with (flat a ++ flat b ++ flat c ++ flat d).
  apply qcompress_ref.
Qed.

Lemma SHA256_digest (st : hstate) (a b c d : uint32x4_t) :
  Ref.SHA256 (flat_map be_bytes (st_list (qcompress st a b c d)))
  = flat_map be_bytes
      (st_list (qcompress SHA256INIT (fst (qcompress st a b c d))
                  (snd (qcompress st a b c d)) PADDING2A PADDING2B)).
Proof.
  unfold Ref.SHA256.
  unfold qcompress at 1 2. rewrite words_digest.
  change Ref.IV with (st_list SHA256INIT).
  rewrite hash_one_block. reflexivity.
Qed.

(** The double hash of a header of 112 bytes is what a lane computes from
    the state after its first 64 bytes. *)
Lemma SHA256d_lane_hash (msg : list byte) :
  length msg = 112%nat ->
  Ref.SHA256d msg
  = flat_map be_bytes
      (st_list (lane_hash
                  (qcompress SHA256INIT (ldbe msg) (ldbe (next16n 1 msg))
                     (ldbe (next16n 2 msg)) (ldbe (next16n 3 msg)))
                  (ldbe (next16n 4 msg)) (ldbe (next16n 5 msg)) (ldbe (next16n 6 msg))
                  PADDING1)).
Proof.
  intros Hlen. unfold Ref.SHA256d. rewrite (SHA256_112 msg Hlen).
  rewrite SHA256_digest. reflexivity.
Qed.

(** ** The hashers on a header *)

Lemma pair_eta {A B : Type} (p : A * B) : (fst p, snd p) = p.
Proof. destruct p; reflexivity. Qed.

(** Bytes 0 to 95 of a header are not touched by its time and nonce. *)
Lemma with_nonce_length (H : list byte) (N : Z) :
  length H = 112%nat -> length (with_nonce H N) = 112%nat.
Proof. intros Hlen. explicit H Hlen. reflexivity. Qed.

Lemma with_time_length (H : list byte) (T : Z) :
  length H = 112%nat -> length (with_time H T) = 112%nat.
Proof. intros Hlen. explicit H Hlen. reflexivity. Qed.

Lemma with_nonce_head (H : list byte) (N : Z) :
  length H = 112%nat ->
  first_block (with_nonce H N) = first_block H
  /\ ldbe (next16n 4 (with_nonce H N)) = ldbe (next16n 4 H)
  /\ ldbe (next16n 5 (with_nonce H N)) = ldbe (next16n 5 H).
Proof. intros Hlen. explicit H Hlen. repeat split; reflexivity. Qed.

Lemma with_time_head (H : list byte) (T : Z) :
  length H = 112%nat ->
  first_block (with_time H T) = first_block H
  /\ ldbe (next16n 4 (with_time H T)) = ldbe (next16n 4 H)
  /\ ldbe (next16n 5 (with_time H T)) = ldbe (next16n 5 H).
Proof. intros Hlen. explicit H Hlen. repeat split; reflexivity. Qed.

Lemma ldbe_bswap (p : list byte) :
  (16 <= length p)%nat ->
  ldbe p = bswap32q (vreinterpretq_u32_u8 (vld1q_u8 p)).
Proof.
  intros Hlen.
  do 16 (destruct p as [|? p]; [cbn [length] in Hlen; lia|]).
  unfold ldbe, bswap32q, vld1q_u8. cbn [firstn].
  unfold vreinterpretq_u32_u8 at 3. cbn [nth].
  unfold vreinterpretq_u8_u32. cbn [e0 e1 e2 e3]. rewrite !le_bytes_le32. reflexivity.
Qed.

Lemma with_nonce_tail (H : list byte) (N : Z) :
  length H = 112%nat ->
  tail_words (with_nonce H N) = set_lane3 (tail_words H) (N mod 2 ^ 32).
Proof.
  intros Hlen. explicit H Hlen.
  unfold tail_words, with_nonce, set_lane3, le_bytes. cbn [firstn app next16n next16 skipn vld1q_u8].
  unfold vreinterpretq_u32_u8. cbn [nth e0 e1 e2 e3 le_bytes].
  rewrite le32_le_bytes. reflexivity.
Qed.

Lemma with_time_tail (H : list byte) (T : Z) :
  length H = 112%nat ->
  tail_words (with_time H T) = set_lane1 (tail_words H) (T mod 2 ^ 32).
Proof.
  intros Hlen. explicit H Hlen.
  unfold tail_words, with_time, set_lane1, le_bytes. cbn [firstn app next16n next16 skipn vld1q_u8].
  unfold vreinterpretq_u32_u8. cbn [nth e0 e1 e2 e3 le_bytes].
  rewrite le32_le_bytes. reflexivity.
Qed.

Lemma length_next16n_6 (H : list byte) :
  length H = 112%nat -> (16 <= length (next16n 6 H))%nat.
Proof. intros Hlen. explicit H Hlen. cbn. lia. Qed.

(** The double hash of a header, by the lane of its own last vector. *)
Lemma SHA256d_header_lane (H : list byte) :
  length H = 112%nat ->
  Ref.SHA256d H = lane_digest (header_lane H (tail_words H)).
Proof.
  intros Hlen. rewrite lane_digest_be, (SHA256d_lane_hash H Hlen).
  unfold header_lane, first_block, tail_words.
  rewrite <- (ldbe_bswap (next16n 6 H)) by (apply length_next16n_6; exact Hlen).
  reflexivity.
Qed.

(** The bytes of a word do not depend on what lies above its 32 bits. *)
Lemma byte_of_Z_eq (x y : Z) : x mod 256 = y mod 256 -> byte_of_Z x = byte_of_Z y.
Proof. intros E. rewrite <- (byte_of_Z_mod x), <- (byte_of_Z_mod y), E. reflexivity. Qed.

Lemma le_bytes_mod (w : Z) : le_bytes (w mod 2 ^ 32) = le_bytes w.
Proof.
  unfold le_bytes.
  change (2 ^ 8) with 256. change (2 ^ 16) with 65536.
  change (2 ^ 24) with 16777216. change (2 ^ 32) with 4294967296.
  f_equal; [|f_equal; [|f_equal; [|f_equal]]];
    apply byte_of_Z_eq; Z.div_mod_to_equations; lia.
Qed.

Lemma bswap32q_lane3_mod (a b c n : Z) :
  bswap32q (V4 a b c (n mod 2 ^ 32)) = bswap32q (V4 a b c n).
Proof.
  unfold bswap32q, vreinterpretq_u8_u32. cbn [e0 e1 e2 e3].
  rewrite le_bytes_mod. reflexivity.
Qed.

Lemma bswap32q_lane1_mod (a b c n : Z) :
  bswap32q (V4 a (b mod 2 ^ 32) c n) = bswap32q (V4 a b c n).
Proof.
  unfold bswap32q, vreinterpretq_u8_u32. cbn [e0 e1 e2 e3].
  rewrite le_bytes_mod. reflexivity.
Qed.

(** *** One lane *)

Lemma BleMiner_1way_lane (H : list byte) :
  length H = 112%nat ->
  BleMiner_1way H = header_lane H (tail_words H).
Proof.
  intros Hlen. rewrite BleMiner_1way_spec. cbv zeta.
  unfold header_lane, first_block, tail_words.
  rewrite <- (ldbe_bswap (next16n 6 H)) by (apply length_next16n_6; exact Hlen).
  reflexivity.
Qed.

Lemma header_lane_with_nonce (H : list byte) (N : Z) :
  length H = 112%nat ->
  header_lane (with_nonce H N) (tail_words (with_nonce H N))
  = header_lane H (set_lane3 (tail_words H) N).
Proof.
  intros Hlen. destruct (with_nonce_head H N Hlen) as (E0 & E4 & E5).
  unfold header_lane. rewrite E0, E4, E5, (with_nonce_tail H N Hlen).
  unfold set_lane3. rewrite bswap32q_lane3_mod. reflexivity.
Qed.

Lemma header_lane_with_time (H : list byte) (T : Z) (v : uint32x4_t) :
  length H = 112%nat ->
  header_lane (with_time H T) v = header_lane H v.
Proof.
  intros Hlen. destruct (with_time_head H T Hlen) as (E0 & E4 & E5).
  unfold header_lane. rewrite E0, E4, E5. reflexivity.
Qed.

(** *** Three lanes *)

Lemma BleMiner3Way_lanes (H : list byte) (v4 : uint32x4_t) :
  let t := rounds4 (rounds4 (first_block H)
                      (vaddq_u32 (ldbe (next16n 4 H)) (vld1q_u32 K 0)))
             (vaddq_u32 (ldbe (next16n 5 H)) (vld1q_u32 K 4)) in
  let hA := header_lane H v4 in
  let hB := header_lane H (incr_lane3 v4) in
  let hC := header_lane H (incr_lane3 (incr_lane3 v4)) in
  BleMiner3Way (set_val4 (BleMinerTransform1 H) v4)
  = X14 (fst (first_block H)) (snd (first_block H))
        (vsha256su0q_u32 (ldbe (next16n 4 H)) (ldbe (next16n 5 H))) (ldbe (next16n 5 H))
        (incr_lane3 (incr_lane3 (incr_lane3 v4))) PADDING1
        (fst hA) (snd hA) (fst hB) (snd hB) (fst hC) (snd hC) (fst t) (snd t).
Proof.
  cbv zeta. rewrite BleMinerTransform1_spec. cbv zeta.
  unfold set_val4.
  cbn [val0 val1 val2 val3 val4 val5 val6 val7 val8 val9 val10 val11 val12 val13].
  fold (first_block H).
  pose proof (BleMiner3Way_spec (fst (first_block H)) (snd (first_block H))
                (ldbe (next16n 4 H)) (ldbe (next16n 5 H)) v4 PADDING1
                indeterminate indeterminate indeterminate indeterminate
                indeterminate indeterminate) as E.
  cbv zeta in E. rewrite !pair_eta in E. exact E.
Qed.

(** *** The scratchpad, and one, two and four lanes *)

Lemma BleMinerInitialTransform_array (H : list byte) (scratchpad : list Z) (B : Z) :
  length scratchpad = 40%nat ->
  store (BleMinerInitialTransform H scratchpad) 19 B
  = header_array H (set_lane3 (tail_words H) B).
Proof.
  intros Hlen. rewrite BleMinerInitialTransform_spec. cbv zeta.
  fold (first_block H). fold (tail_words H).
  explicit scratchpad Hlen.
  unfold header_array, flat, set_lane3. cbn [e0 e1 e2 e3 app].
  cbv [vst1q_u32 store Nat.add]. reflexivity.
Qed.

Lemma BleMiner_lane (H : list byte) (v4 : uint32x4_t) :
  BleMiner (cache6 (header_array H v4)) = header_lane H v4.
Proof.
  unfold header_array, flat. cbn [app]. unfold cache6.
  cbv [vld1q_u32 nth Nat.add]. rewrite !V4_eta.
  rewrite BleMiner_spec. unfold header_lane. rewrite pair_eta. reflexivity.
Qed.

Lemma BleMiner2Way_lanes (H : list byte) (v4 : uint32x4_t) :
  BleMiner2Way (cache6 (header_array H v4))
  = (fst (header_lane H v4), snd (header_lane H v4),
     fst (header_lane H (incr_lane3 v4)), snd (header_lane H (incr_lane3 v4))).
Proof.
  unfold header_array, flat. cbn [app]. unfold cache6.
  cbv [vld1q_u32 nth Nat.add]. rewrite !V4_eta.
  rewrite BleMiner2Way_spec. cbv zeta. unfold header_lane. rewrite pair_eta. reflexivity.
Qed.

Lemma BleMiner4Way_lanes (H : list byte) (v4 : uint32x4_t) (workpad : uint32x4x24_t) :
  let r := BleMiner4Way (header_array H v4) workpad in
  fst r = header_array H (incr_lane3 (incr_lane3 (incr_lane3 (incr_lane3 v4))))
  /\ (STATEA0 (snd r), STATEA1 (snd r)) = header_lane H v4
  /\ (STATEB0 (snd r), STATEB1 (snd r)) = header_lane H (incr_lane3 v4)
  /\ (STATEC0 (snd r), STATEC1 (snd r)) = header_lane H (incr_lane3 (incr_lane3 v4))
  /\ (STATED0 (snd r), STATED1 (snd r))
     = header_lane H (incr_lane3 (incr_lane3 (incr_lane3 v4))).
Proof.
  intros r.
  assert (E : r = BleMiner4Way (header_array H v4) workpad) by reflexivity.
  clearbody r.
  unfold header_array, flat in E. cbn [app] in E.
  lazymatch type of E with
  | _ = BleMiner4Way [?x0; ?x1; ?x2; ?x3; ?x4; ?x5; ?x6; ?x7; ?x8; ?x9; ?x10; ?x11; ?x12;
       ?x13; ?x14; ?x15; ?x16; ?x17; ?x18; ?x19; ?x20; ?x21; ?x22; ?x23; ?x24; ?x25;
       ?x26; ?x27; ?x28; ?x29; ?x30; ?x31; ?x32; ?x33; ?x34; ?x35; ?x36; ?x37; ?x38;
       ?x39] ?wp =>
      then_by E (BleMiner4Way_spec x0 x1 x2 x3 x4 x5 x6 x7 x8 x9 x10 x11 x12 x13 x14 x15
                   x16 x17 x18 x19 x20 x21 x22 x23 x24 x25 x26 x27 x28 x29 x30 x31 x32
                   x33 x34 x35 x36 x37 x38 x39 wp)
  end.
  cbv zeta in E.
  rewrite !V4_eta, !pair_eta in E.
  subst r.
  cbn [fst snd STATEA0 STATEA1 STATEB0 STATEB1 STATEC0 STATEC1 STATED0 STATED1].
  unfold header_lane, lane_hash.
  (split; [|repeat split]).
  (unfold header_array, flat, incr_lane3, set_lane3; cbn [e0 e1 e2 e3 app]; reflexivity).
Qed.

(** ** The digests of the pipeline and of the batches *)

Lemma add32_1_1 (x : Z) : add32 (add32 x 1) 1 = add32 x 2.
Proof. add32_eq. Qed.

Lemma add32_2_1 (x : Z) : add32 (add32 x 2) 1 = add32 x 3.
Proof. add32_eq. Qed.

Lemma add32_0 (x : Z) : 0 <= x < 2 ^ 32 -> add32 x 0 = x.
Proof. intros Hx. unfold add32. rewrite Z.add_0_r. apply Z.mod_small. exact Hx. Qed.

(** The lane of a header for the last vector of another time and nonce is
    the double hash of the header with that time and nonce. *)
Lemma header_lane_serialize (H : list byte) (N T : Z) :
  length H = 112%nat ->
  lane_digest (header_lane H (set_lane3 (set_lane1 (tail_words H) T) N))
  = Ref.SHA256d (serialize H N T).
Proof.
  intros Hlen. unfold serialize.
  pose proof (with_time_length H T Hlen) as Ht.
  rewrite (SHA256d_header_lane _ (with_nonce_length _ N Ht)).
  rewrite (header_lane_with_nonce _ N Ht).
  rewrite (header_lane_with_time H T _ Hlen).
  rewrite (with_time_tail H T Hlen).
  unfold set_lane3, set_lane1, header_lane. cbn [e0 e1 e2 e3].
  rewrite bswap32q_lane1_mod. reflexivity.
Qed.

(** C1: for every header of 112 bytes, nonce N and time T, the three lanes
    that BleMiner3Way computes from the cache of BleMinerTransform1, with T
    and N in the cached time and nonce words, are the reference double
    SHA-256 of the header serialized with time T and nonces N, N+1 and N+2
    (modulo 2^32). *)
Theorem pipeline_equivalence (H : list byte) (N T : Z) :
  length H = 112%nat ->
  let out := BleMiner3Way (set_nonce (set_time (BleMinerTransform1 H) T) N) in
  lane_digest (lane out 0) = Ref.SHA256d (serialize H N T)
  /\ lane_digest (lane out 1) = Ref.SHA256d (serialize H (add32 N 1) T)
  /\ lane_digest (lane out 2) = Ref.SHA256d (serialize H (add32 N 2) T).
Proof.
  intros Hlen out.
  assert (E : out = BleMiner3Way (set_val4 (BleMinerTransform1 H)
                                    (set_lane3 (set_lane1 (tail_words H) T) N))).
  { subst out. rewrite BleMinerTransform1_spec. reflexivity. }
  clearbody out.
  rewrite BleMiner3Way_lanes in E. cbv zeta in E. subst out.
  unfold lane. cbn [val6 val7 val8 val9 val10 val11].
  rewrite !pair_eta.
  unfold incr_lane3, set_lane3, set_lane1. cbn [e0 e1 e2 e3].
  rewrite add32_1_1.
  repeat split.
  - exact (header_lane_serialize H N T Hlen).
  - exact (header_lane_serialize H (add32 N 1) T Hlen).
  - exact (header_lane_serialize H (add32 N 2) T Hlen).
Qed.

Lemma pipeline_equivalence_witness :
  let H := repeat x00 112 in
  length H = 112%nat /\
  let out := BleMiner3Way (set_nonce (set_time (BleMinerTransform1 H) 1500000000) 7) in
  lane_digest (lane out 0) = Ref.SHA256d (serialize H 7 1500000000)
  /\ lane_digest (lane out 1) = Ref.SHA256d (serialize H (add32 7 1) 1500000000)
  /\ lane_digest (lane out 2) = Ref.SHA256d (serialize H (add32 7 2) 1500000000).
Proof.
  split; [reflexivity|].
  exact (pipeline_equivalence (repeat x00 112) 7 1500000000 eq_refl).
Defined.

Lemma incr_set_lane3 (v : uint32x4_t) (n : Z) :
  incr_lane3 (set_lane3 v n) = set_lane3 v (add32 n 1).
Proof. reflexivity. Qed.

Lemma BleMiner_1way_nonce (H : list byte) (n : Z) :
  length H = 112%nat ->
  BleMiner_1way (with_nonce H n) = header_lane H (set_lane3 (tail_words H) n).
Proof.
  intros Hlen.
  rewrite (BleMiner_1way_lane _ (with_nonce_length H n Hlen)).
  apply header_lane_with_nonce. exact Hlen.
Qed.

Lemma BleMiner_nonce (H : list byte) (scratchpad : list Z) (n : Z) :
  length scratchpad = 40%nat ->
  BleMiner (cache6 (store (BleMinerInitialTransform H scratchpad) 19 n))
  = header_lane H (set_lane3 (tail_words H) n).
Proof.
  intros Hlen. rewrite (BleMinerInitialTransform_array H scratchpad n Hlen).
  apply BleMiner_lane.
Qed.

Lemma set_nonce_Transform1 (H : list byte) (B : Z) :
  set_nonce (BleMinerTransform1 H) B
  = set_val4 (BleMinerTransform1 H) (set_lane3 (tail_words H) B).
Proof. rewrite BleMinerTransform1_spec. reflexivity. Qed.

Lemma header_lane_mod (H : list byte) (v : uint32x4_t) (n : Z) :
  header_lane H (set_lane3 v (n mod 2 ^ 32)) = header_lane H (set_lane3 v n).
Proof.
  unfold header_lane, set_lane3. rewrite bswap32q_lane3_mod. reflexivity.
Qed.

Lemma header_lane_add0 (H : list byte) (v : uint32x4_t) (n : Z) :
  header_lane H (set_lane3 v (add32 n 0)) = header_lane H (set_lane3 v n).
Proof. unfold add32. rewrite Z.add_0_r. apply header_lane_mod. Qed.

(** The digests of a batch, each as the lane of its nonce. *)
Lemma batchHash_lanes (H : list byte) (scratchpad : list Z) (workpad : uint32x4x24_t)
    (B : Z) (W : nat) :
  length scratchpad = 40%nat ->
  (1 <= W <= 4)%nat ->
  batchHash H scratchpad workpad B W
  = map (fun i => header_lane H (set_lane3 (tail_words H) (add32 B (Z.of_nat i))))
        (seq 0 W).
Proof.
  intros Hlen HW.
  destruct W as [|[|[|[|[|W]]]]]; try lia; clear HW; unfold batchHash;
    cbn [seq map]; change (Z.of_nat 0) with 0; change (Z.of_nat 1) with 1;
    change (Z.of_nat 2) with 2; change (Z.of_nat 3) with 3; rewrite header_lane_add0.
  - rewrite (BleMiner_nonce H scratchpad B Hlen). reflexivity.
  - rewrite (BleMinerInitialTransform_array H scratchpad B Hlen), BleMiner2Way_lanes.
    rewrite !pair_eta, incr_set_lane3. reflexivity.
  - rewrite set_nonce_Transform1, BleMiner3Way_lanes. cbv zeta.
    unfold lane. cbn [val6 val7 val8 val9 val10 val11].
    rewrite !pair_eta, !incr_set_lane3, add32_1_1. reflexivity.
  - rewrite (BleMinerInitialTransform_array H scratchpad B Hlen).
    destruct (BleMiner4Way_lanes H (set_lane3 (tail_words H) B) workpad)
      as (_ & EA & EB & EC & ED).
    rewrite EA, EB, EC, ED.
    rewrite !incr_set_lane3, add32_1_1, add32_2_1. reflexivity.
Qed.

(** C2: for every header of 112 bytes (whose Transform 1 results are the
    cache), base nonce B, lane count W from 1 to 4 and lane i below W, the
    i-th digest of the W-way batch (BleMiner, BleMiner2Way, BleMiner3Way,
    BleMiner4Way) is the digest that the one-lane hashers BleMiner_1way and
    BleMiner give for the nonce B+i (modulo 2^32); a batch has W digests, in
    lane order. *)
Theorem batch_single_equivalence (H : list byte) (scratchpad : list Z)
    (workpad : uint32x4x24_t) (B : Z) (W i : nat) :
  length H = 112%nat ->
  length scratchpad = 40%nat ->
  (1 <= W <= 4)%nat ->
  (i < W)%nat ->
  let n := add32 B (Z.of_nat i) in
  length (batchHash H scratchpad workpad B W) = W
  /\ nth_error (batchHash H scratchpad workpad B W) i
     = Some (BleMiner_1way (with_nonce H n))
  /\ nth_error (batchHash H scratchpad workpad B W) i
     = Some (BleMiner (cache6 (store (BleMinerInitialTransform H scratchpad) 19 n))).
Proof.
  intros HH Hlen HW Hi n.
  rewrite (batchHash_lanes H scratchpad workpad B W Hlen HW).
  rewrite (BleMiner_1way_nonce H n HH), (BleMiner_nonce H scratchpad n Hlen).
  rewrite length_map, length_seq.
  assert (E : nth_error (map (fun i => header_lane H (set_lane3 (tail_words H)
                                          (add32 B (Z.of_nat i)))) (seq 0 W)) i
              = Some (header_lane H (set_lane3 (tail_words H) n))).
  { rewrite nth_error_map, nth_error_seq.
    destruct (Nat.ltb_spec i W) as [_|]; [reflexivity|lia]. }
  split; [reflexivity|]. split; exact E.
Qed.

Lemma batch_single_equivalence_witness :
  let H := repeat x00 112 in
  let scratchpad := repeat 0 40 in
  let workpad := X24 indeterminate indeterminate indeterminate indeterminate
                     indeterminate indeterminate indeterminate indeterminate
                     indeterminate indeterminate indeterminate indeterminate
                     indeterminate indeterminate indeterminate indeterminate
                     indeterminate indeterminate indeterminate indeterminate
                     indeterminate indeterminate indeterminate indeterminate in
  (length H = 112%nat /\ length scratchpad = 40%nat /\ (1 <= 4 <= 4)%nat /\ (3 < 4)%nat)
  /\ length (batchHash H scratchpad workpad 4294967294 4) = 4%nat
  /\ nth_error (batchHash H scratchpad workpad 4294967294 4) 3
     = Some (BleMiner_1way (with_nonce H (add32 4294967294 (Z.of_nat 3))))
  /\ nth_error (batchHash H scratchpad workpad 4294967294 4) 3
     = Some (BleMiner (cache6 (store (BleMinerInitialTransform H scratchpad) 19
                                 (add32 4294967294 (Z.of_nat 3))))).
Proof.
  cbv zeta. split.
  - repeat split; lia.
  - apply (batch_single_equivalence (repeat x00 112) (repeat 0 40)); try reflexivity; lia.
Defined.

(** ** The quick check and the full check *)

(** C3, as the spec has it, does not hold: with the compact bits
    0x1e00ffff the digest whose last internal word is 0x01000000 and whose
    other words are zero is 2^224 as a number, below the target
    0xffff * 2^216, and the quick check [val[7][3] == 0] rejects it. *)
Lemma quick_filter_rejects_valid_digest :
  ~ (forall (m : uint32x4x14_t) (j : nat) (bits : Z),
        Spec.CheckProofOfWork (lane_digest (lane m j)) bits = true ->
        quick_filter m j = true).
Proof.
  intros Hall.
  pose (z := V4 0 0 0 0).
  specialize (Hall (X14 z z z z z z z (V4 0 0 0 0x01000000) z z z z z z) 0%nat 0x1e00ffff).
  assert (Hc : Spec.CheckProofOfWork
                 (lane_digest (lane (X14 z z z z z z z (V4 0 0 0 0x01000000) z z z z z z)
                                    0)) 0x1e00ffff = true) by (vm_compute; reflexivity).
  specialize (Hall Hc). vm_compute in Hall. discriminate Hall.
Qed.

(** C3, amended: when the target decoded from the compact bits is below
    2^224, every digest that passes the full check has its last internal
    word equal to zero, so the quick check of its lane reports a hit. *)
Theorem quick_filter_sound_below_2_224 (m : uint32x4x14_t) (j : nat) (bits : Z) :
  0 <= e3 (snd (lane m j)) < 2 ^ 32 ->
  Spec.target_of bits < 2 ^ 224 ->
  Spec.CheckProofOfWork (lane_digest (lane m j)) bits = true ->
  quick_filter m j = true.
Proof.
  intros Hr Ht Hc. unfold quick_filter. apply Z.eqb_eq.
  unfold Spec.CheckProofOfWork in Hc. unfold Spec.target_of in Ht.
  destruct (Spec.SetCompact bits) as [[target fNegative] fOverflow]. cbn [fst] in Ht.
  destruct (fNegative || (target =? 0) || fOverflow); [discriminate Hc|].
  apply Z.leb_le in Hc.
  rewrite lane_digest_be in Hc.
  set (w := e3 (snd (lane m j))) in *.
  pose proof (le32_le_bytes w) as Hw. rewrite (Z.mod_small w) in Hw by exact Hr.
  unfold st_list, flat in Hc. cbn [flat_map app] in Hc.
  unfold be_bytes, le_bytes in Hc. cbn [rev app] in Hc.
  fold w in Hc.
  unfold Spec.uint256_value in Hc. cbn [fold_right] in Hc. unfold le32 in Hw.
  repeat match type of Hc with
         | context[byte_to_Z ?b] =>
             let x := fresh "x" in
             pose proof (byte_to_Z_range b); set (x := byte_to_Z b) in *; clearbody x
         end.
  change (2 ^ 224) with 26959946667150639794667015087019630673637144422540572481103610249216 in Ht.
  lia.
Qed.

Lemma quick_filter_sound_below_2_224_witness :
  let z := V4 0 0 0 0 in
  let m := X14 z z z z z z (V4 5 6 7 8) (V4 1 2 3 0) z z z z z z in
  (0 <= e3 (snd (lane m 0)) < 2 ^ 32
   /\ Spec.target_of 0x1d00ffff < 2 ^ 224
   /\ Spec.CheckProofOfWork (lane_digest (lane m 0)) 0x1d00ffff = true)
  /\ quick_filter m 0 = true.
Proof.
  intros z m.
  assert (H1 : 0 <= e3 (snd (lane m 0)) < 2 ^ 32) by (cbn; lia).
  assert (H2 : Spec.target_of 0x1d00ffff < 2 ^ 224) by reflexivity.
  assert (H3 : Spec.CheckProofOfWork (lane_digest (lane m 0)) 0x1d00ffff = true)
    by (vm_compute; reflexivity).
  split; [split; [exact H1|split; [exact H2|exact H3]]|].
  exact (quick_filter_sound_below_2_224 m 0%nat 0x1d00ffff H1 H2 H3).
Defined.

(** ** The partition of the nonce space *)

Lemma PAGE_SIZE_MINER_div (N : Z) : 2 <= N -> PAGE_SIZE_MINER N = 2 ^ 32 / N.
Proof.
  intros HN. unfold PAGE_SIZE_MINER, trunc32. change 0x100000000 with (2 ^ 32).
  apply Z.mod_small. split.
  - apply Z.div_pos; lia.
  - apply Z.div_lt_upper_bound; lia.
Qed.

Lemma PAGE_SIZE_MINER_bounds (N : Z) :
  2 <= N < 2 ^ 32 ->
  1 <= PAGE_SIZE_MINER N
  /\ N * PAGE_SIZE_MINER N = 2 ^ 32 - 2 ^ 32 mod N
  /\ 0 <= 2 ^ 32 mod N < N.
Proof.
  intros HN. rewrite PAGE_SIZE_MINER_div by lia.
  pose proof (Z.div_mod (2 ^ 32) N ltac:(lia)) as Hdm.
  pose proof (Z.mod_pos_bound (2 ^ 32) N ltac:(lia)) as Hm.
  repeat split; lia.
Qed.

Lemma from_of_exact (N i : Z) :
  2 <= N < 2 ^ 32 -> 0 <= i < N -> from_of N i = i * PAGE_SIZE_MINER N.
Proof.
  intros HN Hi. unfold from_of, mul32.
  destruct (PAGE_SIZE_MINER_bounds N HN) as (HP & HNP & Hm).
  apply Z.mod_small. split; [nia|].
  assert (i * PAGE_SIZE_MINER N <= (N - 1) * PAGE_SIZE_MINER N) by nia.
  nia.
Qed.

(** C4, as the spec has it, does not hold: with three threads the page is
    1431655765, the three intervals end at 4294967295, and the nonce
    4294967295 lies in none of them. *)
Lemma partition_misses_last_nonce :
  ~ (forall N n : Z, 1 <= N -> 0 <= n < 2 ^ 32 ->
       exists i, 0 <= i < N /\ from_of N i <= n < to_of N i).
Proof.
  intros Hall. destruct (Hall 3 4294967295) as (i & Hi & Hn); [lia|lia|].
  assert (Ei : i = 0 \/ i = 1 \/ i = 2) by lia.
  destruct Ei as [-> | [-> | ->]]; vm_compute in Hn; destruct Hn as [H1 H2];
    first [apply H1; reflexivity | discriminate H2].
Qed.

(** C4, amended: for 2 <= N < 2^32 threads, with P = PAGE_SIZE_MINER N =
    floor(2^32 / N), thread i gets from = i*P; its to is from + P except
    that the to of the last thread is N*P modulo 2^32.  The intervals
    [i*P, i*P + P) are disjoint and cover exactly the nonces below
    N*P = 2^32 - (2^32 mod N): all of them when N divides 2^32, and all but
    the highest 2^32 mod N otherwise. *)
Theorem partition_covers_below_N_pages (N n : Z) :
  2 <= N < 2 ^ 32 ->
  0 <= n < 2 ^ 32 ->
  let P := PAGE_SIZE_MINER N in
  ((exists i, 0 <= i < N /\ from_of N i <= n < from_of N i + P)
   <-> n < 2 ^ 32 - 2 ^ 32 mod N)
  /\ (forall i j, 0 <= i < N -> 0 <= j < N ->
        from_of N i <= n < from_of N i + P ->
        from_of N j <= n < from_of N j + P -> i = j)
  /\ (forall i, 0 <= i -> i + 1 < N -> to_of N i = from_of N i + P)
  /\ to_of N (N - 1) = (N * P) mod 2 ^ 32
  /\ (N * P = 2 ^ 32 <-> 2 ^ 32 mod N = 0).
Proof.
  intros HN Hn P.
  destruct (PAGE_SIZE_MINER_bounds N HN) as (HP & HNP & Hm). fold P in HP, HNP.
  split; [|split; [|split; [|split]]].
  - split.
    + intros (i & Hi & Hr). rewrite (from_of_exact N i HN Hi) in Hr. fold P in Hr. nia.
    + intros Hlt. exists (n / P).
      pose proof (Z.div_mod n P ltac:(lia)) as Hdm.
      pose proof (Z.mod_pos_bound n P ltac:(lia)) as Hmb.
      assert (Hq : 0 <= n / P < N).
      { split; [apply Z.div_pos; lia|]. apply Z.div_lt_upper_bound; nia. }
      split; [exact Hq|]. rewrite (from_of_exact N _ HN Hq). fold P. nia.
  - intros i j Hi Hj Hri Hrj.
    rewrite (from_of_exact N i HN Hi) in Hri. rewrite (from_of_exact N j HN Hj) in Hrj.
    fold P in Hri, Hrj. nia.
  - intros i Hi0 Hi.
    assert (Hi1 : 0 <= i + 1 < N) by lia.
    pose proof (from_of_exact N (i + 1) HN Hi1) as E. unfold from_of in E.
    unfold to_of. unfold add32. rewrite (Z.mod_small (i + 1)) by lia.
    rewrite E. rewrite (from_of_exact N i HN ltac:(lia)). fold P. ring.
  - unfold to_of, add32, mul32. replace (N - 1 + 1) with N by ring.
    rewrite (Z.mod_small N) by lia. reflexivity.
  - lia.
Qed.

Lemma partition_covers_below_N_pages_witness :
  (2 <= 3 < 2 ^ 32 /\ 0 <= 4294967294 < 2 ^ 32)
  /\ let P := PAGE_SIZE_MINER 3 in
     ((exists i, 0 <= i < 3 /\ from_of 3 i <= 4294967294 < from_of 3 i + P)
      <-> 4294967294 < 2 ^ 32 - 2 ^ 32 mod 3)
     /\ (forall i j, 0 <= i < 3 -> 0 <= j < 3 ->
           from_of 3 i <= 4294967294 < from_of 3 i + P ->
           from_of 3 j <= 4294967294 < from_of 3 j + P -> i = j)
     /\ (forall i, 0 <= i -> i + 1 < 3 -> to_of 3 i = from_of 3 i + P)
     /\ to_of 3 (3 - 1) = (3 * P) mod 2 ^ 32
     /\ (3 * P = 2 ^ 32 <-> 2 ^ 32 mod 3 = 0).
Proof.
  split; [lia|].
  apply (partition_covers_below_N_pages 3 4294967294); lia.
Defined.

(** ** The cache of the worker *)

Lemma BleMiner3Way_cache (H : list byte) (m : uint32x4x14_t) :
  cache_for H m ->
  BleMiner3Way m
  = X14 (val0 m) (val1 m) (val2 m) (val3 m)
        (incr_lane3 (incr_lane3 (incr_lane3 (val4 m)))) (val5 m)
        (fst (header_lane H (val4 m))) (snd (header_lane H (val4 m)))
        (fst (header_lane H (incr_lane3 (val4 m))))
        (snd (header_lane H (incr_lane3 (val4 m))))
        (fst (header_lane H (incr_lane3 (incr_lane3 (val4 m)))))
        (snd (header_lane H (incr_lane3 (incr_lane3 (val4 m)))))
        (val12 m) (val13 m).
Proof.
  destruct m as [v0 v1 v2 v3 v4 v5 v6 v7 v8 v9 v10 v11 v12 v13].
  unfold cache_for.
  cbn [val0 val1 val2 val3 val4 val5 val6 val7 val8 val9 val10 val11 val12 val13].
  intros (-> & -> & -> & -> & -> & -> & ->).
  pose proof (BleMiner3Way_spec (fst (first_block H)) (snd (first_block H))
                (ldbe (next16n 4 H)) (ldbe (next16n 5 H)) v4 PADDING1
                v6 v7 v8 v9 v10 v11) as E.
  cbv zeta in E. rewrite !pair_eta in E. exact E.
Qed.

Lemma cache_for_Transform1 (H : list byte) : cache_for H (BleMinerTransform1 H).
Proof.
  rewrite BleMinerTransform1_spec. cbv zeta. unfold cache_for.
  cbn [val0 val1 val2 val3 val4 val5 val6 val7 val8 val9 val10 val11 val12 val13].
  repeat split.
Qed.

Lemma cache_for_BleMiner3Way (H : list byte) (m : uint32x4x14_t) :
  cache_for H m -> cache_for H (BleMiner3Way m).
Proof.
  intros Hc. rewrite (BleMiner3Way_cache H m Hc). exact Hc.
Qed.

Lemma cache_for_swap_lane (H : list byte) (m : uint32x4x14_t) (j : nat) :
  cache_for H m -> cache_for H (swap_lane m j).
Proof. intros Hc. destruct j as [|[|j]]; exact Hc. Qed.

Lemma cache_for_set_time (H : list byte) (m : uint32x4x14_t) (T : Z) :
  cache_for H m -> cache_for H (set_time m T).
Proof. intros Hc. exact Hc. Qed.

(** ** The tests of the lanes *)

Lemma swapped_lane_digest (m : uint32x4x14_t) (j : nat) :
  memcpy32 (fst (lane (swap_lane m j) j)) (snd (lane (swap_lane m j) j))
  = lane_digest (lane m j).
Proof. destruct j as [|[|j]]; reflexivity. Qed.

Lemma swap_lane_other (m : uint32x4x14_t) (i j : nat) :
  (i < 3)%nat -> (j < 3)%nat -> i <> j -> lane (swap_lane m i) j = lane m j.
Proof.
  intros Hi Hj Hij.
  destruct i as [|[|[|i]]]; destruct j as [|[|[|j]]]; try lia; reflexivity.
Qed.

Lemma swap_lane_val4 (m : uint32x4x14_t) (j : nat) : val4 (swap_lane m j) = val4 m.
Proof. destruct j as [|[|j]]; reflexivity. Qed.

(** What the test of one lane does, case by case. *)
Lemma check_lane_Break (c : Collaborators) (j : nat) (t : Thread) :
  lane_passes c t j = true ->
  check_lane c j t
  = (with_handler
       (with_block
          (with_currenthash (with_msgctx t (swap_lane (msgctx t) j))
             (lane_digest (lane (msgctx t) j)))
          (set_nNonce (t_block t) (sub32 (e3 (val4 (msgctx t))) (3 - Z.of_nat j))))
       (set_stop (handler t) true), Break).
Proof.
  unfold lane_passes, check_lane. intros Hp. apply andb_true_iff in Hp.
  destruct Hp as [Hq Hf]. rewrite Hq.
  cbn [msgctx with_msgctx with_currenthash currenthash t_block with_block handler].
  rewrite swapped_lane_digest, Hf, swap_lane_val4. reflexivity.
Qed.

Lemma check_lane_Next (c : Collaborators) (j : nat) (t : Thread) :
  lane_passes c t j = false ->
  check_lane c j t
  = (if quick_filter (msgctx t) j
     then with_currenthash (with_msgctx t (swap_lane (msgctx t) j))
            (lane_digest (lane (msgctx t) j))
     else t, Next).
Proof.
  unfold lane_passes, check_lane. intros Hp.
  destruct (quick_filter (msgctx t) j); [|reflexivity].
  cbn [andb] in Hp.
  cbn [msgctx with_msgctx with_currenthash currenthash t_block with_block handler].
  rewrite swapped_lane_digest, Hp. reflexivity.
Qed.

Lemma same_search_refl (t : Thread) : same_search t t.
Proof. repeat split. Qed.

Lemma same_search_trans (t1 t2 t3 : Thread) :
  same_search t1 t2 -> same_search t2 t3 -> same_search t1 t3.
Proof.
  unfold same_search. intros H12 H23.
  repeat match goal with H : _ /\ _ |- _ => destruct H end.
  repeat split; congruence.
Qed.

Lemma same_search_swap (t : Thread) (j : nat) (h : list byte) :
  same_search t (with_currenthash (with_msgctx t (swap_lane (msgctx t) j)) h).
Proof. destruct j as [|[|j]]; repeat split. Qed.

Lemma check_lane_Next_same (c : Collaborators) (j : nat) (t : Thread) :
  lane_passes c t j = false ->
  same_search t (fst (check_lane c j t))
  /\ (forall i, (i < 3)%nat -> (j < 3)%nat -> i <> j ->
        lane (msgctx (fst (check_lane c j t))) i = lane (msgctx t) i).
Proof.
  intros Hp. rewrite (check_lane_Next c j t Hp). cbn [fst].
  destruct (quick_filter (msgctx t) j).
  - split; [apply same_search_swap|].
    intros i Hi Hj Hij. cbn [msgctx with_msgctx with_currenthash].
    apply swap_lane_other; auto.
  - split; [apply same_search_refl|reflexivity].
Qed.

Lemma check_lane_Next_pair (c : Collaborators) (j : nat) (t : Thread) :
  lane_passes c t j = false ->
  check_lane c j t = (fst (check_lane c j t), Next).
Proof. intros Hp. rewrite (check_lane_Next c j t Hp). reflexivity. Qed.

Lemma lane_passes_after (c : Collaborators) (i j : nat) (t : Thread) :
  (i < 3)%nat -> (j < 3)%nat -> i <> j ->
  lane_passes c t i = false ->
  lane_passes c (fst (check_lane c i t)) j = lane_passes c t j.
Proof.
  intros Hi Hj Hij Hp.
  destruct (check_lane_Next_same c i t Hp) as [Hs Hl].
  unfold lane_passes, quick_filter. rewrite (Hl j Hj Hi (not_eq_sym Hij)).
  destruct Hs as (_ & -> & _). reflexivity.
Qed.

(** The three tests in a row. *)
Lemma check_lanes_cases (c : Collaborators) (t : Thread) :
  match snd (check_lanes c t) with
  | Break =>
      exists j, (j < 3)%nat /\ lane_passes c t j = true
        /\ (forall i, (i < j)%nat -> lane_passes c t i = false)
        /\ currenthash (fst (check_lanes c t)) = lane_digest (lane (msgctx t) j)
        /\ t_block (fst (check_lanes c t))
           = set_nNonce (t_block t) (sub32 (e3 (val4 (msgctx t))) (3 - Z.of_nat j))
        /\ handler (fst (check_lanes c t)) = set_stop (handler t) true
  | Next =>
      same_search t (fst (check_lanes c t))
      /\ forall j, (j < 3)%nat -> lane_passes c t j = false
  end.
Proof.
  unfold check_lanes, and_then.
  destruct (lane_passes c t 0) eqn:P0.
  { rewrite (check_lane_Break c 0 t P0). cbn [fst snd].
    exists 0%nat. repeat split; [lia|exact P0|intros i Hi; lia]. }
  rewrite (check_lane_Next_pair c 0 t P0). cbn [fst snd].
  destruct (check_lane_Next_same c 0 t P0) as [S0 L0].
  pose proof (lane_passes_after c 0 1 t ltac:(lia) ltac:(lia) ltac:(lia) P0) as E1.
  pose proof (lane_passes_after c 0 2 t ltac:(lia) ltac:(lia) ltac:(lia) P0) as E2.
  set (t1 := fst (check_lane c 0 t)) in *.
  destruct (lane_passes c t 1) eqn:P1.
  { rewrite (check_lane_Break c 1 t1 E1). cbn [fst snd].
    exists 1%nat.
    cbn [currenthash t_block handler with_handler with_block with_currenthash].
    destruct S0 as (Sh & Sb & _ & _ & _ & _ & _ & _ & _ & _ & _ & S4 & _).
    rewrite (L0 1%nat ltac:(lia) ltac:(lia) ltac:(lia)), Sh, Sb, S4.
    repeat split; [lia|exact P1|].
    intros i Hi. assert (i = 0%nat) as -> by lia. exact P0. }
  rewrite (check_lane_Next_pair c 1 t1 E1). cbn [fst snd].
  destruct (check_lane_Next_same c 1 t1 E1) as [S1 L1].
  pose proof (lane_passes_after c 1 2 t1 ltac:(lia) ltac:(lia) ltac:(lia) E1) as E3.
  rewrite E2 in E3.
  set (t2 := fst (check_lane c 1 t1)) in *.
  pose proof (same_search_trans _ _ _ S0 S1) as S01.
  destruct (lane_passes c t 2) eqn:P2.
  { rewrite (check_lane_Break c 2 t2 E3). cbn [fst snd].
    exists 2%nat.
    cbn [currenthash t_block handler with_handler with_block with_currenthash].
    destruct S01 as (Sh & Sb & _ & _ & _ & _ & _ & _ & _ & _ & _ & S4 & _).
    rewrite (L1 2%nat ltac:(lia) ltac:(lia) ltac:(lia)).
    rewrite (L0 2%nat ltac:(lia) ltac:(lia) ltac:(lia)), Sh, Sb, S4.
    repeat split; [lia|exact P2|].
    intros i Hi. assert (i = 0%nat \/ i = 1%nat) as [-> | ->] by lia; assumption. }
  rewrite (check_lane_Next_pair c 2 t2 E3). cbn [fst snd].
  destruct (check_lane_Next_same c 2 t2 E3) as [S2 _].
  split; [exact (same_search_trans _ _ _ S01 S2)|].
  intros j Hj. assert (j = 0%nat \/ j = 1%nat \/ j = 2%nat) as [-> | [-> | ->]] by lia;
    assumption.
Qed.

(** ** The work loop *)

Lemma add32_1_1_1 (x : Z) : add32 (add32 (add32 x 1) 1) 1 = add32 x 3.
Proof. add32_eq. Qed.

Lemma sub32_add32 (x a b : Z) : sub32 (add32 x a) b = add32 x (a - b).
Proof.
  unfold sub32, add32. rewrite Zminus_mod_idemp_l. f_equal. ring.
Qed.

Lemma serialize_mod (H : list byte) (N T : Z) :
  serialize H (N mod 2 ^ 32) T = serialize H N T.
Proof. unfold serialize, with_nonce. rewrite le_bytes_mod. reflexivity. Qed.

Lemma serialize_add0 (H : list byte) (N T : Z) :
  serialize H (add32 N 0) T = serialize H N T.
Proof. unfold add32. rewrite Z.add_0_r. apply serialize_mod. Qed.

(** The digests of a batch on the cache of [H], with time [T] and counter
    [N] in [val[4]]. *)
Lemma batch_digests (H : list byte) (m : uint32x4x14_t) (N T : Z) (j : nat) :
  length H = 112%nat ->
  cache_for H m ->
  val4 m = set_lane3 (set_lane1 (tail_words H) T) N ->
  (j < 3)%nat ->
  lane_digest (lane (BleMiner3Way m) j)
  = Ref.SHA256d (serialize H (add32 N (Z.of_nat j)) T).
Proof.
  intros Hlen Hc H4 Hj. rewrite (BleMiner3Way_cache H m Hc), H4.
  unfold incr_lane3, set_lane3, set_lane1. cbn [e0 e1 e2 e3].
  destruct j as [|[|[|j]]]; try lia; unfold lane;
    cbn [val6 val7 val8 val9 val10 val11]; rewrite pair_eta.
  - change (Z.of_nat 0) with 0. rewrite serialize_add0.
    exact (header_lane_serialize H N T Hlen).
  - exact (header_lane_serialize H (add32 N 1) T Hlen).
  - change (Z.of_nat 2) with 2. rewrite <- add32_1_1.
    exact (header_lane_serialize H (add32 (add32 N 1) 1) T Hlen).
Qed.

Lemma poll_tip_keeps (c : Collaborators) (fuel : nat) : forall t t',
  poll_tip c fuel t = Some t' ->
  t_block t' = t_block t /\ msgctx t' = msgctx t /\ handler t' = handler t
  /\ hashPrevBlock t' = hashPrevBlock t /\ submitted t' = submitted t.
Proof.
  induction fuel as [|fuel IH]; intros t t' E; [discriminate E|].
  cbn [poll_tip] in E.
  match type of E with
  | (if ?b then _ else _) = _ => destruct b
  end.
  - apply IH in E. exact E.
  - injection E as <-. repeat split.
Qed.

Lemma BleMiner3Way_val4 (H : list byte) (m : uint32x4x14_t) :
  cache_for H m ->
  val4 (BleMiner3Way m)
  = V4 (e0 (val4 m)) (e1 (val4 m)) (e2 (val4 m)) (add32 (e3 (val4 m)) 3).
Proof.
  intros Hc. rewrite (BleMiner3Way_cache H m Hc). cbn [val4].
  unfold incr_lane3, set_lane3. cbn [e0 e1 e2 e3]. rewrite add32_1_1_1. reflexivity.
Qed.

(** One turn of the loop, when the session has not been stopped. *)
Lemma iteration_cases (c : Collaborators) (fuel idx : nat) (from to : Z) (t : Thread) :
  stop (handler t) = false ->
  iteration c fuel idx from to t
  = match snd (check_lanes c (with_msgctx t (BleMiner3Way (msgctx t)))) with
    | Break => Some (fst (check_lanes c (with_msgctx t (BleMiner3Way (msgctx t)))), Break)
    | Next =>
        match housekeeping c fuel idx from to
                (fst (check_lanes c (with_msgctx t (BleMiner3Way (msgctx t))))) with
        | None => None
        | Some t' => Some (t', Next)
        end
    end.
Proof.
  intros Hs. unfold iteration. rewrite Hs.
  destruct (check_lanes c (with_msgctx t (BleMiner3Way (msgctx t)))) as [t1 f].
  destruct f; reflexivity.
Qed.

Lemma exit_checks_in_range (c : Collaborators) (fuel : nat) (from to : Z)
    (t t' : Thread) :
  from <= nNonce (t_block t) < to ->
  exit_checks c fuel from to t = Some t' ->
  t_block t' = t_block t /\ msgctx t' = msgctx t
  /\ (stop (handler t') = true ->
      stop (handler t) = true \/ interrupt (handler t) = true
      \/ chaintipblockhash t' <> hashPrevBlock t').
Proof.
  intros Hr E. unfold exit_checks in E.
  set (t0 := MilliSleep 5 _) in E.
  assert (E0 : t_block t0 = t_block t /\ msgctx t0 = msgctx t
               /\ (stop (handler t0) = true ->
                   stop (handler t) = true \/ interrupt (handler t) = true)).
  { subst t0. destruct (interrupt (handler t)) eqn:Ei; cbn; auto. }
  clearbody t0. destruct E0 as (Eb0 & Em0 & Es0).
  destruct (poll_tip c fuel t0) as [t2|] eqn:Ep; [|discriminate E].
  apply poll_tip_keeps in Ep. destruct Ep as (Eb & Em & Eh & Ehp & _).
  assert (Hin : (to <=? nNonce (t_block t2)) || (nNonce (t_block t2) <? from) = false).
  { rewrite Eb, Eb0. apply orb_false_iff. split; [apply Z.leb_gt|apply Z.ltb_ge]; lia. }
  match type of E with
  | Some (if ?b then _ else ?x) = _ =>
      replace b with false in E
        by (symmetry; destruct (negb (chaintipblockhash t2 =? hashPrevBlock t2)%string);
            exact Hin)
  end.
  injection E as <-.
  destruct (chaintipblockhash t2 =? hashPrevBlock t2)%string eqn:Etip; cbn [negb].
  - rewrite Eb, Em, Eh, Eb0, Em0. repeat split.
    intros Hs. destruct (Es0 Hs) as [Hx | Hx]; auto.
  - apply String.eqb_neq in Etip.
    cbn [t_block msgctx handler with_handler chaintipblockhash hashPrevBlock].
    rewrite Eb, Em, Eb0, Em0. repeat split. intros _. right. right. exact Etip.
Qed.

Lemma housekeeping_in_range (c : Collaborators) (fuel idx : nat) (from to : Z)
    (t t' : Thread) :
  from <= nNonce (t_block t) < to ->
  housekeeping c fuel idx from to t = Some t' ->
  nNonce (t_block t') = nNonce (t_block t)
  /\ (msgctx t' = msgctx t \/ exists T, msgctx t' = set_time (msgctx t) T)
  /\ (stop (handler t') = true ->
      stop (handler t) = true \/ interrupt (handler t) = true
      \/ chaintipblockhash t' <> hashPrevBlock t').
Proof.
  intros Hr E. unfold housekeeping in E.
  destruct (housekeeping_due (msgctx t)).
  2:{ injection E as <-. repeat split; auto. }
  destruct (idx =? 0)%nat.
  2:{ injection E as <-. cbn. repeat split; eauto. }
  apply exit_checks_in_range in E; [|cbn; exact Hr].
  destruct E as (Eb & Em & Es). rewrite Eb, Em. cbn. repeat split; eauto.
Qed.

Lemma after_batch_in_range (c : Collaborators) (fuel idx : nat) (from to : Z)
    (H : list byte) (t : Thread) (m3 : uint32x4x14_t) :
  cache_for H m3 ->
  e3 (val4 m3) = add32 (e3 (val4 (msgctx t))) 3 ->
  stop (handler t) = false ->
  from <= nNonce (t_block t) < to ->
  match
    match snd (check_lanes c (with_msgctx t m3)) with
    | Break => Some (fst (check_lanes c (with_msgctx t m3)), Break)
    | Next =>
        match housekeeping c fuel idx from to (fst (check_lanes c (with_msgctx t m3))) with
        | None => None
        | Some t' => Some (t', Next)
        end
    end
  with
  | Some (t', Next) =>
      e3 (val4 (msgctx t')) = add32 (e3 (val4 (msgctx t))) 3
      /\ nNonce (t_block t') = nNonce (t_block t)
      /\ cache_for H (msgctx t')
      /\ (stop (handler t') = true ->
          interrupt (handler t) = true \/ chaintipblockhash t' <> hashPrevBlock t')
  | _ => True
  end.
Proof.
  intros Hc3 E3 Hs Hr.
  pose proof (check_lanes_cases c (with_msgctx t m3)) as Hl.
  destruct (check_lanes c (with_msgctx t m3)) as [t1 f]. cbn [fst snd] in *.
  destruct f; [|exact I]. destruct Hl as [Hss _].
  destruct (housekeeping c fuel idx from to t1) as [t'|] eqn:Hk; [|exact I].
  destruct Hss as (Sh & Sb & _ & _ & _ & _ & _ & S0 & S1 & S2 & S3 & S4 & S5 & S12 & S13).
  cbn [handler t_block msgctx with_msgctx] in Sh, Sb, S0, S1, S2, S3, S4, S5, S12, S13.
  assert (Hr1 : from <= nNonce (t_block t1) < to) by (rewrite Sb; exact Hr).
  destruct (housekeeping_in_range c fuel idx from to t1 t' Hr1 Hk) as (Hn & Hm & Hst).
  assert (Hc1 : cache_for H (msgctx t1)).
  { unfold cache_for in *. cbv zeta in *. rewrite S0, S1, S2, S3, S5, S12, S13. exact Hc3. }
  assert (H4 : e3 (val4 (msgctx t1)) = add32 (e3 (val4 (msgctx t))) 3).
  { rewrite S4. exact E3. }
  split; [|split; [|split]].
  - destruct Hm as [-> | [T ->]]; exact H4.
  - rewrite Hn, Sb. reflexivity.
  - destruct Hm as [-> | [T ->]]; exact Hc1.
  - intros Hstop. destruct (Hst Hstop) as [Hx | [Hx | Hx]].
    + rewrite Sh, Hs in Hx. discriminate Hx.
    + left. rewrite Sh in Hx. exact Hx.
    + right. exact Hx.
Qed.

(** C5 (the code leaves the interval): one turn of the work loop that goes
    on moves the counter in [val[4][3]] by three whatever [to] is, and
    leaves [block.nNonce], which the test for exhausted nonces reads, as it
    was; as long as that is inside the interval the loop is left only by an
    interrupt or a change of the chain tip. *)
Theorem exhaustion_check_reads_stale_nonce (c : Collaborators) (fuel idx : nat)
    (from to : Z) (H : list byte) (t : Thread) :
  cache_for H (msgctx t) ->
  stop (handler t) = false ->
  from <= nNonce (t_block t) < to ->
  match iteration c fuel idx from to t with
  | Some (t', Next) =>
      e3 (val4 (msgctx t')) = add32 (e3 (val4 (msgctx t))) 3
      /\ nNonce (t_block t') = nNonce (t_block t)
      /\ cache_for H (msgctx t')
      /\ (stop (handler t') = true ->
          interrupt (handler t) = true \/ chaintipblockhash t' <> hashPrevBlock t')
  | _ => True
  end.
Proof.
  intros Hc Hs Hr. rewrite (iteration_cases c fuel idx from to t Hs).
  apply (after_batch_in_range c fuel idx from to H t (BleMiner3Way (msgctx t))).
  - exact (cache_for_BleMiner3Way H (msgctx t) Hc).
  - rewrite (BleMiner3Way_val4 H (msgctx t) Hc). reflexivity.
  - exact Hs.
  - exact Hr.
Qed.

Lemma after_batch_off_multiples_of_3 (c : Collaborators) (fuel idx : nat) (from to : Z)
    (H : list byte) (t : Thread) (m3 : uint32x4x14_t) :
  cache_for H m3 ->
  e3 (val4 m3) = e3 (val4 (msgctx t)) + 3 ->
  e1 (val4 m3) = e1 (val4 (msgctx t)) ->
  e3 (val4 (msgctx t)) mod 3 <> 0 ->
  match
    match snd (check_lanes c (with_msgctx t m3)) with
    | Break => Some (fst (check_lanes c (with_msgctx t m3)), Break)
    | Next =>
        match housekeeping c fuel idx from to (fst (check_lanes c (with_msgctx t m3))) with
        | None => None
        | Some t' => Some (t', Next)
        end
    end
  with
  | Some (t', Next) =>
      nTime (t_block t') = nTime (t_block t)
      /\ e1 (val4 (msgctx t')) = e1 (val4 (msgctx t))
      /\ handler t' = handler t
      /\ reads t' = reads t /\ sleeps t' = sleeps t
      /\ e3 (val4 (msgctx t')) = e3 (val4 (msgctx t)) + 3
      /\ e3 (val4 (msgctx t')) mod 3 <> 0
      /\ cache_for H (msgctx t')
  | Some (t', Break) => True
  | None => False
  end.
Proof.
  intros Hc3 E3 E1 Hm.
  pose proof (check_lanes_cases c (with_msgctx t m3)) as Hl.
  destruct (check_lanes c (with_msgctx t m3)) as [t1 f]. cbn [fst snd] in *.
  destruct f; [|exact I]. destruct Hl as [Hss _].
  destruct Hss as (Sh & Sb & Sr & Ssl & _ & _ & _ & S0 & S1 & S2 & S3 & S4 & S5 & S12 & S13).
  cbn [handler t_block msgctx with_msgctx reads sleeps] in Sh, Sb, Sr, Ssl, S0, S1, S2, S3,
    S4, S5, S12, S13.
  assert (Hdue : housekeeping_due (msgctx t1) = false).
  { unfold housekeeping_due. rewrite S4, E3. apply Z.eqb_neq. intros Hz. apply Hm.
    clear - Hz. Z.div_mod_to_equations. lia. }
  unfold housekeeping. rewrite Hdue.
  split; [rewrite Sb; reflexivity|]. split; [rewrite S4; exact E1|]. split; [exact Sh|].
  split; [exact Sr|]. split; [exact Ssl|]. split; [rewrite S4; exact E3|]. split.
  - rewrite S4, E3. clear - Hm. Z.div_mod_to_equations. lia.
  - unfold cache_for in *. cbv zeta in *. rewrite S0, S1, S2, S3, S5, S12, S13. exact Hc3.
Qed.

(** C6 (the code skips the periodic block): when the counter in
    [val[4][3]] is not a multiple of three, a turn of the work loop that
    goes on leaves the time of the block and of the cache, the session and
    the trace as they were, and the counter is again not a multiple of
    three: the periodic block does not run before the counter wraps. *)
Theorem housekeeping_skipped_off_multiples_of_3 (c : Collaborators) (fuel idx : nat)
    (from to : Z) (H : list byte) (t : Thread) :
  cache_for H (msgctx t) ->
  stop (handler t) = false ->
  0 <= e3 (val4 (msgctx t)) ->
  e3 (val4 (msgctx t)) + 3 < 2 ^ 32 ->
  e3 (val4 (msgctx t)) mod 3 <> 0 ->
  match iteration c fuel idx from to t with
  | Some (t', Next) =>
      nTime (t_block t') = nTime (t_block t)
      /\ e1 (val4 (msgctx t')) = e1 (val4 (msgctx t))
      /\ handler t' = handler t
      /\ reads t' = reads t /\ sleeps t' = sleeps t
      /\ e3 (val4 (msgctx t')) = e3 (val4 (msgctx t)) + 3
      /\ e3 (val4 (msgctx t')) mod 3 <> 0
      /\ cache_for H (msgctx t')
  | Some (t', Break) => True
  | None => False
  end.
Proof.
  intros Hc Hs H0 H3 Hm. rewrite (iteration_cases c fuel idx from to t Hs).
  apply (after_batch_off_multiples_of_3 c fuel idx from to H t (BleMiner3Way (msgctx t))).
  - exact (cache_for_BleMiner3Way H (msgctx t) Hc).
  - rewrite (BleMiner3Way_val4 H (msgctx t) Hc). cbn [e3].
    unfold add32. apply Z.mod_small. lia.
  - rewrite (BleMiner3Way_val4 H (msgctx t) Hc). reflexivity.
  - exact Hm.
Qed.

(** ** The end of the worker *)

Lemma repeat_app_cons {A : Type} (x : A) (n : nat) (l : list A) :
  repeat x n ++ x :: l = repeat x (S n) ++ l.
Proof. induction n as [|n IH]; cbn; [reflexivity|]. f_equal. exact IH. Qed.

Lemma wait_for_peers_none (c : Collaborators) (w : nat) : forall t,
  (forall k, (k <= w)%nat -> hasPeers c (reads t + k) = false) ->
  handler (wait_for_peers c w t) = handler t
  /\ t_block (wait_for_peers c w t) = t_block t
  /\ submitted (wait_for_peers c w t) = submitted t
  /\ reads (wait_for_peers c w t) = (reads t + S w)%nat
  /\ sleeps (wait_for_peers c w t) = repeat 100 w ++ sleeps t.
Proof.
  induction w as [|w IH]; intros t Hp.
  - cbn. repeat split. lia.
  - cbn [wait_for_peers].
    assert (E0 : hasPeers c (reads t) = false).
    { rewrite <- (Nat.add_0_r (reads t)). apply Hp. lia. }
    rewrite E0. cbn [negb].
    destruct (IH (MilliSleep 100 (tick t))) as (Eh & Eb & Es & Er & Esl).
    { intros k Hk. cbn [reads MilliSleep tick].
      replace (S (reads t) + k)%nat with (reads t + S k)%nat by lia. apply Hp. lia. }
    rewrite Eh, Eb, Es, Er, Esl. cbn [handler t_block submitted reads sleeps MilliSleep tick].
    repeat split; [lia|]. apply repeat_app_cons.
Qed.

(** C9: when the block is not null and the peer probe answers no at every
    one of its reads, the end of the worker sleeps fifty times 100 ms,
    reads the probe 53 times, and returns with the session as it was (the
    found flag not set) and nothing submitted. *)
Theorem no_peers_abandons_submission (c : Collaborators) (t : Thread) :
  IsNull c (t_block t) = false ->
  (forall k, (k <= 52)%nat -> hasPeers c (reads t + k) = false) ->
  handler (finish c t) = handler t
  /\ submitted (finish c t) = submitted t
  /\ sleeps (finish c t) = repeat 100 50 ++ sleeps t
  /\ reads (finish c t) = (reads t + 53)%nat.
Proof.
  intros Hn Hp. unfold finish. rewrite Hn.
  assert (E0 : hasPeers c (reads t) = false).
  { rewrite <- (Nat.add_0_r (reads t)). apply Hp. lia. }
  rewrite E0. cbn [negb].
  destruct (wait_for_peers_none c 50 (tick t)) as (Eh & Eb & Es & Er & Esl).
  { intros k Hk. cbn [reads tick].
    replace (S (reads t) + k)%nat with (reads t + S k)%nat by lia. apply Hp. lia. }
  cbn [reads tick] in Er.
  rewrite Er. replace (S (reads t) + 51)%nat with (reads t + 52)%nat by lia.
  rewrite (Hp 52%nat) by lia. cbn [negb].
  cbn [handler submitted sleeps reads tick]. rewrite Eh, Es, Esl, Er.
  cbn [handler submitted sleeps reads tick]. repeat split. lia.
Qed.

(** ** The theorems on the example session *)

Lemma exhaustion_check_reads_stale_nonce_witness :
  (cache_for (bleheaders_of example_block) (msgctx example_thread)
   /\ stop (handler example_thread) = false
   /\ 0 <= nNonce (t_block example_thread) < 1000)
  /\ match iteration example_collaborators 2 0 0 1000 example_thread with
     | Some (t', Next) =>
         e3 (val4 (msgctx t')) = add32 (e3 (val4 (msgctx example_thread))) 3
         /\ nNonce (t_block t') = nNonce (t_block example_thread)
         /\ cache_for (bleheaders_of example_block) (msgctx t')
         /\ (stop (handler t') = true ->
             interrupt (handler example_thread) = true
             \/ chaintipblockhash t' <> hashPrevBlock t')
     | _ => True
     end.
Proof.
  assert (H1 : cache_for (bleheaders_of example_block) (msgctx example_thread))
    by (unfold cache_for; cbv zeta; repeat apply conj; vm_compute; reflexivity).
  assert (H2 : stop (handler example_thread) = false) by reflexivity.
  assert (H3 : 0 <= nNonce (t_block example_thread) < 1000) by (simpl; lia).
  split; [exact (conj H1 (conj H2 H3))|].
  exact (exhaustion_check_reads_stale_nonce example_collaborators 2 0 0 1000
           (bleheaders_of example_block) example_thread H1 H2 H3).
Defined.

Lemma housekeeping_skipped_off_multiples_of_3_witness :
  (cache_for (bleheaders_of example_block) (msgctx example_thread)
   /\ stop (handler example_thread) = false
   /\ 0 <= e3 (val4 (msgctx example_thread))
   /\ e3 (val4 (msgctx example_thread)) + 3 < 2 ^ 32
   /\ e3 (val4 (msgctx example_thread)) mod 3 <> 0)
  /\ match iteration example_collaborators 2 1 0 1000 example_thread with
     | Some (t', Next) =>
         nTime (t_block t') = nTime (t_block example_thread)
         /\ e1 (val4 (msgctx t')) = e1 (val4 (msgctx example_thread))
         /\ handler t' = handler example_thread
         /\ reads t' = reads example_thread /\ sleeps t' = sleeps example_thread
         /\ e3 (val4 (msgctx t')) = e3 (val4 (msgctx example_thread)) + 3
         /\ e3 (val4 (msgctx t')) mod 3 <> 0
         /\ cache_for (bleheaders_of example_block) (msgctx t')
     | Some (t', Break) => True
     | None => False
     end.
Proof.
  assert (H1 : cache_for (bleheaders_of example_block) (msgctx example_thread))
    by (unfold cache_for; cbv zeta; repeat apply conj; vm_compute; reflexivity).
  assert (H2 : stop (handler example_thread) = false) by reflexivity.
  assert (E : e3 (val4 (msgctx example_thread)) = 7) by (vm_compute; reflexivity).
  assert (H3 : 0 <= e3 (val4 (msgctx example_thread))) by (rewrite E; lia).
  assert (H4 : e3 (val4 (msgctx example_thread)) + 3 < 2 ^ 32) by (rewrite E; lia).
  assert (H5 : e3 (val4 (msgctx example_thread)) mod 3 <> 0)
    by (rewrite E; vm_compute; discriminate).
  split; [exact (conj H1 (conj H2 (conj H3 (conj H4 H5))))|].
  exact (housekeeping_skipped_off_multiples_of_3 example_collaborators 2 1 0 1000
           (bleheaders_of example_block) example_thread H1 H2 H3 H4 H5).
Defined.

Lemma no_peers_abandons_submission_witness :
  (IsNull example_collaborators (t_block example_thread) = false
   /\ (forall k, (k <= 52)%nat ->
         hasPeers example_collaborators (reads example_thread + k) = false))
  /\ handler (finish example_collaborators example_thread) = handler example_thread
  /\ submitted (finish example_collaborators example_thread) = submitted example_thread
  /\ sleeps (finish example_collaborators example_thread)
     = repeat 100 50 ++ sleeps example_thread
  /\ reads (finish example_collaborators example_thread) = (reads example_thread + 53)%nat.
Proof.
  assert (H1 : IsNull example_collaborators (t_block example_thread) = false)
    by reflexivity.
  assert (H2 : forall k, (k <= 52)%nat ->
                 hasPeers example_collaborators (reads example_thread + k) = false)
    by (intros k Hk; reflexivity).
  split; [exact (conj H1 H2)|].
  exact (no_peers_abandons_submission example_collaborators example_thread H1 H2).
Defined.

(** ** More on the hashers *)

Lemma header_lane_nonce (H : list byte) (n : Z) :
  length H = 112%nat ->
  lane_digest (header_lane H (set_lane3 (tail_words H) n)) = Ref.SHA256d (with_nonce H n).
Proof.
  intros Hlen.
  rewrite (SHA256d_header_lane _ (with_nonce_length H n Hlen)).
  rewrite (header_lane_with_nonce H n Hlen). reflexivity.
Qed.

(** X1: the one-lane hasher on a header of 112 bytes gives the double
    SHA-256 of the header, once byte swapped into a [uint256]. *)
Theorem BleMiner_1way_SHA256d (H : list byte) :
  length H = 112%nat ->
  lane_digest (BleMiner_1way H) = Ref.SHA256d H.
Proof.
  intros Hlen. rewrite (BleMiner_1way_lane H Hlen).
  symmetry. exact (SHA256d_header_lane H Hlen).
Qed.

Lemma BleMiner_1way_SHA256d_witness :
  length (bleheaders_of example_block) = 112%nat
  /\ lane_digest (BleMiner_1way (bleheaders_of example_block))
     = Ref.SHA256d (bleheaders_of example_block).
Proof.
  split; [reflexivity|].
  exact (BleMiner_1way_SHA256d (bleheaders_of example_block) eq_refl).
Defined.

(** X2: the one-lane hasher on the scratchpad of
    [BleMinerInitialTransform], with [n] stored in its nonce word, gives
    the double SHA-256 of the header with nonce [n]. *)
Theorem BleMiner_SHA256d (H : list byte) (scratchpad : list Z) (n : Z) :
  length H = 112%nat ->
  length scratchpad = 40%nat ->
  lane_digest (BleMiner (cache6 (store (BleMinerInitialTransform H scratchpad) 19 n)))
  = Ref.SHA256d (with_nonce H n).
Proof.
  intros Hlen Hs. rewrite (BleMiner_nonce H scratchpad n Hs).
  exact (header_lane_nonce H n Hlen).
Qed.

Lemma BleMiner_SHA256d_witness :
  (length (bleheaders_of example_block) = 112%nat /\ length (repeat 0 40) = 40%nat)
  /\ lane_digest (BleMiner (cache6 (store (BleMinerInitialTransform
                                             (bleheaders_of example_block) (repeat 0 40))
                                      19 4294967295)))
     = Ref.SHA256d (with_nonce (bleheaders_of example_block) 4294967295).
Proof.
  split; [split; reflexivity|].
  exact (BleMiner_SHA256d (bleheaders_of example_block) (repeat 0 40) 4294967295
           eq_refl eq_refl).
Defined.

(** X3: the two digests of [BleMiner2Way] are the double SHA-256 of the
    header with the nonce of the scratchpad and with the next nonce, which
    after 2^32 - 1 is 0. *)
Theorem BleMiner2Way_SHA256d (H : list byte) (scratchpad : list Z) (n : Z) :
  length H = 112%nat ->
  length scratchpad = 40%nat ->
  let '(a0, a1, b0, b1) :=
    BleMiner2Way (cache6 (store (BleMinerInitialTransform H scratchpad) 19 n)) in
  lane_digest (a0, a1) = Ref.SHA256d (with_nonce H n)
  /\ lane_digest (b0, b1) = Ref.SHA256d (with_nonce H (add32 n 1)).
Proof.
  intros Hlen Hs.
  rewrite (BleMinerInitialTransform_array H scratchpad n Hs), BleMiner2Way_lanes.
  rewrite !pair_eta, incr_set_lane3.
  split; apply header_lane_nonce; exact Hlen.
Qed.

Lemma BleMiner2Way_SHA256d_witness :
  (length (bleheaders_of example_block) = 112%nat /\ length (repeat 0 40) = 40%nat)
  /\ let '(a0, a1, b0, b1) :=
       BleMiner2Way (cache6 (store (BleMinerInitialTransform
                                      (bleheaders_of example_block) (repeat 0 40))
                               19 4294967295)) in
     lane_digest (a0, a1)
     = Ref.SHA256d (with_nonce (bleheaders_of example_block) 4294967295)
     /\ lane_digest (b0, b1)
        = Ref.SHA256d (with_nonce (bleheaders_of example_block) (add32 4294967295 1)).
Proof.
  split; [split; reflexivity|].
  exact (BleMiner2Way_SHA256d (bleheaders_of example_block) (repeat 0 40) 4294967295
           eq_refl eq_refl).
Defined.

(** X4: [BleMiner4Way] on the scratchpad of [BleMinerInitialTransform]
    leaves in the workpad the double SHA-256 of the header with the nonce
    of the scratchpad and the three nonces after it (modulo 2^32), lane by
    lane, and leaves the scratchpad as it was but for its nonce word, which
    is four further. *)
Theorem BleMiner4Way_SHA256d (H : list byte) (scratchpad : list Z)
    (workpad : uint32x4x24_t) (n : Z) :
  length H = 112%nat ->
  length scratchpad = 40%nat ->
  let r := BleMiner4Way (store (BleMinerInitialTransform H scratchpad) 19 n) workpad in
  fst r = store (BleMinerInitialTransform H scratchpad) 19 (add32 n 4)
  /\ lane_digest (STATEA0 (snd r), STATEA1 (snd r)) = Ref.SHA256d (with_nonce H n)
  /\ lane_digest (STATEB0 (snd r), STATEB1 (snd r))
     = Ref.SHA256d (with_nonce H (add32 n 1))
  /\ lane_digest (STATEC0 (snd r), STATEC1 (snd r))
     = Ref.SHA256d (with_nonce H (add32 n 2))
  /\ lane_digest (STATED0 (snd r), STATED1 (snd r))
     = Ref.SHA256d (with_nonce H (add32 n 3)).
Proof.
  intros Hlen Hs. cbv zeta.
  rewrite (BleMinerInitialTransform_array H scratchpad n Hs).
  rewrite (BleMinerInitialTransform_array H scratchpad (add32 n 4) Hs).
  destruct (BleMiner4Way_lanes H (set_lane3 (tail_words H) n) workpad)
    as (E & EA & EB & EC & ED).
  rewrite E, EA, EB, EC, ED.
  rewrite !incr_set_lane3.
  replace (add32 (add32 (add32 (add32 n 1) 1) 1) 1) with (add32 n 4) by add32_eq.
  replace (add32 (add32 (add32 n 1) 1) 1) with (add32 n 3) by add32_eq.
  replace (add32 (add32 n 1) 1) with (add32 n 2) by add32_eq.
  split; [reflexivity|].
  repeat apply conj; apply header_lane_nonce; exact Hlen.
Qed.

Lemma BleMiner4Way_SHA256d_witness :
  let H := bleheaders_of example_block in
  let workpad := X24 indeterminate indeterminate indeterminate indeterminate
                     indeterminate indeterminate indeterminate indeterminate
                     indeterminate indeterminate indeterminate indeterminate
                     indeterminate indeterminate indeterminate indeterminate
                     indeterminate indeterminate indeterminate indeterminate
                     indeterminate indeterminate indeterminate indeterminate in
  (length H = 112%nat /\ length (repeat 0 40) = 40%nat)
  /\ let r := BleMiner4Way (store (BleMinerInitialTransform H (repeat 0 40)) 19 4294967294)
                workpad in
     fst r = store (BleMinerInitialTransform H (repeat 0 40)) 19 (add32 4294967294 4)
     /\ lane_digest (STATEA0 (snd r), STATEA1 (snd r))
        = Ref.SHA256d (with_nonce H 4294967294)
     /\ lane_digest (STATEB0 (snd r), STATEB1 (snd r))
        = Ref.SHA256d (with_nonce H (add32 4294967294 1))
     /\ lane_digest (STATEC0 (snd r), STATEC1 (snd r))
        = Ref.SHA256d (with_nonce H (add32 4294967294 2))
     /\ lane_digest (STATED0 (snd r), STATED1 (snd r))
        = Ref.SHA256d (with_nonce H (add32 4294967294 3)).
Proof.
  intros H workpad.
  split; [split; reflexivity|].
  exact (BleMiner4Way_SHA256d H (repeat 0 40) workpad 4294967294 eq_refl eq_refl).
Defined.

Lemma words_64 (H : list byte) :
  (64 <= length H)%nat ->
  Ref.words (firstn 64 H)
  = flat (ldbe H) ++ flat (ldbe (next16n 1 H)) ++ flat (ldbe (next16n 2 H))
      ++ flat (ldbe (next16n 3 H)).
Proof.
  intros Hlen.
  do 64 (destruct H as [|? H]; [cbn [length] in Hlen; lia|]).
  reflexivity.
Qed.

(** The state after the first block of a header, and its last sixteen
    bytes, against the reference. *)
Lemma header_midstate (H : list byte) :
  length H = 112%nat ->
  st_list (fst (first_block H), snd (first_block H))
  = Ref.compress Ref.IV (Ref.words (firstn 64 H))
  /\ vreinterpretq_u8_u32 (tail_words H) = skipn 96 H.
Proof.
  intros Hlen. unfold first_block, tail_words. split.
  - rewrite pair_eta, words_64 by lia.
    change Ref.IV with (st_list SHA256INIT). symmetry. apply qcompress_ref.
  - explicit H Hlen. cbn [next16n next16 skipn vld1q_u8 firstn].
    unfold vreinterpretq_u32_u8. cbn [nth]. unfold vreinterpretq_u8_u32.
    cbn [e0 e1 e2 e3]. rewrite !le_bytes_le32. reflexivity.
Qed.

(** X5: the first two vectors of the cache of [BleMinerTransform1] are the
    SHA-256 state after the first block of 64 bytes of the header, and its
    fifth vector holds bytes 96 to 111 as they lie in memory. *)
Theorem BleMinerTransform1_midstate (H : list byte) :
  length H = 112%nat ->
  st_list (val0 (BleMinerTransform1 H), val1 (BleMinerTransform1 H))
  = Ref.compress Ref.IV (Ref.words (firstn 64 H))
  /\ vreinterpretq_u8_u32 (val4 (BleMinerTransform1 H)) = skipn 96 H.
Proof.
  intros Hlen. rewrite BleMinerTransform1_spec. cbv zeta. cbn [val0 val1 val4].
  fold (first_block H). fold (tail_words H). exact (header_midstate H Hlen).
Qed.

Lemma BleMinerTransform1_midstate_witness :
  length (bleheaders_of example_block) = 112%nat
  /\ st_list (val0 (BleMinerTransform1 (bleheaders_of example_block)),
              val1 (BleMinerTransform1 (bleheaders_of example_block)))
     = Ref.compress Ref.IV (Ref.words (firstn 64 (bleheaders_of example_block)))
  /\ vreinterpretq_u8_u32 (val4 (BleMinerTransform1 (bleheaders_of example_block)))
     = skipn 96 (bleheaders_of example_block).
Proof.
  split; [reflexivity|].
  exact (BleMinerTransform1_midstate (bleheaders_of example_block) eq_refl).
Defined.

Lemma serialize_head (H : list byte) (N T : Z) :
  length H = 112%nat ->
  first_block (serialize H N T) = first_block H
  /\ ldbe (next16n 4 (serialize H N T)) = ldbe (next16n 4 H)
  /\ ldbe (next16n 5 (serialize H N T)) = ldbe (next16n 5 H)
  /\ tail_words (serialize H N T)
     = set_lane3 (set_lane1 (tail_words H) (T mod 2 ^ 32)) (N mod 2 ^ 32).
Proof.
  intros Hlen. unfold serialize.
  pose proof (with_time_length H T Hlen) as Ht.
  destruct (with_nonce_head (with_time H T) N Ht) as (E0 & E4 & E5).
  destruct (with_time_head H T Hlen) as (F0 & F4 & F5).
  rewrite E0, E4, E5, F0, F4, F5, (with_nonce_tail _ N Ht), (with_time_tail H T Hlen).
  repeat apply conj; reflexivity.
Qed.

(** X6: the cache of [BleMinerTransform1] depends on the time and the nonce
    of the header only through its fifth vector: every member that the
    function assigns ([val[0]] to [val[5]], [val[12]] and [val[13]]) is,
    for the header with time T and nonce N, what it is for the header
    itself once T and N are written into [val[4][1]] and [val[4][3]],
    which is how the worker updates the cache. *)
Theorem BleMinerTransform1_patch (H : list byte) (N T : Z) :
  length H = 112%nat ->
  let m := BleMinerTransform1 (serialize H N T) in
  let m' := set_nonce (set_time (BleMinerTransform1 H) (T mod 2 ^ 32)) (N mod 2 ^ 32) in
  val0 m = val0 m' /\ val1 m = val1 m' /\ val2 m = val2 m' /\ val3 m = val3 m'
  /\ val4 m = val4 m' /\ val5 m = val5 m'
  /\ val12 m = val12 m' /\ val13 m = val13 m'
  /\ val4 m' = V4 (e0 (val4 (BleMinerTransform1 H))) (T mod 2 ^ 32)
                  (e2 (val4 (BleMinerTransform1 H))) (N mod 2 ^ 32).
Proof.
  intros Hlen. destruct (serialize_head H N T Hlen) as (E0 & E4 & E5 & Et).
  cbv zeta. rewrite !BleMinerTransform1_spec. cbv zeta.
  unfold set_nonce, set_time, set_val4.
  cbn [val0 val1 val2 val3 val4 val5 val6 val7 val8 val9 val10 val11 val12 val13].
  fold (first_block (serialize H N T)). fold (first_block H).
  fold (tail_words (serialize H N T)). fold (tail_words H).
  rewrite E0, E4, E5, Et.
  unfold set_lane3, set_lane1. cbn [e0 e1 e2 e3].
  repeat apply conj; reflexivity.
Qed.

Lemma BleMinerTransform1_patch_witness :
  length (bleheaders_of example_block) = 112%nat
  /\ let m := BleMinerTransform1
                (serialize (bleheaders_of example_block) 4294967299 1500000600) in
     let m' := set_nonce (set_time (BleMinerTransform1 (bleheaders_of example_block))
                            (1500000600 mod 2 ^ 32)) (4294967299 mod 2 ^ 32) in
     val0 m = val0 m' /\ val1 m = val1 m' /\ val2 m = val2 m' /\ val3 m = val3 m'
     /\ val4 m = val4 m' /\ val5 m = val5 m'
     /\ val12 m = val12 m' /\ val13 m = val13 m'
     /\ val4 m' = V4 (e0 (val4 (BleMinerTransform1 (bleheaders_of example_block))))
                     (1500000600 mod 2 ^ 32)
                     (e2 (val4 (BleMinerTransform1 (bleheaders_of example_block))))
                     (4294967299 mod 2 ^ 32).
Proof.
  split; [reflexivity|].
  exact (BleMinerTransform1_patch (bleheaders_of example_block) 4294967299 1500000600
           eq_refl).
Defined.

Lemma header_array_length (H : list byte) (v4 : uint32x4_t) :
  length (header_array H v4) = 40%nat.
Proof. reflexivity. Qed.

(** X7: [BleMinerInitialTransform] overwrites all forty words of the
    scratchpad: what it leaves does not depend on what the scratchpad held;
    its first eight words are the SHA-256 state after the first 64 bytes of
    the header, words 16 to 19 are bytes 96 to 111 of the header as
    little-endian words, and the last twenty words are the padding of the
    second block, the initial state and the padded length of a digest. *)
Theorem BleMinerInitialTransform_overwrites (H : list byte) (s1 s2 : list Z) :
  length H = 112%nat ->
  length s1 = 40%nat ->
  length s2 = 40%nat ->
  BleMinerInitialTransform H s1 = BleMinerInitialTransform H s2
  /\ length (BleMinerInitialTransform H s1) = 40%nat
  /\ firstn 8 (BleMinerInitialTransform H s1)
     = Ref.compress Ref.IV (Ref.words (firstn 64 H))
  /\ flat_map le_bytes (firstn 4 (skipn 16 (BleMinerInitialTransform H s1)))
     = skipn 96 H
  /\ skipn 20 (BleMinerInitialTransform H s1)
     = [0x80000000; 0; 0; 0x380] ++ Ref.IV ++ [0x80000000; 0; 0; 0; 0; 0; 0; 0x100].
Proof.
  intros Hlen H1 H2.
  assert (E : forall s, length s = 40%nat ->
                BleMinerInitialTransform H s = header_array H (tail_words H)).
  { intros s Hs. rewrite BleMinerInitialTransform_spec. cbv zeta.
    fold (first_block H). fold (tail_words H).
    explicit s Hs.
    unfold header_array, flat. cbn [app].
    cbv [vst1q_u32 store Nat.add]. reflexivity. }
  rewrite (E s1 H1), (E s2 H2).
  split; [reflexivity|]. split; [reflexivity|].
  destruct (header_midstate H Hlen) as [Em Et].
  split; [|split].
  - rewrite <- Em. reflexivity.
  - rewrite <- Et. unfold header_array, flat. cbn [app skipn firstn flat_map].
    rewrite app_nil_r. reflexivity.
  - reflexivity.
Qed.

Lemma BleMinerInitialTransform_overwrites_witness :
  let H := bleheaders_of example_block in
  (length H = 112%nat /\ length (repeat 0 40) = 40%nat /\ length (repeat 7 40) = 40%nat)
  /\ BleMinerInitialTransform H (repeat 0 40) = BleMinerInitialTransform H (repeat 7 40)
  /\ length (BleMinerInitialTransform H (repeat 0 40)) = 40%nat
  /\ firstn 8 (BleMinerInitialTransform H (repeat 0 40))
     = Ref.compress Ref.IV (Ref.words (firstn 64 H))
  /\ flat_map le_bytes (firstn 4 (skipn 16 (BleMinerInitialTransform H (repeat 0 40))))
     = skipn 96 H
  /\ skipn 20 (BleMinerInitialTransform H (repeat 0 40))
     = [0x80000000; 0; 0; 0x380] ++ Ref.IV ++ [0x80000000; 0; 0; 0; 0; 0; 0; 0x100].
Proof.
  intros H.
  split; [repeat apply conj; reflexivity|].
  exact (BleMinerInitialTransform_overwrites H (repeat 0 40) (repeat 7 40)
           eq_refl eq_refl eq_refl).
Defined.

(** The cache after [k] batches. *)
Lemma batches_cache (H : list byte) (a T b N : Z) (k : nat) (m : uint32x4x14_t) :
  cache_for H m ->
  val4 m = V4 a T b N ->
  cache_for H (Nat.iter k BleMiner3Way m)
  /\ exists N', val4 (Nat.iter k BleMiner3Way m) = V4 a T b N'
                /\ N' mod 2 ^ 32 = (N + 3 * Z.of_nat k) mod 2 ^ 32.
Proof.
  intros Hc H4. induction k as [|k IH].
  - split; [exact Hc|]. exists N. split; [exact H4|]. f_equal. cbn. lia.
  - destruct IH as (Hck & N' & E4 & EN). rewrite Nat.iter_succ.
    split; [exact (cache_for_BleMiner3Way H _ Hck)|].
    exists (add32 N' 3). split.
    + rewrite (BleMiner3Way_val4 H _ Hck), E4. reflexivity.
    + unfold add32. rewrite Z.mod_mod by discriminate.
      rewrite <- Zplus_mod_idemp_l, EN, Zplus_mod_idemp_l. f_equal. lia.
Qed.

(** X8: batches follow one another through the nonces without a gap: on
    the cache of a header with time T and counter N, lane j of batch
    number k + 1 is the double SHA-256 of the header with nonce
    N + 3k + j modulo 2^32. *)
Theorem successive_batches (H : list byte) (N T : Z) (k j : nat) (m : uint32x4x14_t) :
  length H = 112%nat ->
  cache_for H m ->
  val4 m = set_lane3 (set_lane1 (tail_words H) T) N ->
  (j < 3)%nat ->
  lane_digest (lane (Nat.iter (S k) BleMiner3Way m) j)
  = Ref.SHA256d (serialize H (add32 N (3 * Z.of_nat k + Z.of_nat j)) T).
Proof.
  intros Hlen Hc H4 Hj.
  destruct (batches_cache H _ _ _ _ k m Hc H4) as (Hck & N' & E4 & EN).
  rewrite Nat.iter_succ.
  rewrite (batch_digests H _ N' T j Hlen Hck E4 Hj).
  f_equal. f_equal. unfold add32.
  rewrite <- (Zplus_mod_idemp_l N'), EN, Zplus_mod_idemp_l. f_equal. lia.
Qed.

Lemma successive_batches_witness :
  let H := bleheaders_of example_block in
  let m := BleMinerTransform1 H in
  (length H = 112%nat /\ cache_for H m
   /\ val4 m = set_lane3 (set_lane1 (tail_words H) 1500000000) 7 /\ (2 < 3)%nat)
  /\ lane_digest (lane (Nat.iter 2 BleMiner3Way m) 2)
     = Ref.SHA256d (serialize H (add32 7 (3 * Z.of_nat 1 + Z.of_nat 2)) 1500000000).
Proof.
  intros H m.
  assert (H1 : length H = 112%nat) by reflexivity.
  assert (H2 : cache_for H m)
    by (unfold cache_for; cbv zeta; repeat apply conj; vm_compute; reflexivity).
  assert (H3 : val4 m = set_lane3 (set_lane1 (tail_words H) 1500000000) 7)
    by (vm_compute; reflexivity).
  assert (H4 : (2 < 3)%nat) by lia.
  split; [exact (conj H1 (conj H2 (conj H3 H4)))|].
  exact (successive_batches H 7 1500000000 1 2 m H1 H2 H3 H4).
Defined.

(** ** More on the worker *)

Lemma wait_for_peers_found (c : Collaborators) (w : nat) : forall r t,
  (r <= w)%nat ->
  (forall i, (i < r)%nat -> hasPeers c (reads t + i) = false) ->
  hasPeers c (reads t + r) = true ->
  handler (wait_for_peers c w t) = handler t
  /\ t_block (wait_for_peers c w t) = t_block t
  /\ submitted (wait_for_peers c w t) = submitted t
  /\ reads (wait_for_peers c w t) = (reads t + S r)%nat
  /\ sleeps (wait_for_peers c w t) = repeat 100 r ++ sleeps t.
Proof.
  induction w as [|w IH]; intros r t Hr Hno Hyes.
  - assert (r = 0%nat) as -> by lia. cbn. repeat apply conj; try reflexivity. lia.
  - cbn [wait_for_peers]. destruct r as [|r].
    + rewrite Nat.add_0_r in Hyes. rewrite Hyes. cbn [negb].
      cbn. repeat apply conj; try reflexivity. lia.
    + assert (E0 : hasPeers c (reads t) = false).
      { rewrite <- (Nat.add_0_r (reads t)). apply Hno. lia. }
      rewrite E0. cbn [negb].
      destruct (IH r (MilliSleep 100 (tick t))) as (Eh & Eb & Es & Er & Esl).
      * lia.
      * intros i Hi. cbn [reads MilliSleep tick].
        replace (S (reads t) + i)%nat with (reads t + S i)%nat by lia. apply Hno. lia.
      * cbn [reads MilliSleep tick].
        replace (S (reads t) + r)%nat with (reads t + S r)%nat by lia. exact Hyes.
      * rewrite Eh, Eb, Es, Er, Esl.
        cbn [handler t_block submitted reads sleeps MilliSleep tick].
        repeat apply conj; try reflexivity; [lia|]. apply repeat_app_cons.
Qed.

(** X9: a worker with a block that is not null and peers at the first
    probe submits at once: the found flag is set, the session holds the
    block, the block goes to ProcessNewBlock once, and there is no sleep;
    the stop and interrupt flags are as they were. *)
Theorem finish_submits_with_peers (c : Collaborators) (t : Thread) :
  IsNull c (t_block t) = false ->
  hasPeers c (reads t) = true ->
  found (handler (finish c t)) = true
  /\ block (handler (finish c t)) = t_block t
  /\ stop (handler (finish c t)) = stop (handler t)
  /\ interrupt (handler (finish c t)) = interrupt (handler t)
  /\ submitted (finish c t) = t_block t :: submitted t
  /\ sleeps (finish c t) = sleeps t
  /\ reads (finish c t) = S (reads t).
Proof.
  intros Hn Hp. unfold finish. rewrite Hn, Hp. cbn. repeat apply conj; reflexivity.
Qed.

Lemma finish_submits_with_peers_witness :
  let c := {| CheckProofOfWork := Spec.CheckProofOfWork;
              SetNull := fun _ => Block [] 0 0 0;
              IsNull := fun b => nBits b =? 0;
              CBlock_new := Block [] 0 0 0;
              hashPrevBlock_GetHex := fun _ => example_tip;
              GetAdjustedTime := fun _ => 1500000600;
              GetTimeMillis := fun _ => 0;
              Tip_GetBlockHash_GetHex := fun _ => example_tip;
              hasPeers := fun k => (3 <=? k)%nat |} in
  let t := Th example_block (X14 indeterminate indeterminate indeterminate indeterminate
                                 indeterminate indeterminate indeterminate indeterminate
                                 indeterminate indeterminate indeterminate indeterminate
                                 indeterminate indeterminate)
              (repeat x00 32) example_tip example_tip example_handler 5 [] [] in
  (IsNull c (t_block t) = false /\ hasPeers c (reads t) = true)
  /\ found (handler (finish c t)) = true
  /\ block (handler (finish c t)) = t_block t
  /\ stop (handler (finish c t)) = stop (handler t)
  /\ interrupt (handler (finish c t)) = interrupt (handler t)
  /\ submitted (finish c t) = t_block t :: submitted t
  /\ sleeps (finish c t) = sleeps t
  /\ reads (finish c t) = S (reads t).
Proof.
  intros c t. split; [split; reflexivity|].
  exact (finish_submits_with_peers c t eq_refl eq_refl).
Defined.

(** X10: when there is no peer at the first probe and the first peer is
    seen at retry number r (r <= 50, after r sleeps of 100 ms) and is still
    there at the probe that follows the wait, the block is submitted: the
    found flag is set, the session holds the block and the block goes to
    ProcessNewBlock once. *)
Theorem finish_submits_after_retries (c : Collaborators) (t : Thread) (r : nat) :
  IsNull c (t_block t) = false ->
  hasPeers c (reads t) = false ->
  (r <= 50)%nat ->
  (forall i, (i < r)%nat -> hasPeers c (reads t + 1 + i) = false) ->
  hasPeers c (reads t + 1 + r) = true ->
  hasPeers c (reads t + 2 + r) = true ->
  found (handler (finish c t)) = true
  /\ block (handler (finish c t)) = t_block t
  /\ submitted (finish c t) = t_block t :: submitted t
  /\ sleeps (finish c t) = repeat 100 r ++ sleeps t
  /\ reads (finish c t) = (reads t + 3 + r)%nat.
Proof.
  intros Hn H0 Hr Hno Hyes Hlast. unfold finish. rewrite Hn, H0. cbn [negb].
  destruct (wait_for_peers_found c 50 r (tick t) Hr) as (Eh & Eb & Es & Er & Esl).
  { intros i Hi. cbn [reads tick].
    replace (S (reads t) + i)%nat with (reads t + 1 + i)%nat by lia. apply Hno. exact Hi. }
  { cbn [reads tick].
    replace (S (reads t) + r)%nat with (reads t + 1 + r)%nat by lia. exact Hyes. }
  cbn [reads tick] in Er.
  rewrite Er. replace (S (reads t) + S r)%nat with (reads t + 2 + r)%nat by lia.
  rewrite Hlast. cbn [negb].
  cbn [handler submitted sleeps reads tick ProcessNewBlock with_handler set_block set_found
       found block t_block].
  rewrite Eb, Es, Esl, Er. cbn [sleeps tick]. repeat apply conj; try reflexivity. lia.
Qed.

Lemma finish_submits_after_retries_witness :
  let c := {| CheckProofOfWork := Spec.CheckProofOfWork;
              SetNull := fun _ => Block [] 0 0 0;
              IsNull := fun b => nBits b =? 0;
              CBlock_new := Block [] 0 0 0;
              hashPrevBlock_GetHex := fun _ => example_tip;
              GetAdjustedTime := fun _ => 1500000600;
              GetTimeMillis := fun _ => 0;
              Tip_GetBlockHash_GetHex := fun _ => example_tip;
              hasPeers := fun k => (3 <=? k)%nat |} in
  let t := example_thread in
  (IsNull c (t_block t) = false /\ hasPeers c (reads t) = false /\ (2 <= 50)%nat
   /\ (forall i, (i < 2)%nat -> hasPeers c (reads t + 1 + i) = false)
   /\ hasPeers c (reads t + 1 + 2) = true /\ hasPeers c (reads t + 2 + 2) = true)
  /\ found (handler (finish c t)) = true
  /\ block (handler (finish c t)) = t_block t
  /\ submitted (finish c t) = t_block t :: submitted t
  /\ sleeps (finish c t) = repeat 100 2 ++ sleeps t
  /\ reads (finish c t) = (reads t + 3 + 2)%nat.
Proof.
  intros c t.
  assert (H1 : IsNull c (t_block t) = false) by reflexivity.
  assert (H2 : hasPeers c (reads t) = false) by reflexivity.
  assert (H3 : (2 <= 50)%nat) by lia.
  assert (H4 : forall i, (i < 2)%nat -> hasPeers c (reads t + 1 + i) = false).
  { intros i Hi. destruct i as [|[|i]]; [reflexivity|reflexivity|lia]. }
  assert (H5 : hasPeers c (reads t + 1 + 2) = true) by reflexivity.
  assert (H6 : hasPeers c (reads t + 2 + 2) = true) by reflexivity.
  split; [exact (conj H1 (conj H2 (conj H3 (conj H4 (conj H5 H6)))))|].
  exact (finish_submits_after_retries c t 2 H1 H2 H3 H4 H5 H6).
Defined.

Lemma poll_tip_stable (c : Collaborators) (fuel : nat) (tip : string) (t : Thread) :
  (forall k, Tip_GetBlockHash_GetHex c k = tip) ->
  (64 <= String.length tip)%nat ->
  exists t', poll_tip c (S (S fuel)) t = Some t'
    /\ (stop (handler t) = false -> interrupt (handler t) = false ->
        chaintipblockhash t' = tip)
    /\ handler t' = handler t /\ t_block t' = t_block t /\ msgctx t' = msgctx t
    /\ hashPrevBlock t' = hashPrevBlock t /\ submitted t' = submitted t.
Proof.
  intros Htip Hlen.
  assert (Hl : (String.length tip <? 64)%nat = false) by (apply Nat.ltb_ge; exact Hlen).
  cbn [poll_tip]. rewrite !Htip.
  cbn [chaintipblockhash handler tick MilliSleep with_chaintipblockhash reads].
  destruct (stop (handler t)) eqn:Es.
  { rewrite andb_false_r. cbn [andb]. eexists. split; [reflexivity|].
    repeat apply conj; try reflexivity. intros Hx. discriminate Hx. }
  destruct (interrupt (handler t)) eqn:Ei.
  { rewrite andb_false_r. eexists. split; [reflexivity|].
    repeat apply conj; try reflexivity. intros _ Hx. discriminate Hx. }
  cbn [negb]. rewrite !andb_true_r.
  destruct (negb (chaintipblockhash t =? tip)%string
            || (String.length (chaintipblockhash t) <? 64)%nat) eqn:Ec.
  - rewrite String.eqb_refl, Hl. cbn [negb orb].
    eexists. split; [reflexivity|]. repeat apply conj; reflexivity.
  - apply orb_false_iff in Ec. destruct Ec as [Ec _].
    apply negb_false_iff, String.eqb_eq in Ec.
    eexists. split; [reflexivity|]. repeat apply conj; try reflexivity.
    intros _ _. exact Ec.
Qed.

(** X11: at a periodic block on thread 0 with the interrupt flag of the
    session set, the stop flag is set after one sleep of 5 ms (and one of
    10 ms if the nonce of the block is outside the interval), the chain tip
    is read once and not waited for, and the time of the block and of the
    cache is refreshed from the clock. *)
Theorem housekeeping_stops_on_interrupt (c : Collaborators) (fuel : nat) (from to : Z)
    (t : Thread) :
  housekeeping_due (msgctx t) = true ->
  interrupt (handler t) = true ->
  exists t', housekeeping c (S fuel) 0 from to t = Some t'
    /\ stop (handler t') = true
    /\ found (handler t') = found (handler t)
    /\ chaintipblockhash t' = chaintipblockhash t
    /\ reads t' = S (S (reads t))
    /\ nTime (t_block t') = (if (to <=? nNonce (t_block t)) || (nNonce (t_block t) <? from)
                             then nTime (SetNull c (set_nTime (t_block t)
                                     (trunc32 (GetAdjustedTime c (reads t)))))
                             else trunc32 (GetAdjustedTime c (reads t)))
    /\ e1 (val4 (msgctx t')) = trunc32 (GetAdjustedTime c (reads t))
    /\ submitted t' = submitted t.
Proof.
  intros Hd Hi. unfold housekeeping. rewrite Hd. cbn [Nat.eqb].
  destruct t as [b m ch hp ct h r sl sub]. destruct h as [f i s hb ms co].
  cbn in Hi. subst i. unfold exit_checks. cbn. rewrite andb_false_r. cbn.
  destruct (negb (ct =? hp)%string); cbn;
    destruct ((to <=? nNonce b) || (nNonce b <? from)); cbn;
    eexists; (split; [reflexivity|]); cbn; repeat apply conj; reflexivity.
Qed.

Lemma housekeeping_stops_on_interrupt_witness :
  let t := with_handler (with_msgctx example_thread
                           (set_nonce (msgctx example_thread) 3000000))
             (Handler false true false (Block [] 0 0 0) 0 [0; 0; 0; 0]) in
  let c := example_collaborators in
  (housekeeping_due (msgctx t) = true /\ interrupt (handler t) = true)
  /\ exists t', housekeeping c 1 0 0 1000 t = Some t'
       /\ stop (handler t') = true
       /\ found (handler t') = found (handler t)
       /\ chaintipblockhash t' = chaintipblockhash t
       /\ reads t' = S (S (reads t))
       /\ nTime (t_block t')
          = (if (1000 <=? nNonce (t_block t)) || (nNonce (t_block t) <? 0)
             then nTime (SetNull c (set_nTime (t_block t)
                                      (trunc32 (GetAdjustedTime c (reads t)))))
             else trunc32 (GetAdjustedTime c (reads t)))
       /\ e1 (val4 (msgctx t')) = trunc32 (GetAdjustedTime c (reads t))
       /\ submitted t' = submitted t.
Proof.
  intros t c.
  assert (H1 : housekeeping_due (msgctx t) = true) by (vm_compute; reflexivity).
  assert (H2 : interrupt (handler t) = true) by reflexivity.
  split; [exact (conj H1 H2)|].
  exact (housekeeping_stops_on_interrupt c 0 0 1000 t H1 H2).
Defined.

(** X12: at a periodic block on thread 0 of a session that is neither
    stopped nor interrupted, with a chain tip that reads the same 64
    characters at every read and the nonce of the block inside the interval,
    the wait for the tip ends, the tip is held in [chaintipblockhash], and
    the stop flag is set exactly when the tip is not the previous block of
    the block being mined. *)
Theorem housekeeping_stops_on_new_tip (c : Collaborators) (fuel : nat) (from to : Z)
    (tip : string) (t : Thread) :
  housekeeping_due (msgctx t) = true ->
  stop (handler t) = false ->
  interrupt (handler t) = false ->
  (forall k, Tip_GetBlockHash_GetHex c k = tip) ->
  (64 <= String.length tip)%nat ->
  from <= nNonce (t_block t) < to ->
  exists t', housekeeping c (S (S fuel)) 0 from to t = Some t'
    /\ chaintipblockhash t' = tip
    /\ stop (handler t') = negb (tip =? hashPrevBlock t)%string
    /\ found (handler t') = found (handler t)
    /\ t_block t' = set_nTime (t_block t) (trunc32 (GetAdjustedTime c (reads t)))
    /\ msgctx t' = set_time (msgctx t) (trunc32 (GetAdjustedTime c (reads t)))
    /\ submitted t' = submitted t.
Proof.
  intros Hd Hs Hi Htip Hlen Hr. unfold housekeeping. rewrite Hd. cbn [Nat.eqb].
  set (t0 := with_msgctx _ _).
  assert (E0 : handler t0 = handler t
               /\ t_block t0 = set_nTime (t_block t) (trunc32 (GetAdjustedTime c (reads t)))
               /\ msgctx t0 = set_time (msgctx t) (trunc32 (GetAdjustedTime c (reads t)))
               /\ hashPrevBlock t0 = hashPrevBlock t /\ submitted t0 = submitted t)
    by (subst t0; repeat apply conj; reflexivity).
  clearbody t0. destruct E0 as (Eh0 & Eb0 & Em0 & Ep0 & Esub0).
  unfold exit_checks. rewrite Eh0, Hi.
  destruct (poll_tip_stable c fuel tip (MilliSleep 5 t0) Htip Hlen)
    as (t2 & Ep & Ec & Eh & Eb & Em & Ehp & Esub).
  rewrite Ep.
  cbn [handler t_block msgctx hashPrevBlock submitted MilliSleep] in Ec, Eh, Eb, Em, Ehp, Esub.
  rewrite Eh0 in Ec. specialize (Ec Hs Hi).
  assert (Hin : (to <=? nNonce (t_block t2)) || (nNonce (t_block t2) <? from) = false).
  { rewrite Eb, Eb0. cbn [nNonce set_nTime].
    apply orb_false_iff. split; [apply Z.leb_gt|apply Z.ltb_ge]; lia. }
  rewrite Ec, Ehp, Ep0.
  destruct (tip =? hashPrevBlock t)%string eqn:Et; cbn [negb];
    cbn [t_block handler with_handler]; rewrite Hin;
    eexists; (split; [reflexivity|]);
    cbn [chaintipblockhash handler with_handler set_stop stop found t_block msgctx submitted];
    rewrite ?Ec, ?Eh, ?Eb, ?Em, ?Esub, ?Eh0, ?Eb0, ?Em0, ?Esub0, ?Hs;
    repeat apply conj; reflexivity.
Qed.

Lemma housekeeping_stops_on_new_tip_witness :
  let t := with_hashPrevBlock
             (with_msgctx example_thread (set_nonce (msgctx example_thread) 3000000))
             "00000000000000000000000000000000000000000000000000000000000000bb" in
  let c := example_collaborators in
  (housekeeping_due (msgctx t) = true /\ stop (handler t) = false
   /\ interrupt (handler t) = false
   /\ (forall k, Tip_GetBlockHash_GetHex c k = example_tip)
   /\ (64 <= String.length example_tip)%nat
   /\ 0 <= nNonce (t_block t) < 1000)
  /\ exists t', housekeeping c 2 0 0 1000 t = Some t'
       /\ chaintipblockhash t' = example_tip
       /\ stop (handler t') = negb (example_tip =? hashPrevBlock t)%string
       /\ found (handler t') = found (handler t)
       /\ t_block t' = set_nTime (t_block t) (trunc32 (GetAdjustedTime c (reads t)))
       /\ msgctx t' = set_time (msgctx t) (trunc32 (GetAdjustedTime c (reads t)))
       /\ submitted t' = submitted t.
Proof.
  intros t c.
  assert (H1 : housekeeping_due (msgctx t) = true) by (vm_compute; reflexivity).
  assert (H2 : stop (handler t) = false) by reflexivity.
  assert (H3 : interrupt (handler t) = false) by reflexivity.
  assert (H4 : forall k, Tip_GetBlockHash_GetHex c k = example_tip)
    by (intros k; reflexivity).
  assert (H5 : (64 <= String.length example_tip)%nat) by (vm_compute; lia).
  assert (H6 : 0 <= nNonce (t_block t) < 1000) by (simpl; lia).
  split; [exact (conj H1 (conj H2 (conj H3 (conj H4 (conj H5 H6)))))|].
  exact (housekeeping_stops_on_new_tip c 0 0 1000 example_tip t H1 H2 H3 H4 H5 H6).
Defined.

(** ** From the start of the worker to the submission *)

Lemma bleheaders_of_length (b : CBlock) :
  (100 <= length (head b))%nat -> length (bleheaders_of b) = 112%nat.
Proof.
  intros Hlen. unfold bleheaders_of, le_bytes.
  rewrite !length_app, length_firstn. cbn [length]. lia.
Qed.

Lemma serialize_bleheaders (b : CBlock) (N T : Z) :
  (100 <= length (head b))%nat ->
  serialize (bleheaders_of b) N T
  = firstn 100 (head b) ++ le_bytes T ++ le_bytes (nBits b) ++ le_bytes N.
Proof.
  intros Hlen. unfold serialize, with_nonce, with_time, bleheaders_of.
  assert (Hhd : length (firstn 100 (head b)) = 100%nat)
    by (rewrite length_firstn; lia).
  set (hd := firstn 100 (head b)) in *. clearbody hd.
  explicit hd Hhd. unfold le_bytes. reflexivity.
Qed.

Lemma tail_words_bleheaders (b : CBlock) :
  (100 <= length (head b))%nat ->
  exists a, tail_words (bleheaders_of b)
            = V4 a (nTime b mod 2 ^ 32) (nBits b mod 2 ^ 32) (nNonce b mod 2 ^ 32).
Proof.
  intros Hlen. unfold bleheaders_of.
  assert (Hhd : length (firstn 100 (head b)) = 100%nat)
    by (rewrite length_firstn; lia).
  set (hd := firstn 100 (head b)) in *. clearbody hd.
  explicit hd Hhd. unfold tail_words, le_bytes.
  cbn [app next16n next16 skipn vld1q_u8 firstn].
  unfold vreinterpretq_u32_u8. cbn [nth]. rewrite !le32_le_bytes.
  eexists. reflexivity.
Qed.

Lemma check_lanes_trace (c : Collaborators) (t : Thread) :
  submitted (fst (check_lanes c t)) = submitted t
  /\ found (handler (fst (check_lanes c t))) = found (handler t)
  /\ block (handler (fst (check_lanes c t))) = block (handler t)
  /\ head (t_block (fst (check_lanes c t))) = head (t_block t)
  /\ nBits (t_block (fst (check_lanes c t))) = nBits (t_block t)
  /\ nTime (t_block (fst (check_lanes c t))) = nTime (t_block t).
Proof.
  assert (L : forall j t, submitted (fst (check_lane c j t)) = submitted t
                /\ found (handler (fst (check_lane c j t))) = found (handler t)
                /\ block (handler (fst (check_lane c j t))) = block (handler t)
                /\ head (t_block (fst (check_lane c j t))) = head (t_block t)
                /\ nBits (t_block (fst (check_lane c j t))) = nBits (t_block t)
                /\ nTime (t_block (fst (check_lane c j t))) = nTime (t_block t)).
  { intros j t0. unfold check_lane.
    destruct (quick_filter (msgctx t0) j); [|repeat apply conj; reflexivity].
    match goal with
    | |- context[if ?b then _ else _] => destruct b
    end; repeat apply conj; reflexivity. }
  assert (A : forall (r : Thread * Flow) (k : Thread -> Thread * Flow),
            fst (and_then r k) = fst r \/ fst (and_then r k) = fst (k (fst r))).
  { intros r k. unfold and_then. destruct (snd r); auto. }
  unfold check_lanes.
  destruct (L 0%nat t) as (C1 & C2 & C3 & C4 & C5 & C6).
  destruct (L 1%nat (fst (check_lane c 0 t))) as (B1 & B2 & B3 & B4 & B5 & B6).
  set (r1 := and_then (check_lane c 0 t) (check_lane c 1)).
  assert (R1 : submitted (fst r1) = submitted t
               /\ found (handler (fst r1)) = found (handler t)
               /\ block (handler (fst r1)) = block (handler t)
               /\ head (t_block (fst r1)) = head (t_block t)
               /\ nBits (t_block (fst r1)) = nBits (t_block t)
               /\ nTime (t_block (fst r1)) = nTime (t_block t)).
  { subst r1. destruct (A (check_lane c 0 t) (check_lane c 1)) as [-> | ->];
      repeat apply conj; congruence. }
  clearbody r1. destruct R1 as (D1 & D2 & D3 & D4 & D5 & D6).
  destruct (L 2%nat (fst r1)) as (A1 & A2 & A3 & A4 & A5 & A6).
  destruct (A r1 (check_lane c 2)) as [-> | ->]; repeat apply conj; congruence.
Qed.

Lemma poll_tip_trace (c : Collaborators) (fuel : nat) : forall t t',
  poll_tip c fuel t = Some t' ->
  submitted t' = submitted t /\ currenthash t' = currenthash t.
Proof.
  induction fuel as [|fuel IH]; intros t t' E; [discriminate E|].
  cbn [poll_tip] in E.
  match type of E with
  | (if ?b then _ else _) = _ => destruct b
  end.
  - apply IH in E. exact E.
  - injection E as <-. split; reflexivity.
Qed.

(** The periodic block keeps a search that goes on in step. *)
Lemma housekeeping_in_step (c : Collaborators) (fuel idx : nat) (from to : Z)
    (b : CBlock) (t t' : Thread) :
  in_step b t ->
  housekeeping c fuel idx from to t = Some t' ->
  (stop (handler t') = true \/ in_step b t')
  /\ found (handler t') = found (handler t)
  /\ block (handler t') = block (handler t)
  /\ submitted t' = submitted t.
Proof.
  intros Hin E. pose proof Hin as (Hc & (T & N & E4 & ET) & Ehd & Ebits).
  unfold housekeeping in E.
  destruct (housekeeping_due (msgctx t)).
  2:{ injection E as <-. split; [right; exact Hin|repeat apply conj; reflexivity]. }
  set (t0 := with_msgctx _ _) in E.
  assert (Hin0 : in_step b t0).
  { subst t0. split; [exact Hc|]. split; [|split; [exact Ehd|exact Ebits]].
    exists (trunc32 (GetAdjustedTime c (reads t))), N.
    cbn [msgctx with_msgctx t_block with_block tick set_nTime nTime].
    split; [|reflexivity].
    unfold set_time, set_val4. cbn [val4]. rewrite E4. reflexivity. }
  assert (E0 : found (handler t0) = found (handler t)
               /\ block (handler t0) = block (handler t)
               /\ submitted t0 = submitted t)
    by (subst t0; repeat apply conj; reflexivity).
  clearbody t0. destruct E0 as (F0 & B0 & S0).
  destruct (idx =? 0)%nat.
  2:{ injection E as <-. split; [right; exact Hin0|repeat apply conj; assumption]. }
  unfold exit_checks in E.
  set (t1 := MilliSleep 5 _) in E.
  assert (E1 : (stop (handler t1) = true \/ handler t1 = handler t0)
               /\ found (handler t1) = found (handler t0)
               /\ block (handler t1) = block (handler t0)
               /\ t_block t1 = t_block t0 /\ msgctx t1 = msgctx t0
               /\ submitted t1 = submitted t0).
  { subst t1. destruct (interrupt (handler t0)); cbn;
      repeat apply conj; auto. }
  clearbody t1. destruct E1 as (St1 & F1 & B1 & Bk1 & M1 & S1).
  destruct (poll_tip c fuel t1) as [t2|] eqn:Ep; [|discriminate E].
  destruct (poll_tip_trace c fuel t1 t2 Ep) as (S2 & _).
  apply poll_tip_keeps in Ep. destruct Ep as (Bk2 & M2 & H2 & _ & _).
  set (t3 := if negb (chaintipblockhash t2 =? hashPrevBlock t2)%string
             then with_handler t2 (set_stop (handler t2) true) else t2) in E.
  assert (E3 : (stop (handler t3) = true \/ handler t3 = handler t2)
               /\ found (handler t3) = found (handler t2)
               /\ block (handler t3) = block (handler t2)
               /\ t_block t3 = t_block t2 /\ msgctx t3 = msgctx t2
               /\ submitted t3 = submitted t2).
  { subst t3. destruct (negb (chaintipblockhash t2 =? hashPrevBlock t2)%string); cbn;
      repeat apply conj; auto. }
  clearbody t3. destruct E3 as (St3 & F3 & B3 & Bk3 & M3 & S3).
  assert (Hin3 : stop (handler t3) = true \/ in_step b t3).
  { destruct St3 as [St3 | St3]; [left; exact St3|].
    destruct St1 as [St1 | St1].
    - left. rewrite St3, H2. exact St1.
    - right. destruct Hin0 as (Hc0 & (T0 & N0 & E40 & ET0) & Ehd0 & Ebits0).
      unfold in_step. rewrite M3, M2, M1, Bk3, Bk2, Bk1.
      split; [exact Hc0|]. split; [|split; [exact Ehd0|exact Ebits0]].
      exists T0, N0. split; assumption. }
  destruct ((to <=? nNonce (t_block t3)) || (nNonce (t_block t3) <? from)).
  - injection E as <-. cbn. split; [left; reflexivity|].
    repeat apply conj; congruence.
  - injection E as <-. split; [exact Hin3|]. repeat apply conj; congruence.
Qed.

Lemma bleheaders_of_found (b b1 : CBlock) (T nonce : Z) :
  (100 <= length (head b))%nat ->
  head b1 = head b -> nBits b1 = nBits b -> le_bytes T = le_bytes (nTime b1) ->
  serialize (bleheaders_of b) nonce T = bleheaders_of (set_nNonce b1 nonce).
Proof.
  intros Hlen Eh Eb ET. rewrite serialize_bleheaders by exact Hlen.
  unfold bleheaders_of, set_nNonce. cbn [head nTime nBits nNonce].
  rewrite Eh, Eb, ET. reflexivity.
Qed.

(** The tests of the lanes and the periodic block, after a batch on a
    search in step. *)
Lemma after_batch_step (c : Collaborators) (fuel idx : nat) (from to : Z) (b : CBlock)
    (t : Thread) (m3 : uint32x4x14_t) (T N : Z) :
  (100 <= length (head b))%nat ->
  cache_for (bleheaders_of b) m3 ->
  val4 m3 = set_lane3 (set_lane1 (tail_words (bleheaders_of b)) T) (add32 N 3) ->
  (forall j, (j < 3)%nat ->
     lane_digest (lane m3 j)
     = Ref.SHA256d (serialize (bleheaders_of b) (add32 N (Z.of_nat j)) T)) ->
  le_bytes T = le_bytes (nTime (t_block t)) ->
  head (t_block t) = head b -> nBits (t_block t) = nBits b ->
  match
    match snd (check_lanes c (with_msgctx t m3)) with
    | Break => Some (fst (check_lanes c (with_msgctx t m3)), Break)
    | Next =>
        match housekeeping c fuel idx from to (fst (check_lanes c (with_msgctx t m3))) with
        | None => None
        | Some t' => Some (t', Next)
        end
    end
  with
  | Some (t', f) =>
      found (handler t') = found (handler t)
      /\ block (handler t') = block (handler t)
      /\ submitted t' = submitted t
      /\ match f with
         | Next => stop (handler t') = true \/ in_step b t'
         | Break =>
             IsNull c (t_block t') = true
             \/ (currenthash t' = Ref.SHA256d (bleheaders_of (t_block t'))
                 /\ CheckProofOfWork c (currenthash t') (nBits (t_block t')) = true
                 /\ head (t_block t') = head b /\ nBits (t_block t') = nBits b)
         end
  | None => True
  end.
Proof.
  intros Hlen Hc3 E4 Hd ET Ehd Ebits.
  pose proof (check_lanes_cases c (with_msgctx t m3)) as Hl.
  pose proof (check_lanes_trace c (with_msgctx t m3)) as Ht.
  destruct (check_lanes c (with_msgctx t m3)) as [t1 f]. cbn [fst snd] in *.
  destruct Ht as (Ts & Tf & Tb & _ & _ & _).
  cbn [submitted handler with_msgctx] in Ts, Tf, Tb.
  destruct f.
  - destruct Hl as [Hss _].
    destruct (housekeeping c fuel idx from to t1) as [t'|] eqn:Hk; [|exact I].
    destruct Hss as (_ & Sb & _ & _ & _ & _ & _ & S0 & S1 & S2 & S3 & S4 & S5 & S12 & S13).
    cbn [t_block msgctx with_msgctx] in Sb, S0, S1, S2, S3, S4, S5, S12, S13.
    assert (Hin1 : in_step b t1).
    { split; [|split; [|split]].
      - unfold cache_for in *. cbv zeta in *. rewrite S0, S1, S2, S3, S5, S12, S13.
        exact Hc3.
      - exists T, (add32 N 3). rewrite S4, Sb. split; [exact E4|exact ET].
      - rewrite Sb. exact Ehd.
      - rewrite Sb. exact Ebits. }
    destruct (housekeeping_in_step c fuel idx from to b t1 t' Hin1 Hk)
      as (Hin & Hf & Hb & Hs).
    split; [rewrite Hf; exact Tf|]. split; [rewrite Hb; exact Tb|].
    split; [rewrite Hs; exact Ts|]. exact Hin.
  - destruct Hl as (j & Hj & Hp & _ & Eh & Eb & _).
    unfold lane_passes in Hp. apply andb_true_iff in Hp. destruct Hp as [_ Hf].
    cbn [msgctx with_msgctx t_block] in Hf, Eh, Eb.
    split; [exact Tf|]. split; [exact Tb|]. split; [exact Ts|]. right.
    assert (En : sub32 (e3 (val4 m3)) (3 - Z.of_nat j) = add32 N (Z.of_nat j)).
    { rewrite E4. unfold set_lane3. cbn [e3]. rewrite sub32_add32. f_equal. lia. }
    rewrite Eb, Eh, En. cbn [nBits head set_nNonce].
    split; [|split; [exact Hf|split; [exact Ehd|exact Ebits]]].
    rewrite (Hd j Hj). f_equal.
    exact (bleheaders_of_found b (t_block t) T (add32 N (Z.of_nat j)) Hlen Ehd Ebits ET).
Qed.

(** One turn of the work loop keeps the search in step, or ends it with a
    null block or a block that has passed the full check. *)
Lemma iteration_step (c : Collaborators) (fuel idx : nat) (from to : Z) (b : CBlock)
    (t : Thread) :
  (100 <= length (head b))%nat ->
  (forall b', IsNull c (SetNull c b') = true) ->
  stop (handler t) = true \/ in_step b t ->
  match iteration c fuel idx from to t with
  | Some (t', f) =>
      found (handler t') = found (handler t)
      /\ block (handler t') = block (handler t)
      /\ submitted t' = submitted t
      /\ match f with
         | Next => stop (handler t') = true \/ in_step b t'
         | Break =>
             IsNull c (t_block t') = true
             \/ (currenthash t' = Ref.SHA256d (bleheaders_of (t_block t'))
                 /\ CheckProofOfWork c (currenthash t') (nBits (t_block t')) = true
                 /\ head (t_block t') = head b /\ nBits (t_block t') = nBits b)
         end
  | None => True
  end.
Proof.
  intros Hlen HNull Hst.
  destruct (stop (handler t)) eqn:Hs.
  - unfold iteration. rewrite Hs.
    cbn [handler found block submitted with_block MilliSleep with_handler
         set_currentOffset t_block].
    repeat apply conj; try reflexivity. left. apply HNull.
  - destruct Hst as [Hst | Hin]; [discriminate Hst|].
    destruct Hin as (Hc & (T & N & E4 & ET) & Ehd & Ebits).
    rewrite (iteration_cases c fuel idx from to t Hs).
    apply (after_batch_step c fuel idx from to b t (BleMiner3Way (msgctx t)) T N Hlen).
    + exact (cache_for_BleMiner3Way (bleheaders_of b) (msgctx t) Hc).
    + rewrite (BleMiner3Way_val4 (bleheaders_of b) (msgctx t) Hc), E4. reflexivity.
    + intros j Hj. apply batch_digests; try assumption.
      apply bleheaders_of_length. exact Hlen.
    + exact ET.
    + exact Ehd.
    + exact Ebits.
Qed.

Lemma work_loop_end (c : Collaborators) (idx : nat) (from to : Z) (b : CBlock) :
  (100 <= length (head b))%nat ->
  (forall b', IsNull c (SetNull c b') = true) ->
  forall fuel t t',
  stop (handler t) = true \/ in_step b t ->
  work_loop c fuel idx from to t = Some t' ->
  found (handler t') = found (handler t)
  /\ block (handler t') = block (handler t)
  /\ submitted t' = submitted t
  /\ (IsNull c (t_block t') = true
      \/ (currenthash t' = Ref.SHA256d (bleheaders_of (t_block t'))
          /\ CheckProofOfWork c (currenthash t') (nBits (t_block t')) = true
          /\ head (t_block t') = head b /\ nBits (t_block t') = nBits b)).
Proof.
  intros Hlen HNull fuel. induction fuel as [|fuel IH]; intros t t' Hst E;
    [discriminate E|].
  cbn [work_loop] in E.
  pose proof (iteration_step c (S fuel) idx from to b t Hlen HNull Hst) as P.
  destruct (iteration c (S fuel) idx from to t) as [[t1 f]|]; [|discriminate E].
  destruct P as (Pf & Pb & Ps & P). destruct f.
  - destruct (IH t1 t' P E) as (Qf & Qb & Qs & Q).
    split; [rewrite Qf; exact Pf|]. split; [rewrite Qb; exact Pb|].
    split; [rewrite Qs; exact Ps|]. exact Q.
  - injection E as <-. split; [exact Pf|]. split; [exact Pb|]. split; [exact Ps|]. exact P.
Qed.

Lemma read_hashPrevBlock_keeps (c : Collaborators) (fuel : nat) : forall t t',
  read_hashPrevBlock c fuel t = Some t' ->
  t_block t' = t_block t /\ msgctx t' = msgctx t /\ handler t' = handler t
  /\ submitted t' = submitted t.
Proof.
  induction fuel as [|fuel IH]; intros t t' E; [discriminate E|].
  cbn [read_hashPrevBlock] in E.
  match type of E with
  | (if ?b then _ else _) = _ => destruct b
  end.
  - apply IH in E. exact E.
  - injection E as <-. repeat apply conj; reflexivity.
Qed.

Lemma wait_for_peers_keeps (c : Collaborators) (w : nat) : forall t,
  handler (wait_for_peers c w t) = handler t
  /\ t_block (wait_for_peers c w t) = t_block t
  /\ currenthash (wait_for_peers c w t) = currenthash t
  /\ submitted (wait_for_peers c w t) = submitted t.
Proof.
  induction w as [|w IH]; intros t; cbn [wait_for_peers].
  - repeat apply conj; reflexivity.
  - destruct (negb (hasPeers c (reads t))).
    + destruct (IH (MilliSleep 100 (tick t))) as (Eh & Eb & Ec & Es).
      rewrite Eh, Eb, Ec, Es. repeat apply conj; reflexivity.
    + repeat apply conj; reflexivity.
Qed.

(** The end of the worker either leaves the session and the submissions as
    they are, or, for a block that is not null, sets the found flag, puts
    the block into the session and submits it once. *)
Lemma finish_cases (c : Collaborators) (t : Thread) :
  t_block (finish c t) = t_block t
  /\ currenthash (finish c t) = currenthash t
  /\ ((handler (finish c t) = handler t /\ submitted (finish c t) = submitted t)
      \/ (IsNull c (t_block t) = false
          /\ found (handler (finish c t)) = true
          /\ block (handler (finish c t)) = t_block t
          /\ submitted (finish c t) = t_block t :: submitted t)).
Proof.
  unfold finish. destruct (IsNull c (t_block t)) eqn:Hn.
  - repeat apply conj; try reflexivity. left. split; reflexivity.
  - destruct (negb (hasPeers c (reads t))).
    + destruct (wait_for_peers_keeps c 50 (tick t)) as (Eh & Eb & Ec & Es).
      set (t1 := wait_for_peers c 50 (tick t)) in *. clearbody t1.
      cbn [handler t_block currenthash submitted tick] in Eh, Eb, Ec, Es.
      destruct (negb (hasPeers c (reads t1)));
        cbn [handler t_block currenthash submitted tick with_handler ProcessNewBlock
             found block set_found set_block];
        rewrite ?Eh, ?Eb, ?Ec, ?Es.
      * repeat apply conj; try reflexivity. left. split; reflexivity.
      * repeat apply conj; try reflexivity. right. repeat apply conj; reflexivity.
    + cbn [handler t_block currenthash submitted tick with_handler ProcessNewBlock
           found block set_found set_block].
      repeat apply conj; try reflexivity. right. repeat apply conj; reflexivity.
Qed.

(** The worker starts its loop in step with its copy of the block. *)
Lemma start_in_step (b : CBlock) (t : Thread) :
  (100 <= length (head b))%nat ->
  t_block t = b -> msgctx t = BleMinerTransform1 (bleheaders_of b) ->
  in_step b t.
Proof.
  intros Hlen Eb Em. unfold in_step. rewrite Em, Eb.
  split; [apply cache_for_Transform1|]. split; [|split; reflexivity].
  destruct (tail_words_bleheaders b Hlen) as (a & Ea).
  exists (nTime b mod 2 ^ 32), (nNonce b mod 2 ^ 32).
  split; [|apply le_bytes_mod].
  rewrite BleMinerTransform1_spec. cbv zeta. cbn [val4].
  fold (tail_words (bleheaders_of b)). rewrite Ea. reflexivity.
Qed.

(** The start of the worker leaves the flags and the block of the session
    and the processed blocks as they are. *)
Lemma enter_keeps (c : Collaborators) (fuel idx : nat) (b : CBlock) (from : Z)
    (h : MinerHandler) (k : nat) (s : list CBlock) (t : Thread) :
  enter c fuel idx b from h k s = Some t ->
  t_block t = set_nNonce b from
  /\ msgctx t = BleMinerTransform1 (bleheaders_of (set_nNonce b from))
  /\ found (handler t) = found h /\ block (handler t) = block h
  /\ stop (handler t) = stop h
  /\ submitted t = s.
Proof.
  unfold enter. intros E.
  set (t0 := Th _ _ _ _ _ _ _ _ _) in E.
  assert (H0 : t_block t0 = set_nNonce b from
               /\ msgctx t0 = BleMinerTransform1 (bleheaders_of (set_nNonce b from))
               /\ found (handler t0) = found h /\ block (handler t0) = block h
               /\ stop (handler t0) = stop h
               /\ submitted t0 = s)
    by (subst t0; repeat apply conj; reflexivity).
  clearbody t0. destruct (idx =? 0)%nat.
  - apply read_hashPrevBlock_keeps in E. destruct E as (-> & -> & -> & ->). exact H0.
  - injection E as <-. exact H0.
Qed.

(** The summary reads the clock and nothing else. *)
Lemma summary_keeps (c : Collaborators) (idx : nat) (t : Thread) :
  t_block (summary c idx t) = t_block t
  /\ msgctx (summary c idx t) = msgctx t
  /\ currenthash (summary c idx t) = currenthash t
  /\ handler (summary c idx t) = handler t
  /\ submitted (summary c idx t) = submitted t.
Proof.
  unfold summary. destruct ((idx =? 0)%nat && IsNull c (t_block t)).
  - cbv zeta.
    destruct (1000 <=? GetTimeMillis c (reads t) - mineStartTime (handler (tick t)));
      repeat apply conj; reflexivity.
  - repeat apply conj; reflexivity.
Qed.

(** X13: what a worker hands over is valid.  For a block with a header of
    at least a hundred bytes, when SetNull makes a block null and the found
    flag of the session is not set at the start: a worker that returns with
    the found flag set has submitted one block, its own, which is also the
    block of the session; that block differs from the one it was given in
    time and nonce only; [currenthash] is the double SHA-256 of the 112
    bytes of its header and has passed CheckProofOfWork at the bits of the
    block.  A worker that returns without the flag has submitted nothing
    and left the block of the session as it was. *)
Theorem found_block_is_valid (c : Collaborators) (fuel idx : nat) (b : CBlock)
    (from to : Z) (h : MinerHandler) :
  (100 <= length (head b))%nat ->
  (forall b', IsNull c (SetNull c b') = true) ->
  found h = false ->
  match proofOfWorkFinder c fuel idx b from to h with
  | Some t =>
      if found (handler t) then
        submitted t = [t_block t] /\ block (handler t) = t_block t
        /\ head (t_block t) = head b /\ nBits (t_block t) = nBits b
        /\ currenthash t = Ref.SHA256d (bleheaders_of (t_block t))
        /\ CheckProofOfWork c (currenthash t) (nBits (t_block t)) = true
      else submitted t = [] /\ block (handler t) = block h
  | None => True
  end.
Proof.
  intros Hlen HNull Hf. unfold proofOfWorkFinder.
  destruct (enter c fuel idx b from h 0 []) as [t1|] eqn:Ee; [|exact I].
  destruct (enter_keeps c fuel idx b from h 0 [] t1 Ee)
    as (Eb1 & Em1 & Ef1 & Ebl1 & _ & Es1).
  rewrite Hf in Ef1.
  destruct (work_loop c fuel idx from to t1) as [t2|] eqn:Ew; [|exact I].
  set (b0 := set_nNonce b from) in *.
  assert (Hlen0 : (100 <= length (head b0))%nat) by exact Hlen.
  destruct (work_loop_end c idx from to b0 Hlen0 HNull fuel t1 t2
              (or_intror (start_in_step b0 t1 Hlen0 Eb1 Em1)) Ew)
    as (Ef2 & Ebl2 & Es2 & Hend).
  destruct (summary_keeps c idx t2) as (Sb & _ & Sc & Sh & Ss).
  destruct (finish_cases c (summary c idx t2)) as (Fb & Fc & [[Fh Fs] | (Fn & Ff & Fbl & Fs)]).
  - rewrite Fh, Sh, Ef2, Ef1, Fs, Ss, Es2, Es1, Ebl2, Ebl1. split; reflexivity.
  - rewrite Ff, Fs, Fbl, Fb, Fc, Ss, Sb, Sc, Es2, Es1. rewrite Sb in Fn.
    destruct Hend as [Hn | (Hh & Hp & Hhd & Hbits)]; [rewrite Hn in Fn; discriminate Fn|].
    repeat apply conj; try reflexivity; assumption.
Qed.

Lemma found_block_is_valid_witness :
  ((100 <= length (head example_block))%nat
   /\ (forall b', IsNull example_collaborators (SetNull example_collaborators b') = true)
   /\ found interrupted_handler = false)
  /\ match proofOfWorkFinder example_collaborators 3 0 example_block 2999997 3000100
             interrupted_handler with
     | Some t =>
         if found (handler t) then
           submitted t = [t_block t] /\ block (handler t) = t_block t
           /\ head (t_block t) = head example_block
           /\ nBits (t_block t) = nBits example_block
           /\ currenthash t = Ref.SHA256d (bleheaders_of (t_block t))
           /\ CheckProofOfWork example_collaborators (currenthash t) (nBits (t_block t))
              = true
         else submitted t = [] /\ block (handler t) = block interrupted_handler
     | None => True
     end.
Proof.
  assert (H1 : (100 <= length (head example_block))%nat) by (simpl; lia).
  assert (H2 : forall b', IsNull example_collaborators (SetNull example_collaborators b')
                          = true) by (intros b'; reflexivity).
  assert (H3 : found interrupted_handler = false) by reflexivity.
  split; [exact (conj H1 (conj H2 H3))|].
  exact (found_block_is_valid example_collaborators 3 0 example_block 2999997 3000100
           interrupted_handler H1 H2 H3).
Defined.

Lemma store_store (p : list Z) (x y : Z) : forall i,
  store (store p i x) i y = store p i y.
Proof.
  induction p as [|z p IH]; intros i; [reflexivity|].
  destruct i as [|i]; cbn [store]; [reflexivity|]. rewrite IH. reflexivity.
Qed.

(** X14: a worker started on a session that has been stopped returns at
    its first look at the flag, whatever the interval: it has computed the
    cache and hashed no batch, slept 50 ms once, written 0 as its offset,
    made its block null, read neither the previous block hash, the
    adjusted time, the chain tip nor the peers, and submitted nothing.
    Thread 0 then makes its summary, which reads the clock; the other
    threads read nothing of the outside world. *)
Theorem stopped_session_returns_at_once (c : Collaborators) (fuel idx : nat) (b : CBlock)
    (from to : Z) (h : MinerHandler) :
  (100 <= length (head b))%nat ->
  stop h = true ->
  IsNull c (SetNull c (set_nNonce b from)) = true ->
  let t0 := Th (SetNull c (set_nNonce b from))
               (BleMinerTransform1 (bleheaders_of (set_nNonce b from)))
               (repeat x00 32) EmptyString EmptyString (set_currentOffset h idx 0)
               0 [50] [] in
  proofOfWorkFinder c (S fuel) idx b from to h = Some (summary c idx t0)
  /\ (idx <> 0%nat -> summary c idx t0 = t0)
  /\ (reads (summary c idx t0) <= 2)%nat.
Proof.
  intros Hlen Hs Hn. cbv zeta. split; [|split].
  - unfold proofOfWorkFinder, enter.
    assert (E3 : sub32 (e3 (val4 (BleMinerTransform1 (bleheaders_of (set_nNonce b from)))))
                       from = 0).
    { rewrite BleMinerTransform1_spec. cbv zeta. cbn [val4].
      fold (tail_words (bleheaders_of (set_nNonce b from))).
      destruct (tail_words_bleheaders (set_nNonce b from) Hlen) as (a & ->).
      cbn [e3 nNonce set_nNonce]. unfold sub32.
      rewrite Zminus_mod_idemp_l, Z.sub_diag. reflexivity. }
    set (m := BleMinerTransform1 _) in *. clearbody m.
    destruct h as [f i s bl ms co]. cbn [stop] in Hs. subst s.
    assert (Er : forall t0, stop (handler t0) = true ->
                   (if (idx =? 0)%nat then read_hashPrevBlock c (S fuel) t0 else Some t0)
                   = Some t0).
    { intros t0 Ht0. destruct (idx =? 0)%nat; [|reflexivity].
      cbn [read_hashPrevBlock]. rewrite Ht0, andb_false_r. reflexivity. }
    rewrite Er by reflexivity.
    cbn [work_loop]. unfold iteration.
    cbn [handler stop set_currentOffset with_handler MilliSleep with_block t_block msgctx
         currenthash hashPrevBlock chaintipblockhash reads sleeps submitted found interrupt
         block mineStartTime currentOffset].
    rewrite E3. unfold set_currentOffset.
    cbn [found interrupt stop block mineStartTime currentOffset]. rewrite store_store.
    unfold with_block, MilliSleep, with_handler.
    cbn [t_block msgctx currenthash hashPrevBlock chaintipblockhash handler reads sleeps
         submitted].
    set (t0 := Th _ _ _ _ _ _ _ _ _).
    unfold finish. destruct (summary_keeps c idx t0) as (-> & _).
    subst t0. cbn [t_block]. rewrite Hn. reflexivity.
  - intros Hi. unfold summary. apply Nat.eqb_neq in Hi. rewrite Hi. reflexivity.
  - unfold summary. destruct ((idx =? 0)%nat && _); cbv zeta; [|cbn; lia].
    match goal with
    | |- context[if ?x then _ else _] => destruct x
    end; cbn; lia.
Qed.

Lemma stopped_session_returns_at_once_witness :
  ((100 <= length (head example_block))%nat
   /\ stop stopped_handler = true
   /\ IsNull example_collaborators
        (SetNull example_collaborators (set_nNonce example_block 0)) = true)
  /\ let t0 := Th (SetNull example_collaborators (set_nNonce example_block 0))
                  (BleMinerTransform1 (bleheaders_of (set_nNonce example_block 0)))
                  (repeat x00 32) EmptyString EmptyString
                  (set_currentOffset stopped_handler 0 0) 0 [50] [] in
     proofOfWorkFinder example_collaborators 1 0 example_block 0 0x40000000
       stopped_handler = Some (summary example_collaborators 0 t0)
     /\ (0%nat <> 0%nat -> summary example_collaborators 0 t0 = t0)
     /\ (reads (summary example_collaborators 0 t0) <= 2)%nat.
Proof.
  assert (H1 : (100 <= length (head example_block))%nat) by (simpl; lia).
  assert (H2 : stop stopped_handler = true) by reflexivity.
  assert (H3 : IsNull example_collaborators
                 (SetNull example_collaborators (set_nNonce example_block 0))
               = true) by reflexivity.
  split; [exact (conj H1 (conj H2 H3))|].
  exact (stopped_session_returns_at_once example_collaborators 0 0 example_block
           0 0x40000000 stopped_handler H1 H2 H3).
Defined.

(** ** The full check and the end of the search *)

(** The periodic block changes neither the found flag, the block of the
    session nor the submissions, never clears the stop flag, and does
    nothing when it is not due. *)
Lemma housekeeping_trace (c : Collaborators) (fuel idx : nat) (from to : Z)
    (t t' : Thread) :
  housekeeping c fuel idx from to t = Some t' ->
  found (handler t') = found (handler t)
  /\ block (handler t') = block (handler t)
  /\ submitted t' = submitted t
  /\ (stop (handler t) = true -> stop (handler t') = true)
  /\ (housekeeping_due (msgctx t) = false -> t' = t).
Proof.
  intros E. unfold housekeeping in E.
  destruct (housekeeping_due (msgctx t)).
  2:{ injection E as <-. repeat apply conj; try reflexivity; intros Hx; exact Hx. }
  set (t0 := with_msgctx _ _) in E.
  assert (E0 : found (handler t0) = found (handler t)
               /\ block (handler t0) = block (handler t)
               /\ submitted t0 = submitted t
               /\ stop (handler t0) = stop (handler t))
    by (subst t0; repeat apply conj; reflexivity).
  clearbody t0. destruct E0 as (F0 & B0 & S0 & P0).
  assert (G : found (handler t') = found (handler t0)
              /\ block (handler t') = block (handler t0)
              /\ submitted t' = submitted t0
              /\ (stop (handler t0) = true -> stop (handler t') = true)).
  { destruct (idx =? 0)%nat.
    2:{ injection E as <-. repeat apply conj; try reflexivity. intros Hx; exact Hx. }
    unfold exit_checks in E.
    set (t1 := MilliSleep 5 _) in E.
    assert (E1 : found (handler t1) = found (handler t0)
                 /\ block (handler t1) = block (handler t0)
                 /\ submitted t1 = submitted t0
                 /\ (stop (handler t0) = true -> stop (handler t1) = true)).
    { subst t1. destruct (interrupt (handler t0)); cbn; repeat apply conj; auto. }
    clearbody t1. destruct E1 as (F1 & B1 & S1 & P1).
    destruct (poll_tip c fuel t1) as [t2|] eqn:Ep; [|discriminate E].
    apply poll_tip_keeps in Ep. destruct Ep as (_ & _ & H2 & _ & S2).
    set (t3 := if negb (chaintipblockhash t2 =? hashPrevBlock t2)%string
               then with_handler t2 (set_stop (handler t2) true) else t2) in E.
    assert (E3 : found (handler t3) = found (handler t2)
                 /\ block (handler t3) = block (handler t2)
                 /\ submitted t3 = submitted t2
                 /\ (stop (handler t2) = true -> stop (handler t3) = true)).
    { subst t3. destruct (negb (chaintipblockhash t2 =? hashPrevBlock t2)%string); cbn;
        repeat apply conj; auto. }
    clearbody t3. destruct E3 as (F3 & B3 & S3 & P3).
    rewrite H2 in F3, B3, P3.
    destruct ((to <=? nNonce (t_block t3)) || (nNonce (t_block t3) <? from));
      injection E as <-; cbn.
    - repeat apply conj; try congruence; intros _; reflexivity.
    - repeat apply conj; try congruence; intros Hx; apply P3, P1, Hx. }
  destruct G as (G1 & G2 & G3 & G4).
  repeat apply conj; try congruence.
  all: intros Hx; try discriminate Hx; apply G4; rewrite P0; exact Hx.
Qed.

(** The tests of the lanes and the periodic block after a batch [m3]. *)
Lemma after_batch_full_check (c : Collaborators) (fuel idx : nat) (from to : Z)
    (t : Thread) (m3 : uint32x4x14_t) :
  match
    match snd (check_lanes c (with_msgctx t m3)) with
    | Break => Some (fst (check_lanes c (with_msgctx t m3)), Break)
    | Next =>
        match housekeeping c fuel idx from to (fst (check_lanes c (with_msgctx t m3))) with
        | None => None
        | Some t' => Some (t', Next)
        end
    end
  with
  | Some (t', Break) =>
      exists j, (j < 3)%nat
        /\ quick_filter m3 j = true
        /\ CheckProofOfWork c (currenthash t') (nBits (t_block t)) = true
        /\ (forall i, (i < j)%nat -> quick_filter m3 i = true ->
              CheckProofOfWork c (lane_digest (lane m3 i)) (nBits (t_block t)) = false)
        /\ currenthash t' = lane_digest (lane m3 j)
        /\ t_block t' = set_nNonce (t_block t) (sub32 (e3 (val4 m3)) (3 - Z.of_nat j))
        /\ handler t' = set_stop (handler t) true
        /\ submitted t' = submitted t
  | Some (t', Next) =>
      (forall j, (j < 3)%nat -> quick_filter m3 j = true ->
         CheckProofOfWork c (lane_digest (lane m3 j)) (nBits (t_block t)) = false)
      /\ found (handler t') = found (handler t)
      /\ block (handler t') = block (handler t)
      /\ submitted t' = submitted t
      /\ (stop (handler t) = true -> stop (handler t') = true)
      /\ (housekeeping_due m3 = false ->
          handler t' = handler t /\ t_block t' = t_block t
          /\ reads t' = reads t /\ sleeps t' = sleeps t
          /\ val0 (msgctx t') = val0 m3 /\ val1 (msgctx t') = val1 m3
          /\ val2 (msgctx t') = val2 m3 /\ val3 (msgctx t') = val3 m3
          /\ val4 (msgctx t') = val4 m3 /\ val5 (msgctx t') = val5 m3
          /\ val12 (msgctx t') = val12 m3 /\ val13 (msgctx t') = val13 m3)
  | None => True
  end.
Proof.
  pose proof (check_lanes_cases c (with_msgctx t m3)) as Hl.
  pose proof (check_lanes_trace c (with_msgctx t m3)) as Ht.
  destruct (check_lanes c (with_msgctx t m3)) as [t1 f]. cbn [fst snd] in *.
  destruct Ht as (Ts & _).
  cbn [submitted handler t_block with_msgctx] in Ts.
  destruct f.
  - destruct Hl as [Hss Hp].
    destruct (housekeeping c fuel idx from to t1) as [t'|] eqn:Hk; [|exact I].
    destruct Hss as (Sh & Sb & Sr & Ssl & Sss & _ & _ & S0 & S1 & S2 & S3 & S4 & S5
                     & S12 & S13).
    cbn [handler t_block reads sleeps submitted msgctx with_msgctx] in Sh, Sb, Sr, Ssl, Sss,
      S0, S1, S2, S3, S4, S5, S12, S13.
    destruct (housekeeping_trace c fuel idx from to t1 t' Hk) as (Hf & Hb & Hs & Hst & Hd).
    split.
    { intros j Hj Hq. specialize (Hp j Hj). unfold lane_passes in Hp.
      cbn [msgctx t_block with_msgctx] in Hp. rewrite Hq in Hp. exact Hp. }
    split; [rewrite Hf, Sh; reflexivity|]. split; [rewrite Hb, Sh; reflexivity|].
    split; [rewrite Hs; exact Sss|].
    split; [intros Hx; apply Hst; rewrite Sh; exact Hx|].
    intros Hdue.
    assert (Hdue1 : housekeeping_due (msgctx t1) = false).
    { unfold housekeeping_due in *. rewrite S4. exact Hdue. }
    rewrite (Hd Hdue1). repeat apply conj; assumption.
  - destruct Hl as (j & Hj & Hp & Hfirst & Eh & Eb & Es).
    unfold lane_passes in Hp. apply andb_true_iff in Hp. destruct Hp as [Hq Hf].
    cbn [msgctx with_msgctx t_block handler] in Hq, Hf, Eh, Eb, Es.
    exists j. split; [exact Hj|]. split; [exact Hq|].
    split; [rewrite Eh; exact Hf|]. split.
    { intros i Hi Hqi. specialize (Hfirst i Hi). unfold lane_passes in Hfirst.
      cbn [msgctx t_block with_msgctx] in Hfirst. rewrite Hqi in Hfirst. exact Hfirst. }
    repeat apply conj; assumption.
Qed.

(** The loop is left with the stop flag set. *)
Lemma iteration_Break_stop (c : Collaborators) (fuel idx : nat) (from to : Z)
    (t t' : Thread) :
  iteration c fuel idx from to t = Some (t', Break) -> stop (handler t') = true.
Proof.
  intros E. destruct (stop (handler t)) eqn:Hs.
  - unfold iteration in E. rewrite Hs in E. injection E as <-. exact Hs.
  - rewrite (iteration_cases c fuel idx from to t Hs) in E.
    pose proof (after_batch_full_check c fuel idx from to t (BleMiner3Way (msgctx t))) as P.
    rewrite E in P. destruct P as (j & _ & _ & _ & _ & _ & _ & Eh & _).
    rewrite Eh. reflexivity.
Qed.

Lemma work_loop_stops (c : Collaborators) (idx : nat) (from to : Z) :
  forall fuel t t', work_loop c fuel idx from to t = Some t' -> stop (handler t') = true.
Proof.
  induction fuel as [|fuel IH]; intros t t' E; [discriminate E|].
  cbn [work_loop] in E.
  destruct (iteration c (S fuel) idx from to t) as [[t1 f]|] eqn:Ei; [|discriminate E].
  destruct f.
  - exact (IH t1 t' E).
  - injection E as <-. exact (iteration_Break_stop c (S fuel) idx from to t t1 Ei).
Qed.

Lemma after_batch_winning_nonce (c : Collaborators) (H : list byte) (N T : Z)
    (t : Thread) (m3 : uint32x4x14_t) :
  e3 (val4 m3) = add32 N 3 ->
  (forall j, (j < 3)%nat ->
     lane_digest (lane m3 j) = Ref.SHA256d (serialize H (add32 N (Z.of_nat j)) T)) ->
  let t1 := with_msgctx t m3 in
  e3 (val4 (msgctx t1)) = add32 N 3
  /\ (forall j, (j < 3)%nat ->
        lane_digest (lane (msgctx t1) j)
        = Ref.SHA256d (serialize H (add32 N (Z.of_nat j)) T))
  /\ match snd (check_lanes c t1) with
     | Break =>
         let t' := fst (check_lanes c t1) in
         exists j, (j < 3)%nat
           /\ quick_filter (msgctx t1) j = true
           /\ CheckProofOfWork c (Ref.SHA256d (serialize H (add32 N (Z.of_nat j)) T))
                (nBits (t_block t)) = true
           /\ (forall i, (i < j)%nat -> quick_filter (msgctx t1) i = true ->
                 CheckProofOfWork c (Ref.SHA256d (serialize H (add32 N (Z.of_nat i)) T))
                   (nBits (t_block t)) = false)
           /\ t_block t' = set_nNonce (t_block t) (add32 N (Z.of_nat j))
           /\ nNonce (t_block t') = sub32 (e3 (val4 (msgctx t1))) (3 - Z.of_nat j)
           /\ nNonce (t_block t') = add32 N (Z.of_nat j)
           /\ currenthash t' = Ref.SHA256d (serialize H (nNonce (t_block t')) T)
           /\ CheckProofOfWork c (currenthash t') (nBits (t_block t)) = true
           /\ forall idx,
                let t'' := finish c (summary c idx t') in
                t_block t'' = t_block t'
                /\ (submitted t'' = submitted t
                    \/ (submitted t'' = t_block t' :: submitted t
                        /\ block (handler t'') = t_block t'))
     | Next =>
         (forall j, (j < 3)%nat -> quick_filter (msgctx t1) j = true ->
            CheckProofOfWork c (Ref.SHA256d (serialize H (add32 N (Z.of_nat j)) T))
              (nBits (t_block t)) = false)
         /\ t_block (fst (check_lanes c t1)) = t_block t
     end.
Proof.
  intros E3 Hd. cbv zeta. cbn [msgctx with_msgctx].
  split; [exact E3|]. split; [exact Hd|].
  pose proof (check_lanes_cases c (with_msgctx t m3)) as Hl.
  pose proof (check_lanes_trace c (with_msgctx t m3)) as Ht.
  destruct (check_lanes c (with_msgctx t m3)) as [t1 f]. cbn [fst snd] in *.
  destruct Ht as (Ts & _). cbn [submitted with_msgctx] in Ts.
  destruct f.
  - destruct Hl as [Hss Hp]. split.
    + intros j Hj Hq. specialize (Hp j Hj). unfold lane_passes in Hp.
      cbn [msgctx t_block with_msgctx] in Hp. rewrite Hq, (Hd j Hj) in Hp. exact Hp.
    + destruct Hss as (_ & Sb & _). exact Sb.
  - destruct Hl as (j & Hj & Hp & Hfirst & Eh & Eb & _).
    exists j.
    unfold lane_passes in Hp. apply andb_true_iff in Hp. destruct Hp as [Hq Hf].
    cbn [msgctx with_msgctx t_block] in Hq, Hf, Eh, Eb.
    assert (En : sub32 (e3 (val4 m3)) (3 - Z.of_nat j) = add32 N (Z.of_nat j)).
    { rewrite E3, sub32_add32. f_equal. lia. }
    rewrite (Hd j Hj) in Hf, Eh. rewrite En in Eb.
    split; [exact Hj|]. split; [exact Hq|]. split; [exact Hf|]. split.
    { intros i Hi Hqi. specialize (Hfirst i Hi). unfold lane_passes in Hfirst.
      cbn [msgctx t_block with_msgctx] in Hfirst.
      rewrite Hqi, (Hd i (Nat.lt_trans _ _ _ Hi Hj)) in Hfirst. exact Hfirst. }
    split; [exact Eb|]. split; [rewrite Eb; cbn [nNonce set_nNonce]; symmetry; exact En|].
    split; [rewrite Eb; reflexivity|].
    split; [rewrite Eb; cbn [nNonce set_nNonce]; exact Eh|].
    split; [rewrite Eh; exact Hf|].
    intros idx. cbv zeta.
    destruct (summary_keeps c idx t1) as (Sb & _ & _ & _ & Ss).
    destruct (finish_cases c (summary c idx t1)) as (Fb & _ & [[_ Fs] | (_ & _ & Fbl & Fs)]).
    + split; [rewrite Fb; exact Sb|]. left. rewrite Fs, Ss. exact Ts.
    + split; [rewrite Fb; exact Sb|]. right. rewrite Fs, Fbl, Sb, Ss, Ts.
      split; reflexivity.
Qed.

(** C10: on the cache of a header of 112 bytes with time T and counter N in
    [val[4]], lane j of the batch is the double SHA-256 of the header with
    nonce N+j.  The tests of the lanes end the loop exactly when the digest
    of a lane passes the quick check and CheckProofOfWork: then the nonce
    written into the block is N+j for the first such lane j,
    [currenthash] is the double SHA-256 of the header with that nonce, and
    the block that the end of the worker hands to ProcessNewBlock, when it
    hands one over, is that block; and when no lane passes, the block is as
    it was. *)
Theorem winning_nonce_is_hashed_nonce (c : Collaborators) (H : list byte) (N T : Z)
    (t : Thread) :
  length H = 112%nat ->
  cache_for H (msgctx t) ->
  val4 (msgctx t) = set_lane3 (set_lane1 (tail_words H) T) N ->
  let t1 := with_msgctx t (BleMiner3Way (msgctx t)) in
  e3 (val4 (msgctx t1)) = add32 N 3
  /\ (forall j, (j < 3)%nat ->
        lane_digest (lane (msgctx t1) j)
        = Ref.SHA256d (serialize H (add32 N (Z.of_nat j)) T))
  /\ match snd (check_lanes c t1) with
     | Break =>
         let t' := fst (check_lanes c t1) in
         exists j, (j < 3)%nat
           /\ quick_filter (msgctx t1) j = true
           /\ CheckProofOfWork c (Ref.SHA256d (serialize H (add32 N (Z.of_nat j)) T))
                (nBits (t_block t)) = true
           /\ (forall i, (i < j)%nat -> quick_filter (msgctx t1) i = true ->
                 CheckProofOfWork c (Ref.SHA256d (serialize H (add32 N (Z.of_nat i)) T))
                   (nBits (t_block t)) = false)
           /\ t_block t' = set_nNonce (t_block t) (add32 N (Z.of_nat j))
           /\ nNonce (t_block t') = sub32 (e3 (val4 (msgctx t1))) (3 - Z.of_nat j)
           /\ nNonce (t_block t') = add32 N (Z.of_nat j)
           /\ currenthash t' = Ref.SHA256d (serialize H (nNonce (t_block t')) T)
           /\ CheckProofOfWork c (currenthash t') (nBits (t_block t)) = true
           /\ forall idx,
                let t'' := finish c (summary c idx t') in
                t_block t'' = t_block t'
                /\ (submitted t'' = submitted t
                    \/ (submitted t'' = t_block t' :: submitted t
                        /\ block (handler t'') = t_block t'))
     | Next =>
         (forall j, (j < 3)%nat -> quick_filter (msgctx t1) j = true ->
            CheckProofOfWork c (Ref.SHA256d (serialize H (add32 N (Z.of_nat j)) T))
              (nBits (t_block t)) = false)
         /\ t_block (fst (check_lanes c t1)) = t_block t
     end.
Proof.
  intros Hlen Hc H4.
  apply (after_batch_winning_nonce c H N T t (BleMiner3Way (msgctx t))).
  - rewrite (BleMiner3Way_val4 H (msgctx t) Hc), H4. reflexivity.
  - intros j Hj. exact (batch_digests H (msgctx t) N T j Hlen Hc H4 Hj).
Qed.

(** ** The full check *)

(** C8: one turn of the work loop on a session that is not stopped ends the
    loop only for a lane that passed the quick check and whose digest, now
    in [currenthash], passed CheckProofOfWork: then the stop flag is set
    and the nonce of that lane is in the block.  When every lane that
    passed the quick check failed the full check the loop goes on with the
    found flag, the block of the session and the submissions as they were,
    and, where the periodic block is not due, with the whole session, the
    block and the cache of the search as the batch left them.  And a worker
    that returns with the found flag set or a block submitted, on a
    session whose flag was clear, returns with the stop flag set and with a
    [currenthash] that passed CheckProofOfWork at the bits of the one block
    it submitted. *)
Theorem stop_only_on_full_check (c : Collaborators) (fuel idx : nat) (b : CBlock)
    (from to : Z) (h : MinerHandler) (t : Thread) :
  (100 <= length (head b))%nat ->
  (forall b', IsNull c (SetNull c b') = true) ->
  found h = false ->
  stop (handler t) = false ->
  let m3 := BleMiner3Way (msgctx t) in
  match iteration c fuel idx from to t with
  | Some (t', Break) =>
      exists j, (j < 3)%nat
        /\ quick_filter m3 j = true
        /\ CheckProofOfWork c (currenthash t') (nBits (t_block t)) = true
        /\ (forall i, (i < j)%nat -> quick_filter m3 i = true ->
              CheckProofOfWork c (lane_digest (lane m3 i)) (nBits (t_block t)) = false)
        /\ currenthash t' = lane_digest (lane m3 j)
        /\ t_block t' = set_nNonce (t_block t) (sub32 (e3 (val4 m3)) (3 - Z.of_nat j))
        /\ handler t' = set_stop (handler t) true
        /\ submitted t' = submitted t
  | Some (t', Next) =>
      (forall j, (j < 3)%nat -> quick_filter m3 j = true ->
         CheckProofOfWork c (lane_digest (lane m3 j)) (nBits (t_block t)) = false)
      /\ found (handler t') = found (handler t)
      /\ block (handler t') = block (handler t)
      /\ submitted t' = submitted t
      /\ (housekeeping_due m3 = false ->
          handler t' = handler t /\ t_block t' = t_block t
          /\ reads t' = reads t /\ sleeps t' = sleeps t
          /\ val0 (msgctx t') = val0 m3 /\ val1 (msgctx t') = val1 m3
          /\ val2 (msgctx t') = val2 m3 /\ val3 (msgctx t') = val3 m3
          /\ val4 (msgctx t') = val4 m3 /\ val5 (msgctx t') = val5 m3
          /\ val12 (msgctx t') = val12 m3 /\ val13 (msgctx t') = val13 m3)
  | None => True
  end
  /\ match proofOfWorkFinder c fuel idx b from to h with
     | Some t' =>
         found (handler t') = true \/ submitted t' <> [] ->
         stop (handler t') = true
         /\ found (handler t') = true
         /\ submitted t' = [t_block t']
         /\ block (handler t') = t_block t'
         /\ currenthash t' = Ref.SHA256d (bleheaders_of (t_block t'))
         /\ CheckProofOfWork c (currenthash t') (nBits (t_block t')) = true
     | None => True
     end.
Proof.
  intros Hlen HNull Hf Hs. cbv zeta. split.
  - rewrite (iteration_cases c fuel idx from to t Hs).
    pose proof (after_batch_full_check c fuel idx from to t (BleMiner3Way (msgctx t))) as P.
    destruct (match snd (check_lanes c (with_msgctx t (BleMiner3Way (msgctx t)))) with
              | Break => _
              | Next => _
              end) as [[t' f]|]; [|exact I].
    destruct f; [|exact P].
    destruct P as (P1 & P2 & P3 & P4 & _ & P6).
    split; [exact P1|]. split; [exact P2|]. split; [exact P3|]. split; [exact P4|].
    exact P6.
  - unfold proofOfWorkFinder.
    destruct (enter c fuel idx b from h 0 []) as [t1|] eqn:Ee; [|exact I].
    destruct (enter_keeps c fuel idx b from h 0 [] t1 Ee)
      as (Eb1 & Em1 & Ef1 & _ & _ & Es1).
    rewrite Hf in Ef1.
    destruct (work_loop c fuel idx from to t1) as [t2|] eqn:Ew; [|exact I].
    set (b0 := set_nNonce b from) in *.
    assert (Hlen0 : (100 <= length (head b0))%nat) by exact Hlen.
    destruct (work_loop_end c idx from to b0 Hlen0 HNull fuel t1 t2
                (or_intror (start_in_step b0 t1 Hlen0 Eb1 Em1)) Ew)
      as (Ef2 & _ & Es2 & Hend).
    pose proof (work_loop_stops c idx from to fuel t1 t2 Ew) as Hst.
    destruct (summary_keeps c idx t2) as (Sb & _ & Sc & Sh & Ss).
    destruct (finish_cases c (summary c idx t2))
      as (Fb & Fc & [[Fh Fs] | (Fn & Ff & Fbl & Fs)]).
    + rewrite Fh, Sh, Ef2, Ef1, Fs, Ss, Es2, Es1.
      intros [Hx | Hx]; [discriminate Hx|contradiction Hx; reflexivity].
    + intros _. rewrite Sb in Fn.
      destruct Hend as [Hn | (Hh & Hp & _)]; [rewrite Hn in Fn; discriminate Fn|].
      assert (Hstop : stop (handler (finish c (summary c idx t2))) = true).
      { unfold finish. rewrite Sb, Fn.
        destruct (negb (hasPeers c (reads (summary c idx t2)))).
        - destruct (wait_for_peers_keeps c 50 (tick (summary c idx t2)))
            as (Wh & _).
          set (t3 := wait_for_peers c 50 (tick (summary c idx t2))) in *. clearbody t3.
          cbn [handler tick] in Wh.
          destruct (negb (hasPeers c (reads t3)));
            cbn [handler tick with_handler ProcessNewBlock stop set_found set_block];
            rewrite Wh, Sh; exact Hst.
        - cbn [handler tick with_handler ProcessNewBlock stop set_found set_block].
          rewrite Sh. exact Hst. }
      rewrite Ff, Fs, Fbl, Fb, Fc, Ss, Sb, Sc, Es2, Es1.
      repeat apply conj; try reflexivity; assumption.
Qed.

Lemma winning_nonce_is_hashed_nonce_witness :
  let H := bleheaders_of example_block in
  let c := connected_collaborators in
  let t := winning_thread in
  (length H = 112%nat
   /\ cache_for H (msgctx t)
   /\ val4 (msgctx t) = set_lane3 (set_lane1 (tail_words H) 1500000000) 3308584784)
  /\ snd (check_lanes c (with_msgctx t (BleMiner3Way (msgctx t)))) = Break
  /\ let t1 := with_msgctx t (BleMiner3Way (msgctx t)) in
     e3 (val4 (msgctx t1)) = add32 3308584784 3
     /\ (forall j, (j < 3)%nat ->
           lane_digest (lane (msgctx t1) j)
           = Ref.SHA256d (serialize H (add32 3308584784 (Z.of_nat j)) 1500000000))
     /\ match snd (check_lanes c t1) with
        | Break =>
            let t' := fst (check_lanes c t1) in
            exists j, (j < 3)%nat
              /\ quick_filter (msgctx t1) j = true
              /\ CheckProofOfWork c
                   (Ref.SHA256d (serialize H (add32 3308584784 (Z.of_nat j)) 1500000000))
                   (nBits (t_block t)) = true
              /\ (forall i, (i < j)%nat -> quick_filter (msgctx t1) i = true ->
                    CheckProofOfWork c
                      (Ref.SHA256d (serialize H (add32 3308584784 (Z.of_nat i)) 1500000000))
                      (nBits (t_block t)) = false)
              /\ t_block t' = set_nNonce (t_block t) (add32 3308584784 (Z.of_nat j))
              /\ nNonce (t_block t') = sub32 (e3 (val4 (msgctx t1))) (3 - Z.of_nat j)
              /\ nNonce (t_block t') = add32 3308584784 (Z.of_nat j)
              /\ currenthash t'
                 = Ref.SHA256d (serialize H (nNonce (t_block t')) 1500000000)
              /\ CheckProofOfWork c (currenthash t') (nBits (t_block t)) = true
              /\ forall idx,
                   let t'' := finish c (summary c idx t') in
                   t_block t'' = t_block t'
                   /\ (submitted t'' = submitted t
                       \/ (submitted t'' = t_block t' :: submitted t
                           /\ block (handler t'') = t_block t'))
        | Next =>
            (forall j, (j < 3)%nat -> quick_filter (msgctx t1) j = true ->
               CheckProofOfWork c
                 (Ref.SHA256d (serialize H (add32 3308584784 (Z.of_nat j)) 1500000000))
                 (nBits (t_block t)) = false)
            /\ t_block (fst (check_lanes c t1)) = t_block t
        end.
Proof.
  intros H c t.
  assert (H1 : length H = 112%nat) by reflexivity.
  assert (H2 : cache_for H (msgctx t))
    by (unfold cache_for; cbv zeta; repeat apply conj; vm_compute; reflexivity).
  assert (H3 : val4 (msgctx t)
               = set_lane3 (set_lane1 (tail_words H) 1500000000) 3308584784)
    by (vm_compute; reflexivity).
  split; [exact (conj H1 (conj H2 H3))|].
  split; [vm_compute; reflexivity|].
  exact (winning_nonce_is_hashed_nonce c H 3308584784 1500000000 t H1 H2 H3).
Defined.

Lemma stop_only_on_full_check_witness :
  let c := connected_collaborators in
  let t := winning_thread in
  ((100 <= length (head example_block))%nat
   /\ (forall b', IsNull c (SetNull c b') = true)
   /\ found example_handler = false
   /\ stop (handler t) = false)
  /\ match proofOfWorkFinder c 1 1 example_block 3308584784 3308584790 example_handler with
     | Some t' => found (handler t') = true
     | None => False
     end
  /\ let m3 := BleMiner3Way (msgctx t) in
     match iteration c 1 1 3308584784 3308584790 t with
     | Some (t', Break) =>
         exists j, (j < 3)%nat
           /\ quick_filter m3 j = true
           /\ CheckProofOfWork c (currenthash t') (nBits (t_block t)) = true
           /\ (forall i, (i < j)%nat -> quick_filter m3 i = true ->
                 CheckProofOfWork c (lane_digest (lane m3 i)) (nBits (t_block t)) = false)
           /\ currenthash t' = lane_digest (lane m3 j)
           /\ t_block t' = set_nNonce (t_block t) (sub32 (e3 (val4 m3)) (3 - Z.of_nat j))
           /\ handler t' = set_stop (handler t) true
           /\ submitted t' = submitted t
     | Some (t', Next) =>
         (forall j, (j < 3)%nat -> quick_filter m3 j = true ->
            CheckProofOfWork c (lane_digest (lane m3 j)) (nBits (t_block t)) = false)
         /\ found (handler t') = found (handler t)
         /\ block (handler t') = block (handler t)
         /\ submitted t' = submitted t
         /\ (housekeeping_due m3 = false ->
             handler t' = handler t /\ t_block t' = t_block t
             /\ reads t' = reads t /\ sleeps t' = sleeps t
             /\ val0 (msgctx t') = val0 m3 /\ val1 (msgctx t') = val1 m3
             /\ val2 (msgctx t') = val2 m3 /\ val3 (msgctx t') = val3 m3
             /\ val4 (msgctx t') = val4 m3 /\ val5 (msgctx t') = val5 m3
             /\ val12 (msgctx t') = val12 m3 /\ val13 (msgctx t') = val13 m3)
     | None => True
     end
     /\ match proofOfWorkFinder c 1 1 example_block 3308584784 3308584790
                example_handler with
        | Some t' =>
            found (handler t') = true \/ submitted t' <> [] ->
            stop (handler t') = true
            /\ found (handler t') = true
            /\ submitted t' = [t_block t']
            /\ block (handler t') = t_block t'
            /\ currenthash t' = Ref.SHA256d (bleheaders_of (t_block t'))
            /\ CheckProofOfWork c (currenthash t') (nBits (t_block t')) = true
        | None => True
        end.
Proof.
  intros c t.
  assert (H1 : (100 <= length (head example_block))%nat) by (simpl; lia).
  assert (H2 : forall b', IsNull c (SetNull c b') = true) by (intros b'; reflexivity).
  assert (H3 : found example_handler = false) by reflexivity.
  assert (H4 : stop (handler t) = false) by reflexivity.
  split; [exact (conj H1 (conj H2 (conj H3 H4)))|].
  split; [vm_compute; reflexivity|].
  exact (stop_only_on_full_check c 1 1 example_block 3308584784 3308584790
           example_handler t H1 H2 H3 H4).
Defined.

(** ** The threads of a session *)












(** ** A thread that runs alone *)













(** ** The worker on four lanes *)

Lemma armv8_same_session_refl (t : ArmV8.Thread) : ArmV8.same_session t t.
Proof. repeat split. Qed.

Lemma armv8_same_session_trans (t1 t2 t3 : ArmV8.Thread) :
  ArmV8.same_session t1 t2 -> ArmV8.same_session t2 t3 -> ArmV8.same_session t1 t3.
Proof.
  intros (A1 & A2 & A3) (B1 & B2 & B3). unfold ArmV8.same_session.
  rewrite B1, B2, B3. repeat split; assumption.
Qed.

(** The test of a way changes the workpad and [currenthash] at most. *)
Lemma armv8_check_way_keeps (c : Collaborators) (j : nat) (t : ArmV8.Thread) :
  ArmV8.handler (ArmV8.check_way c j t) = ArmV8.handler t
  /\ ArmV8.t_block (ArmV8.check_way c j t) = ArmV8.t_block t
  /\ ArmV8.msgctx (ArmV8.check_way c j t) = ArmV8.msgctx t
  /\ ArmV8.reads (ArmV8.check_way c j t) = ArmV8.reads t
  /\ ArmV8.sleeps (ArmV8.check_way c j t) = ArmV8.sleeps t
  /\ ArmV8.submitted (ArmV8.check_way c j t) = ArmV8.submitted t
  /\ (ArmV8.currenthash (ArmV8.check_way c j t) = ArmV8.currenthash t
      \/ ArmV8.currenthash (ArmV8.check_way c j t)
         = lane_digest (ArmV8.way (ArmV8.workpad t) j)).
Proof.
  unfold ArmV8.check_way. destruct (ArmV8.quick_filter t j).
  - match goal with
    | |- context[if ?b then _ else _] => destruct b
    end; (repeat apply conj; try reflexivity; right;
          destruct j as [|[|[|j]]]; reflexivity).
  - repeat apply conj; try reflexivity. left. reflexivity.
Qed.

(** The test of a way leaves the other ways of the workpad as they are. *)
Lemma armv8_check_way_other (c : Collaborators) (i j : nat) (t : ArmV8.Thread) :
  (i < 4)%nat -> (j < 4)%nat -> i <> j ->
  ArmV8.way (ArmV8.workpad (ArmV8.check_way c i t)) j = ArmV8.way (ArmV8.workpad t) j.
Proof.
  intros Hi Hj Hij. unfold ArmV8.check_way. destruct (ArmV8.quick_filter t i).
  - match goal with
    | |- context[if ?b then _ else _] => destruct b
    end; destruct i as [|[|[|[|i]]]]; destruct j as [|[|[|[|j]]]]; try lia; reflexivity.
  - reflexivity.
Qed.

Lemma armv8_add32_4 (x : Z) : add32 (add32 (add32 (add32 x 1) 1) 1) 1 = add32 x 4.
Proof. add32_eq. Qed.

(** The four tests: the nonce of the block is four further, and
    [currenthash] is as before or the digest of one of the four ways. *)
Lemma armv8_check_ways_keeps (c : Collaborators) (t : ArmV8.Thread) :
  ArmV8.handler (ArmV8.check_ways c t) = ArmV8.handler t
  /\ ArmV8.t_block (ArmV8.check_ways c t)
     = set_nNonce (ArmV8.t_block t) (add32 (nNonce (ArmV8.t_block t)) 4)
  /\ ArmV8.msgctx (ArmV8.check_ways c t) = ArmV8.msgctx t
  /\ ArmV8.reads (ArmV8.check_ways c t) = ArmV8.reads t
  /\ ArmV8.sleeps (ArmV8.check_ways c t) = ArmV8.sleeps t
  /\ ArmV8.submitted (ArmV8.check_ways c t) = ArmV8.submitted t
  /\ (ArmV8.currenthash (ArmV8.check_ways c t) = ArmV8.currenthash t
      \/ exists j, (j < 4)%nat
           /\ ArmV8.currenthash (ArmV8.check_ways c t)
              = lane_digest (ArmV8.way (ArmV8.workpad t) j)).
Proof.
  unfold ArmV8.check_ways. cbv zeta.
  set (t1 := ArmV8.next_nonce (ArmV8.check_way c 0 t)).
  set (t2 := ArmV8.next_nonce (ArmV8.check_way c 1 t1)).
  set (t3 := ArmV8.next_nonce (ArmV8.check_way c 2 t2)).
  destruct (armv8_check_way_keeps c 0 t) as (A1 & A2 & A3 & A4 & A5 & A6 & A7).
  destruct (armv8_check_way_keeps c 1 t1) as (B1 & B2 & B3 & B4 & B5 & B6 & B7).
  destruct (armv8_check_way_keeps c 2 t2) as (C1 & C2 & C3 & C4 & C5 & C6 & C7).
  destruct (armv8_check_way_keeps c 3 t3) as (D1 & D2 & D3 & D4 & D5 & D6 & D7).
  assert (W1 : forall j, (0 < j < 4)%nat ->
                 ArmV8.way (ArmV8.workpad t1) j = ArmV8.way (ArmV8.workpad t) j).
  { intros j Hj. subst t1. cbn [ArmV8.next_nonce ArmV8.with_block ArmV8.workpad].
    apply armv8_check_way_other; lia. }
  assert (W2 : forall j, (1 < j < 4)%nat ->
                 ArmV8.way (ArmV8.workpad t2) j = ArmV8.way (ArmV8.workpad t) j).
  { intros j Hj. rewrite <- W1 by lia. subst t2.
    cbn [ArmV8.next_nonce ArmV8.with_block ArmV8.workpad].
    apply armv8_check_way_other; lia. }
  assert (W3 : ArmV8.way (ArmV8.workpad t3) 3 = ArmV8.way (ArmV8.workpad t) 3).
  { rewrite <- W2 by lia. subst t3.
    cbn [ArmV8.next_nonce ArmV8.with_block ArmV8.workpad].
    apply armv8_check_way_other; lia. }
  assert (E1 : ArmV8.handler t1 = ArmV8.handler t
               /\ ArmV8.t_block t1
                  = set_nNonce (ArmV8.t_block t) (add32 (nNonce (ArmV8.t_block t)) 1)
               /\ ArmV8.msgctx t1 = ArmV8.msgctx t /\ ArmV8.reads t1 = ArmV8.reads t
               /\ ArmV8.sleeps t1 = ArmV8.sleeps t
               /\ ArmV8.submitted t1 = ArmV8.submitted t
               /\ ArmV8.currenthash t1 = ArmV8.currenthash (ArmV8.check_way c 0 t)).
  { subst t1. unfold ArmV8.next_nonce.
    cbn [ArmV8.handler ArmV8.t_block ArmV8.msgctx ArmV8.reads ArmV8.sleeps
         ArmV8.submitted ArmV8.currenthash ArmV8.with_block].
    rewrite A1, A2, A3, A4, A5, A6. repeat apply conj; reflexivity. }
  assert (E2 : ArmV8.handler t2 = ArmV8.handler t1
               /\ ArmV8.t_block t2
                  = set_nNonce (ArmV8.t_block t1) (add32 (nNonce (ArmV8.t_block t1)) 1)
               /\ ArmV8.msgctx t2 = ArmV8.msgctx t1 /\ ArmV8.reads t2 = ArmV8.reads t1
               /\ ArmV8.sleeps t2 = ArmV8.sleeps t1
               /\ ArmV8.submitted t2 = ArmV8.submitted t1
               /\ ArmV8.currenthash t2 = ArmV8.currenthash (ArmV8.check_way c 1 t1)).
  { subst t2. unfold ArmV8.next_nonce.
    cbn [ArmV8.handler ArmV8.t_block ArmV8.msgctx ArmV8.reads ArmV8.sleeps
         ArmV8.submitted ArmV8.currenthash ArmV8.with_block].
    rewrite B1, B2, B3, B4, B5, B6. repeat apply conj; reflexivity. }
  assert (E3 : ArmV8.handler t3 = ArmV8.handler t2
               /\ ArmV8.t_block t3
                  = set_nNonce (ArmV8.t_block t2) (add32 (nNonce (ArmV8.t_block t2)) 1)
               /\ ArmV8.msgctx t3 = ArmV8.msgctx t2 /\ ArmV8.reads t3 = ArmV8.reads t2
               /\ ArmV8.sleeps t3 = ArmV8.sleeps t2
               /\ ArmV8.submitted t3 = ArmV8.submitted t2
               /\ ArmV8.currenthash t3 = ArmV8.currenthash (ArmV8.check_way c 2 t2)).
  { subst t3. unfold ArmV8.next_nonce.
    cbn [ArmV8.handler ArmV8.t_block ArmV8.msgctx ArmV8.reads ArmV8.sleeps
         ArmV8.submitted ArmV8.currenthash ArmV8.with_block].
    rewrite C1, C2, C3, C4, C5, C6. repeat apply conj; reflexivity. }
  clearbody t1 t2 t3.
  destruct E1 as (F1 & F2 & F3 & F4 & F5 & F6 & F7).
  destruct E2 as (G1 & G2 & G3 & G4 & G5 & G6 & G7).
  destruct E3 as (H1 & H2 & H3 & H4 & H5 & H6 & H7).
  unfold ArmV8.next_nonce.
  cbn [ArmV8.handler ArmV8.t_block ArmV8.msgctx ArmV8.reads ArmV8.sleeps
       ArmV8.submitted ArmV8.currenthash ArmV8.with_block].
  rewrite D1, D2, D3, D4, D5, D6, H1, H2, H3, H4, H5, H6, G1, G2, G3, G4, G5, G6,
    F1, F2, F3, F4, F5, F6.
  split; [reflexivity|]. split.
  { unfold set_nNonce. cbn [head nTime nBits nNonce]. rewrite armv8_add32_4. reflexivity. }
  do 4 (split; [reflexivity|]).
  destruct D7 as [D7 | D7].
  2:{ right. exists 3%nat. split; [lia|]. rewrite D7, W3. reflexivity. }
  rewrite D7, H7. destruct C7 as [C7 | C7].
  2:{ right. exists 2%nat. split; [lia|]. rewrite C7, W2 by lia. reflexivity. }
  rewrite C7, G7. destruct B7 as [B7 | B7].
  2:{ right. exists 1%nat. split; [lia|]. rewrite B7, W1 by lia. reflexivity. }
  rewrite B7, F7. destruct A7 as [A7 | A7].
  - left. exact A7.
  - right. exists 0%nat. split; [lia|]. exact A7.
Qed.

Lemma armv8_poll_tip_keeps (c : Collaborators) (fuel : nat) : forall t t',
  ArmV8.poll_tip c fuel t = Some t' ->
  ArmV8.t_block t' = ArmV8.t_block t /\ ArmV8.msgctx t' = ArmV8.msgctx t
  /\ ArmV8.handler t' = ArmV8.handler t
  /\ ArmV8.currenthash t' = ArmV8.currenthash t
  /\ ArmV8.hashPrevBlock t' = ArmV8.hashPrevBlock t
  /\ ArmV8.submitted t' = ArmV8.submitted t.
Proof.
  induction fuel as [|fuel IH]; intros t t' E; [discriminate E|].
  cbn [ArmV8.poll_tip] in E.
  match type of E with
  | (if ?b then _ else _) = _ => destruct b
  end.
  - apply IH in E. exact E.
  - injection E as <-. repeat apply conj; reflexivity.
Qed.

(** The checks of thread 0: the stop flag is set when the nonce of the
    block is outside the interval, and then the block is null; the block is
    as it was otherwise. *)
Lemma armv8_exit_checks_cases (c : Collaborators) (fuel : nat) (from to : Z)
    (t t' : ArmV8.Thread) :
  ArmV8.exit_checks c fuel from to t = Some t' ->
  ArmV8.same_session t t'
  /\ ArmV8.msgctx t' = ArmV8.msgctx t
  /\ ArmV8.currenthash t' = ArmV8.currenthash t
  /\ (if (to <=? nNonce (ArmV8.t_block t)) || (nNonce (ArmV8.t_block t) <? from)
      then stop (ArmV8.handler t') = true
           /\ ArmV8.t_block t' = SetNull c (ArmV8.t_block t)
      else ArmV8.t_block t' = ArmV8.t_block t).
Proof.
  intros E. unfold ArmV8.exit_checks in E.
  set (t0 := ArmV8.MilliSleep 5 _) in E.
  assert (E0 : ArmV8.same_session t t0 /\ ArmV8.msgctx t0 = ArmV8.msgctx t
               /\ ArmV8.currenthash t0 = ArmV8.currenthash t
               /\ ArmV8.t_block t0 = ArmV8.t_block t).
  { subst t0. destruct (interrupt (ArmV8.handler t)); repeat apply conj; reflexivity. }
  clearbody t0. destruct E0 as ((S1 & S2 & S3) & M0 & C0 & B0).
  destruct (ArmV8.poll_tip c fuel t0) as [t2|] eqn:Ep; [|discriminate E].
  apply armv8_poll_tip_keeps in Ep. destruct Ep as (Bk & Mk & Hk & Ck & _ & Sk).
  set (t3 := if negb (ArmV8.chaintipblockhash t2 =? ArmV8.hashPrevBlock t2)%string
             then ArmV8.with_handler t2 (set_stop (ArmV8.handler t2) true) else t2) in E.
  assert (E3 : ArmV8.same_session t2 t3 /\ ArmV8.msgctx t3 = ArmV8.msgctx t2
               /\ ArmV8.currenthash t3 = ArmV8.currenthash t2
               /\ ArmV8.t_block t3 = ArmV8.t_block t2).
  { subst t3.
    destruct (negb (ArmV8.chaintipblockhash t2 =? ArmV8.hashPrevBlock t2)%string);
      repeat apply conj; reflexivity. }
  clearbody t3. destruct E3 as ((T1 & T2 & T3) & M3 & C3 & B3).
  assert (Bt : ArmV8.t_block t3 = ArmV8.t_block t) by congruence.
  rewrite Bt in E.
  destruct ((to <=? nNonce (ArmV8.t_block t)) || (nNonce (ArmV8.t_block t) <? from));
    injection E as <-.
  - cbn [ArmV8.handler ArmV8.with_handler ArmV8.with_block ArmV8.MilliSleep
         ArmV8.msgctx ArmV8.currenthash ArmV8.t_block ArmV8.submitted stop set_stop].
    unfold ArmV8.same_session.
    cbn [ArmV8.handler ArmV8.with_handler ArmV8.with_block ArmV8.MilliSleep
         ArmV8.submitted found block set_stop].
    repeat apply conj; congruence.
  - unfold ArmV8.same_session. repeat apply conj; congruence.
Qed.

Lemma armv8_store_time (H : list byte) (v4 : uint32x4_t) (T : Z) :
  store (header_array H v4) 17 T = header_array H (set_lane1 v4 T).
Proof. reflexivity. Qed.

Lemma armv8_filter_word (H : list byte) (v4 : uint32x4_t) :
  nth 36 (header_array H v4) 0 = 0.
Proof. reflexivity. Qed.

(** The periodic block of the four-lane worker. *)
Lemma armv8_housekeeping_cases (c : Collaborators) (fuel idx : nat) (from to : Z)
    (t t' : ArmV8.Thread) :
  ArmV8.housekeeping c fuel idx from to t = Some t' ->
  ArmV8.same_session t t'
  /\ ArmV8.currenthash t' = ArmV8.currenthash t
  /\ (if ArmV8.housekeeping_due (ArmV8.t_block t) then
        let T := trunc32 (GetAdjustedTime c (ArmV8.reads t)) in
        ArmV8.msgctx t' = store (ArmV8.msgctx t) 17 T
        /\ (if (idx =? 0)%nat
               && ((to <=? nNonce (ArmV8.t_block t)) || (nNonce (ArmV8.t_block t) <? from))
            then stop (ArmV8.handler t') = true
                 /\ ArmV8.t_block t' = SetNull c (set_nTime (ArmV8.t_block t) T)
            else ArmV8.t_block t' = set_nTime (ArmV8.t_block t) T)
      else t' = t).
Proof.
  intros E. unfold ArmV8.housekeeping in E.
  destruct (ArmV8.housekeeping_due (ArmV8.t_block t)).
  2:{ injection E as <-. repeat apply conj; reflexivity. }
  cbv zeta. destruct (idx =? 0)%nat.
  2:{ injection E as <-. repeat apply conj; reflexivity. }
  apply armv8_exit_checks_cases in E. destruct E as (Ss & Em & Ec & Eb).
  cbn [ArmV8.t_block ArmV8.with_msgctx ArmV8.with_block ArmV8.tick nNonce set_nTime
       ArmV8.msgctx ArmV8.currenthash nTime] in Em, Ec, Eb.
  cbn [andb]. split; [exact Ss|]. split; [exact Ec|]. split; [exact Em|].
  exact Eb.
Qed.

(** One turn of the loop, when the session has not been stopped. *)
Lemma armv8_iteration_cases (c : Collaborators) (fuel idx : nat) (from to : Z)
    (t : ArmV8.Thread) :
  stop (ArmV8.handler t) = false ->
  ArmV8.iteration c fuel idx from to t
  = match ArmV8.housekeeping c fuel idx from to
            (ArmV8.check_ways c
               (ArmV8.with_workpad
                  (ArmV8.with_msgctx t (fst (BleMiner4Way (ArmV8.msgctx t) (ArmV8.workpad t))))
                  (snd (BleMiner4Way (ArmV8.msgctx t) (ArmV8.workpad t))))) with
    | None => None
    | Some t' => Some (t', Next)
    end.
Proof. intros Hs. unfold ArmV8.iteration. rewrite Hs. reflexivity. Qed.

(** A turn of the loop changes neither the found flag, the block of the
    session nor the submissions, and leaves the loop only from a stopped
    session, with a null block. *)
Lemma armv8_after_batch_quiet (c : Collaborators) (fuel idx : nat) (from to : Z)
    (t : ArmV8.Thread) (r : list Z * uint32x4x24_t) :
  match
    match ArmV8.housekeeping c fuel idx from to
            (ArmV8.check_ways c (ArmV8.with_workpad (ArmV8.with_msgctx t (fst r)) (snd r)))
    with
    | None => None
    | Some t' => Some (t', Next)
    end
  with
  | Some (t', f) => f = Next /\ ArmV8.same_session t t'
  | None => True
  end.
Proof.
  destruct (armv8_check_ways_keeps c
              (ArmV8.with_workpad (ArmV8.with_msgctx t (fst r)) (snd r)))
    as (Eh & _ & _ & _ & _ & Es & _).
  set (t1 := ArmV8.check_ways c _) in *. clearbody t1.
  cbn [ArmV8.handler ArmV8.submitted ArmV8.with_workpad ArmV8.with_msgctx] in Eh, Es.
  destruct (ArmV8.housekeeping c fuel idx from to t1) as [t'|] eqn:Hk; [|exact I].
  apply armv8_housekeeping_cases in Hk. destruct Hk as ((S1 & S2 & S3) & _).
  split; [reflexivity|]. unfold ArmV8.same_session. rewrite S1, S2, S3, Eh, Es.
  repeat split.
Qed.

Lemma armv8_iteration_quiet (c : Collaborators) (fuel idx : nat) (from to : Z)
    (t : ArmV8.Thread) :
  (forall b', IsNull c (SetNull c b') = true) ->
  match ArmV8.iteration c fuel idx from to t with
  | Some (t', f) =>
      ArmV8.same_session t t'
      /\ (f = Break -> IsNull c (ArmV8.t_block t') = true)
  | None => True
  end.
Proof.
  intros HNull. destruct (stop (ArmV8.handler t)) eqn:Hs.
  - unfold ArmV8.iteration. rewrite Hs. split; [repeat split|].
    intros _. apply HNull.
  - rewrite (armv8_iteration_cases c fuel idx from to t Hs).
    pose proof (armv8_after_batch_quiet c fuel idx from to t
                  (BleMiner4Way (ArmV8.msgctx t) (ArmV8.workpad t))) as P.
    destruct (match ArmV8.housekeeping c fuel idx from to _ with
              | None => None
              | Some t' => Some (t', Next)
              end) as [[t' f]|]; [|exact I].
    destruct P as (-> & P). split; [exact P|]. intros Hx. discriminate Hx.
Qed.

Lemma armv8_work_loop_quiet (c : Collaborators) (idx : nat) (from to : Z) :
  (forall b', IsNull c (SetNull c b') = true) ->
  forall fuel t t',
  ArmV8.work_loop c fuel idx from to t = Some t' ->
  ArmV8.same_session t t' /\ IsNull c (ArmV8.t_block t') = true.
Proof.
  intros HNull fuel. induction fuel as [|fuel IH]; intros t t' E; [discriminate E|].
  cbn [ArmV8.work_loop] in E.
  pose proof (armv8_iteration_quiet c (S fuel) idx from to t HNull) as P.
  destruct (ArmV8.iteration c (S fuel) idx from to t) as [[t1 f]|]; [|discriminate E].
  destruct P as (Ps & Pn). destruct f.
  - destruct (IH t1 t' E) as (Qs & Qn).
    split; [exact (armv8_same_session_trans t t1 t' Ps Qs)|exact Qn].
  - injection E as <-. split; [exact Ps|]. apply Pn. reflexivity.
Qed.

Lemma armv8_read_hashPrevBlock_keeps (c : Collaborators) (fuel : nat) : forall t t',
  ArmV8.read_hashPrevBlock c fuel t = Some t' -> ArmV8.same_session t t'.
Proof.
  induction fuel as [|fuel IH]; intros t t' E; [discriminate E|].
  cbn [ArmV8.read_hashPrevBlock] in E.
  match type of E with
  | (if ?b then _ else _) = _ => destruct b
  end.
  - apply IH in E. exact E.
  - injection E as <-. repeat split.
Qed.

(** X16: the worker on four lanes reports nothing.  Whatever the header,
    the interval, the clock, the chain tip, the peers and CheckProofOfWork
    answer, when SetNull makes a block null: a call of
    [proofOfWorkFinderArmV8] that returns has left the found flag and the
    block of the session as they were and has handed no block to
    ProcessNewBlock, and its own block is null: the two outcomes of the
    full check are the same, so that the loop is left from a stopped
    session only. *)
Theorem armv8_worker_reports_nothing (c : Collaborators) (fuel idx : nat) (b : CBlock)
    (from to : Z) (h : MinerHandler) (msgctx0 : list Z) (workpad0 : uint32x4x24_t) :
  (forall b', IsNull c (SetNull c b') = true) ->
  match ArmV8.proofOfWorkFinderArmV8 c fuel idx b from to h msgctx0 workpad0 with
  | Some t =>
      found (ArmV8.handler t) = found h
      /\ block (ArmV8.handler t) = block h
      /\ ArmV8.submitted t = []
      /\ IsNull c (ArmV8.t_block t) = true
  | None => True
  end.
Proof.
  intros HNull. unfold ArmV8.proofOfWorkFinderArmV8.
  set (t0 := ArmV8.Th _ _ _ _ _ _ _ _ _ _).
  assert (H0 : found (ArmV8.handler t0) = found h /\ block (ArmV8.handler t0) = block h
               /\ ArmV8.submitted t0 = [])
    by (subst t0; repeat split).
  clearbody t0. destruct H0 as (F0 & B0 & S0).
  assert (H1 : forall t1,
             (if (idx =? 0)%nat then ArmV8.read_hashPrevBlock c fuel t0 else Some t0)
             = Some t1 -> ArmV8.same_session t0 t1).
  { intros t1 E. destruct (idx =? 0)%nat.
    - exact (armv8_read_hashPrevBlock_keeps c fuel t0 t1 E).
    - injection E as <-. apply armv8_same_session_refl. }
  destruct (if (idx =? 0)%nat then ArmV8.read_hashPrevBlock c fuel t0 else Some t0)
    as [t1|]; [|exact I].
  destruct (H1 t1 eq_refl) as (F1 & B1 & S1).
  destruct (ArmV8.work_loop c fuel idx from to t1) as [t2|] eqn:Ew; [|exact I].
  destruct (armv8_work_loop_quiet c idx from to HNull fuel t1 t2 Ew)
    as ((F2 & B2 & S2) & Hn).
  assert (Hs : ArmV8.t_block (ArmV8.summary c idx t2) = ArmV8.t_block t2
               /\ ArmV8.handler (ArmV8.summary c idx t2) = ArmV8.handler t2
               /\ ArmV8.submitted (ArmV8.summary c idx t2) = ArmV8.submitted t2).
  { unfold ArmV8.summary. destruct ((idx =? 0)%nat && IsNull c (ArmV8.t_block t2)).
    - cbv zeta.
      destruct (1000 <=? GetTimeMillis c (ArmV8.reads t2)
                         - mineStartTime (ArmV8.handler (ArmV8.tick t2)));
        repeat apply conj; reflexivity.
    - repeat apply conj; reflexivity. }
  destruct Hs as (Sb & Sh & Ss).
  unfold ArmV8.finish. rewrite Sb, Hn, Sh, Ss, Sb.
  rewrite F2, B2, S2, F1, B1, S1. repeat split; assumption.
Qed.

Lemma armv8_worker_reports_nothing_witness :
  (forall b', IsNull example_collaborators (SetNull example_collaborators b') = true)
  /\ match ArmV8.proofOfWorkFinderArmV8 example_collaborators 3 0 example_block
             5999996 6000100 interrupted_handler (repeat 0 40) example_workpad with
     | Some t =>
         found (ArmV8.handler t) = found interrupted_handler
         /\ block (ArmV8.handler t) = block interrupted_handler
         /\ ArmV8.submitted t = []
         /\ IsNull example_collaborators (ArmV8.t_block t) = true
     | None => True
     end.
Proof.
  assert (H1 : forall b', IsNull example_collaborators (SetNull example_collaborators b')
                          = true) by (intros b'; reflexivity).
  split; [exact H1|].
  exact (armv8_worker_reports_nothing example_collaborators 3 0 example_block
           5999996 6000100 interrupted_handler (repeat 0 40) example_workpad H1).
Defined.

(** The digests of a batch of four on the scratchpad of [H], with time [T]
    and nonce [N]. *)
Lemma armv8_batch (H : list byte) (N T : Z) (w : uint32x4x24_t) :
  length H = 112%nat ->
  let r := BleMiner4Way (header_array H (set_lane3 (set_lane1 (tail_words H) T) N)) w in
  fst r = header_array H (set_lane3 (set_lane1 (tail_words H) T) (add32 N 4))
  /\ forall j, (j < 4)%nat ->
       lane_digest (ArmV8.way (snd r) j)
       = Ref.SHA256d (serialize H (add32 N (Z.of_nat j)) T).
Proof.
  intros Hlen.
  destruct (BleMiner4Way_lanes H (set_lane3 (set_lane1 (tail_words H) T) N) w)
    as (E & EA & EB & EC & ED).
  cbv zeta. split.
  - rewrite E, !incr_set_lane3, armv8_add32_4. reflexivity.
  - intros j Hj. destruct j as [|[|[|[|j]]]]; try lia; unfold ArmV8.way.
    + rewrite EA. change (Z.of_nat 0) with 0. rewrite serialize_add0.
      apply header_lane_serialize. exact Hlen.
    + rewrite EB, incr_set_lane3. apply header_lane_serialize. exact Hlen.
    + rewrite EC, !incr_set_lane3.
      replace (add32 (add32 N 1) 1) with (add32 N (Z.of_nat 2)) by add32_eq.
      apply header_lane_serialize. exact Hlen.
    + rewrite ED, !incr_set_lane3.
      replace (add32 (add32 (add32 N 1) 1) 1) with (add32 N (Z.of_nat 3)) by add32_eq.
      apply header_lane_serialize. exact Hlen.
Qed.

Lemma nNonce_set_nTime (b : CBlock) (T : Z) : nNonce (set_nTime b T) = nNonce b.
Proof. reflexivity. Qed.

Lemma armv8_time_over_nonce (v : uint32x4_t) (T T' n : Z) :
  set_lane1 (set_lane3 (set_lane1 v T) n) T' = set_lane3 (set_lane1 v T') n.
Proof. reflexivity. Qed.

Lemma armv8_after_batch_in_step (c : Collaborators) (fuel idx : nat) (from to : Z)
    (H : list byte) (N T : Z) (t : ArmV8.Thread) (r : list Z * uint32x4x24_t) :
  nNonce (ArmV8.t_block t) = N ->
  fst r = header_array H (set_lane3 (set_lane1 (tail_words H) T) (add32 N 4)) ->
  (forall j, (j < 4)%nat ->
     lane_digest (ArmV8.way (snd r) j)
     = Ref.SHA256d (serialize H (add32 N (Z.of_nat j)) T)) ->
  match
    match ArmV8.housekeeping c fuel idx from to
            (ArmV8.check_ways c (ArmV8.with_workpad (ArmV8.with_msgctx t (fst r)) (snd r)))
    with
    | None => None
    | Some t' => Some (t', Next)
    end
  with
  | Some (t', f) =>
      f = Next
      /\ (ArmV8.currenthash t' = ArmV8.currenthash t
          \/ exists j, (j < 4)%nat
               /\ ArmV8.currenthash t'
                  = Ref.SHA256d (serialize H (add32 N (Z.of_nat j)) T))
      /\ (exists T', ArmV8.msgctx t'
                     = header_array H (set_lane3 (set_lane1 (tail_words H) T')
                                                 (add32 N 4)))
      /\ (nNonce (ArmV8.t_block t') = add32 N 4
          \/ (idx = 0%nat /\ (to <= add32 N 4 \/ add32 N 4 < from)
              /\ stop (ArmV8.handler t') = true
              /\ exists b', ArmV8.t_block t' = SetNull c b'))
  | None => True
  end.
Proof.
  intros EN Er Hd.
  destruct (armv8_check_ways_keeps c
              (ArmV8.with_workpad (ArmV8.with_msgctx t (fst r)) (snd r)))
    as (_ & Eb & Em & _ & _ & _ & Ec).
  set (t1 := ArmV8.check_ways c _) in *. clearbody t1.
  cbn [ArmV8.t_block ArmV8.msgctx ArmV8.currenthash ArmV8.workpad ArmV8.with_workpad
       ArmV8.with_msgctx] in Eb, Em, Ec.
  rewrite EN in Eb.
  destruct (ArmV8.housekeeping c fuel idx from to t1) as [t'|] eqn:Hk; [|exact I].
  apply armv8_housekeeping_cases in Hk. destruct Hk as (_ & Hc & Hk).
  split; [reflexivity|]. split.
  { rewrite Hc. destruct Ec as [Ec | (j & Hj & Ec)]; [left; exact Ec|].
    right. exists j. split; [exact Hj|]. rewrite Ec. apply Hd. exact Hj. }
  assert (En1 : nNonce (ArmV8.t_block t1) = add32 N 4) by (rewrite Eb; reflexivity).
  destruct (ArmV8.housekeeping_due (ArmV8.t_block t1)).
  2:{ subst t'. split; [exists T; rewrite Em; exact Er|]. left. exact En1. }
  cbv zeta in Hk. destruct Hk as (Hm & Hb). split.
  { exists (trunc32 (GetAdjustedTime c (ArmV8.reads t1))).
    rewrite Hm, Em, Er, armv8_store_time, armv8_time_over_nonce. reflexivity. }
  rewrite En1 in Hb.
  destruct (idx =? 0)%nat eqn:Ei; cbn [andb] in Hb.
  2:{ left. rewrite Hb, nNonce_set_nTime. exact En1. }
  destruct ((to <=? add32 N 4) || (add32 N 4 <? from)) eqn:Eo.
  - right. destruct Hb as (Hs & Hb). apply Nat.eqb_eq in Ei.
    split; [exact Ei|]. split.
    + apply orb_true_iff in Eo. destruct Eo as [Eo | Eo];
        [left; apply Z.leb_le; exact Eo|right; apply Z.ltb_lt; exact Eo].
    + split; [exact Hs|]. eexists. exact Hb.
  - left. rewrite Hb, nNonce_set_nTime. exact En1.
Qed.

Lemma store_comm (l : list Z) (x y : Z) : forall i j,
  i <> j -> store (store l i x) j y = store (store l j y) i x.
Proof.
  induction l as [|z l IH]; intros i j Hij; [reflexivity|].
  destruct i as [|i]; destruct j as [|j]; cbn [store]; try reflexivity; [lia|].
  rewrite IH by lia. reflexivity.
Qed.

Lemma set_lane1_set_lane3 (v : uint32x4_t) (T N : Z) :
  set_lane1 (set_lane3 v N) T = set_lane3 (set_lane1 v T) N.
Proof. reflexivity. Qed.

(** The scratchpad of [BleMinerInitialTransform] with a time and a nonce
    stored into words 17 and 19. *)
Lemma armv8_scratchpad (H : list byte) (s : list Z) (T N : Z) :
  length s = 40%nat ->
  store (store (BleMinerInitialTransform H s) 17 T) 19 N
  = header_array H (set_lane3 (set_lane1 (tail_words H) T) N).
Proof.
  intros Hs. rewrite store_comm by lia.
  rewrite (BleMinerInitialTransform_array H s N Hs), armv8_store_time.
  rewrite set_lane1_set_lane3. reflexivity.
Qed.

(** X17: one turn of the loop of the four-lane worker on a session that is
    not stopped, when the scratchpad is that of [BleMinerInitialTransform]
    for a header H of 112 bytes with the time T in word 17 and the nonce of
    the block in word 19: the turn goes on; [currenthash] is as before or
    the double SHA-256 of the header with one of the four nonces from that
    of the block; the scratchpad is as it was but for the nonce, four
    further (modulo 2^32), and the time; and the nonce of the block is four
    further too, unless thread 0 found it outside the interval, in which
    case the session is stopped and the block is what SetNull made of
    it. *)
Theorem armv8_turn_in_step (c : Collaborators) (fuel idx : nat) (from to : Z)
    (H : list byte) (s : list Z) (T : Z) (t : ArmV8.Thread) :
  length H = 112%nat ->
  length s = 40%nat ->
  stop (ArmV8.handler t) = false ->
  ArmV8.msgctx t
  = store (store (BleMinerInitialTransform H s) 17 T) 19 (nNonce (ArmV8.t_block t)) ->
  match ArmV8.iteration c fuel idx from to t with
  | Some (t', f) =>
      f = Next
      /\ (ArmV8.currenthash t' = ArmV8.currenthash t
          \/ exists j, (j < 4)%nat
               /\ ArmV8.currenthash t'
                  = Ref.SHA256d (serialize H (add32 (nNonce (ArmV8.t_block t))
                                                    (Z.of_nat j)) T))
      /\ (exists T', ArmV8.msgctx t'
                     = store (store (BleMinerInitialTransform H s) 17 T') 19
                             (add32 (nNonce (ArmV8.t_block t)) 4))
      /\ (nNonce (ArmV8.t_block t') = add32 (nNonce (ArmV8.t_block t)) 4
          \/ (idx = 0%nat
              /\ (to <= add32 (nNonce (ArmV8.t_block t)) 4
                  \/ add32 (nNonce (ArmV8.t_block t)) 4 < from)
              /\ stop (ArmV8.handler t') = true
              /\ exists b', ArmV8.t_block t' = SetNull c b'))
  | None => True
  end.
Proof.
  intros Hlen Hls Hs Hm. rewrite (armv8_scratchpad H s _ _ Hls) in Hm.
  rewrite (armv8_iteration_cases c fuel idx from to t Hs).
  destruct (armv8_batch H (nNonce (ArmV8.t_block t)) T (ArmV8.workpad t) Hlen)
    as (Er & Hd).
  rewrite <- Hm in Er, Hd.
  pose proof (armv8_after_batch_in_step c fuel idx from to H (nNonce (ArmV8.t_block t))
                T t (BleMiner4Way (ArmV8.msgctx t) (ArmV8.workpad t)) eq_refl Er Hd) as P.
  destruct (match ArmV8.housekeeping c fuel idx from to _ with
            | None => None
            | Some t' => Some (t', Next)
            end) as [[t' f]|]; [|exact I].
  destruct P as (P1 & P2 & (T' & P3) & P4).
  split; [exact P1|]. split; [exact P2|]. split; [|exact P4].
  exists T'. rewrite (armv8_scratchpad H s _ _ Hls). exact P3.
Qed.

Lemma armv8_turn_in_step_witness :
  let H := bleheaders_of example_block in
  let s := repeat 0 40 in
  let c := example_collaborators in
  let t := example_thread_armv8 in
  (length H = 112%nat
   /\ length s = 40%nat
   /\ stop (ArmV8.handler t) = false
   /\ ArmV8.msgctx t
      = store (store (BleMinerInitialTransform H s) 17 1500000000) 19
              (nNonce (ArmV8.t_block t)))
  /\ match ArmV8.iteration c 2 0 0 1000 t with
     | Some (t', _) =>
         ArmV8.currenthash t' = Ref.SHA256d (serialize H 3308584785 1500000000)
         /\ CheckProofOfWork c (ArmV8.currenthash t') (nBits (ArmV8.t_block t')) = true
         /\ stop (ArmV8.handler t') = false /\ found (ArmV8.handler t') = false
     | None => False
     end
  /\ match ArmV8.iteration c 2 0 0 1000 t with
     | Some (t', f) =>
         f = Next
         /\ (ArmV8.currenthash t' = ArmV8.currenthash t
             \/ exists j, (j < 4)%nat
                  /\ ArmV8.currenthash t'
                     = Ref.SHA256d (serialize H (add32 (nNonce (ArmV8.t_block t))
                                                       (Z.of_nat j)) 1500000000))
         /\ (exists T', ArmV8.msgctx t'
                        = store (store (BleMinerInitialTransform H s) 17 T') 19
                                (add32 (nNonce (ArmV8.t_block t)) 4))
         /\ (nNonce (ArmV8.t_block t') = add32 (nNonce (ArmV8.t_block t)) 4
             \/ (0%nat = 0%nat
                 /\ (1000 <= add32 (nNonce (ArmV8.t_block t)) 4
                     \/ add32 (nNonce (ArmV8.t_block t)) 4 < 0)
                 /\ stop (ArmV8.handler t') = true
                 /\ exists b', ArmV8.t_block t' = SetNull c b'))
     | None => True
     end.
Proof.
  intros H s c t.
  assert (H1 : length H = 112%nat) by reflexivity.
  assert (H2 : length s = 40%nat) by reflexivity.
  assert (H3 : stop (ArmV8.handler t) = false) by reflexivity.
  assert (H4 : ArmV8.msgctx t
               = store (store (BleMinerInitialTransform H s) 17 1500000000) 19
                       (nNonce (ArmV8.t_block t)))
    by (vm_compute; reflexivity).
  split; [exact (conj H1 (conj H2 (conj H3 H4)))|].
  split; [vm_compute; repeat apply conj; reflexivity|].
  exact (armv8_turn_in_step c 2 0 0 1000 H s 1500000000 t H1 H2 H3 H4).
Defined.
